(** * Owner-Governed Asset Ledger (OGAL): client helpers and registry model

    A shallow embedding of the Node.js helper scripts of the OGAL repository
    (scripts/utils.js, mint-object.js, update-manifest.js,
    rotate-collection-authority.js, migrate-namespace.js, initialize.js,
    set-paused.js, set-authority.js, inspect-collection.js) and,
    for the instructions whose Rust source is not part of the sources at hand,
    of the registry program as its documentation describes it.

    Conventions.
    - A byte is a [Z] in [0, 256); a buffer is a [list Z].
    - A JavaScript string is the list of its UTF-16 code units, so that
      [length] is the script's [.length].
    - A [PublicKey] is the buffer its [toBuffer()] returns.
    - A script either returns or throws: [Completion]. *)

From Stdlib Require Import ZArith List Bool Lia String Ascii.
From stdpp Require Import base option list gmap.
Import ListNotations.
Local Open Scope Z_scope.

(* ===================================================================== *)
(** * Part I. Definitions                                                 *)
(* ===================================================================== *)

(** ** JavaScript values shared by the scripts *)

Definition byte := Z.
Definition Buffer := list Z.
Definition jsstring := list Z.

Definition is_byte (b : Z) : Prop := 0 <= b < 256.

(** An ASCII literal as a JavaScript string. *)
Definition str (s : string) : jsstring :=
  map (fun a => Z.of_N (N_of_ascii a)) (list_ascii_of_string s).

(** The value of the [logs] or of the [transactionLogs] property of an
    error object, as [collectLogs] finds it: undefined or null; an array of
    lines; a promise that rejects with a [TypeError] of the given message;
    or any other value, of which only the truthiness matters.  The rejecting
    promise is what web3.js leaves in [transactionLogs] of a
    [SendTransactionError] created without an array of logs, once its
    [getLogs] has been called without a connection (the scripts call
    [err.getLogs()]); the [logs] getter of such an error gives undefined. *)
Inductive LogsValue : Type :=
| LogsNullish
| LogsArray (lines : list jsstring)
| LogsRejected (reason : jsstring)
| LogsOther (truthy : bool).

(** A thrown JavaScript error object, with the fields the scripts read:
    [message], [transactionMessage], whether it is a [SendTransactionError],
    its [getLogs] method called without argument ([None]: no such method;
    [Some None]: the promise rejects; [Some (Some v)]: it resolves to [v],
    an array of lines or, [None], something else), and the [logs] and
    [transactionLogs] properties. *)
Record JsError : Type := mkJsError {
  message : option jsstring;
  transactionMessage : option jsstring;
  isSendTransactionError : bool;
  getLogs : option (option (option (list jsstring)));
  logs : LogsValue;
  transactionLogs : LogsValue
}.

(** [new Error(msg)], and likewise [new TypeError(msg)] and
    [new RangeError(msg)]: the class of an error is not recorded, except for
    [SendTransactionError]. *)
Definition Error (msg : jsstring) : JsError :=
  mkJsError (Some msg) None false None LogsNullish LogsNullish.
Definition TypeError (msg : jsstring) : JsError := Error msg.
Definition RangeError (msg : jsstring) : JsError := Error msg.

Inductive Completion (A : Type) : Type :=
| Normal (a : A)
| Throw (e : JsError).
Arguments Normal {A} a.
Arguments Throw {A} e.

#[global] Instance Completion_ret : MRet Completion := fun _ a => Normal a.
#[global] Instance Completion_bind : MBind Completion := fun _ _ f c =>
  match c with
  | Normal a => f a
  | Throw e => Throw e
  end.

Definition throws {A} (c : Completion A) : bool :=
  match c with Normal _ => false | Throw _ => true end.

(** [if (cond) throw new Error(msg);] *)
Definition throw_if (cond : bool) (msg : jsstring) : Completion unit :=
  if cond then Throw (Error msg) else Normal tt.

(** [Buffer.from(value, 'utf8')]: UTF-16 code units to UTF-8 bytes.  A
    surrogate pair becomes one four-byte sequence, a lone surrogate becomes
    U+FFFD (EF BF BD). *)
Definition is_high_surrogate (c : Z) : bool := (0xD800 <=? c) && (c <=? 0xDBFF).
Definition is_low_surrogate (c : Z) : bool := (0xDC00 <=? c) && (c <=? 0xDFFF).

Definition utf8_of_code_point (cp : Z) : Buffer :=
  if cp <? 0x80 then [cp]
  else if cp <? 0x800 then
    [Z.lor 0xC0 (Z.shiftr cp 6); Z.lor 0x80 (Z.land cp 0x3F)]
  else if cp <? 0x10000 then
    [Z.lor 0xE0 (Z.shiftr cp 12);
     Z.lor 0x80 (Z.land (Z.shiftr cp 6) 0x3F);
     Z.lor 0x80 (Z.land cp 0x3F)]
  else
    [Z.lor 0xF0 (Z.shiftr cp 18);
     Z.lor 0x80 (Z.land (Z.shiftr cp 12) 0x3F);
     Z.lor 0x80 (Z.land (Z.shiftr cp 6) 0x3F);
     Z.lor 0x80 (Z.land cp 0x3F)].

Fixpoint utf8Encode (s : jsstring) : Buffer :=
  match s with
  | [] => []
  | c :: rest =>
      if is_high_surrogate c then
        match rest with
        | d :: rest' =>
            if is_low_surrogate d then
              utf8_of_code_point
                (0x10000 + Z.shiftl (c - 0xD800) 10 + (d - 0xDC00))
                ++ utf8Encode rest'
            else utf8_of_code_point 0xFFFD ++ utf8Encode rest
        | [] => utf8_of_code_point 0xFFFD
        end
      else if is_low_surrogate c then utf8_of_code_point 0xFFFD ++ utf8Encode rest
      else utf8_of_code_point c ++ utf8Encode rest
  end.

(** [String.prototype.startsWith], [String.prototype.includes]. *)
Fixpoint startsWith (s prefix : jsstring) : bool :=
  match prefix, s with
  | [], _ => true
  | p :: prefix', c :: s' => (c =? p) && startsWith s' prefix'
  | _ :: _, [] => false
  end.

Fixpoint includes (s needle : jsstring) : bool :=
  startsWith s needle ||
  match s with
  | [] => false
  | _ :: s' => includes s' needle
  end.

(** [Array.prototype.join]. *)
Fixpoint join (sep : jsstring) (pieces : list jsstring) : jsstring :=
  match pieces with
  | [] => []
  | [p] => p
  | p :: rest => p ++ sep ++ join sep rest
  end.

(** A public key of [@solana/web3.js], identified with the 32 bytes that
    [toBuffer()] returns; [equals] compares those bytes. *)
Record PublicKey : Type := mkPublicKey { toBuffer : Buffer }.

Definition Buffer_eqb (a b : Buffer) : bool := bool_decide (a = b).
Definition PublicKey_equals (a b : PublicKey) : bool :=
  Buffer_eqb (toBuffer a) (toBuffer b).

(** ** SHA-256 (FIPS 180-4), as used by [crypto.createHash('sha256')] *)

Module Sha256.

Definition w32 : Z := 2 ^ 32.
Definition add32 (a b : Z) : Z := (a + b) mod w32.
Definition not32 (a : Z) : Z := Z.lxor a (w32 - 1).
Definition rotr (n x : Z) : Z :=
  Z.lor (Z.shiftr x n) (Z.shiftl x (32 - n) mod w32).
Definition shr (n x : Z) : Z := Z.shiftr x n.

Definition Ch (x y z : Z) : Z := Z.lxor (Z.land x y) (Z.land (not32 x) z).
Definition Maj (x y z : Z) : Z :=
  Z.lxor (Z.lxor (Z.land x y) (Z.land x z)) (Z.land y z).
Definition Sigma0 (x : Z) : Z := Z.lxor (Z.lxor (rotr 2 x) (rotr 13 x)) (rotr 22 x).
Definition Sigma1 (x : Z) : Z := Z.lxor (Z.lxor (rotr 6 x) (rotr 11 x)) (rotr 25 x).
Definition sigma0 (x : Z) : Z := Z.lxor (Z.lxor (rotr 7 x) (rotr 18 x)) (shr 3 x).
Definition sigma1 (x : Z) : Z := Z.lxor (Z.lxor (rotr 17 x) (rotr 19 x)) (shr 10 x).

(** The constants of FIPS 180-4, section 4.2.2 and 5.3.3: the first 32 bits
    of the fractional parts of the cube roots (for [K]) and of the square
    roots (for [H0]) of the first primes. *)
Definition primes : list Z :=
  [2; 3; 5; 7; 11; 13; 17; 19; 23; 29; 31; 37; 41; 43; 47; 53; 59; 61; 67; 71;
   73; 79; 83; 89; 97; 101; 103; 107; 109; 113; 127; 131; 137; 139; 149; 151;
   157; 163; 167; 173; 179; 181; 191; 193; 197; 199; 211; 223; 227; 229; 233;
   239; 241; 251; 257; 263; 269; 271; 277; 281; 283; 293; 307; 311].

(** The integer cube root of [n], found bit by bit from bit [bits - 1] down. *)
Fixpoint cube_root (bits : nat) (n acc : Z) : Z :=
  match bits with
  | O => acc
  | S bits' =>
      let candidate := acc + 2 ^ Z.of_nat bits' in
      if candidate * candidate * candidate <=? n
      then cube_root bits' n candidate
      else cube_root bits' n acc
  end.

Definition K : list Z :=
  Eval vm_compute in map (fun p => cube_root 36 (p * 2 ^ 96) 0 mod w32) primes.

Definition H0 : list Z :=
  Eval vm_compute in map (fun p => Z.sqrt (p * 2 ^ 64) mod w32) (firstn 8 primes).

(** Big-endian encoding of [v] on [n] bytes. *)
Fixpoint be_bytes (n : nat) (v : Z) : Buffer :=
  match n with
  | O => []
  | S n' => (Z.shiftr v (8 * Z.of_nat n')) mod 256 :: be_bytes n' v
  end.

Definition be_word (bs : Buffer) : Z :=
  fold_left (fun acc b => acc * 256 + b) bs 0.

(** Padding: 0x80, zeros up to 56 mod 64, then the bit length on 8 bytes. *)
Definition pad (msg : Buffer) : Buffer :=
  let len := Z.of_nat (length msg) in
  let zeros := Z.to_nat ((55 - len) mod 64) in
  msg ++ [0x80] ++ repeat 0 zeros ++ be_bytes 8 (8 * len).

Fixpoint chunks (fuel size : nat) (l : Buffer) : list Buffer :=
  match fuel, l with
  | O, _ | _, [] => []
  | S fuel', _ => firstn size l :: chunks fuel' size (skipn size l)
  end.

(** Message schedule: the sixteen words of the block, then 48 derived words.
    The schedule is kept newest word first. *)
Fixpoint extend (n : nat) (rev_w : list Z) : list Z :=
  match n with
  | O => rev_w
  | S n' =>
      let w2 := nth 1 rev_w 0 in
      let w7 := nth 6 rev_w 0 in
      let w15 := nth 14 rev_w 0 in
      let w16 := nth 15 rev_w 0 in
      extend n' (add32 (add32 (sigma1 w2) w7) (add32 (sigma0 w15) w16) :: rev_w)
  end.

Definition schedule (block : Buffer) : list Z :=
  rev (extend 48 (rev (map be_word (chunks 16 4 block)))).

Record Working := mkWorking { wa : Z; wb : Z; wc : Z; wd : Z; we : Z; wf : Z; wg : Z; wh : Z }.

Definition round (s : Working) (kw : Z * Z) : Working :=
  let t1 := add32 (add32 (add32 (wh s) (Sigma1 (we s))) (Ch (we s) (wf s) (wg s)))
                  (add32 (fst kw) (snd kw)) in
  let t2 := add32 (Sigma0 (wa s)) (Maj (wa s) (wb s) (wc s)) in
  mkWorking (add32 t1 t2) (wa s) (wb s) (wc s) (add32 (wd s) t1) (we s) (wf s) (wg s).

Definition compress (h : list Z) (block : Buffer) : list Z :=
  let init := mkWorking (nth 0 h 0) (nth 1 h 0) (nth 2 h 0) (nth 3 h 0)
                        (nth 4 h 0) (nth 5 h 0) (nth 6 h 0) (nth 7 h 0) in
  let s := fold_left round (combine K (schedule block)) init in
  [add32 (nth 0 h 0) (wa s); add32 (nth 1 h 0) (wb s);
   add32 (nth 2 h 0) (wc s); add32 (nth 3 h 0) (wd s);
   add32 (nth 4 h 0) (we s); add32 (nth 5 h 0) (wf s);
   add32 (nth 6 h 0) (wg s); add32 (nth 7 h 0) (wh s)].

(** [createHash('sha256').update(msg).digest()]. *)
Definition digest (msg : Buffer) : Buffer :=
  let padded := pad msg in
  let blocks := chunks (length padded) 64 padded in
  concat (map (be_bytes 4) (fold_left compress blocks H0)).

End Sha256.

#[global] Arguments Sha256.digest : simpl never.


(** [new PublicKey(bytes)]: the bytes are read as a big-endian number, which
    must fit 32 bytes; [toBuffer()] pads it back to 32 bytes. *)
Fixpoint strip_leading_zeros (bs : Buffer) : Buffer :=
  match bs with
  | 0 :: rest => strip_leading_zeros rest
  | _ => bs
  end.

Definition PUBLIC_KEY_LENGTH : nat := 32.

Definition newPublicKey (bs : Buffer) : Completion PublicKey :=
  let bn := strip_leading_zeros bs in
  if (PUBLIC_KEY_LENGTH <? length bn)%nat
  then Throw (Error (str "Invalid public key input"))
  else Normal (mkPublicKey (repeat 0 (PUBLIC_KEY_LENGTH - length bn) ++ bn)).

(** [PublicKey.prototype.toBase58]. *)
Definition BASE58_ALPHABET : jsstring :=
  str "123456789ABCDEFGHJKLMNPQRSTUVWXYZabcdefghijkmnopqrstuvwxyz".

Fixpoint base58_digits (fuel : nat) (n : Z) (acc : jsstring) : jsstring :=
  match fuel with
  | O => acc
  | S fuel' =>
      if n <=? 0 then acc
      else base58_digits fuel' (n / 58) (nth (Z.to_nat (n mod 58)) BASE58_ALPHABET 0 :: acc)
  end.

Fixpoint leading_zeros (bs : Buffer) : nat :=
  match bs with
  | 0 :: rest => S (leading_zeros rest)
  | _ => O
  end.

Definition toBase58 (k : PublicKey) : jsstring :=
  repeat 49 (leading_zeros (toBuffer k))
    ++ base58_digits (2 * length (toBuffer k)) (Sha256.be_word (toBuffer k)) [].

(** [source.copy(target, offset)]: the bytes of [source] overwrite [target]
    from [offset], as far as [target] reaches. *)
Definition Buffer_copy (source target : Buffer) (offset : nat) : Buffer :=
  firstn offset target
  ++ firstn (length target - offset) source
  ++ skipn (offset + length source) target.

(** [buffer.subarray(start, end)] for [start <= end]. *)
Definition subarray (b : Buffer) (start stop : nat) : Buffer :=
  firstn (stop - start) (skipn start b).

(** A creator entry as the mint script builds it. *)
Record Creator : Type := mkCreator {
  address : PublicKey;
  share : Z;
  verified : bool;
  keypairPath : option jsstring
}.


(** ** More JavaScript built-ins *)

(** WhiteSpace and LineTerminator code units, as [trim] and [parseInt] skip them. *)
Definition is_js_whitespace (c : Z) : bool :=
  (c =? 0x09) || (c =? 0x0A) || (c =? 0x0B) || (c =? 0x0C) || (c =? 0x0D)
  || (c =? 0x20) || (c =? 0xA0) || (c =? 0x1680)
  || ((0x2000 <=? c) && (c <=? 0x200A))
  || (c =? 0x2028) || (c =? 0x2029) || (c =? 0x202F) || (c =? 0x205F)
  || (c =? 0x3000) || (c =? 0xFEFF).

Fixpoint trimStart (s : jsstring) : jsstring :=
  match s with
  | c :: rest => if is_js_whitespace c then trimStart rest else s
  | [] => []
  end.

Definition trimEnd (s : jsstring) : jsstring := rev (trimStart (rev s)).

Definition trim (s : jsstring) : jsstring := trimEnd (trimStart s).

(** [s.slice(n)] for a non-negative [n]. *)
Definition slice_from (n : nat) (s : jsstring) : jsstring := skipn n s.

(** The value of a hexadecimal digit, if [c] is one. *)
Definition hex_value (c : Z) : option Z :=
  if (48 <=? c) && (c <=? 57) then Some (c - 48)
  else if (97 <=? c) && (c <=? 102) then Some (c - 87)
  else if (65 <=? c) && (c <=? 70) then Some (c - 55)
  else None.

(** [/^[0-9a-fA-F]+$/.test(s)]. *)
Definition is_hex_string (s : jsstring) : bool :=
  negb (bool_decide (s = [])) && forallb (fun c => bool_decide (is_Some (hex_value c))) s.

(** [Buffer.from(s, 'hex')]: pairs of digits, stopping at the first pair that
    is not hexadecimal; a dangling last character is dropped. *)
Fixpoint hexDecode (s : jsstring) : Buffer :=
  match s with
  | c1 :: c2 :: rest =>
      match hex_value c1, hex_value c2 with
      | Some hi, Some lo => (16 * hi + lo) :: hexDecode rest
      | _, _ => []
      end
  | _ => []
  end.

(** [buffer.toString('hex')]. *)
Definition hex_digit (d : Z) : Z := if d <? 10 then 48 + d else 87 + d.

Definition hexEncode (b : Buffer) : jsstring :=
  flat_map (fun x => [hex_digit (x / 16); hex_digit (x mod 16)]) b.

(** [Number.parseInt(s, 10)]: leading white space, an optional sign, then the
    longest run of decimal digits; [None] is NaN. *)
Definition is_digit (c : Z) : bool := (48 <=? c) && (c <=? 57).

Fixpoint read_digits (s : jsstring) (acc : option Z) : option Z :=
  match s with
  | c :: rest =>
      if is_digit c
      then read_digits rest (Some (10 * default 0 acc + (c - 48)))
      else acc
  | [] => acc
  end.

Definition parseInt10 (s : jsstring) : option Z :=
  match trimStart s with
  | 45 :: rest => Z.opp <$> read_digits rest None
  | 43 :: rest => read_digits rest None
  | rest => read_digits rest None
  end.

(** [String(n)] for an integer. *)
Fixpoint digits_of_pos (fuel : nat) (n : Z) (acc : jsstring) : jsstring :=
  match fuel with
  | O => acc
  | S fuel' =>
      if n <? 10 then (48 + n) :: acc
      else digits_of_pos fuel' (n / 10) ((48 + n mod 10) :: acc)
  end.

Definition Z_to_jsstring (n : Z) : jsstring :=
  if n <? 0 then 45 :: digits_of_pos (Z.to_nat (Z.log2 (- n)) + 1) (- n) []
  else digits_of_pos (Z.to_nat (Z.log2 n) + 1) n [].

(** [s.toLowerCase()], on the letters A to Z. (The other code units that
    change under [toLowerCase] do not become ASCII letters that occur in the
    words the scripts compare with.) *)
Definition toLowerCase (s : jsstring) : jsstring :=
  map (fun c => if (65 <=? c) && (c <=? 90) then c + 32 else c) s.

Definition jsstring_eqb (a b : jsstring) : bool := bool_decide (a = b).

(** [s.split(sep)] for a one-character separator. *)
Fixpoint split_on (sep : Z) (s : jsstring) : list jsstring :=
  match s with
  | [] => [[]]
  | c :: rest =>
      if c =? sep then [] :: split_on sep rest
      else
        match split_on sep rest with
        | seg :: segs => (c :: seg) :: segs
        | [] => [[c]]
        end
  end.

(** [Number.isInteger] of a [Number.parseInt] result: NaN and the infinities
    (a literal beyond the double range) are not integers. *)
Definition Number_isInteger (v : option Z) : bool :=
  match v with
  | Some n => Z.abs n <? 2 ^ 1024
  | None => false
  end.

(** [list.includes(s)]. *)
Definition array_includes (l : list jsstring) (s : jsstring) : bool :=
  existsb (jsstring_eqb s) l.

(** Little-endian writes: [writeUInt32LE], [writeUInt16LE], [writeBigUInt64LE].
    Node throws a RangeError (code ERR_OUT_OF_RANGE) for a value outside the
    width. *)
Fixpoint le_bytes (n : nat) (v : Z) : Buffer :=
  match n with
  | O => []
  | S n' => v mod 256 :: le_bytes n' (v / 256)
  end.

Definition le_value (bs : Buffer) : Z :=
  fold_right (fun b acc => b + 256 * acc) 0 bs.

Definition writeUIntLE (width : nat) (v : Z) : Completion Buffer :=
  if (0 <=? v) && (v <? 2 ^ (8 * Z.of_nat width))
  then Normal (le_bytes width v)
  else Throw (Error (str "ERR_OUT_OF_RANGE")).

(** Values of a JSON document or of a parsed command line, as far as
    [parseBoolean] tells them apart.  A number [VNumber n] is an integer of
    absolute value below 10^21, the numbers that [String] prints as plain
    decimal numerals; fractions and larger numbers are not represented. *)
Inductive JsValue : Type :=
| VUndefined
| VNull
| VBoolean (b : bool)
| VNumber (n : Z)
| VString (s : jsstring)
| VObject.

(** [String(v)], as [Number.parseInt] applies it to its argument. *)
Definition ToString (v : JsValue) : jsstring :=
  match v with
  | VUndefined => str "undefined"
  | VNull => str "null"
  | VBoolean true => str "true"
  | VBoolean false => str "false"
  | VNumber n => Z_to_jsstring n
  | VString s => s
  | VObject => str "[object Object]"
  end.

Definition is_nullish (v : JsValue) : bool :=
  match v with
  | VUndefined | VNull => true
  | _ => false
  end.

(** [bs58.decode] and [new PublicKey(base58String)]. *)
Fixpoint index_of (c : Z) (l : list Z) : option Z :=
  match l with
  | [] => None
  | x :: rest => if x =? c then Some 0 else Z.succ <$> index_of c rest
  end.

Fixpoint base58_value (s : jsstring) (acc : Z) : option Z :=
  match s with
  | [] => Some acc
  | c :: rest =>
      match index_of c BASE58_ALPHABET with
      | Some d => base58_value rest (58 * acc + d)
      | None => None
      end
  end.

Fixpoint leading_ones (s : jsstring) : nat :=
  match s with
  | 49 :: rest => S (leading_ones rest)
  | _ => O
  end.

Definition be_minimal (n : Z) : Buffer :=
  strip_leading_zeros (Sha256.be_bytes (Z.to_nat (Z.log2 n / 8 + 1)) n).

Definition bs58_decode (s : jsstring) : Completion Buffer :=
  match base58_value s 0 with
  | Some n => Normal (repeat 0 (leading_ones s) ++ be_minimal n)
  | None => Throw (Error (str "Non-base58 character"))
  end.

Definition PublicKey_of_string (s : jsstring) : Completion PublicKey :=
  decoded ← bs58_decode s;
  if bool_decide (length decoded = PUBLIC_KEY_LENGTH)
  then newPublicKey decoded
  else Throw (Error (str "Invalid public key input")).

(** A key read from a base58 literal of the sources (all of them decode). *)
Definition key_literal (s : string) : PublicKey :=
  match PublicKey_of_string (str s) with
  | Normal k => k
  | Throw _ => mkPublicKey []
  end.

Definition OGAL_PROGRAM_ID : PublicKey := key_literal "GwMpopxNkDYsnucBRPf47QSEsEzA3rS1o6ioMX78hgqx".
Definition METAPLEX_METADATA_PROGRAM_ID : PublicKey := key_literal "metaqbxxUerdq28cj1RbAWkYQm3ybzjb6a8bt518x1s".
Definition TOKEN_PROGRAM_ID : PublicKey := key_literal "TokenkegQfeZyiNwAJbNbGKPFXCWuBvf9Ss623VQ5DA".
Definition ASSOCIATED_TOKEN_PROGRAM_ID : PublicKey := key_literal "ATokenGPvbdGVxr1b2hvZbsiqW5xWH25efTNsLJA8knL".
Definition SYSTEM_PROGRAM_ID : PublicKey := key_literal "11111111111111111111111111111111".
Definition SYSVAR_RENT_PUBKEY : PublicKey := key_literal "SysvarRent111111111111111111111111111111111".
Definition SYSVAR_INSTRUCTIONS_PUBKEY : PublicKey := key_literal "Sysvar1nstructions1111111111111111111111111".
Definition COMPUTE_BUDGET_PROGRAM_ID : PublicKey := key_literal "ComputeBudget111111111111111111111111111111".

(** [BigInt(string)]: white space is trimmed; an empty string is zero; a
    0x, 0o or 0b prefix selects the radix; otherwise an optionally signed
    decimal literal.  Anything else is a SyntaxError. *)
Fixpoint read_radix (radix : Z) (s : jsstring) (acc : Z) : option Z :=
  match s with
  | [] => Some acc
  | c :: rest =>
      match hex_value c with
      | Some d => if d <? radix then read_radix radix rest (radix * acc + d) else None
      | None => None
      end
  end.

Definition nonempty_radix (radix : Z) (s : jsstring) : option Z :=
  match s with
  | [] => None
  | _ => read_radix radix s 0
  end.

Definition BigInt_of_string (s : jsstring) : Completion Z :=
  let t := trim s in
  let parsed :=
    match t with
    | [] => Some 0
    | 48 :: 120 :: rest | 48 :: 88 :: rest => nonempty_radix 16 rest
    | 48 :: 111 :: rest | 48 :: 79 :: rest => nonempty_radix 8 rest
    | 48 :: 98 :: rest | 48 :: 66 :: rest => nonempty_radix 2 rest
    | 45 :: rest => Z.opp <$> nonempty_radix 10 rest
    | 43 :: rest => nonempty_radix 10 rest
    | _ => nonempty_radix 10 t
    end in
  match parsed with
  | Some n => Normal n
  | None => Throw (Error (str "Cannot convert " ++ s ++ str " to a BigInt"))
  end.

(** ** The scripts' view of the outside world

    What a script reads from the file system and the RPC node is given by a
    [World]; what it does there is recorded as a list of [Effect]s. *)

Record Keypair : Type := mkKeypair { publicKey : PublicKey }.

Record AccountInfo : Type := mkAccountInfo {
  account_data : Buffer;
  account_owner : PublicKey
}.

Record AccountMeta : Type := mkAccountMeta {
  pubkey : PublicKey;
  isSigner : bool;
  isWritable : bool
}.

Record TransactionInstruction : Type := mkInstruction {
  programId : PublicKey;
  keys : list AccountMeta;
  data : Buffer
}.

Inductive TxItem : Type :=
| SetComputeUnitLimit (units : Z)
| SetComputeUnitPrice (microLamports : Z)
| ProgramInstruction (ix : TransactionInstruction).

(** [ComputeBudgetProgram.setComputeUnitLimit({ units })]: web3.js encodes
    the instruction when it is created, and [writeUInt32LE] refuses a value
    that is not a u32. *)
Definition setComputeUnitLimit (units : Z) : Completion TxItem :=
  _ ← writeUIntLE 4 units;
  Normal (SetComputeUnitLimit units).

Record Transaction : Type := mkTransaction {
  instructions : list TxItem;
  feePayer : PublicKey;
  recentBlockhash : jsstring
}.

Inductive Effect : Type :=
| LoadKeypair (path : jsstring)
| ExistsSync (path : jsstring)
| ReadFile (path : jsstring)
| OpenConnection (rpcUrl commitment : jsstring)
| DerivePda (seeds : list Buffer) (program : PublicKey)
| GetAccountInfo (account : PublicKey)
| GetLatestBlockhash
| BuildTransaction (items : list TxItem)
| SendAndConfirm (tx : Transaction) (signers : list PublicKey)
| Warn (text : jsstring).

(** A creators JSON document: an array of entries, or something else. *)
Record JsonCreatorEntry : Type := mkJsonCreatorEntry {
  entry_address : option jsstring;
  entry_share : JsValue;
  entry_verified : JsValue;
  entry_keypair : option jsstring
}.

Inductive Json : Type :=
| JsonArray (entries : list JsonCreatorEntry)
| JsonOther.

Record World : Type := mkWorld {
  expandPath : jsstring -> jsstring;
  existsSync : jsstring -> bool;
  readFileSync : jsstring -> Completion jsstring;
  JSON_parse : jsstring -> Completion Json;
  readKeypair : jsstring -> Completion Keypair;
  findProgramAddressSync : list Buffer -> PublicKey -> PublicKey * Z;
  getAccountInfo : PublicKey -> Completion (option AccountInfo);
  getLatestBlockhash : Completion (jsstring * Z);   (* the first request of a run *)
  getLatestBlockhashAfter : nat -> Completion (jsstring * Z);   (* request n + 2 *)
  sendAndConfirmTransaction : Transaction -> list PublicKey -> Completion jsstring
}.

Definition Script (A : Type) : Type := (list Effect * Completion A)%type.

#[global] Instance Script_ret : MRet Script := fun _ a => ([], Normal a).
#[global] Instance Script_bind : MBind Script := fun _ _ f m =>
  match m with
  | (t, Normal a) => let '(t', r) := f a in (t ++ t', r)
  | (t, Throw e) => (t, Throw e)
  end.

(** A pure step, and a step that touches the world. *)
Definition pure {A} (c : Completion A) : Script A := ([], c).
Definition perform {A} (e : Effect) (c : Completion A) : Script A := ([e], c).

(** [try { body } catch (err) { handler(err) }] *)
Definition try_catch {A} (body : Script A) (handler : JsError -> Script A) : Script A :=
  match body with
  | (t, Normal a) => (t, Normal a)
  | (t, Throw err) => let '(t', r) := handler err in (t ++ t', r)
  end.

Definition effects {A} (m : Script A) : list Effect := fst m.
Definition outcome {A} (m : Script A) : Completion A := snd m.

(** The transactions a script has sent, in order, and the discriminator
    (first eight bytes of the data of the program instruction) of each. *)
Definition sentTransactions (trace : list Effect) : list Transaction :=
  flat_map (fun e => match e with SendAndConfirm tx _ => [tx] | _ => [] end) trace.

Definition builtTransactions (trace : list Effect) : list (list TxItem) :=
  flat_map (fun e => match e with BuildTransaction items => [items] | _ => [] end) trace.

Definition discriminatorOf (tx : Transaction) : Buffer :=
  flat_map (fun item => match item with
                        | ProgramInstruction ix => firstn 8 (data ix)
                        | _ => []
                        end) (instructions tx).

(** The requests a script has made to the RPC node ([new Connection] makes
    none). *)
Definition is_rpc_request (e : Effect) : bool :=
  match e with
  | GetAccountInfo _ | GetLatestBlockhash | SendAndConfirm _ _ => true
  | _ => false
  end.

Definition rpcRequests (trace : list Effect) : list Effect :=
  List.filter is_rpc_request trace.

(** [data.writeUInt8(value, offset)]: Node throws a RangeError for a value
    that is not a byte or an offset outside the buffer. *)
Definition writeUInt8 (value : Z) (target : Buffer) (offset : nat) : Completion Buffer :=
  if (0 <=? value) && (value <? 256) && (offset <? length target)%nat
  then Normal (firstn offset target ++ [value] ++ skipn (S offset) target)
  else Throw (Error (str "ERR_OUT_OF_RANGE")).

Section WorldOperations.
Variable w : World.

Definition loadKeypair (path : jsstring) : Script Keypair :=
  perform (LoadKeypair path) (readKeypair w path).

Definition findPda (seeds : list Buffer) (program : PublicKey) : Script (PublicKey * Z) :=
  perform (DerivePda seeds program) (Normal (findProgramAddressSync w seeds program)).

Definition fetchAccountInfo (account : PublicKey) : Script (option AccountInfo) :=
  perform (GetAccountInfo account) (getAccountInfo w account).

Definition latestBlockhash : Script (jsstring * Z) :=
  perform GetLatestBlockhash (getLatestBlockhash w).

(** The same request when [earlier] requests for a blockhash came before it
    in the run: the node need not answer as it did the first time. *)
Definition latestBlockhashAt (earlier : nat) : Script (jsstring * Z) :=
  match earlier with
  | O => latestBlockhash
  | S n => perform GetLatestBlockhash (getLatestBlockhashAfter w n)
  end.

Definition fileExists (path : jsstring) : Script bool :=
  perform (ExistsSync path) (Normal (existsSync w path)).

Definition readFile (path : jsstring) : Script jsstring :=
  perform (ReadFile path) (readFileSync w path).
End WorldOperations.

(** ** scripts/utils.js *)

Module Utils.

Definition OGAL_PROGRAM_ID_BASE58 : jsstring :=
  str "GwMpopxNkDYsnucBRPf47QSEsEzA3rS1o6ioMX78hgqx".

Definition ACCOUNT_DISCRIMINATOR_LENGTH : nat := 8.
Definition PUBKEY_LENGTH : nat := 32.
Definition U64_LENGTH : nat := 8.
Definition U8_LENGTH : nat := 1.
Definition MANIFEST_HASH_LENGTH : nat := 32.
Definition MANIFEST_MAX_URI_LENGTH : nat := 128.
Definition MANIFEST_URI_PADDING_LENGTH : nat := 1.
Definition MANIFEST_URI_LENGTH_FIELD_LENGTH : nat := 2.

(** ObjectManifest layout: where the creator field starts. *)
Definition MANIFEST_CREATOR_OFFSET : nat :=
  (ACCOUNT_DISCRIMINATOR_LENGTH +
   PUBKEY_LENGTH +  (* config *)
   U64_LENGTH +     (* object_id *)
   PUBKEY_LENGTH +  (* mint *)
   U8_LENGTH +      (* bump *)
   U8_LENGTH +      (* mint_bump *)
   U8_LENGTH +      (* is_active *)
   U8_LENGTH +      (* minted *)
   U8_LENGTH +      (* initialized *)
   MANIFEST_HASH_LENGTH +
   MANIFEST_MAX_URI_LENGTH +
   MANIFEST_URI_PADDING_LENGTH +
   MANIFEST_URI_LENGTH_FIELD_LENGTH)%nat.

Definition MANIFEST_CREATOR_END : nat := (MANIFEST_CREATOR_OFFSET + PUBKEY_LENGTH)%nat.

(** [sha256("global:" + name)], first eight bytes. *)
Definition instructionDiscriminator (name : jsstring) : Buffer :=
  firstn 8 (Sha256.digest (utf8Encode (str "global:" ++ name))).

(** [deriveConfigPda(namespace)], [deriveAuthPda(config)]. *)
Definition deriveConfigPda (w : World) (namespace : PublicKey) : Script (PublicKey * Z) :=
  findPda w [utf8Encode (str "config"); toBuffer namespace] OGAL_PROGRAM_ID.

Definition deriveAuthPda (w : World) (config : PublicKey) : Script (PublicKey * Z) :=
  findPda w [utf8Encode (str "auth"); toBuffer config] OGAL_PROGRAM_ID.

(** [!!value] of a logs property. *)
Definition logs_truthy (value : LogsValue) : bool :=
  match value with
  | LogsNullish => false
  | LogsArray _ | LogsRejected _ => true
  | LogsOther truthy => truthy
  end.

(** [logs && Array.isArray(logs) ? logs : null]. *)
Definition array_or_null (value : LogsValue) : option (list jsstring) :=
  match value with
  | LogsArray lines => Some lines
  | _ => None
  end.

(** [err.logs ?? err.transactionLogs ?? null]. *)
Definition cachedLogs (err : JsError) : LogsValue :=
  match logs err with
  | LogsNullish => transactionLogs err
  | value => value
  end.

(** [await collectLogs(err)].  When [getLogs()] rejects, the handler of
    [.catch] returns the cached value, and a promise returned by a handler is
    awaited: if it rejects, so does [collectLogs].  Without a [getLogs]
    method the cached value is not awaited, and a promise is not an array. *)
Definition collectLogs (err : JsError) : Completion (option (list jsstring)) :=
  if isSendTransactionError err || bool_decide (is_Some (getLogs err))
     || logs_truthy (logs err)
  then
    match getLogs err with
    | Some (Some resolved) => Normal resolved
    | Some None =>
        match cachedLogs err with
        | LogsRejected reason => Throw (TypeError reason)
        | value => Normal (array_or_null value)
        end
    | None => Normal (array_or_null (cachedLogs err))
    end
  else Normal None.

(** [deserializeManifestCreator(data)]; [None] is a missing account data. *)
Definition deserializeManifestCreator (data : option Buffer) : Completion PublicKey :=
  match data with
  | None => Throw (Error (str "Manifest account data is missing."))
  | Some buffer =>
      if (length buffer <? MANIFEST_CREATOR_END)%nat
      then Throw (Error (str "Manifest account data is too small to contain the creator field."))
      else newPublicKey (subarray buffer MANIFEST_CREATOR_OFFSET MANIFEST_CREATOR_END)
  end.

(** [ensureManifestCreatorPresent(creators, manifestCreator, manifestPda)]. *)
Definition ensureManifestCreatorPresent
    (creators : list Creator) (manifestCreator : PublicKey)
    (manifestPda : option PublicKey) : Completion (list Creator) :=
  let hasCreator :=
    existsb (fun creator => PublicKey_equals (address creator) manifestCreator) creators in
  if hasCreator then Normal creators
  else
    let manifestCreatorAddress := toBase58 manifestCreator in
    let manifestAddress :=
      match manifestPda with
      | Some pda => toBase58 pda
      | None => str "unknown manifest account"
      end in
    Throw (Error
      (str "Manifest account " ++ manifestAddress ++ str " was created by "
       ++ manifestCreatorAddress
       ++ str ", but this address was not provided in the creators list. Include it in the --creator or --creators-json input and ensure that the shares still sum to 100.")).

End Utils.

(** ** scripts/mint-object.js *)

Module MintObject.

Definition MANIFEST_SEED : Buffer := utf8Encode (str "object_manifest").
Definition MINT_SEED : Buffer := utf8Encode (str "object_mint").
Definition MAX_CREATOR_LIMIT : nat := 5.

Definition MINT_OBJECT_DISCRIMINATOR : Buffer :=
  Utils.instructionDiscriminator (str "mint_object_nft").

(** [parseBigInt(value, flag)] for the string a command line option holds. *)
Definition parseBigInt (value flag : jsstring) : Completion Z :=
  if (0 <? length value)%nat then BigInt_of_string value
  else Throw (Error (str "Unable to parse --" ++ flag ++ str " into a bigint.")).

(** [parseManifestHash(input)]. *)
Definition parseManifestHash (input : jsstring) : Completion Buffer :=
  if bool_decide (input = []) then Throw (Error (str "A manifest hash must be provided."))
  else
    let cleaned := trim input in
    let cleaned :=
      if startsWith cleaned (str "0x") || startsWith cleaned (str "0X")
      then slice_from 2 cleaned else cleaned in
    if negb (length cleaned =? 64)%nat
    then Throw (Error (str "Manifest hash must be provided as a 32-byte hex string."))
    else if negb (is_hex_string cleaned)
    then Throw (Error (str "Manifest hash must only contain hexadecimal characters."))
    else Normal (hexDecode cleaned).

(** [parseBoolean(value, flag)]. *)
Definition parseBoolean (value : JsValue) (flag : jsstring) : Completion bool :=
  let failure := Throw (Error (str "Unable to parse boolean for --" ++ flag ++ str ".")) in
  match value with
  | VUndefined | VNull => failure
  | VBoolean b => Normal b
  | VNumber n => Normal (negb (n =? 0))
  | VString s =>
      let lowered := toLowerCase s in
      if array_includes [str "true"; str "t"; str "yes"; str "y"; str "1"] lowered
      then Normal true
      else if array_includes [str "false"; str "f"; str "no"; str "n"; str "0"] lowered
      then Normal false
      else failure
  | VObject => failure
  end.

Definition deriveManifestPda (w : World) (config : PublicKey) (objectId : Z)
  : Script (PublicKey * Z) :=
  objectIdBytes ← pure (writeUIntLE 8 objectId);
  findPda w [MANIFEST_SEED; toBuffer config; objectIdBytes] OGAL_PROGRAM_ID.

Definition deriveObjectMintPda (w : World) (manifest : PublicKey) : Script (PublicKey * Z) :=
  findPda w [MINT_SEED; toBuffer manifest] OGAL_PROGRAM_ID.

Definition deriveMetadataPda (w : World) (mint : PublicKey) : Script (PublicKey * Z) :=
  findPda w [utf8Encode (str "metadata"); toBuffer METAPLEX_METADATA_PROGRAM_ID; toBuffer mint]
    METAPLEX_METADATA_PROGRAM_ID.

Definition deriveMasterEditionPda (w : World) (mint : PublicKey) : Script (PublicKey * Z) :=
  findPda w [utf8Encode (str "metadata"); toBuffer METAPLEX_METADATA_PROGRAM_ID; toBuffer mint;
             utf8Encode (str "edition")]
    METAPLEX_METADATA_PROGRAM_ID.

(** [encodeString(value)]: four bytes of little-endian length, then UTF-8. *)
Definition encodeString (value : jsstring) : Completion Buffer :=
  let stringBytes := utf8Encode value in
  lenBuf ← writeUIntLE 4 (Z.of_nat (length stringBytes));
  Normal (lenBuf ++ stringBytes).

(** [serializeCreators(creators)]; [Buffer.from([n])] keeps [n] modulo 256. *)
Definition serializeCreators (creators : list Creator) : Completion Buffer :=
  lengthBuf ← writeUIntLE 4 (Z.of_nat (length creators));
  Normal (lengthBuf ++
          flat_map (fun creator =>
                      toBuffer (address creator)
                      ++ [if verified creator then 1 else 0]
                      ++ [share creator mod 256]) creators).

(** [parseCreatorString(raw)]. *)
Definition parseCreatorString (w : World) (raw : jsstring) : Completion Creator :=
  let segments := split_on 58 raw in
  if (length segments <? 3)%nat || (4 <? length segments)%nat
  then Throw (Error (str "Invalid creator specification '" ++ raw
                     ++ str "'. Expected format address:share:verified[:keypairPath]"))
  else
    let addressRaw := nth 0 segments [] in
    let shareRaw := nth 1 segments [] in
    let verifiedRaw := nth 2 segments [] in
    let keypairRaw := nth_error segments 3 in
    address ← PublicKey_of_string addressRaw;
    let share := parseInt10 shareRaw in
    if negb (Number_isInteger share) || (default 0 share <? 0) || (100 <? default 0 share)
    then Throw (Error (str "Creator share must be an integer between 0 and 100. Received '"
                       ++ shareRaw ++ str "'."))
    else
      verified ← parseBoolean (VString verifiedRaw) (str "creator verified");
      let keypairPath :=
        match keypairRaw with
        | Some (c :: p) => Some (expandPath w (c :: p))
        | _ => None
        end in
      Normal (mkCreator address (default 0 share) verified keypairPath).

(** The body of the loop over the entries of the creators JSON file. *)
Definition parseCreatorEntry (w : World) (entry : JsonCreatorEntry) : Completion Creator :=
  match entry_address entry with
  | Some (c :: a) =>
      address ← PublicKey_of_string (c :: a);
      let share :=
        parseInt10 (ToString (if is_nullish (entry_share entry) then VNumber 0
                              else entry_share entry)) in
      if negb (Number_isInteger share) || (default 0 share <? 0) || (100 <? default 0 share)
      then Throw (Error (str "Creator share must be between 0 and 100. Invalid value '"
                         ++ ToString (entry_share entry) ++ str "'."))
      else
        verified ←
          match entry_verified entry with
          | VUndefined => Normal false
          | v => parseBoolean v (str "creator verified")
          end;
        let keypairPath :=
          match entry_keypair entry with
          | Some (c :: p) => Some (expandPath w (c :: p))
          | _ => None
          end in
        Normal (mkCreator address (default 0 share) verified keypairPath)
  | _ => Throw (Error (str "Each creator entry must include an address field."))
  end.

(** The options of the command line that [parseCreators] reads. *)
Record CreatorOptions : Type := mkCreatorOptions {
  creator : option (list jsstring);
  creators_json : option jsstring
}.

Fixpoint mapM {A B} (f : A -> Completion B) (l : list A) : Completion (list B) :=
  match l with
  | [] => Normal []
  | x :: rest =>
      y ← f x;
      ys ← mapM f rest;
      Normal (y :: ys)
  end.

(** The two loops of [parseCreators] that fill [creators]. *)
Definition collectCreators (w : World) (argv : CreatorOptions) : Script (list Creator) :=
  fromFlags ← pure (mapM (parseCreatorString w) (default [] (creator argv)));
  fromJson ←
    match creators_json argv with
    | Some (c :: p) =>
        let filePath := expandPath w (c :: p) in
        present ← fileExists w filePath;
        if negb present
        then pure (Throw (Error (str "Creators JSON file not found at " ++ filePath ++ str ".")))
        else
          contents ← readFile w filePath;
          match JSON_parse w contents with
          | Throw err =>
              pure (Throw (Error (str "Failed to parse creators JSON file: "
                                  ++ default [] (message err))))
          | Normal (JsonArray entries) => pure (mapM (parseCreatorEntry w) entries)
          | Normal JsonOther =>
              pure (Throw (Error (str "Creators JSON file must contain an array of creator objects.")))
          end
    | _ => pure (Normal [])
    end;
  mret (fromFlags ++ fromJson).

Definition totalShare (creators : list Creator) : Z :=
  fold_left (fun sum c => sum + share c) creators 0.

(** The two checks that end [parseCreators]. *)
Definition checkCreators (creators : list Creator) : Completion (list Creator) :=
  _ ← throw_if (length creators =? 0)%nat
        (str "At least one creator must be provided via --creator or --creators-json.");
  _ ← throw_if (negb (totalShare creators =? 100))
        (str "Creator shares must total 100. Received total "
         ++ Z_to_jsstring (totalShare creators) ++ str ".");
  Normal creators.

(** [parseCreators(argv)]. *)
Definition parseCreators (w : World) (argv : CreatorOptions) : Script (list Creator) :=
  creators ← collectCreators w argv;
  pure (checkCreators creators).

(** The parsed command line of the mint script. *)
Record Argv : Type := mkArgv {
  namespace : jsstring;
  object_id : jsstring;
  manifest_uri : jsstring;
  manifest_hash : jsstring;
  metadata_name : jsstring;
  metadata_symbol : option jsstring;
  seller_fee_bps : jsstring;   (* the number, as [Number.parseInt] reads it *)
  recipient : jsstring;
  collection_mint : jsstring;
  payer_keypair : jsstring;
  authority : option jsstring;
  config_bump : option Z;
  auth_bump : option Z;
  manifest_bump : option Z;
  mint_bump : option Z;
  include_instructions_sysvar : bool;
  creator_options : CreatorOptions;
  token_metadata_program : jsstring;
  rpc_url : jsstring;
  commitment : jsstring;
  compute_unit_limit : jsstring;   (* the numbers, as [Number.parseInt] reads them *)
  compute_unit_price : jsstring
}.

(** [argv[flag] !== undefined && argv[flag] !== derived] *)
Definition bump_mismatch (expected : option Z) (derived : Z) : bool :=
  match expected with
  | Some b => negb (b =? derived)
  | None => false
  end.

(** The checks of [main] on the metadata inputs, between parsing the hash
    and parsing the creators. *)
Definition validateInputs (argv : Argv) : Completion (Z * Z * Z) :=
  let manifestUri := manifest_uri argv in
  let metadataName := metadata_name argv in
  let metadataSymbol := default [] (metadata_symbol argv) in
  let sellerFeeBasisPoints := parseInt10 (seller_fee_bps argv) in
  _ ← throw_if (negb (Number_isInteger sellerFeeBasisPoints)
                || (default 0 sellerFeeBasisPoints <? 0)
                || (10000 <? default 0 sellerFeeBasisPoints))
        (str "Seller fee basis points must be an integer between 0 and 10000.");
  _ ← throw_if (length manifestUri =? 0)%nat (str "Manifest URI cannot be empty.");
  _ ← throw_if (128 <? length manifestUri)%nat
        (str "Manifest URI exceeds the on-chain MAX_URI_LENGTH (128 characters).");
  _ ← throw_if (length metadataName =? 0)%nat (str "Metadata name cannot be empty.");
  _ ← throw_if (32 <? length metadataName)%nat
        (str "Metadata name exceeds the program limit of 32 characters.");
  _ ← throw_if (10 <? length metadataSymbol)%nat
        (str "Metadata symbol exceeds the program limit of 10 characters.");
  let computeUnitLimit := parseInt10 (compute_unit_limit argv) in
  _ ← throw_if (negb (Number_isInteger computeUnitLimit) || (default 0 computeUnitLimit <=? 0))
        (str "Compute unit limit must be a positive integer.");
  let computeUnitPrice := parseInt10 (compute_unit_price argv) in
  _ ← throw_if (negb (Number_isInteger computeUnitPrice) || (default 0 computeUnitPrice <? 0))
        (str "Compute unit price must be a non-negative integer.");
  Normal (default 0 sellerFeeBasisPoints, default 0 computeUnitLimit, default 0 computeUnitPrice).

(** [creators.length > MAX_CREATOR_LIMIT] *)
Definition checkCreatorLimit (creators : list Creator) : Completion unit :=
  throw_if (MAX_CREATOR_LIMIT <? length creators)%nat
    (str "A maximum of " ++ Z_to_jsstring (Z.of_nat MAX_CREATOR_LIMIT)
     ++ str " creators is supported by the program.").

(** [map.set(key, value)] on an insertion-ordered [Map]. *)
Fixpoint map_set {V} (key : jsstring) (value : V) (m : list (jsstring * V))
  : list (jsstring * V) :=
  match m with
  | [] => [(key, value)]
  | (k, v) :: rest =>
      if jsstring_eqb k key then (k, value) :: rest else (k, v) :: map_set key value rest
  end.

(** The loop of [main] that loads the keypairs of the verified creators. *)
Fixpoint collectCreatorSigners (w : World) (payer : PublicKey) (creators : list Creator)
    (creatorUniqueSigners : list (jsstring * Keypair)) : Script (list (jsstring * Keypair)) :=
  match creators with
  | [] => mret creatorUniqueSigners
  | creator :: rest =>
      if negb (verified creator) then collectCreatorSigners w payer rest creatorUniqueSigners
      else if PublicKey_equals (address creator) payer
      then collectCreatorSigners w payer rest creatorUniqueSigners
      else
        match keypairPath creator with
        | None =>
            pure (Throw (Error (str "Creator " ++ toBase58 (address creator)
                                ++ str " is marked verified but no keypair path was provided.")))
        | Some path =>
            let expandedPath := expandPath w path in
            present ← fileExists w expandedPath;
            if negb present
            then pure (Throw (Error (str "Creator keypair file not found at "
                                     ++ expandedPath ++ str ".")))
            else
              keypair ← loadKeypair w expandedPath;
              if negb (PublicKey_equals (publicKey keypair) (address creator))
              then pure (Throw (Error (str "Creator keypair at " ++ expandedPath
                                       ++ str " does not match declared address "
                                       ++ toBase58 (address creator) ++ str ".")))
              else collectCreatorSigners w payer rest
                     (map_set (toBase58 (address creator)) keypair creatorUniqueSigners)
        end
  end.

(** The [if]/[else] of [main] that finds the creator the manifest records:
    the payer when the manifest account is missing or empty, else the
    creator field of the account. *)
Definition manifestCreatorOf (payer : PublicKey) (manifestAccountInfo : option AccountInfo)
  : Completion PublicKey :=
  match manifestAccountInfo with
  | None => Normal payer
  | Some info =>
      if (length (account_data info) =? 0)%nat then Normal payer
      else Utils.deserializeManifestCreator (Some (account_data info))
  end.

Definition meta (k : PublicKey) (signer writable : bool) : AccountMeta :=
  mkAccountMeta k signer writable.

(** [main()]: the value returned is the transaction signature. *)
Definition main (w : World) (argv : Argv) : Script jsstring :=
  namespace ← pure (PublicKey_of_string (namespace argv));
  objectId ← pure (parseBigInt (object_id argv) (str "object-id"));
  let manifestUri := manifest_uri argv in
  manifestHash ← pure (parseManifestHash (manifest_hash argv));
  let metadataName := metadata_name argv in
  let metadataSymbol := default [] (metadata_symbol argv) in
  '(sellerFeeBasisPoints, computeUnitLimit, computeUnitPrice) ← pure (validateInputs argv);
  creators ← parseCreators w (creator_options argv);
  _ ← pure (checkCreatorLimit creators);
  payerKeypair ← loadKeypair w (payer_keypair argv);
  let payer := publicKey payerKeypair in
  recipient ← pure (PublicKey_of_string (recipient argv));
  collectionMint ← pure (PublicKey_of_string (collection_mint argv));
  tokenMetadataProgram ← pure (PublicKey_of_string (token_metadata_program argv));
  _ ← perform (OpenConnection (rpc_url argv) (commitment argv)) (Normal tt);
  '(configPda, configBump) ← Utils.deriveConfigPda w namespace;
  _ ← pure (throw_if (bump_mismatch (config_bump argv) configBump)
              (str "Config bump mismatch. Expected "
               ++ Z_to_jsstring (default 0 (config_bump argv))
               ++ str ", derived " ++ Z_to_jsstring configBump ++ str "."));
  '(authPda, authBump) ← Utils.deriveAuthPda w configPda;
  _ ← pure (throw_if (bump_mismatch (auth_bump argv) authBump)
              (str "Auth bump mismatch. Expected "
               ++ Z_to_jsstring (default 0 (auth_bump argv))
               ++ str ", derived " ++ Z_to_jsstring authBump ++ str "."));
  '(manifestPda, manifestBump) ← deriveManifestPda w configPda objectId;
  _ ← pure (throw_if (bump_mismatch (manifest_bump argv) manifestBump)
              (str "Manifest bump mismatch. Expected "
               ++ Z_to_jsstring (default 0 (manifest_bump argv))
               ++ str ", derived " ++ Z_to_jsstring manifestBump ++ str "."));
  manifestAccountInfo ← fetchAccountInfo w manifestPda;
  manifestCreator ← pure (manifestCreatorOf payer manifestAccountInfo);
  _ ← pure (Utils.ensureManifestCreatorPresent creators manifestCreator (Some manifestPda));
  '(objectMint, mintBump) ← deriveObjectMintPda w manifestPda;
  _ ← pure (throw_if (bump_mismatch (mint_bump argv) mintBump)
              (str "Mint bump mismatch. Expected "
               ++ Z_to_jsstring (default 0 (mint_bump argv))
               ++ str ", derived " ++ Z_to_jsstring mintBump ++ str "."));
  '(metadataPda, _) ← deriveMetadataPda w objectMint;
  '(masterEditionPda, _) ← deriveMasterEditionPda w objectMint;
  '(collectionMetadataPda, _) ← deriveMetadataPda w collectionMint;
  '(collectionMasterEditionPda, _) ← deriveMasterEditionPda w collectionMint;
  '(recipientAta, _) ←
    findPda w [toBuffer recipient; toBuffer TOKEN_PROGRAM_ID; toBuffer objectMint]
      ASSOCIATED_TOKEN_PROGRAM_ID;
  configAccountInfo ← fetchAccountInfo w configPda;
  configInfo ←
    pure (match configAccountInfo with
          | None =>
              Throw (Error (str "Config account not found at " ++ toBase58 configPda
                            ++ str ". Ensure the namespace is correct."))
          | Some info => Normal info
          end);
  _ ← pure (throw_if (negb (PublicKey_equals (account_owner configInfo) OGAL_PROGRAM_ID))
              (str "Derived config account is not owned by the OGAL program."));
  _ ← pure (throw_if (length (account_data configInfo) <? 8 + 32)%nat
              (str "Config account data is too small to contain the authority field."));
  storedAuthority ← pure (newPublicKey (subarray (account_data configInfo) 8 40));
  authorityPubkey ←
    pure (match authority argv with
          | Some (c :: a) => PublicKey_of_string (c :: a)
          | _ => Normal storedAuthority
          end);
  _ ← pure (throw_if (negb (PublicKey_equals authorityPubkey storedAuthority))
              (str "Provided authority " ++ toBase58 authorityPubkey
               ++ str " does not match config authority " ++ toBase58 storedAuthority
               ++ str "."));
  creatorUniqueSigners ← collectCreatorSigners w payer creators [];
  sellerFeeBuffer ← pure (writeUIntLE 2 sellerFeeBasisPoints);
  serializedCreators ← pure (serializeCreators creators);
  objectIdBuffer ← pure (writeUIntLE 8 objectId);
  encodedUri ← pure (encodeString manifestUri);
  encodedName ← pure (encodeString metadataName);
  encodedSymbol ← pure (encodeString metadataSymbol);
  let data :=
    MINT_OBJECT_DISCRIMINATOR ++ objectIdBuffer ++ encodedUri ++ manifestHash
    ++ encodedName ++ encodedSymbol ++ sellerFeeBuffer ++ serializedCreators in
  let baseAccounts :=
    [meta authorityPubkey false false;
     meta configPda false true;
     meta authPda false true;
     meta payer true true;
     meta manifestPda false true;
     meta objectMint false true;
     meta recipientAta false true;
     meta recipient false false;
     meta TOKEN_PROGRAM_ID false false;
     meta ASSOCIATED_TOKEN_PROGRAM_ID false false;
     meta SYSTEM_PROGRAM_ID false false;
     meta metadataPda false true;
     meta masterEditionPda false true;
     meta collectionMint false false;
     meta tokenMetadataProgram false false;
     meta collectionMetadataPda false true;
     meta collectionMasterEditionPda false true;
     meta SYSVAR_RENT_PUBKEY false false]
    ++ (if include_instructions_sysvar argv
        then [meta SYSVAR_INSTRUCTIONS_PUBKEY false false] else []) in
  creatorAccounts ←
    pure (mapM (fun entry => k ← PublicKey_of_string (fst entry); Normal (meta k true false))
               creatorUniqueSigners);
  let keys := baseAccounts ++ creatorAccounts in
  let instruction := mkInstruction OGAL_PROGRAM_ID keys data in
  limitInstructions ←
    pure (if 0 <? computeUnitLimit
          then item ← setComputeUnitLimit computeUnitLimit; Normal [item]
          else Normal []);
  let instructions :=
    limitInstructions
    ++ (if 0 <? computeUnitPrice then [SetComputeUnitPrice computeUnitPrice] else [])
    ++ [ProgramInstruction instruction] in
  _ ← perform (BuildTransaction instructions) (Normal tt);
  '(blockhash, lastValidBlockHeight) ← latestBlockhash w;
  let tx := mkTransaction instructions payer blockhash in
  let signers := payer :: map (fun entry => publicKey (snd entry)) creatorUniqueSigners in
  try_catch
    (perform (SendAndConfirm tx signers) (sendAndConfirmTransaction w tx signers))
    (fun err =>
       logs ← pure (Utils.collectLogs err);
       pure (Throw err)).

End MintObject.

(** What [validateInputs] rejects, condition by condition. *)
Definition fee_rejected (argv : MintObject.Argv) : bool :=
  let fee := parseInt10 (MintObject.seller_fee_bps argv) in
  negb (Number_isInteger fee) || (default 0 fee <? 0) || (10000 <? default 0 fee).

Definition compute_options_rejected (argv : MintObject.Argv) : bool :=
  let limit := parseInt10 (MintObject.compute_unit_limit argv) in
  let price := parseInt10 (MintObject.compute_unit_price argv) in
  (negb (Number_isInteger limit) || (default 0 limit <=? 0))
  || (negb (Number_isInteger price) || (default 0 price <? 0)).

(** ** Hexadecimal renderings of a buffer *)

(** [c] is a character for the hexadecimal digit [d], in either case. *)
Definition hex_digit_char (d c : Z) : Prop :=
  (0 <= d < 10 /\ c = 48 + d) \/ (10 <= d < 16 /\ (c = 87 + d \/ c = 55 + d)).

(** [s] renders the buffer [b]: two digits per byte, high digit first, each
    digit in upper or in lower case. *)
Inductive hex_rendering : Buffer -> jsstring -> Prop :=
| hex_rendering_nil : hex_rendering [] []
| hex_rendering_cons (b : Z) (bs : Buffer) (c1 c2 : Z) (s : jsstring) :
    hex_digit_char (b / 16) c1 ->
    hex_digit_char (b mod 16) c2 ->
    hex_rendering bs s ->
    hex_rendering (b :: bs) (c1 :: c2 :: s).

(** The trimmed, de-prefixed form of the input of [parseManifestHash], and
    whether it is 64 hexadecimal characters. *)
Definition cleanedHash (input : jsstring) : jsstring :=
  let cleaned := trim input in
  if startsWith cleaned (str "0x") || startsWith cleaned (str "0X")
  then slice_from 2 cleaned else cleaned.

Definition is_64_hex (s : jsstring) : bool :=
  (length s =? 64)%nat && is_hex_string s.

(** ** scripts/update-manifest.js *)

Module UpdateManifest.

Definition MANIFEST_SEED : Buffer := utf8Encode (str "object_manifest").
Definition MINT_SEED : Buffer := utf8Encode (str "object_mint").

Definition UPDATE_MANIFEST_DISCRIMINATOR : Buffer :=
  Utils.instructionDiscriminator (str "update_object_manifest").

(** [parseManifestHash(input)]. *)
Definition parseManifestHash (input : jsstring) : Completion Buffer :=
  if bool_decide (input = []) then Throw (Error (str "A manifest hash must be provided."))
  else
    let cleaned := trim input in
    let cleaned :=
      if startsWith cleaned (str "0x") || startsWith cleaned (str "0X")
      then slice_from 2 cleaned else cleaned in
    if negb (length cleaned =? 64)%nat
    then Throw (Error (str "Manifest hash must be provided as a 32-byte hex string."))
    else if negb (is_hex_string cleaned)
    then Throw (Error (str "Manifest hash must only contain hexadecimal characters."))
    else Normal (hexDecode cleaned).

(** [deriveManifestPda(config, objectId)]. *)
Definition deriveManifestPda (w : World) (config : PublicKey) (objectId : Z)
  : Script (PublicKey * Z) :=
  objectIdBytes ← pure (writeUIntLE 8 objectId);
  findPda w [MANIFEST_SEED; toBuffer config; objectIdBytes] OGAL_PROGRAM_ID.

(** [deriveObjectMintPda(manifest)]. *)
Definition deriveObjectMintPda (w : World) (manifest : PublicKey) : Script (PublicKey * Z) :=
  findPda w [MINT_SEED; toBuffer manifest] OGAL_PROGRAM_ID.

(** [parseBigInt(value, flag)] for the string a command line option holds. *)
Definition parseBigInt (value flag : jsstring) : Completion Z :=
  if (0 <? length value)%nat then BigInt_of_string value
  else Throw (Error (str "Unable to parse --" ++ flag ++ str " into a bigint.")).

(** [encodeString(value)]. *)
Definition encodeString (value : jsstring) : Completion Buffer :=
  let stringBytes := utf8Encode value in
  lenBuf ← writeUIntLE 4 (Z.of_nat (length stringBytes));
  Normal (lenBuf ++ stringBytes).

(** [parseBoolean(value, flag)]. *)
Definition parseBoolean (value : JsValue) (flag : jsstring) : Completion bool :=
  let failure := Throw (Error (str "Unable to parse boolean for --" ++ flag ++ str ".")) in
  match value with
  | VUndefined | VNull => failure
  | VBoolean b => Normal b
  | VNumber n => Normal (negb (n =? 0))
  | VString s =>
      let lowered := toLowerCase s in
      if array_includes [str "true"; str "t"; str "yes"; str "y"; str "1"] lowered
      then Normal true
      else if array_includes [str "false"; str "f"; str "no"; str "n"; str "0"] lowered
      then Normal false
      else failure
  | VObject => failure
  end.

Definition TOKEN_METADATA_PROGRAM_ID : PublicKey :=
  key_literal "metaqbxxUerdq28cj1RbAWkYQm3ybzjb6a8bt518x1s".

(** The parsed command line of the update script. *)
Record Argv : Type := mkArgv {
  namespace : jsstring;
  object_id : jsstring;
  object_mint : jsstring;
  owner_keypair : jsstring;
  owner_token_account : option jsstring;
  manifest_hash : jsstring;
  metadata_uri : jsstring;
  is_active : jsstring;
  config_bump : option Z;
  manifest_bump : option Z;
  mint_bump : option Z;
  rpc_url : jsstring;
  commitment : jsstring
}.

Definition bump_mismatch (expected : option Z) (derived : Z) : bool :=
  match expected with
  | Some b => negb (b =? derived)
  | None => false
  end.

(** The token account of the owner: the one given with
    [--owner-token-account], or else the associated token account of the
    owner for the mint. *)
Definition ownerTokenAccountOf (w : World) (argv : Argv) (owner objectMint : PublicKey)
  : Script PublicKey :=
  match owner_token_account argv with
  | Some (c :: a) => pure (PublicKey_of_string (c :: a))
  | _ =>
      '(ata, _) ← findPda w [toBuffer owner; toBuffer TOKEN_PROGRAM_ID; toBuffer objectMint]
                    ASSOCIATED_TOKEN_PROGRAM_ID;
      mret ata
  end.

(** [main()]: the value returned is the transaction signature. *)
Definition main (w : World) (argv : Argv) : Script jsstring :=
  namespace ← pure (PublicKey_of_string (namespace argv));
  objectId ← pure (parseBigInt (object_id argv) (str "object-id"));
  objectMint ← pure (PublicKey_of_string (object_mint argv));
  manifestHash ← pure (parseManifestHash (manifest_hash argv));
  let metadataUri := metadata_uri argv in
  isActive ← pure (parseBoolean (VString (is_active argv)) (str "is-active"));
  _ ← pure (throw_if (length metadataUri =? 0)%nat (str "Metadata URI cannot be empty."));
  _ ← pure (throw_if (128 <? length metadataUri)%nat
              (str "Metadata URI exceeds the on-chain MAX_URI_LENGTH (128 characters)."));
  ownerKeypair ← loadKeypair w (owner_keypair argv);
  let owner := publicKey ownerKeypair in
  _ ← perform (OpenConnection (rpc_url argv) (commitment argv)) (Normal tt);
  '(configPda, configBump) ← Utils.deriveConfigPda w namespace;
  _ ← pure (throw_if (bump_mismatch (config_bump argv) configBump)
              (str "Config bump mismatch. Expected "
               ++ Z_to_jsstring (default 0 (config_bump argv))
               ++ str ", derived " ++ Z_to_jsstring configBump ++ str "."));
  '(authPda, authBump) ← Utils.deriveAuthPda w configPda;
  '(manifestPda, manifestBump) ← deriveManifestPda w configPda objectId;
  _ ← pure (throw_if (bump_mismatch (manifest_bump argv) manifestBump)
              (str "Manifest bump mismatch. Expected "
               ++ Z_to_jsstring (default 0 (manifest_bump argv))
               ++ str ", derived " ++ Z_to_jsstring manifestBump ++ str "."));
  '(derivedObjectMint, mintBump) ← deriveObjectMintPda w manifestPda;
  _ ← pure (throw_if (negb (PublicKey_equals derivedObjectMint objectMint))
              (str "Derived object mint " ++ toBase58 derivedObjectMint
               ++ str " does not match provided mint " ++ toBase58 objectMint ++ str "."));
  _ ← pure (throw_if (bump_mismatch (mint_bump argv) mintBump)
              (str "Mint bump mismatch. Expected "
               ++ Z_to_jsstring (default 0 (mint_bump argv))
               ++ str ", derived " ++ Z_to_jsstring mintBump ++ str "."));
  ownerTokenAccount ← ownerTokenAccountOf w argv owner objectMint;
  '(metadataPda, _) ←
    findPda w [utf8Encode (str "metadata"); toBuffer TOKEN_METADATA_PROGRAM_ID;
               toBuffer objectMint]
      TOKEN_METADATA_PROGRAM_ID;
  encodedUri ← pure (encodeString metadataUri);
  let data :=
    UPDATE_MANIFEST_DISCRIMINATOR ++ manifestHash ++ encodedUri
    ++ [if (isActive : bool) then 1 else 0] in
  let keys :=
    [mkAccountMeta owner true true;
     mkAccountMeta configPda false true;
     mkAccountMeta authPda false false;
     mkAccountMeta manifestPda false true;
     mkAccountMeta objectMint false false;
     mkAccountMeta ownerTokenAccount false false;
     mkAccountMeta metadataPda false true;
     mkAccountMeta TOKEN_METADATA_PROGRAM_ID false false;
     mkAccountMeta SYSVAR_RENT_PUBKEY false false;
     mkAccountMeta SYSVAR_INSTRUCTIONS_PUBKEY false false] in
  let instruction := mkInstruction OGAL_PROGRAM_ID keys data in
  _ ← perform (BuildTransaction [ProgramInstruction instruction]) (Normal tt);
  '(blockhash, lastValidBlockHeight) ← latestBlockhash w;
  let tx := mkTransaction [ProgramInstruction instruction] owner blockhash in
  try_catch
    (perform (SendAndConfirm tx [owner]) (sendAndConfirmTransaction w tx [owner]))
    (fun err =>
       logs ← pure (Utils.collectLogs err);
       pure (Throw err)).

End UpdateManifest.

(** ** scripts/rotate-collection-authority.js *)

Module RotateCollectionAuthority.

Definition EXPECTED_ROTATE_COLLECTION_AUTHORITY_DISCRIMINATOR : Buffer :=
  [127; 21; 205; 57; 21; 40; 136; 55].
Definition LEGACY_ROTATE_COLLECTION_AUTHORITY_DISCRIMINATOR : Buffer :=
  [173; 30; 192; 124; 93; 238; 110; 80].

(** Anchor hashes "global:<name>" (one colon). *)
Definition instructionDiscriminator (name : jsstring) : Buffer :=
  firstn 8 (Sha256.digest (utf8Encode (str "global:" ++ name))).

Definition legacyInstructionDiscriminator (name : jsstring) : Buffer :=
  firstn 8 (Sha256.digest (utf8Encode (str "global::" ++ name))).

Definition ROTATE_COLLECTION_AUTHORITY_DISCRIMINATOR : Buffer :=
  instructionDiscriminator (str "rotate_collection_authority").
Definition LEGACY_DISCRIMINATOR : Buffer :=
  legacyInstructionDiscriminator (str "rotate_collection_authority").

(** The two checks the module runs when it is loaded. *)
Definition checkDiscriminators : Completion unit :=
  _ ← throw_if (negb (Buffer_eqb ROTATE_COLLECTION_AUTHORITY_DISCRIMINATOR
                        EXPECTED_ROTATE_COLLECTION_AUTHORITY_DISCRIMINATOR))
        (str "rotate_collection_authority discriminator mismatch. Ensure the Anchor build output is in sync with the helpers.");
  throw_if (negb (Buffer_eqb LEGACY_DISCRIMINATOR
                    LEGACY_ROTATE_COLLECTION_AUTHORITY_DISCRIMINATOR))
    (str "Legacy discriminator mismatch. Ensure the compatibility hash is correct.").

(** [parsePublicKeyOrKeypair(value, flagName)]. *)
Definition parsePublicKeyOrKeypair (w : World) (value flagName : jsstring) : Script PublicKey :=
  if bool_decide (value = [])
  then pure (Throw (Error (str "Expected a value for --" ++ flagName ++ str ".")))
  else
    try_catch (pure (PublicKey_of_string value)) (fun _ =>
      let expandedPath := expandPath w value in
      present ← fileExists w expandedPath;
      if negb present
      then pure (Throw (Error (str "Failed to parse --" ++ flagName
                               ++ str ": provide a base58 public key or a path to a keypair JSON file.")))
      else
        try_catch (keypair ← loadKeypair w expandedPath; mret (publicKey keypair))
          (fun loadErr =>
             pure (Throw (Error (str "Failed to read keypair for --" ++ flagName ++ str ": "
                                 ++ default [] (message loadErr)
                                 ++ str ". Ensure the file contains a valid secret key array."))))).

Definition truthy (s : option jsstring) : option jsstring :=
  match s with
  | Some (c :: rest) => Some (c :: rest)
  | _ => None
  end.

(** The script's own [collectLogs(err)], word for word the one of utils.js. *)
Definition collectLogs (err : JsError) : Completion (option (list jsstring)) :=
  Utils.collectLogs err.

(** [isFallbackError(err, logs)]. *)
Definition isFallbackError (err : JsError) (logs : option (list jsstring)) : bool :=
  let pieces :=
    match truthy (message err) with Some m => [m] | None => [] end
    ++ match truthy (transactionMessage err) with Some m => [m] | None => [] end
    ++ match logs with Some l => [join (str " ") l] | None => [] end in
  let combined := join (str " ") pieces in
  includes combined (str "InstructionFallbackNotFound")
  || includes combined (str "custom program error: 0x65").

Record Argv : Type := mkArgv {
  namespace : jsstring;
  collection_mint : jsstring;
  new_update_authority : jsstring;
  authority_keypair : jsstring;
  payer_keypair : option jsstring;
  rpc_url : jsstring;
  commitment : jsstring
}.

Record Attempt : Type := mkAttempt { discriminator : Buffer; legacy : bool }.

Definition attempts : list Attempt :=
  [mkAttempt ROTATE_COLLECTION_AUTHORITY_DISCRIMINATOR false;
   mkAttempt LEGACY_DISCRIMINATOR true].

(** The instruction data of an attempt. *)
Definition attemptData (attempt : Attempt) (newUpdateAuthority : PublicKey) : Buffer :=
  let data := repeat 0 (8 + 32) in
  let data := Buffer_copy (discriminator attempt) data 0 in
  Buffer_copy (toBuffer newUpdateAuthority) data 8.

Definition attemptTransaction (attempt : Attempt) (keys : list AccountMeta)
    (newUpdateAuthority payer : PublicKey) (blockhash : jsstring) : Transaction :=
  mkTransaction
    [ProgramInstruction
       (mkInstruction OGAL_PROGRAM_ID keys (attemptData attempt newUpdateAuthority))]
    payer blockhash.

(** The loop [for (const attempt of attempts)] of [main], and the [throw]
    that follows it. *)
Fixpoint runAttempts (w : World) (keys : list AccountMeta)
    (newUpdateAuthority : PublicKey) (payerKeypair authorityKeypair : Keypair)
    (earlier : nat) (remaining : list Attempt) : Script jsstring :=
  match remaining with
  | [] =>
      pure (Throw (Error (str "rotate_collection_authority failed with both discriminator variants.")))
  | attempt :: rest =>
      '(blockhash, lastValidBlockHeight) ← latestBlockhashAt w earlier;
      let tx := attemptTransaction attempt keys newUpdateAuthority
                  (publicKey payerKeypair) blockhash in
      _ ← perform (BuildTransaction (instructions tx)) (Normal tt);
      let signers :=
        publicKey payerKeypair
        :: (if negb (PublicKey_equals (publicKey payerKeypair) (publicKey authorityKeypair))
            then [publicKey authorityKeypair] else []) in
      try_catch
        (signature ← perform (SendAndConfirm tx signers) (sendAndConfirmTransaction w tx signers);
         _ ← (if legacy attempt
              then perform (Warn (str "rotate_collection_authority succeeded using the legacy double-colon discriminator. Redeploy the program compiled with the patched Anchor toolchain to adopt the canonical discriminator.")) (Normal tt)
              else mret tt);
         mret signature)
        (fun err =>
           logs ← pure (collectLogs err);
           if negb (legacy attempt) && isFallbackError err logs
           then
             _ ← perform (Warn (str "rotate_collection_authority was rejected with InstructionFallbackNotFound. Retrying with the legacy discriminator.")) (Normal tt);
             runAttempts w keys newUpdateAuthority payerKeypair authorityKeypair
               (S earlier) rest
           else pure (Throw err))
  end.

Definition deriveMetadataPda (w : World) (mint : PublicKey) : Script (PublicKey * Z) :=
  findPda w [utf8Encode (str "metadata"); toBuffer METAPLEX_METADATA_PROGRAM_ID; toBuffer mint]
    METAPLEX_METADATA_PROGRAM_ID.

(** [main()], after the module's own checks. *)
Definition main (w : World) (argv : Argv) : Script jsstring :=
  _ ← pure checkDiscriminators;
  namespace ← pure (PublicKey_of_string (namespace argv));
  collectionMint ← pure (PublicKey_of_string (collection_mint argv));
  newUpdateAuthority ←
    parsePublicKeyOrKeypair w (new_update_authority argv) (str "new-update-authority");
  authorityKeypair ← loadKeypair w (authority_keypair argv);
  payerKeypair ←
    match payer_keypair argv with
    | Some (c :: p) => loadKeypair w (c :: p)
    | _ => mret authorityKeypair
    end;
  _ ← perform (OpenConnection (rpc_url argv) (commitment argv)) (Normal tt);
  '(configPda, _) ← Utils.deriveConfigPda w namespace;
  '(authPda, _) ← Utils.deriveAuthPda w configPda;
  '(metadataPda, _) ← deriveMetadataPda w collectionMint;
  let keys :=
    [mkAccountMeta (publicKey authorityKeypair) true false;
     mkAccountMeta configPda false true;
     mkAccountMeta authPda false false;
     mkAccountMeta metadataPda false true;
     mkAccountMeta collectionMint false false;
     mkAccountMeta METAPLEX_METADATA_PROGRAM_ID false false] in
  runAttempts w keys newUpdateAuthority payerKeypair authorityKeypair 0 attempts.

End RotateCollectionAuthority.

(** A script sends what the loop of the rotation script sends: either it
    throws before sending anything, or its transactions and its outcome are
    those of [runAttempts] on the two attempts of [main]. *)
Definition sends_like_loop (w : World) (m : Script jsstring) : Prop :=
  (sentTransactions (effects m) = [] /\ throws (outcome m) = true)
  \/ exists keys newUpdateAuthority payerKeypair authorityKeypair,
       let loop := RotateCollectionAuthority.runAttempts w keys newUpdateAuthority
                     payerKeypair authorityKeypair 0 RotateCollectionAuthority.attempts in
       sentTransactions (effects m) = sentTransactions (effects loop)
       /\ outcome m = outcome loop.

(** ** scripts/migrate-namespace.js *)

Module MigrateNamespace.

Definition MIGRATE_NAMESPACE_DISCRIMINATOR : Buffer :=
  Utils.instructionDiscriminator (str "migrate_config_namespace").

Record Argv : Type := mkArgv {
  old_namespace : jsstring;
  new_namespace : jsstring;
  authority_keypair : jsstring;
  rpc_url : jsstring;
  commitment : jsstring
}.

(** [main()]: the value returned is the transaction signature. *)
Definition main (w : World) (argv : Argv) : Script jsstring :=
  oldNamespace ← pure (PublicKey_of_string (old_namespace argv));
  newNamespace ← pure (PublicKey_of_string (new_namespace argv));
  _ ← pure (throw_if (PublicKey_equals oldNamespace newNamespace)
              (str "The new namespace must differ from the existing namespace."));
  authorityKeypair ← loadKeypair w (authority_keypair argv);
  _ ← perform (OpenConnection (rpc_url argv) (commitment argv)) (Normal tt);
  '(oldConfigPda, _) ← Utils.deriveConfigPda w oldNamespace;
  '(newConfigPda, _) ← Utils.deriveConfigPda w newNamespace;
  '(oldAuthPda, _) ← Utils.deriveAuthPda w oldConfigPda;
  '(newAuthPda, _) ← Utils.deriveAuthPda w newConfigPda;
  let data := repeat 0 (8 + 32) in
  let data := Buffer_copy MIGRATE_NAMESPACE_DISCRIMINATOR data 0 in
  let data := Buffer_copy (toBuffer newNamespace) data 8 in
  let instruction :=
    mkInstruction OGAL_PROGRAM_ID
      [mkAccountMeta (publicKey authorityKeypair) true true;
       mkAccountMeta oldConfigPda false true;
       mkAccountMeta newConfigPda false true;
       mkAccountMeta oldAuthPda false false;
       mkAccountMeta newAuthPda false true;
       mkAccountMeta SYSTEM_PROGRAM_ID false false]
      data in
  _ ← perform (BuildTransaction [ProgramInstruction instruction]) (Normal tt);
  '(blockhash, lastValidBlockHeight) ← latestBlockhash w;
  let tx := mkTransaction [ProgramInstruction instruction] (publicKey authorityKeypair) blockhash in
  try_catch
    (perform (SendAndConfirm tx [publicKey authorityKeypair])
       (sendAndConfirmTransaction w tx [publicKey authorityKeypair]))
    (fun err =>
       logs ← pure (Utils.collectLogs err);
       pure (Throw err)).

End MigrateNamespace.

(** ** scripts/initialize.js *)

Module Initialize.

Definition PROGRAM_ID : PublicKey := key_literal "GwMpopxNkDYsnucBRPf47QSEsEzA3rS1o6ioMX78hgqx".
Definition INITIALIZE_DISCRIMINATOR : Buffer := hexDecode (str "afaf6d1f0d989bed").

Record Argv : Type := mkArgv {
  namespace : jsstring;
  authority : option jsstring;
  payer : option jsstring;
  authority_keypair : option jsstring;
  payer_keypair : option jsstring;
  rpc_url : jsstring;
  commitment : jsstring
}.

(** The option check: [--authority-keypair] must be present and non-empty. *)
Definition checkedAuthorityKeypair (argv : Argv) : Completion jsstring :=
  match authority_keypair argv with
  | Some (c :: p) => Normal (c :: p)
  | _ => Throw (Error (str "Missing required option: --authority-keypair"))
  end.

(** [main()]: the value returned is the transaction signature. An option
    that is absent or the empty string counts as not given. *)
Definition main (w : World) (argv : Argv) : Script jsstring :=
  authorityKeypairPath ← pure (checkedAuthorityKeypair argv);
  namespace ← pure (PublicKey_of_string (namespace argv));
  authorityKeypair ← loadKeypair w authorityKeypairPath;
  payerKeypair ←
    match payer_keypair argv with
    | Some (c :: p) => loadKeypair w (c :: p)
    | _ => mret authorityKeypair
    end;
  authority ←
    pure (match authority argv with
          | Some (c :: a) => PublicKey_of_string (c :: a)
          | _ => Normal (publicKey authorityKeypair)
          end);
  payer ←
    pure (match payer argv with
          | Some (c :: a) => PublicKey_of_string (c :: a)
          | _ => Normal (publicKey payerKeypair)
          end);
  _ ← pure (throw_if (negb (PublicKey_equals authority (publicKey authorityKeypair)))
              (str "Authority public key mismatch. CLI value: " ++ toBase58 authority
               ++ str " | Keypair: " ++ toBase58 (publicKey authorityKeypair)));
  _ ← pure (throw_if (negb (PublicKey_equals payer (publicKey payerKeypair)))
              (str "Payer public key mismatch. CLI value: " ++ toBase58 payer
               ++ str " | Keypair: " ++ toBase58 (publicKey payerKeypair)));
  _ ← perform (OpenConnection (rpc_url argv) (commitment argv)) (Normal tt);
  '(config, _) ← findPda w [utf8Encode (str "config"); toBuffer namespace] PROGRAM_ID;
  '(auth, _) ← findPda w [utf8Encode (str "auth"); toBuffer config] PROGRAM_ID;
  let data := INITIALIZE_DISCRIMINATOR ++ toBuffer namespace in
  let keys :=
    [mkAccountMeta authority true false;
     mkAccountMeta payer true true;
     mkAccountMeta config false true;
     mkAccountMeta auth false true;
     mkAccountMeta SYSTEM_PROGRAM_ID false false] in
  let instruction := mkInstruction PROGRAM_ID keys data in
  _ ← perform (BuildTransaction [ProgramInstruction instruction]) (Normal tt);
  '(blockhash, lastValidBlockHeight) ← latestBlockhash w;
  let tx := mkTransaction [ProgramInstruction instruction] payer blockhash in
  let signers :=
    publicKey payerKeypair
    :: (if negb (PublicKey_equals (publicKey payerKeypair) (publicKey authorityKeypair))
        then [publicKey authorityKeypair] else []) in
  perform (SendAndConfirm tx signers) (sendAndConfirmTransaction w tx signers).

End Initialize.

(** ** scripts/set-paused.js *)

Module SetPaused.

Definition SET_PAUSED_DISCRIMINATOR : Buffer :=
  Utils.instructionDiscriminator (str "set_paused").

Record Argv : Type := mkArgv {
  namespace : jsstring;
  paused : bool;
  authority_keypair : jsstring;
  rpc_url : jsstring;
  commitment : jsstring
}.

(** [main()]: the value returned is the transaction signature. *)
Definition main (w : World) (argv : Argv) : Script jsstring :=
  namespace ← pure (PublicKey_of_string (namespace argv));
  authorityKeypair ← loadKeypair w (authority_keypair argv);
  let paused := paused argv in
  _ ← perform (OpenConnection (rpc_url argv) (commitment argv)) (Normal tt);
  '(configPda, _) ← Utils.deriveConfigPda w namespace;
  '(authPda, _) ← Utils.deriveAuthPda w configPda;
  let data := repeat 0 (8 + 1) in
  let data := Buffer_copy SET_PAUSED_DISCRIMINATOR data 0 in
  data ← pure (writeUInt8 (if paused then 1 else 0) data 8);
  let instruction :=
    mkInstruction OGAL_PROGRAM_ID
      [mkAccountMeta (publicKey authorityKeypair) true false;
       mkAccountMeta configPda false true]
      data in
  _ ← perform (BuildTransaction [ProgramInstruction instruction]) (Normal tt);
  '(blockhash, lastValidBlockHeight) ← latestBlockhash w;
  let tx := mkTransaction [ProgramInstruction instruction] (publicKey authorityKeypair) blockhash in
  try_catch
    (perform (SendAndConfirm tx [publicKey authorityKeypair])
       (sendAndConfirmTransaction w tx [publicKey authorityKeypair]))
    (fun err =>
       logs ← pure (Utils.collectLogs err);
       pure (Throw err)).

End SetPaused.

(** ** scripts/set-authority.js *)

Module SetAuthority.

Definition SET_AUTHORITY_DISCRIMINATOR : Buffer :=
  Utils.instructionDiscriminator (str "set_authority").

Record Argv : Type := mkArgv {
  namespace : jsstring;
  new_authority : jsstring;
  authority_keypair : jsstring;
  rpc_url : jsstring;
  commitment : jsstring
}.

(** [main()]: the value returned is the transaction signature. *)
Definition main (w : World) (argv : Argv) : Script jsstring :=
  namespace ← pure (PublicKey_of_string (namespace argv));
  newAuthority ← pure (PublicKey_of_string (new_authority argv));
  authorityKeypair ← loadKeypair w (authority_keypair argv);
  _ ← perform (OpenConnection (rpc_url argv) (commitment argv)) (Normal tt);
  '(configPda, _) ← Utils.deriveConfigPda w namespace;
  '(authPda, _) ← Utils.deriveAuthPda w configPda;
  let data := repeat 0 (8 + 32) in
  let data := Buffer_copy SET_AUTHORITY_DISCRIMINATOR data 0 in
  let data := Buffer_copy (toBuffer newAuthority) data 8 in
  let instruction :=
    mkInstruction OGAL_PROGRAM_ID
      [mkAccountMeta (publicKey authorityKeypair) true false;
       mkAccountMeta configPda false true]
      data in
  _ ← perform (BuildTransaction [ProgramInstruction instruction]) (Normal tt);
  '(blockhash, lastValidBlockHeight) ← latestBlockhash w;
  let tx := mkTransaction [ProgramInstruction instruction] (publicKey authorityKeypair) blockhash in
  try_catch
    (perform (SendAndConfirm tx [publicKey authorityKeypair])
       (sendAndConfirmTransaction w tx [publicKey authorityKeypair]))
    (fun err =>
       logs ← pure (Utils.collectLogs err);
       pure (Throw err)).

End SetAuthority.

(** ** scripts/inspect-collection.js *)

Module InspectCollection.

(** The values [unwrapOption] walks through: primitives, arrays, and plain
    objects as the list of their own properties, in the order of
    [Object.entries].  Numbers are the integers. *)
#[warnings="-register-all"]
Inductive JsData : Type :=
| DUndefined
| DNull
| DBoolean (b : bool)
| DNumber (n : Z)
| DBigInt (n : Z)
| DString (s : jsstring)
| DArray (items : list JsData)
| DObject (entries : list (jsstring * JsData)).

(** [!!value]. *)
Definition truthy (value : JsData) : bool :=
  match value with
  | DUndefined | DNull => false
  | DBoolean b => b
  | DNumber n | DBigInt n => negb (n =? 0)
  | DString s => negb (bool_decide (s = []))
  | DArray _ | DObject _ => true
  end.

(** [object.key], [undefined] when the object has no such property. *)
Fixpoint get (key : jsstring) (entries : list (jsstring * JsData)) : JsData :=
  match entries with
  | [] => DUndefined
  | (k, v) :: rest => if bool_decide (k = key) then v else get key rest
  end.

(** [value.__option === 'Some']. *)
Definition is_Some_tag (tag : JsData) : bool :=
  match tag with
  | DString s => bool_decide (s = str "Some")
  | _ => false
  end.

(** [unwrapOption(value)].  The call [unwrapOption(value.value)] reads the
    property and recurses in one pass over the entries ([at_value]); a
    missing property is [undefined], which [unwrapOption] returns as it is.
    An array has no [__option] property. *)
Fixpoint unwrapOption (value : JsData) : JsData :=
  match value with
  | DObject entries =>
      if truthy (get (str "__option") entries)
      then
        if is_Some_tag (get (str "__option") entries)
        then (fix at_value (l : list (jsstring * JsData)) : JsData :=
                match l with
                | [] => DUndefined
                | (k, v) :: rest =>
                    if bool_decide (k = str "value") then unwrapOption v else at_value rest
                end) entries
        else DNull
      else DObject ((fix over (l : list (jsstring * JsData)) : list (jsstring * JsData) :=
                       match l with
                       | [] => []
                       | (key, v) :: rest => (key, unwrapOption v) :: over rest
                       end) entries)
  | DArray items => DArray (map unwrapOption items)
  | _ => value
  end.

(** An option wrapper, an object with a truthy [__option] property. *)
Definition is_option (value : JsData) : bool :=
  match value with
  | DObject entries => truthy (get (str "__option") entries)
  | _ => false
  end.

(** Whether a value is or holds, at any depth, an option wrapper. *)
Fixpoint has_option (value : JsData) : bool :=
  match value with
  | DObject entries =>
      truthy (get (str "__option") entries)
      || (fix among (l : list (jsstring * JsData)) : bool :=
            match l with
            | [] => false
            | (_, v) :: rest => has_option v || among rest
            end) entries
  | DArray items => existsb has_option items
  | _ => false
  end.

End InspectCollection.

(** ** The registry program

    The Rust program (programs/owner_governed_asset_ledger/src/lib.rs) is not
    among the sources.  Its instructions are written here from sections 3,
    4.1, 4.2, 4.3 and 7 of the specification and from the instruction
    breakdowns under docs/ogal-protocol.  Every instruction is atomic: it
    returns either the next ledger or an error, and an error leaves the
    ledger as it was. *)

Module Program.

Definition Address := Buffer.

Inductive ProgramError : Type :=
| UnauthorizedInitializer   (* authorization: the signer may not deploy *)
| WrongAuthority
| NonOwnerUpdate            (* authorization: the token account proves no ownership *)
| MintingPaused
| ManifestUninitialized
| AccountMismatch
| AccountAlreadyInUse
| OversizedField
| InvalidCreatorShares
| MissingManifestCreator
| CreatorMustSign
| ExternalProtocolError.

Inductive Result (A : Type) : Type :=
| Ok (a : A)
| Err (e : ProgramError).
Arguments Ok {A} a.
Arguments Err {A} e.

Record Config : Type := mkConfig {
  cfg_authority : Address;
  cfg_namespace : Address;
  cfg_paused : bool;
  cfg_object_count : Z
}.

Record Manifest : Type := mkManifest {
  object_id : Z;
  config : Address;
  mint : Address;
  creator : Address;
  manifest_hash : Buffer;
  metadata_uri : Buffer;
  is_active : bool;
  minted : bool;
  initialized : bool
}.

Record Mint : Type := mkMint {
  mint_authority : Address;
  freeze_authority : Address;
  decimals : Z;
  supply : Z
}.

Record TokenAccount : Type := mkTokenAccount {
  token_owner : Address;
  token_mint : Address;
  amount : Z
}.

(** The collection anchor, owned by the external metadata protocol. *)
Inductive Sizing : Type :=
| Sized (count : Z)
| Unsized.

Record Anchor : Type := mkAnchor {
  update_authority : Address;
  sizing : Sizing
}.

Record MetadataCreator : Type := mkMetadataCreator {
  mc_address : Address;
  mc_share : Z;
  mc_verified : bool
}.

Inductive Event : Type :=
| MintCompleted (config manifest mint recipient : Address) (object_id : Z)
| ManifestUpdated (config manifest mint : Address) (object_id : Z) (is_active : bool)
| PauseChanged (config : Address) (paused : bool).

(** What an instruction does to accounts, step by step. *)
Inductive Action : Type :=
| CreateConfiguration (config : Address)
| CreateMintAuthority (auth : Address)
| CreateManifest (manifest : Address)
| CreateMint (mint : Address)
| CreateTokenAccount (account : Address)
| CreateMetadata (mint : Address)
| MintTo (mint account : Address)
| CreateMasterEdition (mint : Address)
| VerifySizedCollectionItem (collection : Address)
| VerifyCollection (collection : Address)
| WriteManifest (manifest : Address).

Definition is_first_mint_step (a : Action) : bool :=
  match a with
  | CreateMetadata _ | CreateMasterEdition _
  | VerifySizedCollectionItem _ | VerifyCollection _ => true
  | _ => false
  end.

Definition is_mint_creation (a : Action) : bool :=
  match a with
  | CreateMint _ => true
  | _ => false
  end.

Record Ledger : Type := mkLedger {
  configs : gmap Address Config;
  authorities : gset Address;            (* the keyless mint-authority accounts *)
  manifests : gmap Address Manifest;
  mints : gmap Address Mint;
  token_accounts : gmap Address TokenAccount;
  metadata_records : gset Address;       (* by mint *)
  master_editions : gset Address;        (* by mint *)
  anchors : gmap Address Anchor;         (* by collection mint *)
  events : list Event;
  actions : list Action
}.

Definition empty_ledger : Ledger :=
  mkLedger ∅ ∅ ∅ ∅ ∅ ∅ ∅ ∅ [] [].

(** Field updates. *)
Definition set_configs (f : gmap Address Config -> gmap Address Config) (l : Ledger) : Ledger :=
  mkLedger (f (configs l)) (authorities l) (manifests l) (mints l) (token_accounts l)
    (metadata_records l) (master_editions l) (anchors l) (events l) (actions l).
Definition set_authorities (f : gset Address -> gset Address) (l : Ledger) : Ledger :=
  mkLedger (configs l) (f (authorities l)) (manifests l) (mints l) (token_accounts l)
    (metadata_records l) (master_editions l) (anchors l) (events l) (actions l).
Definition set_manifests (f : gmap Address Manifest -> gmap Address Manifest) (l : Ledger) : Ledger :=
  mkLedger (configs l) (authorities l) (f (manifests l)) (mints l) (token_accounts l)
    (metadata_records l) (master_editions l) (anchors l) (events l) (actions l).
Definition set_mints (f : gmap Address Mint -> gmap Address Mint) (l : Ledger) : Ledger :=
  mkLedger (configs l) (authorities l) (manifests l) (f (mints l)) (token_accounts l)
    (metadata_records l) (master_editions l) (anchors l) (events l) (actions l).
Definition set_token_accounts (f : gmap Address TokenAccount -> gmap Address TokenAccount)
    (l : Ledger) : Ledger :=
  mkLedger (configs l) (authorities l) (manifests l) (mints l) (f (token_accounts l))
    (metadata_records l) (master_editions l) (anchors l) (events l) (actions l).
Definition set_metadata_records (f : gset Address -> gset Address) (l : Ledger) : Ledger :=
  mkLedger (configs l) (authorities l) (manifests l) (mints l) (token_accounts l)
    (f (metadata_records l)) (master_editions l) (anchors l) (events l) (actions l).
Definition set_master_editions (f : gset Address -> gset Address) (l : Ledger) : Ledger :=
  mkLedger (configs l) (authorities l) (manifests l) (mints l) (token_accounts l)
    (metadata_records l) (f (master_editions l)) (anchors l) (events l) (actions l).
Definition set_anchors (f : gmap Address Anchor -> gmap Address Anchor) (l : Ledger) : Ledger :=
  mkLedger (configs l) (authorities l) (manifests l) (mints l) (token_accounts l)
    (metadata_records l) (master_editions l) (f (anchors l)) (events l) (actions l).
Definition emit (e : Event) (l : Ledger) : Ledger :=
  mkLedger (configs l) (authorities l) (manifests l) (mints l) (token_accounts l)
    (metadata_records l) (master_editions l) (anchors l) (events l ++ [e]) (actions l).
Definition record (a : Action) (l : Ledger) : Ledger :=
  mkLedger (configs l) (authorities l) (manifests l) (mints l) (token_accounts l)
    (metadata_records l) (master_editions l) (anchors l) (events l) (actions l ++ [a]).

(** A step of an instruction: it reads and changes the ledger, or fails. *)
Definition Tx (A : Type) : Type := Ledger -> Result (A * Ledger).

#[global] Instance Tx_ret : MRet Tx := fun _ a l => Ok (a, l).
#[global] Instance Tx_bind : MBind Tx := fun _ _ f m l =>
  match m l with
  | Ok (a, l') => f a l'
  | Err e => Err e
  end.

Definition get : Tx Ledger := fun l => Ok (l, l).
Definition modify (f : Ledger -> Ledger) : Tx unit := fun l => Ok (tt, f l).
Definition fail {A} (e : ProgramError) : Tx A := fun _ => Err e.
Definition require (cond : bool) (e : ProgramError) : Tx unit :=
  if cond then mret tt else fail e.
Definition when (cond : bool) (step : Tx unit) : Tx unit :=
  if cond then step else mret tt.

(** Run an instruction: the next ledger, or the error. *)
Definition run (step : Tx unit) (l : Ledger) : Result Ledger :=
  match step l with
  | Ok (_, l') => Ok l'
  | Err e => Err e
  end.

Definition fails {A} (r : Result A) : bool :=
  match r with
  | Ok _ => false
  | Err _ => true
  end.

Definition MAX_URI_LENGTH : nat := 128.
Definition MAX_NAME_LENGTH : nat := 32.
Definition MAX_SYMBOL_LENGTH : nat := 10.
Definition MAX_CREATOR_LIMIT : nat := 5.
Definition METADATA_MAX_URI_LENGTH : nat := 200.

Section Instructions.
(** The address derived from seeds under the program id, and the
    allow-list [ALLOWED_DEPLOYERS] declared in the program source. *)
Variable pda : list Buffer -> Address.
Variable associated_token_address : Address -> Address -> Address.
Variable ALLOWED_DEPLOYERS : list Address.

Definition config_address (namespace : Address) : Address :=
  pda [utf8Encode (str "config"); namespace].
Definition auth_address (config : Address) : Address :=
  pda [utf8Encode (str "auth"); config].
Definition manifest_address (config : Address) (object_id : Z) : Address :=
  pda [utf8Encode (str "object_manifest"); config; le_bytes 8 object_id].
Definition mint_address (manifest : Address) : Address :=
  pda [utf8Encode (str "object_mint"); manifest].

Definition address_eqb (a b : Address) : bool := bool_decide (a = b).
Definition address_in (a : Address) (l : list Address) : bool := bool_decide (a ∈ l).

(** Modelled from the spec: the [initialize] instruction of lib.rs, which
    is missing.  Section 4.1: the caller must be the fee payer or on the
    allow-list, else an authorization error; then Configuration and Mint
    Authority are created, once per namespace. *)
Definition initialize (authority payer namespace : Address) : Tx unit :=
  _ ← require (address_eqb authority payer || address_in authority ALLOWED_DEPLOYERS)
        UnauthorizedInitializer;
  l ← get;
  let cfg := config_address namespace in
  _ ← require (bool_decide (configs l !! cfg = None)) AccountAlreadyInUse;
  _ ← modify (set_configs (insert cfg (mkConfig authority namespace false 0)));
  _ ← modify (record (CreateConfiguration cfg));
  _ ← modify (set_authorities (union {[auth_address cfg]}));
  modify (record (CreateMintAuthority (auth_address cfg))).

Record MintArgs : Type := mkMintArgs {
  arg_namespace : Address;
  arg_payer : Address;
  arg_recipient : Address;
  arg_collection_mint : Address;
  arg_signers : list Address;
  arg_object_id : Z;
  arg_uri : Buffer;
  arg_hash : Buffer;
  arg_name : Buffer;
  arg_symbol : Buffer;
  arg_fee_bps : Z;
  arg_creators : list MetadataCreator
}.

(** Modelled from the spec: phase 2 of [mint_object_nft] (lib.rs, missing),
    manifest ensure: create if absent (creator = caller); if present, verify
    that it belongs to this configuration and object.
    The account is allocated uninitialised and filled in within the
    phase, so the manifest it leaves is initialised. *)
Definition ensure_manifest (args : MintArgs) (cfg addr : Address) : Tx Manifest :=
  l ← get;
  match manifests l !! addr with
  | None =>
      let m := mkManifest (arg_object_id args) cfg (mint_address addr) (arg_payer args)
                 (arg_hash args) (arg_uri args) true false true in
      _ ← modify (set_manifests (insert addr m));
      _ ← modify (record (CreateManifest addr));
      mret m
  | Some m =>
      _ ← require (initialized m) ManifestUninitialized;
      _ ← require (address_eqb (config m) cfg && (object_id m =? arg_object_id args)
                   && address_eqb (mint m) (mint_address addr)) AccountMismatch;
      mret m
  end.

(** Modelled from the spec: phase 3 of [mint_object_nft] (lib.rs, missing),
    mint ensure: a zero-decimal mint under the Mint Authority. *)
Definition ensure_mint (auth mint_addr : Address) : Tx unit :=
  l ← get;
  match mints l !! mint_addr with
  | None =>
      _ ← modify (set_mints (insert mint_addr (mkMint auth auth 0 0)));
      modify (record (CreateMint mint_addr))
  | Some mt =>
      require (address_eqb (mint_authority mt) auth && (decimals mt =? 0)) AccountMismatch
  end.

(** Modelled from the spec: phase 4 of [mint_object_nft] (lib.rs, missing),
    recipient token account ensure. *)
Definition ensure_token_account (recipient mint_addr : Address) : Tx Address :=
  l ← get;
  let ata := associated_token_address recipient mint_addr in
  match token_accounts l !! ata with
  | None =>
      _ ← modify (set_token_accounts (insert ata (mkTokenAccount recipient mint_addr 0)));
      _ ← modify (record (CreateTokenAccount ata));
      mret ata
  | Some acct =>
      _ ← require (address_eqb (token_owner acct) recipient
                   && address_eqb (token_mint acct) mint_addr) AccountMismatch;
      mret ata
  end.

Definition total_share (creators : list MetadataCreator) : Z :=
  fold_right (fun c acc => mc_share c + acc) 0 creators.

(** Modelled from the spec: phase 5 of [mint_object_nft] (lib.rs, missing),
    first-mint metadata creation: the inputs are validated, the shares must
    total 100 and include the manifest's creator, verified creators other
    than the payer must sign. *)
Definition create_metadata (args : MintArgs) (m : Manifest) : Tx unit :=
  _ ← require ((length (arg_uri args) <=? MAX_URI_LENGTH)%nat
               && (length (arg_name args) <=? MAX_NAME_LENGTH)%nat
               && (length (arg_symbol args) <=? MAX_SYMBOL_LENGTH)%nat
               && (length (arg_creators args) <=? MAX_CREATOR_LIMIT)%nat
               && (0 <=? arg_fee_bps args) && (arg_fee_bps args <=? 10000)) OversizedField;
  _ ← require (total_share (arg_creators args) =? 100) InvalidCreatorShares;
  _ ← require (existsb (fun c => address_eqb (mc_address c) (creator m)) (arg_creators args))
        MissingManifestCreator;
  _ ← require (forallb (fun c => negb (mc_verified c)
                                 || address_eqb (mc_address c) (arg_payer args)
                                 || address_in (mc_address c) (arg_signers args))
                       (arg_creators args)) CreatorMustSign;
  _ ← modify (set_metadata_records (union {[mint m]}));
  modify (record (CreateMetadata (mint m))).

(** Modelled from the spec: phase 6 of [mint_object_nft] (lib.rs, missing),
    token issuance: one unit to the recipient. *)
Definition issue_token (mint_addr ata : Address) : Tx unit :=
  _ ← modify (set_mints (alter (fun mt => mkMint (mint_authority mt) (freeze_authority mt)
                                            (decimals mt) (supply mt + 1)) mint_addr));
  _ ← modify (set_token_accounts
                (alter (fun a => mkTokenAccount (token_owner a) (token_mint a) (amount a + 1)) ata));
  modify (record (MintTo mint_addr ata)).

(** Modelled from the spec: phase 7 of [mint_object_nft] (lib.rs, missing),
    first-mint master record. *)
Definition create_master_edition (mint_addr : Address) : Tx unit :=
  _ ← modify (set_master_editions (union {[mint_addr]}));
  modify (record (CreateMasterEdition mint_addr)).

(** Modelled from the spec: phase 8 of [mint_object_nft] (lib.rs, missing),
    first-mint collection verification: the call is chosen by the anchor's
    sizing alone. *)
Definition verify_collection (auth collection : Address) : Tx unit :=
  l ← get;
  match anchors l !! collection with
  | None => fail ExternalProtocolError
  | Some anchor =>
      _ ← require (address_eqb (update_authority anchor) auth) ExternalProtocolError;
      match sizing anchor with
      | Sized count =>
          _ ← modify (set_anchors (insert collection
                                     (mkAnchor (update_authority anchor) (Sized (count + 1)))));
          modify (record (VerifySizedCollectionItem collection))
      | Unsized => modify (record (VerifyCollection collection))
      end
  end.

(** Modelled from the spec: phase 9 of [mint_object_nft] (lib.rs, missing),
    bookkeeping: [minted] is set, the object counter grows, the event is
    emitted. *)
Definition bookkeeping (args : MintArgs) (cfg addr : Address) (m : Manifest) : Tx unit :=
  _ ← modify (set_manifests
                (alter (fun m => mkManifest (object_id m) (config m) (mint m) (creator m)
                                   (manifest_hash m) (metadata_uri m) (is_active m)
                                   true (initialized m)) addr));
  _ ← modify (set_configs
                (alter (fun c => mkConfig (cfg_authority c) (cfg_namespace c) (cfg_paused c)
                                   (cfg_object_count c + 1)) cfg));
  modify (emit (MintCompleted cfg addr (mint m) (arg_recipient args) (arg_object_id args))).

(** Modelled from the spec: the [mint_object_nft] instruction of lib.rs,
    which is missing.  Section 4.2, phases 1 to 9: phases 5, 7 and 8 are
    gated on [minted] being false, phases 6 and 9 always run. *)
Definition mint_object_nft (args : MintArgs) : Tx unit :=
  l ← get;
  let cfg := config_address (arg_namespace args) in
  let auth := auth_address cfg in
  c ← match configs l !! cfg with
      | Some c => mret c
      | None => fail AccountMismatch
      end;
  _ ← require (negb (cfg_paused c)) MintingPaused;
  let addr := manifest_address cfg (arg_object_id args) in
  m ← ensure_manifest args cfg addr;
  _ ← ensure_mint auth (mint m);
  ata ← ensure_token_account (arg_recipient args) (mint m);
  _ ← when (negb (minted m)) (create_metadata args m);
  _ ← issue_token (mint m) ata;
  _ ← when (negb (minted m)) (create_master_edition (mint m));
  _ ← when (negb (minted m)) (verify_collection auth (arg_collection_mint args));
  bookkeeping args cfg addr m.

Record UpdateArgs : Type := mkUpdateArgs {
  upd_namespace : Address;
  upd_object_id : Z;
  upd_owner : Address;           (* the signer *)
  upd_token_account : Address;   (* the account presented as proof *)
  upd_hash : Buffer;
  upd_uri : Buffer;
  upd_is_active : bool
}.

(** Modelled from the spec: the [update_object_manifest] instruction of
    lib.rs, which is missing.  Section 4.3 and the instruction breakdown:
    length limits, then the ownership proof (the token account belongs
    to the signer, holds the object's mint, has a balance of at least
    one), then the manifest's integrity; only then are the three content
    fields overwritten. *)
Definition update_object_manifest (args : UpdateArgs) : Tx unit :=
  l ← get;
  let cfg := config_address (upd_namespace args) in
  let addr := manifest_address cfg (upd_object_id args) in
  _ ← require ((length (upd_uri args) <=? MAX_URI_LENGTH)%nat
               && (length (upd_uri args) <=? METADATA_MAX_URI_LENGTH)%nat) OversizedField;
  m ← match manifests l !! addr with
      | Some m => mret m
      | None => fail ManifestUninitialized
      end;
  acct ← match token_accounts l !! upd_token_account args with
         | Some acct => mret acct
         | None => fail NonOwnerUpdate
         end;
  _ ← require (address_eqb (token_owner acct) (upd_owner args)) NonOwnerUpdate;
  _ ← require (address_eqb (token_mint acct) (mint m)) NonOwnerUpdate;
  _ ← require (1 <=? amount acct) NonOwnerUpdate;
  _ ← require (initialized m) ManifestUninitialized;
  _ ← require (address_eqb (config m) cfg && address_eqb (mint m) (mint_address addr))
        AccountMismatch;
  _ ← modify (set_manifests
                (insert addr (mkManifest (object_id m) (config m) (mint m) (creator m)
                                (upd_hash args) (upd_uri args) (upd_is_active args)
                                (minted m) (initialized m))));
  _ ← modify (record (WriteManifest addr));
  modify (emit (ManifestUpdated cfg addr (mint m) (object_id m) (upd_is_active args))).

End Instructions.

(** A ledger is consistent when the mint of every minted manifest exists. *)
Definition consistent (l : Ledger) : Prop :=
  forall addr m, manifests l !! addr = Some m -> minted m = true -> is_Some (mints l !! mint m).

(** The ledgers that the three instructions produce from a registry without
    manifests; what happens outside the registry (transfers of tokens, changes
    to a collection anchor) leaves manifests and mints alone. *)
Inductive reachable (pda : list Buffer -> Address)
    (associated_token_address : Address -> Address -> Address)
    (ALLOWED_DEPLOYERS : list Address) : Ledger -> Prop :=
| reachable_genesis (l : Ledger) :
    manifests l = ∅ ->
    reachable pda associated_token_address ALLOWED_DEPLOYERS l
| reachable_initialize (l l' : Ledger) (authority payer namespace : Address) :
    reachable pda associated_token_address ALLOWED_DEPLOYERS l ->
    run (initialize pda ALLOWED_DEPLOYERS authority payer namespace) l = Ok l' ->
    reachable pda associated_token_address ALLOWED_DEPLOYERS l'
| reachable_mint (l l' : Ledger) (args : MintArgs) :
    reachable pda associated_token_address ALLOWED_DEPLOYERS l ->
    run (mint_object_nft pda associated_token_address args) l = Ok l' ->
    reachable pda associated_token_address ALLOWED_DEPLOYERS l'
| reachable_update (l l' : Ledger) (args : UpdateArgs) :
    reachable pda associated_token_address ALLOWED_DEPLOYERS l ->
    run (update_object_manifest pda args) l = Ok l' ->
    reachable pda associated_token_address ALLOWED_DEPLOYERS l'
| reachable_external (l l' : Ledger) :
    reachable pda associated_token_address ALLOWED_DEPLOYERS l ->
    manifests l' = manifests l ->
    mints l' = mints l ->
    reachable pda associated_token_address ALLOWED_DEPLOYERS l'.

End Program.

(** ** Sample worlds, for running the scripts *)

(** A stand-in for [findProgramAddressSync]: it hashes the seeds and the
    program id (the real derivation also searches for a bump seed that takes
    the hash off the curve). *)
Definition sample_find (seeds : list Buffer) (program : PublicKey) : PublicKey * Z :=
  (mkPublicKey (Sha256.digest (concat seeds ++ toBuffer program)), 255).

(** No file system and no network. *)
Definition offline_world : World :=
  mkWorld (fun p => p) (fun _ => false)
    (fun _ => Throw (Error (str "ENOENT")))
    (fun _ => Throw (Error (str "Unexpected end of JSON input")))
    (fun _ => Throw (Error (str "ENOENT")))
    sample_find
    (fun _ => Throw (Error (str "fetch failed")))
    (Throw (Error (str "fetch failed")))
    (fun _ => Throw (Error (str "fetch failed")))
    (fun _ _ => Throw (Error (str "fetch failed"))).

(** A namespace whose configuration exists and belongs to the program, no
    manifest yet, one wallet on disk, and a node that confirms everything. *)
Definition sample_wallet : Keypair :=
  mkKeypair (key_literal "E5mQ27muTebiYaohBsdsCwrvPN3MVoRmECFtL4A5Sx9q").

Definition sample_namespace : jsstring := str "EhULHuQtpaKUZSdv1kQR7XwYGRfEaU8b1Y7JkbFGQHxW".

Definition sample_config_address : PublicKey :=
  fst (sample_find [utf8Encode (str "config"); toBuffer (key_literal "EhULHuQtpaKUZSdv1kQR7XwYGRfEaU8b1Y7JkbFGQHxW")]
         OGAL_PROGRAM_ID).

Definition sample_world : World :=
  mkWorld (fun p => p) (fun _ => true)
    (fun _ => Throw (Error (str "ENOENT")))
    (fun _ => Throw (Error (str "Unexpected end of JSON input")))
    (fun _ => Normal sample_wallet)
    sample_find
    (fun account =>
       if PublicKey_equals account sample_config_address
       then Normal (Some (mkAccountInfo
                            (repeat 0 8 ++ toBuffer (publicKey sample_wallet) ++ repeat 0 48)
                            OGAL_PROGRAM_ID))
       else Normal None)
    (Normal (str "blockhash", 1))
    (fun n => Normal (str "later blockhash", 2 + Z.of_nat n))
    (fun _ _ => Normal (str "signature")).

(** An error as web3.js throws it for a transaction that the node refuses
    without logs: a [SendTransactionError] created without an array of logs.
    Its [getLogs()], called without a connection, rejects with a [TypeError]
    and leaves the rejected promise in [transactionLogs]; its [logs] getter
    gives undefined. *)
Definition send_error_without_logs : JsError :=
  mkJsError (Some (str "Simulation failed. Message: Node is behind by 150 slots."))
    (Some (str "Node is behind by 150 slots")) true (Some None) LogsNullish
    (LogsRejected (str "Cannot read properties of undefined (reading 'getTransaction')")).

(** The sample world, with a node that refuses every transaction that way. *)
Definition unhealthy_world : World :=
  mkWorld (expandPath sample_world) (existsSync sample_world) (readFileSync sample_world)
    (JSON_parse sample_world) (readKeypair sample_world)
    (findProgramAddressSync sample_world) (getAccountInfo sample_world)
    (getLatestBlockhash sample_world) (getLatestBlockhashAfter sample_world)
    (fun _ _ => Throw send_error_without_logs).

Definition sample_mint_argv (uri : jsstring) : MintObject.Argv :=
  MintObject.mkArgv sample_namespace (str "7") uri
    (str "0x00112233445566778899aabbccddeeff00112233445566778899AABBCCDDEEFF")
    (str "Level 7") (Some (str "OGAL")) (str "500")
    (str "E5mQ27muTebiYaohBsdsCwrvPN3MVoRmECFtL4A5Sx9q")
    (str "EhULHuQtpaKUZSdv1kQR7XwYGRfEaU8b1Y7JkbFGQHxW")
    (str "payer.json") None None None None None false
    (MintObject.mkCreatorOptions
       (Some [str "E5mQ27muTebiYaohBsdsCwrvPN3MVoRmECFtL4A5Sx9q:100:true"]) None)
    (str "metaqbxxUerdq28cj1RbAWkYQm3ybzjb6a8bt518x1s")
    (str "https://api.mainnet-beta.solana.com") (str "confirmed")
    (str "400000") (str "0").

Definition sample_mint_argv_with_object_id (objectId : jsstring) : MintObject.Argv :=
  MintObject.mkArgv sample_namespace objectId (str "https://example.org/7.json")
    (str "0x00112233445566778899aabbccddeeff00112233445566778899AABBCCDDEEFF")
    (str "Level 7") (Some (str "OGAL")) (str "500")
    (str "E5mQ27muTebiYaohBsdsCwrvPN3MVoRmECFtL4A5Sx9q")
    (str "EhULHuQtpaKUZSdv1kQR7XwYGRfEaU8b1Y7JkbFGQHxW")
    (str "payer.json") None None None None None false
    (MintObject.mkCreatorOptions
       (Some [str "E5mQ27muTebiYaohBsdsCwrvPN3MVoRmECFtL4A5Sx9q:100:true"]) None)
    (str "metaqbxxUerdq28cj1RbAWkYQm3ybzjb6a8bt518x1s")
    (str "https://api.mainnet-beta.solana.com") (str "confirmed")
    (str "400000") (str "0").

Definition sample_set_authority_argv : SetAuthority.Argv :=
  SetAuthority.mkArgv sample_namespace (str "E5mQ27muTebiYaohBsdsCwrvPN3MVoRmECFtL4A5Sx9q")
    (str "authority.json") (str "https://api.mainnet-beta.solana.com") (str "confirmed").

Definition sample_set_paused_argv : SetPaused.Argv :=
  SetPaused.mkArgv sample_namespace true (str "authority.json")
    (str "https://api.mainnet-beta.solana.com") (str "confirmed").

Definition sample_migrate_argv : MigrateNamespace.Argv :=
  MigrateNamespace.mkArgv sample_namespace (str "E5mQ27muTebiYaohBsdsCwrvPN3MVoRmECFtL4A5Sx9q")
    (str "authority.json") (str "https://api.mainnet-beta.solana.com") (str "confirmed").

Definition sample_rotate_argv : RotateCollectionAuthority.Argv :=
  RotateCollectionAuthority.mkArgv sample_namespace
    (str "metaqbxxUerdq28cj1RbAWkYQm3ybzjb6a8bt518x1s")
    (str "E5mQ27muTebiYaohBsdsCwrvPN3MVoRmECFtL4A5Sx9q")
    (str "authority.json") None
    (str "https://api.mainnet-beta.solana.com") (str "confirmed").

Definition sample_initialize_argv : Initialize.Argv :=
  Initialize.mkArgv sample_namespace
    (Some (str "E5mQ27muTebiYaohBsdsCwrvPN3MVoRmECFtL4A5Sx9q")) None
    (Some (str "authority.json")) None
    (str "https://api.mainnet-beta.solana.com") (str "confirmed").

(** The mint that the sample world derives for object 7 of the sample
    namespace, and an update of that object by the holder of the wallet. *)
Definition sample_object_mint : PublicKey :=
  let manifest :=
    fst (sample_find [UpdateManifest.MANIFEST_SEED; toBuffer sample_config_address;
                      le_bytes 8 7] OGAL_PROGRAM_ID) in
  fst (sample_find [UpdateManifest.MINT_SEED; toBuffer manifest] OGAL_PROGRAM_ID).

Definition sample_update_argv : UpdateManifest.Argv :=
  UpdateManifest.mkArgv sample_namespace (str "7") (toBase58 sample_object_mint)
    (str "owner.json") None
    (str "00112233445566778899aabbccddeeff00112233445566778899aabbccddeeff")
    (str "https://example.org/7b.json") (str "false") None None None
    (str "https://api.mainnet-beta.solana.com") (str "confirmed").

(** A verified creator, the holder of the sample wallet, with its key pair file. *)
Definition sample_creator : Creator :=
  mkCreator (publicKey sample_wallet) 100 true (Some (str "creator.json")).

(** ** A sample run of the registry *)

(** Addresses are derived by concatenation in the sample; the real
    derivation hashes the seeds. *)
Definition sample_pda (seeds : list Buffer) : Program.Address := concat seeds.

Definition sample_associated_token_address (owner mint : Program.Address) : Program.Address :=
  owner ++ mint.

Definition sample_payer : Program.Address := [1].
Definition sample_registry_namespace : Program.Address := [2].
Definition sample_collection : Program.Address := [3].

Definition sample_mint_args : Program.MintArgs :=
  Program.mkMintArgs sample_registry_namespace sample_payer sample_payer sample_collection
    [sample_payer] 7 (utf8Encode (str "https://example.org/7.json")) (repeat 0 32)
    (utf8Encode (str "Level 7")) (utf8Encode (str "OGAL")) 500
    [Program.mkMetadataCreator sample_payer 100 true].

(** The ledger before anything is initialized: it only holds the
    collection anchor, unsized, under the namespace's mint authority. *)
Definition sample_genesis : Program.Ledger :=
  Program.set_anchors
    (insert sample_collection
       (Program.mkAnchor
          (Program.auth_address sample_pda
             (Program.config_address sample_pda sample_registry_namespace))
          Program.Unsized))
    Program.empty_ledger.

Definition ledger_of (r : Program.Result Program.Ledger) : Program.Ledger :=
  match r with
  | Program.Ok l => l
  | Program.Err _ => Program.empty_ledger
  end.

Definition sample_initialized : Program.Ledger :=
  ledger_of (Program.run
               (Program.initialize sample_pda [] sample_payer sample_payer
                  sample_registry_namespace)
               sample_genesis).

Definition sample_minted : Program.Ledger :=
  ledger_of (Program.run
               (Program.mint_object_nft sample_pda sample_associated_token_address
                  sample_mint_args)
               sample_initialized).

Definition sample_manifest_address : Program.Address :=
  Program.manifest_address sample_pda
    (Program.config_address sample_pda sample_registry_namespace) 7.

(** The manifest that the first mint of the sample leaves. *)
Definition sample_manifest : Program.Manifest :=
  Program.mkManifest 7 (Program.config_address sample_pda sample_registry_namespace)
    (Program.mint_address sample_pda sample_manifest_address) sample_payer
    (repeat 0 32) (utf8Encode (str "https://example.org/7.json")) true true true.

Definition sample_minted_again : Program.Ledger :=
  ledger_of (Program.run
               (Program.mint_object_nft sample_pda sample_associated_token_address
                  sample_mint_args)
               sample_minted).

Definition sample_update_args (owner : Program.Address) : Program.UpdateArgs :=
  Program.mkUpdateArgs sample_registry_namespace 7 owner
    (sample_associated_token_address sample_payer
       (Program.mint_address sample_pda sample_manifest_address))
    (repeat 255 32) (utf8Encode (str "https://example.org/7b.json")) false.

(** ** Notions used to state the properties of the scripts *)

(** One step of reading a decimal numeral, and of reading a base58 numeral. *)
Definition decimal_step (acc c : Z) : Z := 10 * acc + (c - 48).

(** A creator as the program's instruction expects it: an address of 32
    bytes and a share between 0 and 100. *)
Definition creator_wellformed (c : Creator) : Prop :=
  length (toBuffer (address c)) = 32%nat
  /\ Forall is_byte (toBuffer (address c))
  /\ 0 <= share c <= 100.

Definition base58_step (acc c : Z) : Z := 58 * acc + default 0 (index_of c BASE58_ALPHABET).

(** A UTF-16 code unit. *)
Definition code_unit (c : Z) : Prop := 0 <= c < 65536.

(* ===================================================================== *)
(** * Part II. Theorems                                                   *)
(* ===================================================================== *)

(** ** Sanity checks of the primitives *)

(** The FIPS 180-4 test vector for the message abc. *)
Example sha256_abc :
  Sha256.digest (str "abc") =
  [0xba; 0x78; 0x16; 0xbf; 0x8f; 0x01; 0xcf; 0xea; 0x41; 0x41; 0x40; 0xde;
   0x5d; 0xae; 0x22; 0x23; 0xb0; 0x03; 0x61; 0xa3; 0x96; 0x17; 0x7a; 0x9c;
   0xb4; 0x10; 0xff; 0x61; 0xf2; 0x00; 0x15; 0xad].
Proof. vm_compute. reflexivity. Qed.

(** The discriminators computed from their preimages are the bytes the
    scripts expect, so the two load-time checks of the rotation script pass. *)
Example rotate_discriminators_as_expected :
  RotateCollectionAuthority.checkDiscriminators = Normal tt.
Proof. vm_compute. reflexivity. Qed.

(** The literal of initialize.js is the discriminator of [initialize]. *)
Example initialize_discriminator :
  Utils.instructionDiscriminator (str "initialize") = hexDecode (str "afaf6d1f0d989bed").
Proof. vm_compute. reflexivity. Qed.

(** The program id survives a round trip through base58. *)
Example program_id_base58 :
  toBase58 OGAL_PROGRAM_ID = Utils.OGAL_PROGRAM_ID_BASE58
  /\ length (toBuffer OGAL_PROGRAM_ID) = 32%nat.
Proof. vm_compute. split; reflexivity. Qed.

(** In the sample world the mint script runs to a confirmed transaction. *)
Example mint_script_runs :
  outcome (MintObject.main sample_world (sample_mint_argv (str "https://example.org/7.json")))
  = Normal (str "signature").
Proof. vm_compute. reflexivity. Qed.

(** ** Public keys *)

Lemma strip_leading_zeros_decompose (bs : Buffer) :
  bs = repeat 0 (length bs - length (strip_leading_zeros bs)) ++ strip_leading_zeros bs
  /\ (length (strip_leading_zeros bs) <= length bs)%nat.
Proof.
  induction bs as [|b bs [IH Hle]]; simpl.
  - split; [reflexivity | lia].
  - destruct b as [|p|p]; simpl.
    + replace (S (length bs) - length (strip_leading_zeros bs))%nat
        with (S (length bs - length (strip_leading_zeros bs))) by lia.
      simpl. split; [f_equal; exact IH | lia].
    + rewrite Nat.sub_diag. split; [reflexivity | lia].
    + rewrite Nat.sub_diag. split; [reflexivity | lia].
Qed.

(** A buffer of exactly 32 bytes is a public key, and [toBuffer] gives it back. *)
Lemma newPublicKey_32 (bs : Buffer) :
  length bs = 32%nat -> newPublicKey bs = Normal (mkPublicKey bs).
Proof.
  intros Hlen. unfold newPublicKey, PUBLIC_KEY_LENGTH.
  destruct (strip_leading_zeros_decompose bs) as [Hdec Hle].
  destruct (Nat.ltb_spec 32 (length (strip_leading_zeros bs))) as [Hgt|_]; [lia|].
  rewrite <- Hlen, <- Hdec. reflexivity.
Qed.

Lemma subarray_length (b : Buffer) (start stop : nat) :
  (stop <= length b)%nat -> length (subarray b start stop) = (stop - start)%nat.
Proof.
  intros H. unfold subarray. rewrite length_take, length_drop. lia.
Qed.

Lemma subarray_nth (b : Buffer) (start stop i : nat) :
  (i < stop - start)%nat -> nth i (subarray b start stop) 0 = nth (start + i) b 0.
Proof.
  intros Hi. unfold subarray.
  rewrite !nth_lookup, lookup_take_lt, lookup_drop by exact Hi. reflexivity.
Qed.

(** ** C8: the creator field of a manifest account *)

(** C8. [MANIFEST_CREATOR_OFFSET] is the sum of the fields that precede the
    creator (8-byte discriminator, 32-byte config, 8-byte object id, 32-byte
    mint, five one-byte flags, 32-byte hash, 128-byte URI, one padding byte,
    two length bytes), that is 248.  [deserializeManifestCreator] throws when
    the data is missing, throws when the buffer is shorter than 280 bytes, and
    otherwise returns the public key made of bytes 248 to 279 of the buffer:
    byte [i] of the key is byte [248 + i] of the buffer. *)
Theorem deserializeManifestCreator_reads_creator (buffer : Buffer) (i : nat) :
  Utils.MANIFEST_CREATOR_OFFSET = (8 + 32 + 8 + 32 + (1 + 1 + 1 + 1 + 1) + 32 + 128 + 1 + 2)%nat
  /\ Utils.MANIFEST_CREATOR_OFFSET = 248%nat
  /\ Utils.MANIFEST_CREATOR_END = 280%nat
  /\ Utils.deserializeManifestCreator None
     = Throw (Error (str "Manifest account data is missing."))
  /\ Utils.deserializeManifestCreator (Some buffer)
     = (if (length buffer <? 280)%nat
        then Throw (Error (str "Manifest account data is too small to contain the creator field."))
        else Normal (mkPublicKey (subarray buffer 248 280)))
  /\ (if (length buffer <? 280)%nat then True
      else length (subarray buffer 248 280) = 32%nat
           /\ (if (i <? 32)%nat
               then nth i (subarray buffer 248 280) 0 = nth (248 + i) buffer 0
               else True)).
Proof.
  repeat split; try reflexivity.
  - unfold Utils.deserializeManifestCreator.
    change Utils.MANIFEST_CREATOR_END with 280%nat.
    change Utils.MANIFEST_CREATOR_OFFSET with 248%nat.
    destruct (Nat.ltb_spec (length buffer) 280) as [Hlt|Hge]; [reflexivity|].
    apply newPublicKey_32. rewrite subarray_length by lia. reflexivity.
  - destruct (Nat.ltb_spec (length buffer) 280) as [Hlt|Hge]; [exact I|].
    split.
    + rewrite subarray_length by lia. reflexivity.
    + destruct (Nat.ltb_spec i 32) as [Hi|_]; [|exact I].
      apply subarray_nth. lia.
Qed.

(** ** Scripts: how [bind] composes outcomes and effects *)

Lemma bind_pure {A B} (c : Completion A) (f : A -> Script B) :
  pure c ≫= f = match c with
                | Normal a => f a
                | Throw e => ([], Throw e)
                end.
Proof.
  destruct c as [a|e]; [|reflexivity].
  unfold pure. cbn [mbind Script_bind]. destruct (f a). reflexivity.
Qed.

Lemma bind_perform {A B} (ev : Effect) (c : Completion A) (f : A -> Script B) :
  perform ev c ≫= f = match c with
                      | Normal a => (ev :: effects (f a), outcome (f a))
                      | Throw e => ([ev], Throw e)
                      end.
Proof.
  destruct c as [a|e]; [|reflexivity].
  unfold perform. cbn [mbind Script_bind]. destruct (f a). reflexivity.
Qed.

Lemma bind_mret {A B} (a : A) (f : A -> Script B) : mret a ≫= f = f a.
Proof. apply (bind_pure (Normal a)). Qed.

Lemma bind_cases {A B} (m : Script A) (f : A -> Script B) :
  m ≫= f = match outcome m with
           | Normal a => (effects m ++ effects (f a), outcome (f a))
           | Throw e => (effects m, Throw e)
           end.
Proof.
  destruct m as [t [a|e]]; [|reflexivity].
  cbn [mbind Script_bind outcome effects fst snd]. destruct (f a). reflexivity.
Qed.

Lemma bind_normal_inv {A B} (m : Script A) (f : A -> Script B) (b : B) :
  outcome (m ≫= f) = Normal b ->
  exists a, outcome m = Normal a /\ outcome (f a) = Normal b.
Proof.
  rewrite bind_cases. destruct (outcome m) as [a|e]; [|discriminate].
  intros H. exists a. split; [reflexivity | exact H].
Qed.

Lemma sentTransactions_app (t1 t2 : list Effect) :
  sentTransactions (t1 ++ t2) = sentTransactions t1 ++ sentTransactions t2.
Proof. unfold sentTransactions. apply flat_map_app. Qed.

Lemma builtTransactions_app (t1 t2 : list Effect) :
  builtTransactions (t1 ++ t2) = builtTransactions t1 ++ builtTransactions t2.
Proof. unfold builtTransactions. apply flat_map_app. Qed.

(** ** C10: the namespace guard of migrate-namespace *)

(** C10. When the two namespace options decode to the same public key,
    [main] throws "The new namespace must differ from the existing
    namespace." and has done nothing before: no keypair is loaded, no
    address derived, no connection opened, no request sent. *)
Theorem migrate_refuses_same_namespace
    (w : World) (argv : MigrateNamespace.Argv) (oldNamespace newNamespace : PublicKey)
    (Hold : PublicKey_of_string (MigrateNamespace.old_namespace argv) = Normal oldNamespace)
    (Hnew : PublicKey_of_string (MigrateNamespace.new_namespace argv) = Normal newNamespace)
    (Hsame : PublicKey_equals oldNamespace newNamespace = true) :
  MigrateNamespace.main w argv
  = ([], Throw (Error (str "The new namespace must differ from the existing namespace."))).
Proof.
  unfold MigrateNamespace.main.
  rewrite Hold, Hnew. cbn [mbind Script_bind pure].
  rewrite Hsame. reflexivity.
Qed.

Lemma migrate_refuses_same_namespace_witness :
  MigrateNamespace.main offline_world
    (MigrateNamespace.mkArgv
       (str "GwMpopxNkDYsnucBRPf47QSEsEzA3rS1o6ioMX78hgqx")
       (str "GwMpopxNkDYsnucBRPf47QSEsEzA3rS1o6ioMX78hgqx")
       (str "authority.json") (str "https://api.mainnet-beta.solana.com") (str "confirmed"))
  = ([], Throw (Error (str "The new namespace must differ from the existing namespace."))).
Proof.
  apply (migrate_refuses_same_namespace offline_world _ OGAL_PROGRAM_ID OGAL_PROGRAM_ID);
    vm_compute; reflexivity.
Defined.

(** ** Substrings *)

Lemma startsWith_nil (s : jsstring) : startsWith s [] = true.
Proof. destruct s; reflexivity. Qed.

Lemma startsWith_app (s t needle : jsstring) :
  startsWith s needle = true -> startsWith (s ++ t) needle = true.
Proof.
  revert s. induction needle as [|p needle IH]; intros s H; [apply startsWith_nil|].
  destruct s as [|c s]; [discriminate|].
  cbn [startsWith app] in *. apply andb_true_iff in H. destruct H as [-> H].
  cbn [andb]. apply IH, H.
Qed.

Lemma includes_app_l (s t needle : jsstring) :
  includes s needle = true -> includes (s ++ t) needle = true.
Proof.
  induction s as [|c s IH]; cbn [includes app]; intros H.
  - rewrite orb_false_r in H. destruct needle; [|discriminate].
    destruct t; reflexivity.
  - apply orb_true_iff in H. destruct H as [H|H].
    + change (c :: s ++ t) with ((c :: s) ++ t). rewrite (startsWith_app _ t _ H). reflexivity.
    + rewrite (IH H). apply orb_true_r.
Qed.

Lemma includes_app_r (s t needle : jsstring) :
  includes t needle = true -> includes (s ++ t) needle = true.
Proof.
  intros H. induction s as [|c s IH]; [exact H|].
  cbn [includes app]. rewrite IH. apply orb_true_r.
Qed.

Lemma join_includes (sep needle p : jsstring) (pieces : list jsstring) :
  In p pieces -> includes p needle = true -> includes (join sep pieces) needle = true.
Proof.
  intros Hin Hp. induction pieces as [|q pieces IH]; [destruct Hin|].
  destruct pieces as [|q' pieces].
  - destruct Hin as [->|[]]. exact Hp.
  - change (join sep (q :: q' :: pieces)) with (q ++ sep ++ join sep (q' :: pieces)).
    destruct Hin as [->|Hin].
    + apply includes_app_l, Hp.
    + apply includes_app_r, includes_app_r, IH, Hin.
Qed.

(** ** C5: versioned dispatch of rotate_collection_authority *)

Lemma attempt_discriminator (attempt : RotateCollectionAuthority.Attempt)
    (keys : list AccountMeta) (newUpdateAuthority payer : PublicKey) (blockhash : jsstring) :
  length (RotateCollectionAuthority.discriminator attempt) = 8%nat ->
  discriminatorOf
    (RotateCollectionAuthority.attemptTransaction attempt keys newUpdateAuthority payer blockhash)
  = RotateCollectionAuthority.discriminator attempt.
Proof.
  intros Hlen. unfold discriminatorOf, RotateCollectionAuthority.attemptTransaction. simpl.
  rewrite app_nil_r. unfold RotateCollectionAuthority.attemptData.
  destruct (RotateCollectionAuthority.discriminator attempt) as [|d0 [|d1 [|d2 [|d3 [|d4 [|d5 [|d6 [|d7 [|]]]]]]]]];
    try discriminate Hlen.
  reflexivity.
Qed.

(** The [catch] block of the scripts that send one transaction: the
    script returns what the request returns; when the request throws [err],
    the script throws [err] again, unless [collectLogs(err)] throws first. *)
Lemma try_catch_rethrow {A} (ev : Effect) (c : Completion A) :
  try_catch (perform ev c)
    (fun err => logs ← pure (Utils.collectLogs err); pure (Throw err))
  = ([ev],
     match c with
     | Normal a => Normal a
     | Throw err =>
         match Utils.collectLogs err with
         | Normal _ => Throw err
         | Throw unreadable => Throw unreadable
         end
     end).
Proof.
  unfold perform, pure. destruct c as [a|err]; [reflexivity|].
  cbn [try_catch mbind Script_bind]. destruct (Utils.collectLogs err); reflexivity.
Qed.

(** The loop on any two attempts, the first not marked legacy and the
    second marked legacy, case by case. *)
Lemma runAttempts_two
    (w : World) (keys : list AccountMeta) (newUpdateAuthority : PublicKey)
    (payerKeypair authorityKeypair : Keypair) (d1 d2 : Buffer) :
  let a1 := RotateCollectionAuthority.mkAttempt d1 false in
  let a2 := RotateCollectionAuthority.mkAttempt d2 true in
  let script := RotateCollectionAuthority.runAttempts w keys newUpdateAuthority
                  payerKeypair authorityKeypair 0 [a1; a2] in
  let signers :=
    publicKey payerKeypair
    :: (if negb (PublicKey_equals (publicKey payerKeypair) (publicKey authorityKeypair))
        then [publicKey authorityKeypair] else []) in
  match getLatestBlockhash w with
  | Throw err => sentTransactions (effects script) = [] /\ outcome script = Throw err
  | Normal (blockhash, _) =>
      let first := RotateCollectionAuthority.attemptTransaction a1 keys
                     newUpdateAuthority (publicKey payerKeypair) blockhash in
      match sendAndConfirmTransaction w first signers with
      | Normal signature =>
          sentTransactions (effects script) = [first] /\ outcome script = Normal signature
      | Throw err =>
          match RotateCollectionAuthority.collectLogs err with
          | Throw unreadable =>
              sentTransactions (effects script) = [first]
              /\ outcome script = Throw unreadable
          | Normal logs =>
              if RotateCollectionAuthority.isFallbackError err logs
              then
                match getLatestBlockhashAfter w 0 with
                | Throw later =>
                    sentTransactions (effects script) = [first]
                    /\ outcome script = Throw later
                | Normal (blockhash2, _) =>
                    let second := RotateCollectionAuthority.attemptTransaction a2 keys
                                    newUpdateAuthority (publicKey payerKeypair) blockhash2 in
                    sentTransactions (effects script) = [first; second]
                    /\ outcome script
                       = match sendAndConfirmTransaction w second signers with
                         | Normal signature => Normal signature
                         | Throw err2 =>
                             match RotateCollectionAuthority.collectLogs err2 with
                             | Normal _ => Throw err2
                             | Throw unreadable => Throw unreadable
                             end
                         end
                end
              else sentTransactions (effects script) = [first] /\ outcome script = Throw err
          end
      end
  end.
Proof.
  intros a1 a2 script signers. subst script.
  cbn [RotateCollectionAuthority.runAttempts latestBlockhashAt].
  unfold latestBlockhash, perform.
  destruct (getLatestBlockhash w) as [[blockhash height]|err].
  2: { cbn. split; reflexivity. }
  cbn zeta. cbn [mbind Script_bind]. fold signers.
  set (first := RotateCollectionAuthority.attemptTransaction a1 keys _ _ _).
  destruct (sendAndConfirmTransaction w first signers) as [signature|err].
  - cbn. split; reflexivity.
  - cbn [try_catch mbind Script_bind RotateCollectionAuthority.legacy a1 negb andb pure].
    destruct (RotateCollectionAuthority.collectLogs err) as [logs|unreadable].
    2: { cbn. split; reflexivity. }
    destruct (RotateCollectionAuthority.isFallbackError err logs).
    2: { cbn. split; reflexivity. }
    destruct (getLatestBlockhashAfter w 0) as [[blockhash2 height2]|later].
    2: { cbn. split; reflexivity. }
    cbn zeta. cbn [mbind Script_bind].
    set (second := RotateCollectionAuthority.attemptTransaction a2 keys _ _ _).
    destruct (sendAndConfirmTransaction w second signers) as [signature2|err2].
    + cbn. split; reflexivity.
    + cbn [try_catch mbind Script_bind RotateCollectionAuthority.legacy a2 negb andb pure].
      destruct (RotateCollectionAuthority.collectLogs err2) as [logs2|unreadable2].
      * cbn. split; reflexivity.
      * cbn. split; reflexivity.
Qed.

(** [main] sends what its loop sends: the steps before the loop send nothing. *)
Lemma sends_like_loop_bind {A} (w : World) (m : Script A) (f : A -> Script jsstring) :
  sentTransactions (effects m) = [] ->
  (forall a, sends_like_loop w (f a)) ->
  sends_like_loop w (m ≫= f).
Proof.
  intros Hm Hf. rewrite bind_cases. destruct (outcome m) as [a|e].
  - destruct (Hf a) as [[Hsent Hthrows]|(keys & nua & pk & ak & Hsent & Hout)].
    + left. cbn [effects outcome fst snd]. rewrite sentTransactions_app, Hm. split; assumption.
    + right. exists keys, nua, pk, ak. cbn [effects outcome fst snd].
      rewrite sentTransactions_app, Hm. split; assumption.
  - left. split; [exact Hm | reflexivity].
Qed.

Lemma sends_nothing_bind {A B} (m : Script A) (f : A -> Script B) :
  sentTransactions (effects m) = [] ->
  (forall a, sentTransactions (effects (f a)) = []) ->
  sentTransactions (effects (m ≫= f)) = [].
Proof.
  intros Hm Hf. rewrite bind_cases. destruct (outcome m) as [a|e].
  - cbn [effects fst]. rewrite sentTransactions_app, Hm. apply Hf.
  - exact Hm.
Qed.

Lemma sends_nothing_try_catch {A} (body : Script A) (handler : JsError -> Script A) :
  sentTransactions (effects body) = [] ->
  (forall e, sentTransactions (effects (handler e)) = []) ->
  sentTransactions (effects (try_catch body handler)) = [].
Proof.
  intros Hb Hh. destruct body as [t [a|e]]; [exact Hb|].
  unfold try_catch. specialize (Hh e). destruct (handler e) as [t' r].
  cbn [effects fst] in *. rewrite sentTransactions_app, Hb. exact Hh.
Qed.

Lemma parsePublicKeyOrKeypair_sends_nothing (w : World) (value flagName : jsstring) :
  sentTransactions
    (effects (RotateCollectionAuthority.parsePublicKeyOrKeypair w value flagName)) = [].
Proof.
  unfold RotateCollectionAuthority.parsePublicKeyOrKeypair.
  case_bool_decide; [reflexivity|].
  apply sends_nothing_try_catch; [reflexivity|]. intros _.
  apply sends_nothing_bind; [reflexivity|]. intros present.
  destruct present; cbn [negb]; [|reflexivity].
  apply sends_nothing_try_catch; [|reflexivity].
  apply sends_nothing_bind; reflexivity.
Qed.

Lemma rotate_main_sends_like_loop (w : World) (argv : RotateCollectionAuthority.Argv) :
  sends_like_loop w (RotateCollectionAuthority.main w argv).
Proof.
  unfold RotateCollectionAuthority.main.
  apply sends_like_loop_bind; [reflexivity|]. intros _.
  apply sends_like_loop_bind; [reflexivity|]. intros namespace.
  apply sends_like_loop_bind; [reflexivity|]. intros collectionMint.
  apply sends_like_loop_bind; [apply parsePublicKeyOrKeypair_sends_nothing|].
  intros newUpdateAuthority.
  apply sends_like_loop_bind; [reflexivity|]. intros authorityKeypair.
  apply sends_like_loop_bind.
  { destruct (RotateCollectionAuthority.payer_keypair argv) as [[|c p]|]; reflexivity. }
  intros payerKeypair.
  apply sends_like_loop_bind; [reflexivity|]. intros _.
  apply sends_like_loop_bind; [reflexivity|]. intros [configPda configBump].
  apply sends_like_loop_bind; [reflexivity|]. intros [authPda authBump].
  apply sends_like_loop_bind; [reflexivity|]. intros [metadataPda metadataBump].
  right. eexists _, _, _, _. split; reflexivity.
Qed.

(** C5.  Where the rotation script departs from versioned dispatch.  When
    the first attempt is rejected with an error on which [collectLogs] fails
    (a [SendTransactionError] of web3.js without an array of logs: the
    script calls [err.getLogs()] without a connection, the promise rejects,
    and the handler of [.catch] returns the rejected promise that [getLogs]
    left in [transactionLogs]), the script throws the [TypeError] of that
    promise after its first transaction.  The legacy identifier is not
    attempted, whatever the error says, also when its message holds
    InstructionFallbackNotFound or custom program error: 0x65; and the
    failure of the first attempt is not what the script throws. *)
Theorem rotate_failure_without_logs_stops_the_dispatch
    (w : World) (keys : list AccountMeta) (newUpdateAuthority : PublicKey)
    (payerKeypair authorityKeypair : Keypair)
    (blockhash : jsstring) (lastValidBlockHeight : Z) (err : JsError) (reason : jsstring)
    (Hblockhash : getLatestBlockhash w = Normal (blockhash, lastValidBlockHeight))
    (Hrejected :
       sendAndConfirmTransaction w
         (RotateCollectionAuthority.attemptTransaction
            (RotateCollectionAuthority.mkAttempt
               RotateCollectionAuthority.ROTATE_COLLECTION_AUTHORITY_DISCRIMINATOR false)
            keys newUpdateAuthority (publicKey payerKeypair) blockhash)
         (publicKey payerKeypair
          :: (if negb (PublicKey_equals (publicKey payerKeypair) (publicKey authorityKeypair))
              then [publicKey authorityKeypair] else []))
       = Throw err)
    (HgetLogs : getLogs err = Some None)
    (Hlogs : logs err = LogsNullish)
    (HtransactionLogs : transactionLogs err = LogsRejected reason) :
  let first :=
    RotateCollectionAuthority.attemptTransaction
      (RotateCollectionAuthority.mkAttempt
         RotateCollectionAuthority.ROTATE_COLLECTION_AUTHORITY_DISCRIMINATOR false)
      keys newUpdateAuthority (publicKey payerKeypair) blockhash in
  let script := RotateCollectionAuthority.runAttempts w keys newUpdateAuthority
                  payerKeypair authorityKeypair 0 RotateCollectionAuthority.attempts in
  RotateCollectionAuthority.collectLogs err = Throw (TypeError reason)
  /\ sentTransactions (effects script) = [first]
  /\ outcome script = Throw (TypeError reason)
  /\ (includes (default [] (message err)) (str "custom program error: 0x65") = true ->
      forall logs, RotateCollectionAuthority.isFallbackError err logs = true).
Proof.
  intros first script.
  assert (Hcollect : RotateCollectionAuthority.collectLogs err = Throw (TypeError reason)).
  { unfold RotateCollectionAuthority.collectLogs, Utils.collectLogs, Utils.cachedLogs.
    rewrite HgetLogs, Hlogs, HtransactionLogs.
    rewrite bool_decide_eq_true_2 by (eexists; reflexivity).
    rewrite orb_true_r. reflexivity. }
  split; [exact Hcollect|].
  pose proof (runAttempts_two w keys newUpdateAuthority payerKeypair authorityKeypair
                RotateCollectionAuthority.ROTATE_COLLECTION_AUTHORITY_DISCRIMINATOR
                RotateCollectionAuthority.LEGACY_DISCRIMINATOR) as Hloop.
  cbv zeta in Hloop. rewrite Hblockhash, Hrejected, Hcollect in Hloop.
  split; [apply Hloop|]. split; [apply Hloop|].
  intros Hmessage logs. unfold RotateCollectionAuthority.isFallbackError. cbv zeta.
  apply orb_true_iff. right.
  destruct (message err) as [m|]; [|discriminate Hmessage].
  cbn [default] in Hmessage.
  destruct m as [|c m]; [discriminate Hmessage|].
  cbn [RotateCollectionAuthority.truthy].
  apply (join_includes _ _ (c :: m)); [left; reflexivity | exact Hmessage].
Qed.

Lemma rotate_failure_without_logs_witness :
  let script :=
    RotateCollectionAuthority.runAttempts unhealthy_world [] (publicKey sample_wallet)
      sample_wallet sample_wallet 0 RotateCollectionAuthority.attempts in
  getLogs send_error_without_logs = Some None
  /\ transactionLogs send_error_without_logs
     = LogsRejected (str "Cannot read properties of undefined (reading 'getTransaction')")
  /\ length (sentTransactions (effects script)) = 1%nat
  /\ outcome script
     = Throw (TypeError (str "Cannot read properties of undefined (reading 'getTransaction')")).
Proof.
  cbv zeta.
  pose proof (rotate_failure_without_logs_stops_the_dispatch unhealthy_world []
                (publicKey sample_wallet) sample_wallet sample_wallet
                (str "blockhash") 1 send_error_without_logs
                (str "Cannot read properties of undefined (reading 'getTransaction')")
                eq_refl eq_refl eq_refl eq_refl eq_refl) as Hthm.
  cbv zeta in Hthm. destruct Hthm as (_ & Hsent & Houtcome & _).
  split; [reflexivity|]. split; [reflexivity|].
  split; [rewrite Hsent; reflexivity | exact Houtcome].
Defined.

(** The rotation script itself, run against a node that refuses the first
    transaction without logs: one transaction is sent, and what the script
    throws is the [TypeError] of [getLogs], not the refusal of the node. *)
Example rotate_at_an_unhealthy_node :
  length (sentTransactions
            (effects (RotateCollectionAuthority.main unhealthy_world sample_rotate_argv)))
  = 1%nat
  /\ outcome (RotateCollectionAuthority.main unhealthy_world sample_rotate_argv)
     = Throw (TypeError (str "Cannot read properties of undefined (reading 'getTransaction')"))
  /\ outcome (RotateCollectionAuthority.main unhealthy_world sample_rotate_argv)
     <> Throw send_error_without_logs.
Proof. vm_compute. repeat split; discriminate. Qed.

(** ** The checks on creators (mint-object.js, utils.js) *)

Lemma checkCreators_total (creators : list Creator) :
  if MintObject.totalShare creators =? 100
  then MintObject.checkCreators creators = Normal creators
  else throws (MintObject.checkCreators creators) = true.
Proof.
  unfold MintObject.checkCreators.
  destruct creators as [|c rest].
  - reflexivity.
  - cbn [length Nat.eqb throw_if mbind Completion_bind].
    destruct (MintObject.totalShare (c :: rest) =? 100); reflexivity.
Qed.

Lemma PublicKey_equals_spec (a b : PublicKey) :
  PublicKey_equals a b = true <-> toBuffer a = toBuffer b.
Proof.
  unfold PublicKey_equals, Buffer_eqb. rewrite bool_decide_eq_true. reflexivity.
Qed.

Lemma PublicKey_equals_refl (a : PublicKey) : PublicKey_equals a a = true.
Proof. apply PublicKey_equals_spec. reflexivity. Qed.

(** The manifest creator is found exactly when its bytes are the bytes of
    the address of some creator of the list. *)
Lemma hasCreator_spec (creators : list Creator) (manifestCreator : PublicKey) :
  existsb (fun creator => PublicKey_equals (address creator) manifestCreator) creators = true
  <-> In (toBuffer manifestCreator) (map (fun creator => toBuffer (address creator)) creators).
Proof.
  rewrite existsb_exists, in_map_iff. split.
  - intros (c & Hin & Heq). exists c. split; [|exact Hin].
    apply PublicKey_equals_spec. exact Heq.
  - intros (c & Heq & Hin). exists c. split; [exact Hin|].
    apply PublicKey_equals_spec. exact Heq.
Qed.

Lemma ensureManifestCreatorPresent_cases
    (creators : list Creator) (manifestCreator : PublicKey) (manifestPda : option PublicKey) :
  if existsb (fun creator => PublicKey_equals (address creator) manifestCreator) creators
  then Utils.ensureManifestCreatorPresent creators manifestCreator manifestPda = Normal creators
  else throws (Utils.ensureManifestCreatorPresent creators manifestCreator manifestPda) = true.
Proof.
  unfold Utils.ensureManifestCreatorPresent.
  destruct (existsb _ creators); reflexivity.
Qed.

(** ** C4: the limits the mint script checks *)

Lemma validateInputs_throws (argv : MintObject.Argv) :
  throws (MintObject.validateInputs argv)
  = fee_rejected argv
    || (length (MintObject.manifest_uri argv) =? 0)%nat
    || (128 <? length (MintObject.manifest_uri argv))%nat
    || (length (MintObject.metadata_name argv) =? 0)%nat
    || (32 <? length (MintObject.metadata_name argv))%nat
    || (10 <? length (default [] (MintObject.metadata_symbol argv)))%nat
    || compute_options_rejected argv.
Proof.
  unfold MintObject.validateInputs, fee_rejected, compute_options_rejected.
  cbv zeta.
  repeat match goal with
         | |- context [throw_if ?c ?m] =>
             destruct c; cbn [throw_if mbind Completion_bind throws orb]; try reflexivity
         end.
Qed.

Lemma validateInputs_normal (argv : MintObject.Argv) :
  throws (MintObject.validateInputs argv) = false ->
  MintObject.validateInputs argv
  = Normal (default 0 (parseInt10 (MintObject.seller_fee_bps argv)),
            default 0 (parseInt10 (MintObject.compute_unit_limit argv)),
            default 0 (parseInt10 (MintObject.compute_unit_price argv))).
Proof.
  unfold MintObject.validateInputs. cbv zeta.
  repeat match goal with
         | |- context [throw_if ?c ?m] =>
             destruct c; cbn [throw_if mbind Completion_bind throws];
             [discriminate|]
         end.
  reflexivity.
Qed.

(** A script that throws on a pure prefix has done nothing. *)
Lemma mint_main_validation_failure (w : World) (argv : MintObject.Argv) :
  throws (MintObject.validateInputs argv) = true ->
  effects (MintObject.main w argv) = []
  /\ throws (outcome (MintObject.main w argv)) = true.
Proof.
  intros Hv. unfold MintObject.main.
  rewrite bind_pure. destruct (PublicKey_of_string _); [|split; reflexivity].
  rewrite bind_pure. destruct (MintObject.parseBigInt _ _); [|split; reflexivity].
  cbv zeta.
  rewrite bind_pure. destruct (MintObject.parseManifestHash _); [|split; reflexivity].
  rewrite bind_pure. destruct (MintObject.validateInputs argv); [discriminate|].
  split; reflexivity.
Qed.

(** [parseCreators] reads files but builds no transaction. *)
Lemma builds_nothing_bind {A B} (m : Script A) (f : A -> Script B) :
  builtTransactions (effects m) = [] ->
  (forall a, builtTransactions (effects (f a)) = []) ->
  builtTransactions (effects (m ≫= f)) = [].
Proof.
  intros Hm Hf. rewrite bind_cases. destruct (outcome m) as [a|e].
  - cbn [effects fst]. rewrite builtTransactions_app, Hm. apply Hf.
  - exact Hm.
Qed.

Lemma builds_nothing_pure {A} (c : Completion A) :
  builtTransactions (effects (pure c)) = [].
Proof. reflexivity. Qed.

Lemma parseCreators_builds_nothing (w : World) (opts : MintObject.CreatorOptions) :
  builtTransactions (effects (MintObject.parseCreators w opts)) = [].
Proof.
  unfold MintObject.parseCreators, MintObject.collectCreators.
  apply builds_nothing_bind; [|reflexivity].
  apply builds_nothing_bind; [reflexivity|]. intros fromFlags.
  apply builds_nothing_bind; [|reflexivity].
  destruct (MintObject.creators_json opts) as [[|c p]|]; try reflexivity.
  apply builds_nothing_bind; [reflexivity|]. intros present.
  destruct present; cbn [negb]; [|reflexivity].
  apply builds_nothing_bind; [reflexivity|]. intros contents.
  destruct (JSON_parse w contents) as [[entries|]|e]; reflexivity.
Qed.

Lemma mint_main_creator_limit (w : World) (argv : MintObject.Argv) (creators : list Creator) :
  outcome (MintObject.parseCreators w (MintObject.creator_options argv)) = Normal creators ->
  (MintObject.MAX_CREATOR_LIMIT < length creators)%nat ->
  builtTransactions (effects (MintObject.main w argv)) = []
  /\ throws (outcome (MintObject.main w argv)) = true.
Proof.
  intros Hparse Hlimit. unfold MintObject.main.
  rewrite bind_pure. destruct (PublicKey_of_string _); [|split; reflexivity].
  rewrite bind_pure. destruct (MintObject.parseBigInt _ _); [|split; reflexivity].
  cbv zeta.
  rewrite bind_pure. destruct (MintObject.parseManifestHash _); [|split; reflexivity].
  rewrite bind_pure. destruct (MintObject.validateInputs argv) as [[[fee limit] price]|];
    [|split; reflexivity].
  rewrite bind_cases, Hparse.
  rewrite bind_pure.
  unfold MintObject.checkCreatorLimit.
  destruct (Nat.ltb_spec MintObject.MAX_CREATOR_LIMIT (length creators)) as [_|Hle]; [|lia].
  cbn [throw_if effects outcome fst snd throws].
  rewrite app_nil_r. split; [apply parseCreators_builds_nothing | reflexivity].
Qed.

Lemma mint_main_creators_failure (w : World) (argv : MintObject.Argv) (e : JsError) :
  outcome (MintObject.parseCreators w (MintObject.creator_options argv)) = Throw e ->
  builtTransactions (effects (MintObject.main w argv)) = []
  /\ throws (outcome (MintObject.main w argv)) = true.
Proof.
  intros Hparse. unfold MintObject.main.
  rewrite bind_pure. destruct (PublicKey_of_string _); [|split; reflexivity].
  rewrite bind_pure. destruct (MintObject.parseBigInt _ _); [|split; reflexivity].
  cbv zeta.
  rewrite bind_pure. destruct (MintObject.parseManifestHash _); [|split; reflexivity].
  rewrite bind_pure. destruct (MintObject.validateInputs argv) as [[[fee limit] price]|];
    [|split; reflexivity].
  rewrite bind_cases, Hparse.
  cbn [effects outcome fst snd throws].
  split; [apply parseCreators_builds_nothing | reflexivity].
Qed.

(** C4, as the script has it.  The script measures the manifest URI, the
    metadata name and the metadata symbol by their [length], which counts
    UTF-16 code units, and reads the seller fee with [Number.parseInt].
    [validateInputs] throws exactly when the fee is not an integer of
    [0, 10000], the URI is empty or longer than 128, the name is empty or
    longer than 32, the symbol is longer than 10, or a compute-unit option is
    out of range; when it throws, [main] throws and has done nothing at all.
    Otherwise it returns the three numbers it read.  A creator list of more
    than five entries is rejected by [checkCreatorLimit], and a list that
    [parseCreators] refuses is rejected by [parseCreators]; in both cases
    [main] throws and no transaction has been built.  A list of at most five
    creators passes [checkCreatorLimit]. *)
Theorem mint_validation_limits (w : World) (argv : MintObject.Argv) :
  throws (MintObject.validateInputs argv)
  = fee_rejected argv
    || (length (MintObject.manifest_uri argv) =? 0)%nat
    || (128 <? length (MintObject.manifest_uri argv))%nat
    || (length (MintObject.metadata_name argv) =? 0)%nat
    || (32 <? length (MintObject.metadata_name argv))%nat
    || (10 <? length (default [] (MintObject.metadata_symbol argv)))%nat
    || compute_options_rejected argv
  /\ (if throws (MintObject.validateInputs argv)
      then effects (MintObject.main w argv) = []
           /\ throws (outcome (MintObject.main w argv)) = true
      else MintObject.validateInputs argv
           = Normal (default 0 (parseInt10 (MintObject.seller_fee_bps argv)),
                     default 0 (parseInt10 (MintObject.compute_unit_limit argv)),
                     default 0 (parseInt10 (MintObject.compute_unit_price argv))))
  /\ match outcome (MintObject.parseCreators w (MintObject.creator_options argv)) with
     | Normal creators =>
         if (5 <? length creators)%nat
         then throws (MintObject.checkCreatorLimit creators) = true
              /\ builtTransactions (effects (MintObject.main w argv)) = []
              /\ throws (outcome (MintObject.main w argv)) = true
         else MintObject.checkCreatorLimit creators = Normal tt
     | Throw _ =>
         builtTransactions (effects (MintObject.main w argv)) = []
         /\ throws (outcome (MintObject.main w argv)) = true
     end.
Proof.
  split; [apply validateInputs_throws|]. split.
  - destruct (throws (MintObject.validateInputs argv)) eqn:Hv.
    + apply mint_main_validation_failure. exact Hv.
    + apply validateInputs_normal. exact Hv.
  - destruct (outcome (MintObject.parseCreators w (MintObject.creator_options argv)))
      as [creators|e] eqn:Hparse.
    + unfold MintObject.checkCreatorLimit.
      change MintObject.MAX_CREATOR_LIMIT with 5%nat.
      destruct (Nat.ltb_spec 5 (length creators)) as [Hgt|Hle].
      * split; [reflexivity|].
        apply (mint_main_creator_limit w argv creators Hparse). exact Hgt.
      * reflexivity.
    + apply (mint_main_creators_failure w argv e Hparse).
Qed.

(** C4, counterexample to the limits being in bytes.  A manifest URI of one
    hundred times the letter e-acute has length 100 for the script and 200
    bytes in the instruction data; [validateInputs] accepts it, and in a world
    where the node confirms, [main] builds and sends the transaction. *)
Lemma uri_of_200_bytes_is_accepted :
  let uri := repeat 233 100 in
  let argv := sample_mint_argv uri in
  (128 < length (utf8Encode (MintObject.manifest_uri argv)))%nat
  /\ throws (MintObject.validateInputs argv) = false
  /\ length (builtTransactions (effects (MintObject.main sample_world argv))) = 1%nat
  /\ length (sentTransactions (effects (MintObject.main sample_world argv))) = 1%nat
  /\ outcome (MintObject.main sample_world argv) = Normal (str "signature").
Proof. vm_compute. repeat split; lia. Qed.

(** ** Creator shares: what a parsed list guarantees *)

Tactic Notation "invert_bind" hyp(H) "as" ident(a) ident(Ha) :=
  apply bind_normal_inv in H; destruct H as (a & Ha & H); cbn beta in H.

Tactic Notation "invert_bind" hyp(H) "as" "(" ident(a) "," ident(b) ")" ident(Ha) :=
  apply bind_normal_inv in H;
  let p := fresh "p" in
  destruct H as (p & Ha & H); destruct p as [a b]; cbn beta iota in H.

Lemma outcome_pure {A} (c : Completion A) : outcome (pure c) = c.
Proof. reflexivity. Qed.

Lemma outcome_perform {A} (ev : Effect) (c : Completion A) : outcome (perform ev c) = c.
Proof. reflexivity. Qed.

Lemma checkCreators_normal (collected creators : list Creator) :
  MintObject.checkCreators collected = Normal creators ->
  creators = collected /\ MintObject.totalShare creators = 100.
Proof.
  intros H. pose proof (checkCreators_total collected) as Hc.
  destruct (Z.eqb_spec (MintObject.totalShare collected) 100) as [Heq|Hne].
  - rewrite Hc in H. injection H as <-. split; [reflexivity | exact Heq].
  - rewrite H in Hc. discriminate Hc.
Qed.

Lemma parseCreators_total (w : World) (opts : MintObject.CreatorOptions) (creators : list Creator) :
  outcome (MintObject.parseCreators w opts) = Normal creators ->
  MintObject.totalShare creators = 100.
Proof.
  unfold MintObject.parseCreators. intros H.
  invert_bind H as collected Hcollected.
  rewrite outcome_pure in H. apply checkCreators_normal in H. apply H.
Qed.

(** ** C9: parsing a manifest hash *)

Lemma hex_digit_char_value (d c : Z) : hex_digit_char d c -> hex_value c = Some d.
Proof.
  unfold hex_digit_char, hex_value. intros [[Hd ->]|[Hd [->| ->]]].
  - destruct (Z.leb_spec 48 (48 + d)); [|lia].
    destruct (Z.leb_spec (48 + d) 57); [|lia]. cbn. f_equal. lia.
  - destruct (Z.leb_spec 48 (87 + d)); [|lia].
    destruct (Z.leb_spec (87 + d) 57); [lia|]. cbn [andb].
    destruct (Z.leb_spec 97 (87 + d)); [|lia].
    destruct (Z.leb_spec (87 + d) 102); [|lia]. cbn. f_equal. lia.
  - destruct (Z.leb_spec 48 (55 + d)); [|lia].
    destruct (Z.leb_spec (55 + d) 57); [lia|]. cbn [andb].
    destruct (Z.leb_spec 97 (55 + d)); [lia|]. cbn [andb].
    destruct (Z.leb_spec 65 (55 + d)); [|lia].
    destruct (Z.leb_spec (55 + d) 70); [|lia]. cbn. f_equal. lia.
Qed.

Lemma hex_value_range (c d : Z) :
  hex_value c = Some d -> (48 <= c <= 57 \/ 65 <= c <= 70 \/ 97 <= c <= 102) /\ 0 <= d < 16.
Proof.
  unfold hex_value.
  destruct (Z.leb_spec 48 c); destruct (Z.leb_spec c 57); cbn [andb];
    try (intros [= <-]; lia);
    destruct (Z.leb_spec 97 c); destruct (Z.leb_spec c 102); cbn [andb];
    try (intros [= <-]; lia);
    destruct (Z.leb_spec 65 c); destruct (Z.leb_spec c 70); cbn [andb];
    try (intros [= <-]; lia); discriminate.
Qed.

Lemma hex_char_not_whitespace (c d : Z) :
  hex_value c = Some d -> is_js_whitespace c = false.
Proof.
  intros H. apply hex_value_range in H. destruct H as [H _].
  destruct (is_js_whitespace c) eqn:E; [|reflexivity]. exfalso.
  unfold is_js_whitespace in E.
  repeat rewrite ?orb_true_iff, ?andb_true_iff, ?Z.eqb_eq, ?Z.leb_le in E. lia.
Qed.

Lemma hex_rendering_decode (b : Buffer) (s : jsstring) :
  hex_rendering b s ->
  hexDecode s = b
  /\ length s = (2 * length b)%nat
  /\ forallb (fun c => bool_decide (is_Some (hex_value c))) s = true
  /\ Forall is_byte b.
Proof.
  induction 1 as [|b bs c1 c2 s H1 H2 Hrest (IHd & IHl & IHh & IHb)].
  - repeat split; constructor.
  - pose proof (hex_digit_char_value _ _ H1) as Hv1.
    pose proof (hex_digit_char_value _ _ H2) as Hv2.
    assert (Hb : is_byte b).
    { apply hex_value_range in Hv1. destruct Hv1 as [_ Hr]. unfold is_byte.
      pose proof (Z.div_mod b 16 ltac:(lia)). pose proof (Z.mod_pos_bound b 16 ltac:(lia)). lia. }
    repeat split.
    + cbn [hexDecode]. rewrite Hv1, Hv2, IHd. f_equal.
      pose proof (Z.div_mod b 16 ltac:(lia)). lia.
    + cbn [length]. rewrite IHl. lia.
    + cbn [forallb]. rewrite Hv1, Hv2, IHh.
      rewrite !bool_decide_eq_true_2 by (eexists; reflexivity). reflexivity.
    + constructor; assumption.
Qed.

(** The lower-case rendering that [toString('hex')] produces is a rendering. *)
Lemma hexEncode_rendering (b : Buffer) : Forall is_byte b -> hex_rendering b (hexEncode b).
Proof.
  induction 1 as [|x xs Hx Hxs IH]; [constructor|].
  unfold hexEncode in *. cbn [flat_map app]. unfold is_byte in Hx.
  assert (Hq : 0 <= x / 16 < 16).
  { split; [apply Z.div_pos; lia | apply Z.div_lt_upper_bound; lia]. }
  pose proof (Z.mod_pos_bound x 16 ltac:(lia)) as Hr.
  constructor; [| |exact IH]; unfold hex_digit_char, hex_digit.
  - destruct (Z.ltb_spec (x / 16) 10); [left|right]; split; lia.
  - destruct (Z.ltb_spec (x mod 16) 10); [left|right]; split; lia.
Qed.

Lemma trimStart_whitespace (ws s : jsstring) :
  forallb is_js_whitespace ws = true -> trimStart (ws ++ s) = trimStart s.
Proof.
  induction ws as [|c ws IH]; [reflexivity|].
  cbn [forallb app trimStart]. intros H. apply andb_true_iff in H. destruct H as [Hc Hws].
  rewrite Hc. apply IH. exact Hws.
Qed.

Lemma trimStart_stops (c : Z) (s : jsstring) :
  is_js_whitespace c = false -> trimStart (c :: s) = c :: s.
Proof. intros H. cbn [trimStart]. rewrite H. reflexivity. Qed.

Lemma forallb_rev {A} (f : A -> bool) (l : list A) : forallb f (rev l) = forallb f l.
Proof.
  induction l as [|x l IH]; [reflexivity|].
  cbn [rev forallb]. rewrite forallb_app, IH. cbn [forallb].
  rewrite andb_true_r. apply andb_comm.
Qed.

(** [trim] removes white space around a core that starts and ends with
    characters that are not white space. *)
Lemma trim_core (leading trailing middle : jsstring) (first last : Z) :
  forallb is_js_whitespace leading = true ->
  forallb is_js_whitespace trailing = true ->
  is_js_whitespace first = false ->
  is_js_whitespace last = false ->
  trim (leading ++ (first :: middle ++ [last]) ++ trailing) = first :: middle ++ [last].
Proof.
  intros Hl Ht Hf Hla. unfold trim, trimEnd.
  rewrite trimStart_whitespace by exact Hl.
  cbn [app]. rewrite trimStart_stops by exact Hf.
  change (first :: (middle ++ [last]) ++ trailing)
    with ((first :: middle ++ [last]) ++ trailing).
  rewrite rev_app_distr.
  rewrite trimStart_whitespace by (rewrite forallb_rev; exact Ht).
  change (first :: middle ++ [last]) with ((first :: middle) ++ [last]).
  rewrite rev_app_distr. cbn [rev app].
  rewrite trimStart_stops by exact Hla.
  change (last :: rev middle ++ [first]) with ([last] ++ rev (first :: middle)).
  rewrite rev_app_distr, rev_involutive. reflexivity.
Qed.

Lemma parseManifestHash_same (input : jsstring) :
  MintObject.parseManifestHash input = UpdateManifest.parseManifestHash input.
Proof. reflexivity. Qed.

Lemma parseManifestHash_cleaned (input : jsstring) :
  UpdateManifest.parseManifestHash input
  = if bool_decide (input = []) then Throw (Error (str "A manifest hash must be provided."))
    else if negb (length (cleanedHash input) =? 64)%nat
    then Throw (Error (str "Manifest hash must be provided as a 32-byte hex string."))
    else if negb (is_hex_string (cleanedHash input))
    then Throw (Error (str "Manifest hash must only contain hexadecimal characters."))
    else Normal (hexDecode (cleanedHash input)).
Proof. reflexivity. Qed.

Lemma parseManifestHash_throws (input : jsstring) :
  throws (UpdateManifest.parseManifestHash input) = negb (is_64_hex (cleanedHash input)).
Proof.
  rewrite parseManifestHash_cleaned. unfold is_64_hex.
  case_bool_decide as Hempty; [subst input; reflexivity|].
  destruct (length (cleanedHash input) =? 64)%nat; [|reflexivity].
  destruct (is_hex_string (cleanedHash input)); reflexivity.
Qed.

Lemma nonempty_last {A} (l : list A) : l <> [] -> exists init last, l = init ++ [last].
Proof.
  intros H. destruct (exists_last H) as (init & last & ->). exists init, last. reflexivity.
Qed.

(** The trimmed, de-prefixed form of a rendering of 32 bytes, with or without
    prefix and surrounding white space, is the rendering. *)
Lemma cleanedHash_of_rendering (b : Buffer) (rendering leading trailing prefix : jsstring) :
  length b = 32%nat ->
  hex_rendering b rendering ->
  prefix = [] \/ prefix = str "0x" \/ prefix = str "0X" ->
  forallb is_js_whitespace leading = true ->
  forallb is_js_whitespace trailing = true ->
  cleanedHash (leading ++ prefix ++ rendering ++ trailing) = rendering.
Proof.
  intros Hlen Hrender Hprefix Hleading Htrailing.
  destruct (hex_rendering_decode b rendering Hrender) as (_ & Hl & Hhex & _).
  rewrite Hlen in Hl.
  destruct rendering as [|c1 [|c2 rest]]; try discriminate Hl.
  cbn [forallb] in Hhex. apply andb_true_iff in Hhex. destruct Hhex as [Hc1 Hhex].
  apply andb_true_iff in Hhex. destruct Hhex as [Hc2 Hrest].
  apply bool_decide_eq_true in Hc1. destruct Hc1 as [d1 Hd1].
  apply bool_decide_eq_true in Hc2. destruct Hc2 as [d2 Hd2].
  destruct (nonempty_last (c2 :: rest)) as (init & last & Hsplit); [discriminate|].
  assert (Hlast : is_js_whitespace last = false).
  { assert (Hin : In last (c2 :: rest)) by (rewrite Hsplit; apply in_or_app; right; left; reflexivity).
    assert (Hall : forallb (fun c => bool_decide (is_Some (hex_value c))) (c2 :: rest) = true).
    { cbn [forallb]. rewrite Hrest, bool_decide_eq_true_2 by (eexists; exact Hd2). reflexivity. }
    rewrite forallb_forall in Hall. specialize (Hall last Hin).
    apply bool_decide_eq_true in Hall. destruct Hall as [dl Hdl].
    exact (hex_char_not_whitespace _ _ Hdl). }
  pose proof (hex_char_not_whitespace _ _ Hd1) as Hfirst.
  apply hex_value_range in Hd2. destruct Hd2 as [Hc2range _].
  unfold cleanedHash.
  destruct Hprefix as [->|[->| ->]].
  - replace (leading ++ [] ++ (c1 :: c2 :: rest) ++ trailing)
      with (leading ++ (c1 :: init ++ [last]) ++ trailing)
      by (rewrite <- Hsplit; reflexivity).
    rewrite trim_core by assumption.
    rewrite <- Hsplit. change (str "0x") with [48; 120]. change (str "0X") with [48; 88].
    cbn [startsWith].
    destruct (Z.eqb_spec c2 120); [lia|]. destruct (Z.eqb_spec c2 88); [lia|].
    rewrite !andb_false_r. reflexivity.
  - change (str "0x") with [48; 120].
    replace (leading ++ [48; 120] ++ (c1 :: c2 :: rest) ++ trailing)
      with (leading ++ (48 :: (120 :: c1 :: init) ++ [last]) ++ trailing)
      by (cbn [app]; rewrite <- Hsplit; reflexivity).
    rewrite trim_core by (assumption || reflexivity).
    cbn [app]. rewrite <- Hsplit. reflexivity.
  - change (str "0X") with [48; 88].
    replace (leading ++ [48; 88] ++ (c1 :: c2 :: rest) ++ trailing)
      with (leading ++ (48 :: (88 :: c1 :: init) ++ [last]) ++ trailing)
      by (cbn [app]; rewrite <- Hsplit; reflexivity).
    rewrite trim_core by (assumption || reflexivity).
    cbn [app]. rewrite <- Hsplit. reflexivity.
Qed.

(** C9.  For a buffer [b] of 32 bytes and any hexadecimal rendering of it
    (each digit in upper or lower case), optionally prefixed by 0x or 0X and
    surrounded by white space, [parseManifestHash] returns exactly [b].  And
    for every input, [parseManifestHash] throws exactly when the trimmed,
    de-prefixed form of the input is not 64 hexadecimal characters.  Both hold
    for the copy of the function in update-manifest.js and for the one in
    mint-object.js. *)
Theorem parseManifestHash_roundtrip
    (b : Buffer) (rendering leading trailing prefix input : jsstring)
    (Hlength : length b = 32%nat)
    (Hrendering : hex_rendering b rendering)
    (Hprefix : prefix = [] \/ prefix = str "0x" \/ prefix = str "0X")
    (Hleading : forallb is_js_whitespace leading = true)
    (Htrailing : forallb is_js_whitespace trailing = true) :
  UpdateManifest.parseManifestHash (leading ++ prefix ++ rendering ++ trailing) = Normal b
  /\ MintObject.parseManifestHash (leading ++ prefix ++ rendering ++ trailing) = Normal b
  /\ throws (UpdateManifest.parseManifestHash input) = negb (is_64_hex (cleanedHash input))
  /\ throws (MintObject.parseManifestHash input) = negb (is_64_hex (cleanedHash input)).
Proof.
  assert (Hparse : UpdateManifest.parseManifestHash (leading ++ prefix ++ rendering ++ trailing)
                   = Normal b).
  { rewrite parseManifestHash_cleaned.
    rewrite (cleanedHash_of_rendering b) by assumption.
    destruct (hex_rendering_decode b rendering Hrendering) as (Hdec & Hl & Hhex & _).
    rewrite Hlength in Hl.
    case_bool_decide as Hnil.
    { apply (f_equal (@length Z)) in Hnil. rewrite !length_app, Hl in Hnil.
      cbn in Hnil. lia. }
    rewrite Hl. change (negb (2 * 32 =? 64)%nat) with false. cbv iota.
    unfold is_hex_string. rewrite Hhex.
    case_bool_decide as Hempty; [subst rendering; discriminate Hl|].
    cbn [negb andb]. rewrite Hdec. reflexivity. }
  repeat split.
  - exact Hparse.
  - rewrite parseManifestHash_same. exact Hparse.
  - apply parseManifestHash_throws.
  - rewrite parseManifestHash_same. apply parseManifestHash_throws.
Qed.

Lemma parseManifestHash_roundtrip_witness :
  let b := [0; 17; 34; 51; 68; 85; 102; 119; 136; 153; 170; 187; 204; 221; 238; 255;
            1; 35; 69; 103; 137; 171; 205; 239; 254; 220; 186; 152; 118; 84; 50; 16] in
  UpdateManifest.parseManifestHash (str "  " ++ str "0X" ++ hexEncode b ++ [10]) = Normal b
  /\ MintObject.parseManifestHash (str "  " ++ str "0X" ++ hexEncode b ++ [10]) = Normal b
  /\ throws (UpdateManifest.parseManifestHash (str "0x1234"))
     = negb (is_64_hex (cleanedHash (str "0x1234")))
  /\ throws (MintObject.parseManifestHash (str "0x1234"))
     = negb (is_64_hex (cleanedHash (str "0x1234"))).
Proof.
  intros b.
  apply (parseManifestHash_roundtrip b (hexEncode b) (str "  ") [10] (str "0X") (str "0x1234")).
  - reflexivity.
  - apply hexEncode_rendering. subst b. repeat constructor; unfold is_byte; lia.
  - right. right. reflexivity.
  - reflexivity.
  - reflexivity.
Defined.

(** ** C6: derived addresses *)

Lemma le_bytes_length (n : nat) (v : Z) : length (le_bytes n v) = n.
Proof.
  revert v. induction n as [|n IH]; intros v; [reflexivity|].
  cbn [le_bytes length]. rewrite IH. reflexivity.
Qed.

Lemma le_bytes_bytes (n : nat) (v : Z) : Forall is_byte (le_bytes n v).
Proof.
  revert v. induction n as [|n IH]; intros v; constructor.
  - unfold is_byte. apply Z.mod_pos_bound. lia.
  - apply IH.
Qed.

Lemma le_value_le_bytes (n : nat) (v : Z) :
  le_value (le_bytes n v) = v mod 2 ^ (8 * Z.of_nat n).
Proof.
  revert v. induction n as [|n IH]; intros v.
  - cbn. rewrite Z.mod_1_r. reflexivity.
  - cbn [le_bytes le_value fold_right]. fold (le_value (le_bytes n (v / 256))).
    rewrite IH.
    replace (8 * Z.of_nat (S n)) with (8 + 8 * Z.of_nat n) by lia.
    rewrite Z.pow_add_r by lia. change (2 ^ 8) with 256.
    rewrite Z.rem_mul_r by lia. reflexivity.
Qed.

Lemma writeUIntLE_in_range (width : nat) (v : Z) :
  0 <= v < 2 ^ (8 * Z.of_nat width) -> writeUIntLE width v = Normal (le_bytes width v).
Proof.
  intros [Hlo Hhi]. unfold writeUIntLE.
  destruct (Z.leb_spec 0 v); [|lia]. destruct (Z.ltb_spec v (2 ^ (8 * Z.of_nat width))); [|lia].
  reflexivity.
Qed.

(** C6.  Each address is [findProgramAddressSync] applied to fixed labels
    and the parent identifier, under the program id:
    - config: ["config", namespace];
    - mint authority: ["auth", config];
    - manifest: ["object_manifest", config, object id], the object id (a u64)
      written as eight little-endian bytes;
    - object mint: ["object_mint", manifest].
    The copies of the manifest and mint derivations in mint-object.js and in
    update-manifest.js agree.  Two derivations, in worlds with the same
    derivation function, from keys with the same bytes and the same object
    id, give the same address and bump. *)
Theorem derived_addresses_are_deterministic
    (w w' : World) (namespace namespace' config config' manifest manifest' : PublicKey)
    (objectId : Z)
    (Hu64 : 0 <= objectId < 2 ^ 64)
    (Hfind : findProgramAddressSync w' = findProgramAddressSync w)
    (Hnamespace : toBuffer namespace' = toBuffer namespace)
    (Hconfig : toBuffer config' = toBuffer config)
    (Hmanifest : toBuffer manifest' = toBuffer manifest) :
  Utils.deriveConfigPda w namespace
  = findPda w [utf8Encode (str "config"); toBuffer namespace] OGAL_PROGRAM_ID
  /\ Utils.deriveAuthPda w config
     = findPda w [utf8Encode (str "auth"); toBuffer config] OGAL_PROGRAM_ID
  /\ UpdateManifest.deriveManifestPda w config objectId
     = findPda w [utf8Encode (str "object_manifest"); toBuffer config; le_bytes 8 objectId]
         OGAL_PROGRAM_ID
  /\ (length (le_bytes 8 objectId) = 8%nat
      /\ Forall is_byte (le_bytes 8 objectId)
      /\ le_value (le_bytes 8 objectId) = objectId)
  /\ UpdateManifest.deriveObjectMintPda w manifest
     = findPda w [utf8Encode (str "object_mint"); toBuffer manifest] OGAL_PROGRAM_ID
  /\ MintObject.deriveManifestPda w config objectId
     = UpdateManifest.deriveManifestPda w config objectId
  /\ MintObject.deriveObjectMintPda w manifest = UpdateManifest.deriveObjectMintPda w manifest
  /\ outcome (Utils.deriveConfigPda w' namespace') = outcome (Utils.deriveConfigPda w namespace)
  /\ outcome (Utils.deriveAuthPda w' config') = outcome (Utils.deriveAuthPda w config)
  /\ outcome (UpdateManifest.deriveManifestPda w' config' objectId)
     = outcome (UpdateManifest.deriveManifestPda w config objectId)
  /\ outcome (UpdateManifest.deriveObjectMintPda w' manifest')
     = outcome (UpdateManifest.deriveObjectMintPda w manifest).
Proof.
  assert (Hderive : forall world cfg,
             UpdateManifest.deriveManifestPda world cfg objectId
             = findPda world [utf8Encode (str "object_manifest"); toBuffer cfg; le_bytes 8 objectId]
                 OGAL_PROGRAM_ID).
  { intros world cfg. unfold UpdateManifest.deriveManifestPda.
    rewrite writeUIntLE_in_range by exact Hu64. rewrite bind_pure. reflexivity. }
  split; [reflexivity|]. split; [reflexivity|]. split; [apply Hderive|].
  split.
  { split; [apply le_bytes_length|]. split; [apply le_bytes_bytes|].
    rewrite le_value_le_bytes. apply Z.mod_small. exact Hu64. }
  split; [reflexivity|].
  split.
  { unfold MintObject.deriveManifestPda, UpdateManifest.deriveManifestPda,
      MintObject.MANIFEST_SEED, UpdateManifest.MANIFEST_SEED. reflexivity. }
  split.
  { unfold MintObject.deriveObjectMintPda, UpdateManifest.deriveObjectMintPda,
      MintObject.MINT_SEED, UpdateManifest.MINT_SEED. reflexivity. }
  split.
  { unfold Utils.deriveConfigPda, findPda. cbn [outcome perform snd].
    rewrite Hfind, Hnamespace. reflexivity. }
  split.
  { unfold Utils.deriveAuthPda, findPda. cbn [outcome perform snd].
    rewrite Hfind, Hconfig. reflexivity. }
  split.
  { rewrite !Hderive. unfold findPda. cbn [outcome perform snd].
    rewrite Hfind, Hconfig. reflexivity. }
  unfold UpdateManifest.deriveObjectMintPda, findPda. cbn [outcome perform snd].
  rewrite Hfind, Hmanifest. reflexivity.
Qed.

Lemma derived_addresses_witness :
  let k := publicKey sample_wallet in
  0 <= 7 < 2 ^ 64
  /\ UpdateManifest.deriveManifestPda sample_world k 7
     = findPda sample_world
         [utf8Encode (str "object_manifest"); toBuffer k; le_bytes 8 7] OGAL_PROGRAM_ID
  /\ le_value (le_bytes 8 7) = 7
  /\ outcome (Utils.deriveConfigPda sample_world k) = outcome (Utils.deriveConfigPda sample_world k).
Proof.
  intros k.
  assert (Hu64 : 0 <= 7 < 2 ^ 64) by lia.
  pose proof (derived_addresses_are_deterministic sample_world sample_world k k k k k k 7
                Hu64 eq_refl eq_refl eq_refl eq_refl) as H.
  destruct H as (_ & _ & Hmanifest & (_ & _ & Hvalue) & _ & _ & _ & Hconfig & _).
  split; [exact Hu64|].
  split; [exact Hmanifest|].
  split; [exact Hvalue | exact Hconfig].
Defined.

(** ** C7: who may initialize a namespace *)

(** C7.  [initialize] fails with the authorization error exactly when the
    signing authority is neither the fee payer nor on the allow-list; the
    ledger is then untouched (an error carries no ledger), so neither the
    Configuration nor the Mint Authority is created.  When the authority is
    the payer or is allow-listed, and the namespace has no Configuration yet,
    both accounts are created, and nothing else is done. *)
Theorem initialize_requires_authorization
    (pda : list Buffer -> Program.Address) (ALLOWED_DEPLOYERS : list Program.Address)
    (authority payer namespace : Program.Address) (l : Program.Ledger) :
  let cfg := Program.config_address pda namespace in
  let auth := Program.auth_address pda cfg in
  let result := Program.run (Program.initialize pda ALLOWED_DEPLOYERS authority payer namespace) l in
  (result = Program.Err Program.UnauthorizedInitializer
   <-> authority <> payer /\ authority ∉ ALLOWED_DEPLOYERS)
  /\ (if bool_decide (authority = payer) || bool_decide (authority ∈ ALLOWED_DEPLOYERS)
      then match Program.configs l !! cfg with
           | Some _ => result = Program.Err Program.AccountAlreadyInUse
           | None =>
               exists l',
                 result = Program.Ok l'
                 /\ Program.configs l'
                    = <[cfg := Program.mkConfig authority namespace false 0]> (Program.configs l)
                 /\ Program.authorities l' = {[auth]} ∪ Program.authorities l
                 /\ Program.actions l'
                    = Program.actions l
                      ++ [Program.CreateConfiguration cfg; Program.CreateMintAuthority auth]
                 /\ Program.manifests l' = Program.manifests l
                 /\ Program.mints l' = Program.mints l
           end
      else result = Program.Err Program.UnauthorizedInitializer).
Proof.
  intros cfg auth result. subst result.
  unfold Program.initialize, Program.run, Program.require, Program.address_eqb,
    Program.address_in.
  fold cfg. fold auth.
  unfold mbind, mret, Program.Tx_bind, Program.Tx_ret, Program.fail, Program.get,
    Program.modify.
  repeat case_bool_decide; cbn [orb]; cbv beta iota.
  all: try (destruct (Program.configs l !! cfg) eqn:Hcfg;
            [ rewrite bool_decide_eq_false_2 by discriminate
            | rewrite bool_decide_eq_true_2 by reflexivity ]; cbv beta iota).
  all: split; [split; [try discriminate; intros _; split; assumption | intros [? ?]; tauto]|].
  all: try reflexivity.
  all: eexists; split; [reflexivity|]; cbn; rewrite <- ?app_assoc; repeat split; reflexivity.
Qed.

(** ** The registry program: stepping through an instruction *)

Lemma tx_bind_ok {A B} (m : Program.Tx A) (f : A -> Program.Tx B)
    (l l' : Program.Ledger) (b : B) :
  (m ≫= f) l = Program.Ok (b, l') ->
  exists a l1, m l = Program.Ok (a, l1) /\ f a l1 = Program.Ok (b, l').
Proof.
  unfold mbind, Program.Tx_bind. destruct (m l) as [[a l1]|e]; [|discriminate].
  intros H. exists a, l1. split; [reflexivity | exact H].
Qed.

Lemma tx_require_ok (cond : bool) (e : Program.ProgramError) (l l' : Program.Ledger) (u : unit) :
  Program.require cond e l = Program.Ok (u, l') -> cond = true /\ l' = l.
Proof.
  unfold Program.require. destruct cond; [|discriminate].
  intros [= _ <-]. split; reflexivity.
Qed.

Lemma tx_get_ok (l l' l0 : Program.Ledger) :
  Program.get l = Program.Ok (l0, l') -> l0 = l /\ l' = l.
Proof. intros [= <- <-]. split; reflexivity. Qed.

Lemma tx_modify_ok (f : Program.Ledger -> Program.Ledger) (l l' : Program.Ledger) (u : unit) :
  Program.modify f l = Program.Ok (u, l') -> l' = f l.
Proof. intros [= _ <-]. reflexivity. Qed.

Tactic Notation "tx_step" hyp(H) "as" ident(a) ident(l1) ident(Ha) :=
  apply tx_bind_ok in H; destruct H as (a & l1 & Ha & H); cbn beta in H.

(** ** C1: a repeated mint *)

Lemma ensure_manifest_present
    (pda : list Buffer -> Program.Address) (args : Program.MintArgs)
    (cfg addr : Program.Address) (l l1 : Program.Ledger) (m m' : Program.Manifest) :
  Program.manifests l !! addr = Some m ->
  Program.ensure_manifest pda args cfg addr l = Program.Ok (m', l1) ->
  m' = m /\ l1 = l.
Proof.
  intros Hm H. unfold Program.ensure_manifest in H.
  tx_step H as l0 l2 Hget. apply tx_get_ok in Hget. destruct Hget as [-> ->].
  rewrite Hm in H.
  tx_step H as u1 l3 Hinit. apply tx_require_ok in Hinit. destruct Hinit as [_ ->].
  tx_step H as u2 l4 Hmatch. apply tx_require_ok in Hmatch. destruct Hmatch as [_ ->].
  injection H as <- <-. split; reflexivity.
Qed.

Lemma ensure_mint_present
    (auth mint_addr : Program.Address) (l l1 : Program.Ledger) (u : unit) :
  is_Some (Program.mints l !! mint_addr) ->
  Program.ensure_mint auth mint_addr l = Program.Ok (u, l1) ->
  l1 = l.
Proof.
  intros [mt Hmt] H. unfold Program.ensure_mint in H.
  tx_step H as l0 l2 Hget. apply tx_get_ok in Hget. destruct Hget as [-> ->].
  rewrite Hmt in H. apply tx_require_ok in H. apply H.
Qed.

Lemma ensure_token_account_cases
    (associated_token_address : Program.Address -> Program.Address -> Program.Address)
    (recipient mint_addr ata : Program.Address) (l l1 : Program.Ledger) :
  Program.ensure_token_account associated_token_address recipient mint_addr l
  = Program.Ok (ata, l1) ->
  ata = associated_token_address recipient mint_addr
  /\ (l1 = l
      \/ l1 = Program.record (Program.CreateTokenAccount ata)
                (Program.set_token_accounts
                   (insert ata (Program.mkTokenAccount recipient mint_addr 0)) l)).
Proof.
  intros H. unfold Program.ensure_token_account in H.
  tx_step H as l0 l2 Hget. apply tx_get_ok in Hget. destruct Hget as [-> ->].
  cbv zeta in H.
  destruct (Program.token_accounts l !! associated_token_address recipient mint_addr).
  - tx_step H as u1 l3 Hreq. apply tx_require_ok in Hreq. destruct Hreq as [_ ->].
    injection H as <- <-. split; [reflexivity | left; reflexivity].
  - tx_step H as u1 l3 Hmod. apply tx_modify_ok in Hmod. subst l3.
    tx_step H as u2 l4 Hrec. apply tx_modify_ok in Hrec. subst l4.
    injection H as <- <-. split; [reflexivity | right; reflexivity].
Qed.

Lemma issue_token_result (mint_addr ata : Program.Address) (l l1 : Program.Ledger) (u : unit) :
  Program.issue_token mint_addr ata l = Program.Ok (u, l1) ->
  l1 = Program.record (Program.MintTo mint_addr ata)
         (Program.set_token_accounts
            (alter (fun a => Program.mkTokenAccount (Program.token_owner a)
                               (Program.token_mint a) (Program.amount a + 1)) ata)
            (Program.set_mints
               (alter (fun mt => Program.mkMint (Program.mint_authority mt)
                                   (Program.freeze_authority mt) (Program.decimals mt)
                                   (Program.supply mt + 1)) mint_addr) l)).
Proof.
  intros H. unfold Program.issue_token in H.
  tx_step H as u1 l2 H1. apply tx_modify_ok in H1. subst l2.
  tx_step H as u2 l3 H2. apply tx_modify_ok in H2. subst l3.
  apply tx_modify_ok in H. exact H.
Qed.

Lemma bookkeeping_result
    (args : Program.MintArgs) (cfg addr : Program.Address) (m : Program.Manifest)
    (l l1 : Program.Ledger) (u : unit) :
  Program.bookkeeping args cfg addr m l = Program.Ok (u, l1) ->
  l1 = Program.emit
         (Program.MintCompleted cfg addr (Program.mint m) (Program.arg_recipient args)
            (Program.arg_object_id args))
         (Program.set_configs
            (alter (fun c => Program.mkConfig (Program.cfg_authority c) (Program.cfg_namespace c)
                               (Program.cfg_paused c) (Program.cfg_object_count c + 1)) cfg)
            (Program.set_manifests
               (alter (fun m => Program.mkManifest (Program.object_id m) (Program.config m)
                                  (Program.mint m) (Program.creator m) (Program.manifest_hash m)
                                  (Program.metadata_uri m) (Program.is_active m) true
                                  (Program.initialized m)) addr) l)).
Proof.
  intros H. unfold Program.bookkeeping in H.
  tx_step H as u1 l2 H1. apply tx_modify_ok in H1. subst l2.
  tx_step H as u2 l3 H2. apply tx_modify_ok in H2. subst l3.
  apply tx_modify_ok in H. exact H.
Qed.

Lemma set_minted_noop (addr : Program.Address) (m : Program.Manifest)
    (manifests : gmap Program.Address Program.Manifest) :
  manifests !! addr = Some m ->
  Program.minted m = true ->
  alter (fun m => Program.mkManifest (Program.object_id m) (Program.config m)
                    (Program.mint m) (Program.creator m) (Program.manifest_hash m)
                    (Program.metadata_uri m) (Program.is_active m) true
                    (Program.initialized m)) addr manifests = manifests.
Proof.
  intros Hm Hminted. apply alter_id. intros x Hx.
  rewrite Hm in Hx. injection Hx as <-. destruct m. cbn in *. subst. reflexivity.
Qed.

(** C1.  In a consistent ledger, when the manifest of the object is already
    minted and [mint_object_nft] is called again for the same object and
    succeeds, the steps it performs contain none of the first-mint steps
    (metadata creation, master-edition creation, sized or unsized collection
    verification) and no creation of a mint; the manifests are exactly what
    they were (the one explicit update, setting [minted], changes nothing);
    the set of mints, the metadata records, the master editions and the
    collection anchors are what they were. *)
Theorem repeated_mint_is_idempotent
    (pda : list Buffer -> Program.Address)
    (associated_token_address : Program.Address -> Program.Address -> Program.Address)
    (args : Program.MintArgs) (l l' : Program.Ledger) (m : Program.Manifest)
    (Hmanifest : Program.manifests l
                 !! Program.manifest_address pda
                      (Program.config_address pda (Program.arg_namespace args))
                      (Program.arg_object_id args) = Some m)
    (Hminted : Program.minted m = true)
    (Hconsistent : Program.consistent l)
    (Hmint : Program.run (Program.mint_object_nft pda associated_token_address args) l
             = Program.Ok l') :
  exists performed,
    Program.actions l' = Program.actions l ++ performed
    /\ forallb (fun a => negb (Program.is_first_mint_step a) && negb (Program.is_mint_creation a))
         performed = true
    /\ Program.manifests l' = Program.manifests l
    /\ dom (Program.mints l') = dom (Program.mints l)
    /\ Program.metadata_records l' = Program.metadata_records l
    /\ Program.master_editions l' = Program.master_editions l
    /\ Program.anchors l' = Program.anchors l.
Proof.
  pose proof (Hconsistent _ m Hmanifest Hminted) as Hexists.
  unfold Program.run in Hmint.
  destruct (Program.mint_object_nft pda associated_token_address args l)
    as [[u lf]|e] eqn:H; [|discriminate].
  injection Hmint as ->.
  unfold Program.mint_object_nft in H.
  tx_step H as l0 l1 Hget. apply tx_get_ok in Hget. destruct Hget as [-> ->].
  cbv zeta in H.
  tx_step H as c l2 Hcfg.
  assert (l2 = l) as ->.
  { destruct (Program.configs l !! _); [injection Hcfg as _ <-; reflexivity | discriminate]. }
  tx_step H as u1 l3 Hpaused. apply tx_require_ok in Hpaused. destruct Hpaused as [_ ->].
  tx_step H as m' l4 Hensure.
  destruct (ensure_manifest_present _ _ _ _ _ _ _ _ Hmanifest Hensure) as [-> ->].
  tx_step H as u2 l5 Hem. apply (ensure_mint_present _ _ _ _ _ Hexists) in Hem. subst l5.
  tx_step H as ata l6 Hata. apply ensure_token_account_cases in Hata. destruct Hata as [Hata Hl6].
  rewrite Hminted in H. cbn [negb Program.when] in H.
  tx_step H as u3 l7 Hskip1. injection Hskip1 as _ <-.
  tx_step H as u4 l8 Hissue. apply issue_token_result in Hissue.
  tx_step H as u5 l9 Hskip2. injection Hskip2 as _ <-.
  tx_step H as u6 l10 Hskip3. injection Hskip3 as _ <-.
  apply bookkeeping_result in H.
  subst l' l8.
  destruct Hl6 as [->| ->].
  - exists [Program.MintTo (Program.mint m) ata].
    cbn. rewrite dom_alter_L.
    rewrite (set_minted_noop _ m) by assumption.
    repeat split; reflexivity.
  - exists [Program.CreateTokenAccount ata; Program.MintTo (Program.mint m) ata].
    cbn. rewrite dom_alter_L, <- app_assoc.
    rewrite (set_minted_noop _ m) by assumption.
    repeat split; reflexivity.
Qed.

(** *** Consistency is kept by every instruction *)

Lemma consistent_empty : Program.consistent Program.empty_ledger.
Proof. intros addr m Hm. cbn in Hm. rewrite lookup_empty in Hm. discriminate. Qed.

Lemma consistent_initialize
    (pda : list Buffer -> Program.Address) (ALLOWED_DEPLOYERS : list Program.Address)
    (authority payer namespace : Program.Address) (l l' : Program.Ledger) :
  Program.run (Program.initialize pda ALLOWED_DEPLOYERS authority payer namespace) l
  = Program.Ok l' ->
  Program.consistent l -> Program.consistent l'.
Proof.
  intros Hrun Hc. unfold Program.run in Hrun.
  destruct (Program.initialize pda ALLOWED_DEPLOYERS authority payer namespace l)
    as [[u lf]|e] eqn:H; [|discriminate].
  injection Hrun as ->.
  unfold Program.initialize in H.
  tx_step H as u1 l1 Hauth. apply tx_require_ok in Hauth. destruct Hauth as [_ ->].
  tx_step H as l0 l2 Hget. apply tx_get_ok in Hget. destruct Hget as [-> ->].
  cbv zeta in H.
  tx_step H as u2 l3 Hfree. apply tx_require_ok in Hfree. destruct Hfree as [_ ->].
  tx_step H as u3 l4 H1. apply tx_modify_ok in H1. subst l4.
  tx_step H as u4 l5 H2. apply tx_modify_ok in H2. subst l5.
  tx_step H as u5 l6 H3. apply tx_modify_ok in H3. subst l6.
  apply tx_modify_ok in H. subst l'. exact Hc.
Qed.

Lemma ensure_manifest_cases
    (pda : list Buffer -> Program.Address) (args : Program.MintArgs)
    (cfg addr : Program.Address) (l l1 : Program.Ledger) (m : Program.Manifest) :
  Program.ensure_manifest pda args cfg addr l = Program.Ok (m, l1) ->
  Program.manifests l1 !! addr = Some m
  /\ Program.mints l1 = Program.mints l
  /\ (forall other, other <> addr -> Program.manifests l1 !! other = Program.manifests l !! other)
  /\ (Program.manifests l !! addr = Some m \/ Program.minted m = false).
Proof.
  intros H. unfold Program.ensure_manifest in H.
  tx_step H as l0 l2 Hget. apply tx_get_ok in Hget. destruct Hget as [-> ->].
  destruct (Program.manifests l !! addr) as [m0|] eqn:Hm.
  - tx_step H as u1 l3 Hinit. apply tx_require_ok in Hinit. destruct Hinit as [_ ->].
    tx_step H as u2 l4 Hmatch. apply tx_require_ok in Hmatch. destruct Hmatch as [_ ->].
    injection H as <- <-. repeat split; auto.
  - cbv zeta in H.
    tx_step H as u1 l3 Hmod. apply tx_modify_ok in Hmod. subst l3.
    tx_step H as u2 l4 Hrec. apply tx_modify_ok in Hrec. subst l4.
    injection H as <- <-. cbn. repeat split.
    + apply lookup_insert_eq.
    + intros other Hne. apply lookup_insert_ne. congruence.
    + right. reflexivity.
Qed.

Lemma ensure_mint_cases (auth mint_addr : Program.Address) (l l1 : Program.Ledger) (u : unit) :
  Program.ensure_mint auth mint_addr l = Program.Ok (u, l1) ->
  is_Some (Program.mints l1 !! mint_addr)
  /\ Program.manifests l1 = Program.manifests l
  /\ (forall k, is_Some (Program.mints l !! k) -> is_Some (Program.mints l1 !! k)).
Proof.
  intros H. unfold Program.ensure_mint in H.
  tx_step H as l0 l2 Hget. apply tx_get_ok in Hget. destruct Hget as [-> ->].
  destruct (Program.mints l !! mint_addr) as [mt|] eqn:Hmt.
  - apply tx_require_ok in H. destruct H as [_ ->].
    repeat split; [rewrite Hmt; eexists; reflexivity | auto].
  - tx_step H as u1 l3 Hmod. apply tx_modify_ok in Hmod. subst l3.
    apply tx_modify_ok in H. subst l1. cbn. repeat split.
    + rewrite lookup_insert_eq. eexists; reflexivity.
    + intros k Hk. destruct (decide (mint_addr = k)) as [->|Hne].
      * rewrite lookup_insert_eq. eexists; reflexivity.
      * rewrite lookup_insert_ne by exact Hne. exact Hk.
Qed.

Lemma when_frame (cond : bool) (step : Program.Tx unit) (l l1 : Program.Ledger) (u : unit) :
  (forall l l1 u, step l = Program.Ok (u, l1) ->
                  Program.manifests l1 = Program.manifests l
                  /\ Program.mints l1 = Program.mints l) ->
  Program.when cond step l = Program.Ok (u, l1) ->
  Program.manifests l1 = Program.manifests l /\ Program.mints l1 = Program.mints l.
Proof.
  intros Hstep H. destruct cond; cbn [Program.when] in H.
  - exact (Hstep _ _ _ H).
  - injection H as _ <-. split; reflexivity.
Qed.

Lemma create_metadata_frame
    (args : Program.MintArgs) (m : Program.Manifest) (l l1 : Program.Ledger) (u : unit) :
  Program.create_metadata args m l = Program.Ok (u, l1) ->
  Program.manifests l1 = Program.manifests l /\ Program.mints l1 = Program.mints l.
Proof.
  intros H. unfold Program.create_metadata in H.
  tx_step H as u1 l2 H1. apply tx_require_ok in H1. destruct H1 as [_ ->].
  tx_step H as u2 l3 H2. apply tx_require_ok in H2. destruct H2 as [_ ->].
  tx_step H as u3 l4 H3. apply tx_require_ok in H3. destruct H3 as [_ ->].
  tx_step H as u4 l5 H4. apply tx_require_ok in H4. destruct H4 as [_ ->].
  tx_step H as u5 l6 H5. apply tx_modify_ok in H5. subst l6.
  apply tx_modify_ok in H. subst l1. split; reflexivity.
Qed.

Lemma create_master_edition_frame (mint_addr : Program.Address) (l l1 : Program.Ledger) (u : unit) :
  Program.create_master_edition mint_addr l = Program.Ok (u, l1) ->
  Program.manifests l1 = Program.manifests l /\ Program.mints l1 = Program.mints l.
Proof.
  intros H. unfold Program.create_master_edition in H.
  tx_step H as u1 l2 H1. apply tx_modify_ok in H1. subst l2.
  apply tx_modify_ok in H. subst l1. split; reflexivity.
Qed.

Lemma verify_collection_frame (auth collection : Program.Address) (l l1 : Program.Ledger) (u : unit) :
  Program.verify_collection auth collection l = Program.Ok (u, l1) ->
  Program.manifests l1 = Program.manifests l /\ Program.mints l1 = Program.mints l.
Proof.
  intros H. unfold Program.verify_collection in H.
  tx_step H as l0 l2 Hget. apply tx_get_ok in Hget. destruct Hget as [-> ->].
  destruct (Program.anchors l !! collection) as [anchor|]; [|discriminate].
  tx_step H as u1 l3 H1. apply tx_require_ok in H1. destruct H1 as [_ ->].
  destruct (Program.sizing anchor).
  - tx_step H as u2 l4 H2. apply tx_modify_ok in H2. subst l4.
    apply tx_modify_ok in H. subst l1. split; reflexivity.
  - apply tx_modify_ok in H. subst l1. split; reflexivity.
Qed.

Lemma consistent_mint
    (pda : list Buffer -> Program.Address)
    (associated_token_address : Program.Address -> Program.Address -> Program.Address)
    (args : Program.MintArgs) (l l' : Program.Ledger) :
  Program.run (Program.mint_object_nft pda associated_token_address args) l = Program.Ok l' ->
  Program.consistent l -> Program.consistent l'.
Proof.
  intros Hrun Hc. unfold Program.run in Hrun.
  destruct (Program.mint_object_nft pda associated_token_address args l)
    as [[u lf]|e] eqn:H; [|discriminate].
  injection Hrun as ->.
  unfold Program.mint_object_nft in H.
  tx_step H as l0 l1 Hget. apply tx_get_ok in Hget. destruct Hget as [-> ->].
  cbv zeta in H.
  tx_step H as c l2 Hcfg.
  assert (l2 = l) as ->.
  { destruct (Program.configs l !! _); [injection Hcfg as _ <-; reflexivity | discriminate]. }
  tx_step H as u1 l3 Hpaused. apply tx_require_ok in Hpaused. destruct Hpaused as [_ ->].
  tx_step H as m l4 Hensure. apply ensure_manifest_cases in Hensure.
  destruct Hensure as (Hm4 & Hmints4 & Hother4 & _).
  tx_step H as u2 l5 Hem. apply ensure_mint_cases in Hem.
  destruct Hem as (Hmint5 & Hman5 & Hmono5).
  tx_step H as ata l6 Hata. apply ensure_token_account_cases in Hata.
  destruct Hata as [_ Hl6].
  tx_step H as u3 l7 Hmeta.
  apply (when_frame _ _ _ _ _ (create_metadata_frame args m)) in Hmeta.
  destruct Hmeta as [Hman7 Hmints7].
  tx_step H as u4 l8 Hissue. apply issue_token_result in Hissue.
  tx_step H as u5 l9 Hme.
  apply (when_frame _ _ _ _ _ (create_master_edition_frame (Program.mint m))) in Hme.
  destruct Hme as [Hman9 Hmints9].
  tx_step H as u6 l10 Hvc.
  apply (when_frame _ _ _ _ _ (verify_collection_frame _ _)) in Hvc.
  destruct Hvc as [Hman10 Hmints10].
  apply bookkeeping_result in H.
  assert (Hman6 : Program.manifests l6 = Program.manifests l5)
    by (destruct Hl6 as [->| ->]; reflexivity).
  assert (Hmints6 : Program.mints l6 = Program.mints l5)
    by (destruct Hl6 as [->| ->]; reflexivity).
  assert (Hmanifests : Program.manifests l'
                       = alter (fun m => Program.mkManifest (Program.object_id m) (Program.config m)
                                           (Program.mint m) (Program.creator m)
                                           (Program.manifest_hash m) (Program.metadata_uri m)
                                           (Program.is_active m) true (Program.initialized m))
                           (Program.manifest_address pda
                              (Program.config_address pda (Program.arg_namespace args))
                              (Program.arg_object_id args))
                           (Program.manifests l4)).
  { subst l'. cbn. rewrite Hman10, Hman9. subst l8. cbn.
    rewrite Hman7, Hman6, Hman5. reflexivity. }
  assert (Hmints : forall k, is_Some (Program.mints l4 !! k) \/ k = Program.mint m ->
                             is_Some (Program.mints l' !! k)).
  { intros k Hk. subst l'. cbn. rewrite Hmints10, Hmints9. subst l8. cbn.
    rewrite Hmints7, Hmints6.
    apply lookup_alter_is_Some.
    destruct Hk as [Hk| ->]; [apply Hmono5; exact Hk | exact Hmint5]. }
  intros addr' m' Hm' Hminted'. rewrite Hmanifests in Hm'.
  destruct (decide (Program.manifest_address pda
                      (Program.config_address pda (Program.arg_namespace args))
                      (Program.arg_object_id args) = addr')) as [<-|Hne].
  - rewrite lookup_alter_eq, Hm4 in Hm'. cbn in Hm'. injection Hm' as <-. cbn.
    apply Hmints. right. reflexivity.
  - rewrite lookup_alter_ne in Hm' by exact Hne.
    rewrite Hother4 in Hm' by congruence.
    apply Hmints. left. rewrite Hmints4. exact (Hc _ _ Hm' Hminted').
Qed.

Lemma sample_minted_consistent : Program.consistent sample_minted.
Proof.
  apply (consistent_mint sample_pda sample_associated_token_address sample_mint_args
           sample_initialized); [vm_compute; reflexivity|].
  apply (consistent_initialize sample_pda [] sample_payer sample_payer
           sample_registry_namespace sample_genesis); [vm_compute; reflexivity|].
  intros addr m Hm. cbn in Hm. rewrite lookup_empty in Hm. discriminate.
Qed.

Lemma repeated_mint_witness :
  exists performed,
    Program.actions sample_minted_again = Program.actions sample_minted ++ performed
    /\ forallb (fun a => negb (Program.is_first_mint_step a) && negb (Program.is_mint_creation a))
         performed = true
    /\ Program.manifests sample_minted_again = Program.manifests sample_minted
    /\ dom (Program.mints sample_minted_again) = dom (Program.mints sample_minted)
    /\ Program.metadata_records sample_minted_again = Program.metadata_records sample_minted
    /\ Program.master_editions sample_minted_again = Program.master_editions sample_minted
    /\ Program.anchors sample_minted_again = Program.anchors sample_minted.
Proof.
  apply (repeated_mint_is_idempotent sample_pda sample_associated_token_address
           sample_mint_args sample_minted sample_minted_again sample_manifest).
  - vm_compute. reflexivity.
  - reflexivity.
  - exact sample_minted_consistent.
  - vm_compute. reflexivity.
Defined.

(** ** C2: the ownership gate of update_object_manifest *)

Lemma update_object_manifest_ok
    (pda : list Buffer -> Program.Address) (args : Program.UpdateArgs)
    (l l' : Program.Ledger) (u : unit) :
  let addr := Program.manifest_address pda
                (Program.config_address pda (Program.upd_namespace args))
                (Program.upd_object_id args) in
  Program.update_object_manifest pda args l = Program.Ok (u, l') ->
  exists m acct,
    Program.manifests l !! addr = Some m
    /\ Program.token_accounts l !! Program.upd_token_account args = Some acct
    /\ Program.token_owner acct = Program.upd_owner args
    /\ Program.token_mint acct = Program.mint m
    /\ 1 <= Program.amount acct
    /\ l' = Program.emit
              (Program.ManifestUpdated
                 (Program.config_address pda (Program.upd_namespace args)) addr
                 (Program.mint m) (Program.object_id m) (Program.upd_is_active args))
              (Program.record (Program.WriteManifest addr)
                 (Program.set_manifests
                    (insert addr
                       (Program.mkManifest (Program.object_id m) (Program.config m)
                          (Program.mint m) (Program.creator m) (Program.upd_hash args)
                          (Program.upd_uri args) (Program.upd_is_active args)
                          (Program.minted m) (Program.initialized m))) l)).
Proof.
  intros addr H. unfold Program.update_object_manifest in H.
  tx_step H as l0 l1 Hget. apply tx_get_ok in Hget. destruct Hget as [-> ->].
  cbv zeta in H. fold addr in H.
  tx_step H as u1 l2 Hlen. apply tx_require_ok in Hlen. destruct Hlen as [_ ->].
  tx_step H as m l3 Hm.
  destruct (Program.manifests l !! addr) as [m0|] eqn:Hlookup; [|discriminate].
  injection Hm as <- <-.
  tx_step H as acct l4 Hacct.
  destruct (Program.token_accounts l !! Program.upd_token_account args) as [a0|] eqn:Htoken;
    [|discriminate].
  injection Hacct as <- <-.
  tx_step H as u2 l5 Howner. apply tx_require_ok in Howner. destruct Howner as [Howner ->].
  tx_step H as u3 l6 Hmint. apply tx_require_ok in Hmint. destruct Hmint as [Hmint ->].
  tx_step H as u4 l7 Hamount. apply tx_require_ok in Hamount. destruct Hamount as [Hamount ->].
  tx_step H as u5 l8 Hinit. apply tx_require_ok in Hinit. destruct Hinit as [_ ->].
  tx_step H as u6 l9 Hmatch. apply tx_require_ok in Hmatch. destruct Hmatch as [_ ->].
  tx_step H as u7 l10 Hmod. apply tx_modify_ok in Hmod. subst l10.
  tx_step H as u8 l11 Hrec. apply tx_modify_ok in Hrec. subst l11.
  apply tx_modify_ok in H. subst l'.
  unfold Program.address_eqb in Howner, Hmint.
  apply bool_decide_eq_true in Howner. apply bool_decide_eq_true in Hmint.
  apply Z.leb_le in Hamount.
  exists m0, a0. repeat split; assumption || reflexivity.
Qed.

(** C2.  [update_object_manifest] fails whenever the token account presented
    is missing, does not hold the mint recorded in the manifest, or has a
    balance below one.  When it succeeds, the manifest of the object exists
    before and after; its hash, URI and active flag are the ones given; its
    object id, config, mint and creator (and its minted and initialized
    flags) are what they were; every other manifest, and every config, mint,
    token account and anchor, is what it was. *)
Theorem update_is_ownership_gated
    (pda : list Buffer -> Program.Address) (args : Program.UpdateArgs) (l : Program.Ledger) :
  let addr := Program.manifest_address pda
                (Program.config_address pda (Program.upd_namespace args))
                (Program.upd_object_id args) in
  let result := Program.run (Program.update_object_manifest pda args) l in
  match Program.manifests l !! addr, Program.token_accounts l !! Program.upd_token_account args with
  | Some m, Some acct =>
      if bool_decide (Program.token_mint acct = Program.mint m) && (1 <=? Program.amount acct)
      then True
      else Program.fails result = true
  | _, _ => Program.fails result = true
  end
  /\ match result with
     | Program.Err _ => True
     | Program.Ok l' =>
         exists m m',
           Program.manifests l !! addr = Some m
           /\ Program.manifests l' !! addr = Some m'
           /\ Program.manifest_hash m' = Program.upd_hash args
           /\ Program.metadata_uri m' = Program.upd_uri args
           /\ Program.is_active m' = Program.upd_is_active args
           /\ Program.object_id m' = Program.object_id m
           /\ Program.config m' = Program.config m
           /\ Program.mint m' = Program.mint m
           /\ Program.creator m' = Program.creator m
           /\ Program.minted m' = Program.minted m
           /\ Program.initialized m' = Program.initialized m
           /\ (forall other, other <> addr ->
                 Program.manifests l' !! other = Program.manifests l !! other)
           /\ Program.configs l' = Program.configs l
           /\ Program.mints l' = Program.mints l
           /\ Program.token_accounts l' = Program.token_accounts l
           /\ Program.anchors l' = Program.anchors l
     end.
Proof.
  intros addr result. subst result. unfold Program.run.
  destruct (Program.update_object_manifest pda args l) as [[u l']|e] eqn:H.
  - apply update_object_manifest_ok in H. fold addr in H.
    destruct H as (m & acct & Hm & Hacct & Howner & Hmint & Hamount & ->).
    rewrite Hm, Hacct. split.
    + rewrite bool_decide_eq_true_2 by exact Hmint.
      destruct (Z.leb_spec 1 (Program.amount acct)); [exact I | lia].
    + eexists m, _. cbn. rewrite lookup_insert_eq.
      repeat split; try reflexivity.
      intros other Hne. apply lookup_insert_ne. congruence.
  - split; [|exact I].
    destruct (Program.manifests l !! addr) as [m|]; [|reflexivity].
    destruct (Program.token_accounts l !! Program.upd_token_account args) as [acct|];
      [|reflexivity].
    destruct (_ && _); [exact I | reflexivity].
Qed.

(** The holder of the sample object updates its manifest; someone else,
    presenting the holder's token account, is refused. *)
Example update_by_holder_succeeds :
  Program.manifests
    (ledger_of (Program.run (Program.update_object_manifest sample_pda
                               (sample_update_args sample_payer)) sample_minted))
  !! sample_manifest_address
  = Some (Program.mkManifest 7 (Program.config sample_manifest) (Program.mint sample_manifest)
            sample_payer (repeat 255 32) (utf8Encode (str "https://example.org/7b.json"))
            false true true).
Proof. vm_compute. reflexivity. Qed.

Example update_by_stranger_fails :
  Program.run (Program.update_object_manifest sample_pda (sample_update_args [9])) sample_minted
  = Program.Err Program.NonOwnerUpdate.
Proof. vm_compute. reflexivity. Qed.

Lemma consistent_update
    (pda : list Buffer -> Program.Address) (args : Program.UpdateArgs) (l l' : Program.Ledger) :
  Program.run (Program.update_object_manifest pda args) l = Program.Ok l' ->
  Program.consistent l -> Program.consistent l'.
Proof.
  intros Hrun Hc. unfold Program.run in Hrun.
  destruct (Program.update_object_manifest pda args l) as [[u lf]|e] eqn:H; [|discriminate].
  injection Hrun as ->.
  apply update_object_manifest_ok in H.
  destruct H as (m & acct & Hm & _ & _ & _ & _ & ->).
  intros addr' m' Hm' Hminted'. cbn in Hm' |- *.
  destruct (decide (Program.manifest_address pda
                      (Program.config_address pda (Program.upd_namespace args))
                      (Program.upd_object_id args) = addr')) as [<-|Hne].
  - rewrite lookup_insert_eq in Hm'. injection Hm' as <-. cbn in *.
    exact (Hc _ _ Hm Hminted').
  - rewrite lookup_insert_ne in Hm' by exact Hne. exact (Hc _ _ Hm' Hminted').
Qed.

(** Every reachable ledger is consistent. *)
Lemma reachable_consistent
    (pda : list Buffer -> Program.Address)
    (associated_token_address : Program.Address -> Program.Address -> Program.Address)
    (ALLOWED_DEPLOYERS : list Program.Address) (l : Program.Ledger) :
  Program.reachable pda associated_token_address ALLOWED_DEPLOYERS l -> Program.consistent l.
Proof.
  induction 1 as [l Hempty | l l' authority payer namespace _ IH Hrun
                  | l l' args _ IH Hrun | l l' args _ IH Hrun | l l' _ IH Hman Hmints].
  - intros addr m Hm. rewrite Hempty, lookup_empty in Hm. discriminate.
  - exact (consistent_initialize _ _ _ _ _ _ _ Hrun IH).
  - exact (consistent_mint _ _ _ _ _ Hrun IH).
  - exact (consistent_update _ _ _ _ Hrun IH).
  - unfold Program.consistent. rewrite Hman, Hmints. exact IH.
Qed.

(* ===================================================================== *)
(** * Part III. Further properties of the scripts                         *)
(* ===================================================================== *)

Lemma Normal_inj {A} (a b : A) : Normal a = Normal b -> a = b.
Proof. intros H. exact (f_equal (fun c => match c with Normal x => x | Throw _ => a end) H). Qed.

(** ** Instruction discriminators *)

Lemma be_bytes_length (n : nat) (v : Z) : length (Sha256.be_bytes n v) = n.
Proof. induction n as [|n IH]; [reflexivity|]. cbn [Sha256.be_bytes length]. rewrite IH. reflexivity. Qed.

Lemma be_bytes_bytes (n : nat) (v : Z) : Forall is_byte (Sha256.be_bytes n v).
Proof.
  induction n as [|n IH]; constructor; [|exact IH].
  unfold is_byte. apply Z.mod_pos_bound. lia.
Qed.

Lemma fold_compress_length (blocks : list Buffer) (h : list Z) :
  length h = 8%nat -> length (fold_left Sha256.compress blocks h) = 8%nat.
Proof.
  revert h. induction blocks as [|block blocks IH]; intros h Hh; [exact Hh|].
  cbn [fold_left]. apply IH. reflexivity.
Qed.

Lemma concat_be_bytes_length (words : list Z) :
  length (concat (map (Sha256.be_bytes 4) words)) = (4 * length words)%nat.
Proof.
  induction words as [|x words IH]; [reflexivity|].
  cbn [map concat]. rewrite length_app, be_bytes_length, IH. cbn [length]. lia.
Qed.

Lemma concat_be_bytes_bytes (words : list Z) :
  Forall is_byte (concat (map (Sha256.be_bytes 4) words)).
Proof.
  induction words as [|x words IH]; [constructor|].
  cbn [map concat]. apply Forall_app. split; [apply be_bytes_bytes | exact IH].
Qed.

Lemma digest_length (msg : Buffer) : length (Sha256.digest msg) = 32%nat.
Proof.
  unfold Sha256.digest. cbv zeta. rewrite concat_be_bytes_length.
  rewrite fold_compress_length; reflexivity.
Qed.

Lemma digest_bytes (msg : Buffer) : Forall is_byte (Sha256.digest msg).
Proof. unfold Sha256.digest. cbv zeta. apply concat_be_bytes_bytes. Qed.

Lemma firstn_8_digest (msg : Buffer) :
  length (firstn 8 (Sha256.digest msg)) = 8%nat /\ Forall is_byte (firstn 8 (Sha256.digest msg)).
Proof.
  split.
  - rewrite length_firstn, digest_length. reflexivity.
  - apply Forall_take, digest_bytes.
Qed.

(** X1. Every instruction discriminator has eight bytes: the first eight
    bytes of a SHA-256 digest, whatever the name hashed. *)
Theorem instructionDiscriminator_is_eight_bytes (name : jsstring) :
  (length (Utils.instructionDiscriminator name) = 8%nat
   /\ Forall is_byte (Utils.instructionDiscriminator name))
  /\ (length (RotateCollectionAuthority.instructionDiscriminator name) = 8%nat
      /\ Forall is_byte (RotateCollectionAuthority.instructionDiscriminator name))
  /\ (length (RotateCollectionAuthority.legacyInstructionDiscriminator name) = 8%nat
      /\ Forall is_byte (RotateCollectionAuthority.legacyInstructionDiscriminator name)).
Proof. repeat split; apply firstn_8_digest. Qed.

(** ** Decimal numerals *)

Lemma digits_of_pos_app (fuel : nat) (n : Z) (acc : jsstring) :
  digits_of_pos fuel n acc = digits_of_pos fuel n [] ++ acc.
Proof.
  revert n acc. induction fuel as [|fuel IH]; intros n acc; [reflexivity|].
  cbn [digits_of_pos]. destruct (n <? 10); [reflexivity|].
  rewrite (IH (n / 10) ((48 + n mod 10) :: acc)), (IH (n / 10) [48 + n mod 10]).
  rewrite <- app_assoc. reflexivity.
Qed.

Lemma digits_of_pos_spec (fuel : nat) (n : Z) :
  0 <= n < 2 ^ Z.of_nat fuel -> (1 <= fuel)%nat ->
  Forall (fun c => is_digit c = true) (digits_of_pos fuel n [])
  /\ digits_of_pos fuel n [] <> []
  /\ fold_left decimal_step (digits_of_pos fuel n []) 0 = n.
Proof.
  revert n. induction fuel as [|fuel IH]; intros n Hn Hfuel; [lia|].
  cbn [digits_of_pos]. destruct (Z.ltb_spec n 10) as [Hsmall|Hbig].
  - split; [|split; [discriminate|]].
    + constructor; [|constructor]. unfold is_digit.
      apply andb_true_iff. split; [apply Z.leb_le | apply Z.leb_le]; lia.
    + cbn. unfold decimal_step. lia.
  - rewrite digits_of_pos_app.
    assert (Hpow : 2 ^ Z.of_nat (S fuel) = 2 * 2 ^ Z.of_nat fuel).
    { rewrite Nat2Z.inj_succ, Z.pow_succ_r by lia. reflexivity. }
    assert (Hdiv : 0 <= n / 10 < 2 ^ Z.of_nat fuel).
    { split; [apply Z.div_pos; lia|]. apply Z.div_lt_upper_bound; lia. }
    assert (Hfuel' : (1 <= fuel)%nat).
    { destruct fuel; [|lia]. cbn in Hdiv. assert (1 <= n / 10) by (apply Z.div_le_lower_bound; lia). lia. }
    destruct (IH (n / 10) Hdiv Hfuel') as (Hdigits & Hne & Hval).
    split; [|split].
    + apply Forall_app. split; [exact Hdigits|]. constructor; [|constructor].
      unfold is_digit. pose proof (Z.mod_pos_bound n 10 ltac:(lia)).
      apply andb_true_iff. split; apply Z.leb_le; lia.
    + intros Habs. apply app_eq_nil in Habs. destruct Habs as [_ Habs]. discriminate Habs.
    + rewrite fold_left_app, Hval. cbn [fold_left]. unfold decimal_step.
      pose proof (Z.div_mod n 10 ltac:(lia)). lia.
Qed.

(** The decimal numeral of a natural number: digits only, not empty, and
    read back from the left it gives the number. *)
Lemma Z_to_jsstring_nonneg (n : Z) :
  0 <= n ->
  Forall (fun c => is_digit c = true) (Z_to_jsstring n)
  /\ Z_to_jsstring n <> []
  /\ fold_left decimal_step (Z_to_jsstring n) 0 = n.
Proof.
  intros Hn. unfold Z_to_jsstring. destruct (Z.ltb_spec n 0); [lia|].
  apply digits_of_pos_spec; [|lia].
  split; [lia|].
  destruct (Z.eq_dec n 0) as [->|Hne]; [cbn; lia|].
  rewrite Nat2Z.inj_add, Z2Nat.id by apply Z.log2_nonneg.
  change (Z.of_nat 1) with 1. replace (Z.log2 n + 1) with (Z.succ (Z.log2 n)) by lia.
  apply Z.log2_spec. lia.
Qed.

Lemma Z_to_jsstring_neg (n : Z) :
  n < 0 -> Z_to_jsstring n = 45 :: Z_to_jsstring (- n).
Proof.
  intros Hn. unfold Z_to_jsstring.
  destruct (Z.ltb_spec n 0); [|lia]. destruct (Z.ltb_spec (- n) 0); [lia|]. reflexivity.
Qed.

Lemma read_digits_digits (s : jsstring) (acc : Z) :
  Forall (fun c => is_digit c = true) s ->
  read_digits s (Some acc) = Some (fold_left decimal_step s acc).
Proof.
  revert acc. induction s as [|c s IH]; intros acc Hs; [reflexivity|].
  inversion Hs as [|? ? Hc Hrest]; subst. cbn [read_digits fold_left]. rewrite Hc.
  cbn [default]. apply IH, Hrest.
Qed.

Lemma read_digits_start (s : jsstring) :
  Forall (fun c => is_digit c = true) s -> s <> [] ->
  read_digits s None = Some (fold_left decimal_step s 0).
Proof.
  intros Hs Hne. destruct s as [|c s]; [congruence|].
  inversion Hs as [|? ? Hc Hrest]; subst. cbn [read_digits fold_left]. rewrite Hc.
  cbn [default]. apply read_digits_digits, Hrest.
Qed.

Lemma digit_not_whitespace (c : Z) : is_digit c = true -> is_js_whitespace c = false.
Proof.
  unfold is_digit, is_js_whitespace. intros H.
  apply andb_true_iff in H. destruct H as [H1 H2]. apply Z.leb_le in H1, H2.
  repeat match goal with
         | |- context [?a =? ?b] => destruct (Z.eqb_spec a b); [lia|]
         | |- context [?a <=? ?b] => destruct (Z.leb_spec a b); try lia
         end; reflexivity.
Qed.

(** [Number.parseInt(String(n), 10)] is [n] for a natural number [n]. *)
Lemma parseInt10_Z_to_jsstring (n : Z) : 0 <= n -> parseInt10 (Z_to_jsstring n) = Some n.
Proof.
  intros Hn. destruct (Z_to_jsstring_nonneg n Hn) as (Hdigits & Hne & Hval).
  unfold parseInt10. destruct (Z_to_jsstring n) as [|c s] eqn:E; [congruence|].
  pose proof (Forall_inv Hdigits) as Hc. cbv beta in Hc.
  cbn [trimStart]. rewrite (digit_not_whitespace c Hc).
  assert (Hc' := Hc). unfold is_digit in Hc'. apply andb_true_iff in Hc'.
  destruct Hc' as [H1 H2]. apply Z.leb_le in H1, H2.
  assert (Hread : read_digits (c :: s) None = Some n).
  { rewrite read_digits_start; [rewrite Hval; reflexivity | exact Hdigits | discriminate]. }
  destruct (Z.eq_dec c 45) as [->|H45]; [lia|]. destruct (Z.eq_dec c 43) as [->|H43]; [lia|].
  destruct c as [|p|p]; try lia.
  do 6 (destruct p as [p|p|]; try lia; try exact Hread).
Qed.

Lemma trimStart_digit (s : jsstring) :
  Forall (fun c => is_js_whitespace c = false) s -> trimStart s = s.
Proof. intros Hs. destruct s as [|c s]; [reflexivity|]. cbn. rewrite (Forall_inv Hs). reflexivity. Qed.

Lemma trim_no_whitespace (s : jsstring) :
  Forall (fun c => is_js_whitespace c = false) s -> trim s = s.
Proof.
  intros Hs. unfold trim, trimEnd. rewrite (trimStart_digit s Hs).
  rewrite trimStart_digit; [apply rev_involutive|].
  apply List.Forall_rev, Hs.
Qed.

Lemma hex_value_digit (c : Z) : is_digit c = true -> hex_value c = Some (c - 48).
Proof. unfold is_digit, hex_value. intros ->. reflexivity. Qed.

Lemma read_radix_digits (s : jsstring) (acc : Z) :
  Forall (fun c => is_digit c = true) s ->
  read_radix 10 s acc = Some (fold_left decimal_step s acc).
Proof.
  revert acc. induction s as [|c s IH]; intros acc Hs; [reflexivity|].
  pose proof (Forall_inv Hs) as Hc. cbv beta in Hc.
  cbn [read_radix fold_left]. rewrite (hex_value_digit c Hc).
  unfold is_digit in Hc. apply andb_true_iff in Hc. destruct Hc as [H1 H2].
  apply Z.leb_le in H1, H2. destruct (Z.ltb_spec (c - 48) 10); [|lia].
  apply IH. exact (Forall_inv_tail Hs).
Qed.

Lemma digit_cases (c : Z) :
  is_digit c = true ->
  c = 48 \/ c = 49 \/ c = 50 \/ c = 51 \/ c = 52 \/ c = 53 \/ c = 54 \/ c = 55 \/ c = 56 \/ c = 57.
Proof.
  unfold is_digit. intros H. apply andb_true_iff in H. destruct H as [H1 H2].
  apply Z.leb_le in H1, H2. lia.
Qed.

Lemma BigInt_of_digits (s : jsstring) :
  Forall (fun c => is_digit c = true) s -> s <> [] ->
  BigInt_of_string s = Normal (fold_left decimal_step s 0).
Proof.
  intros Hs Hne. unfold BigInt_of_string.
  rewrite trim_no_whitespace
    by (eapply Forall_impl; [exact Hs | intros c Hc; apply digit_not_whitespace, Hc]).
  cbv zeta.
  assert (Hdefault : nonempty_radix 10 s = Some (fold_left decimal_step s 0)).
  { destruct s; [congruence|]. apply read_radix_digits, Hs. }
  destruct s as [|c rest]; [congruence|].
  pose proof (digit_cases c (Forall_inv Hs)) as Hc.
  destruct Hc as [->|Hc].
  - destruct rest as [|d rest]; [reflexivity|].
    pose proof (digit_cases d (Forall_inv (Forall_inv_tail Hs))) as Hd.
    repeat (destruct Hd as [->|Hd]; [cbv beta iota; rewrite Hdefault; reflexivity|]).
    subst d. cbv beta iota. rewrite Hdefault. reflexivity.
  - repeat (destruct Hc as [->|Hc]; [cbv beta iota; rewrite Hdefault; reflexivity|]).
    subst c. cbv beta iota. rewrite Hdefault. reflexivity.
Qed.

Lemma BigInt_of_Z_to_jsstring (n : Z) : BigInt_of_string (Z_to_jsstring n) = Normal n.
Proof.
  destruct (Z.lt_ge_cases n 0) as [Hneg|Hpos].
  - rewrite (Z_to_jsstring_neg n Hneg).
    destruct (Z_to_jsstring_nonneg (- n) ltac:(lia)) as (Hdigits & Hne & Hval).
    unfold BigInt_of_string. rewrite trim_no_whitespace.
    + cbv zeta beta iota.
      replace (nonempty_radix 10 (Z_to_jsstring (- n))) with (Some (- n)).
      * cbn. f_equal. lia.
      * symmetry. destruct (Z_to_jsstring (- n)) eqn:E; [congruence|].
        cbn [nonempty_radix]. rewrite read_radix_digits by exact Hdigits.
        rewrite Hval. reflexivity.
    + constructor; [reflexivity|].
      eapply Forall_impl; [exact Hdigits | intros c Hc; apply digit_not_whitespace, Hc].
  - destruct (Z_to_jsstring_nonneg n Hpos) as (Hdigits & Hne & Hval).
    rewrite BigInt_of_digits by assumption. rewrite Hval. reflexivity.
Qed.

(** X2. [parseBigInt] reads back the decimal numeral that [toString()] gives
    for any integer, in both copies of the function. *)
Theorem parseBigInt_reads_decimal (n : Z) (flag : jsstring) :
  MintObject.parseBigInt (Z_to_jsstring n) flag = Normal n
  /\ UpdateManifest.parseBigInt (Z_to_jsstring n) flag = Normal n.
Proof.
  assert (Hne : (0 <? length (Z_to_jsstring n))%nat = true).
  { apply Nat.ltb_lt. destruct (Z.lt_ge_cases n 0) as [Hneg|Hpos].
    - rewrite (Z_to_jsstring_neg n Hneg). cbn. lia.
    - destruct (Z_to_jsstring_nonneg n Hpos) as (_ & Hne & _).
      destruct (Z_to_jsstring n); [congruence | cbn; lia]. }
  unfold MintObject.parseBigInt, UpdateManifest.parseBigInt. rewrite Hne.
  split; apply BigInt_of_Z_to_jsstring.
Qed.

(** ** The Borsh encodings of the scripts *)

Lemma le_value_inj_4 (a b : Z) :
  0 <= a < 2 ^ 32 -> 0 <= b < 2 ^ 32 -> le_bytes 4 a = le_bytes 4 b -> a = b.
Proof.
  intros Ha Hb Heq. apply (f_equal le_value) in Heq.
  rewrite !le_value_le_bytes in Heq. change (8 * Z.of_nat 4) with 32 in Heq.
  rewrite !Z.mod_small in Heq by lia. exact Heq.
Qed.

Lemma writeUIntLE_normal (width : nat) (v : Z) (out : Buffer) :
  writeUIntLE width v = Normal out ->
  0 <= v < 2 ^ (8 * Z.of_nat width) /\ out = le_bytes width v.
Proof.
  unfold writeUIntLE. destruct (Z.leb_spec 0 v); [|discriminate].
  destruct (Z.ltb_spec v (2 ^ (8 * Z.of_nat width))); [|discriminate].
  cbn [andb]. intros Hw. injection Hw as <-. split; [lia | reflexivity].
Qed.

Lemma encodeString_normal (value : jsstring) (out : Buffer) :
  MintObject.encodeString value = Normal out ->
  Z.of_nat (length (utf8Encode value)) < 2 ^ 32
  /\ out = le_bytes 4 (Z.of_nat (length (utf8Encode value))) ++ utf8Encode value.
Proof.
  unfold MintObject.encodeString. cbv zeta.
  destruct (writeUIntLE 4 (Z.of_nat (length (utf8Encode value)))) as [lenBuf|e] eqn:E;
    [|discriminate].
  apply writeUIntLE_normal in E. destruct E as [Hrange ->].
  cbn [mbind Completion_bind]. intros H. injection H as <-.
  split; [exact (proj2 Hrange) | reflexivity].
Qed.

(** X3. [encodeString] writes the number of UTF-8 bytes of the value on four
    little-endian bytes, then those bytes; it succeeds exactly when that
    number fits 32 bits.  The encoding delimits itself: when two encoded
    strings, each followed by anything, give the same bytes, the encoded
    strings and what follows them are the same.  The copies of the function
    in mint-object.js and update-manifest.js agree. *)
Theorem encodeString_is_length_prefixed (value : jsstring) :
  MintObject.encodeString value = UpdateManifest.encodeString value
  /\ (if Z.of_nat (length (utf8Encode value)) <? 2 ^ 32
      then exists out,
             MintObject.encodeString value = Normal out
             /\ length out = (4 + length (utf8Encode value))%nat
             /\ le_value (firstn 4 out) = Z.of_nat (length (utf8Encode value))
             /\ skipn 4 out = utf8Encode value
      else throws (MintObject.encodeString value) = true)
  /\ (forall (value' : jsstring) (out out' rest rest' : Buffer),
         MintObject.encodeString value = Normal out ->
         MintObject.encodeString value' = Normal out' ->
         out ++ rest = out' ++ rest' ->
         utf8Encode value = utf8Encode value' /\ rest = rest').
Proof.
  split; [reflexivity|]. split.
  - destruct (Z.ltb_spec (Z.of_nat (length (utf8Encode value))) (2 ^ 32)) as [Hlt|Hge].
    + exists (le_bytes 4 (Z.of_nat (length (utf8Encode value))) ++ utf8Encode value).
      split; [|split; [|split]].
      * unfold MintObject.encodeString. cbv zeta.
        rewrite writeUIntLE_in_range by (change (8 * Z.of_nat 4) with 32; lia). reflexivity.
      * rewrite length_app, le_bytes_length. reflexivity.
      * rewrite take_app_length' by (symmetry; apply le_bytes_length).
        rewrite le_value_le_bytes. change (8 * Z.of_nat 4) with 32.
        apply Z.mod_small. lia.
      * rewrite drop_app_length' by (symmetry; apply le_bytes_length). reflexivity.
    + unfold MintObject.encodeString, writeUIntLE. cbv zeta.
      change (8 * Z.of_nat 4) with 32.
      destruct (Z.ltb_spec (Z.of_nat (length (utf8Encode value))) (2 ^ 32)); [lia|].
      rewrite andb_false_r. reflexivity.
  - intros value' out out' rest rest' Hout Hout' Heq.
    apply encodeString_normal in Hout, Hout'.
    destruct Hout as [Hlen ->], Hout' as [Hlen' ->].
    rewrite <- !app_assoc in Heq.
    apply app_inj_1 in Heq; [|rewrite !le_bytes_length; reflexivity].
    destruct Heq as [Hprefix Hbody].
    apply le_value_inj_4 in Hprefix; [|lia|lia].
    apply app_inj_1 in Hbody; [exact Hbody | lia].
Qed.

Lemma newPublicKey_length (bs : Buffer) (k : PublicKey) :
  newPublicKey bs = Normal k -> length (toBuffer k) = 32%nat.
Proof.
  unfold newPublicKey, PUBLIC_KEY_LENGTH.
  destruct (Nat.ltb_spec 32 (length (strip_leading_zeros bs))) as [|Hle]; [discriminate|].
  intros H. injection H as <-. cbn [toBuffer]. rewrite length_app, repeat_length. lia.
Qed.

Lemma PublicKey_of_string_length (s : jsstring) (k : PublicKey) :
  PublicKey_of_string s = Normal k -> length (toBuffer k) = 32%nat.
Proof.
  unfold PublicKey_of_string. destruct (bs58_decode s) as [decoded|e]; [|discriminate].
  cbn [mbind Completion_bind]. case_bool_decide; [|discriminate].
  apply newPublicKey_length.
Qed.

Lemma be_minimal_bytes (n : Z) : Forall is_byte (be_minimal n).
Proof.
  unfold be_minimal.
  generalize (Sha256.be_bytes (Z.to_nat (Z.log2 n / 8 + 1)) n) (be_bytes_bytes (Z.to_nat (Z.log2 n / 8 + 1)) n).
  intros b Hb. induction Hb as [|x b Hx Hb IH]; [constructor|].
  destruct x; cbn [strip_leading_zeros]; [exact IH | |]; constructor; assumption.
Qed.

Lemma PublicKey_of_string_bytes (s : jsstring) (k : PublicKey) :
  PublicKey_of_string s = Normal k -> Forall is_byte (toBuffer k).
Proof.
  unfold PublicKey_of_string, bs58_decode.
  destruct (base58_value s 0) as [n|]; [|discriminate].
  cbn [mbind Completion_bind]. case_bool_decide as Hlen; [|discriminate].
  rewrite (newPublicKey_32 _ Hlen). intros H. apply Normal_inj in H. subst k.
  cbn [toBuffer]. apply Forall_app. split; [|apply be_minimal_bytes].
  apply Forall_forall. intros x Hx. apply list_elem_of_In, repeat_spec in Hx. subst x.
  unfold is_byte. lia.
Qed.

(** ** What [parseCreators] returns *)

Lemma share_check (parsed : option Z) :
  negb (Number_isInteger parsed) || (default 0 parsed <? 0) || (100 <? default 0 parsed) = false ->
  0 <= default 0 parsed <= 100.
Proof.
  intros H. apply orb_false_iff in H. destruct H as [H H100].
  apply orb_false_iff in H. destruct H as [_ H0].
  apply Z.ltb_ge in H0, H100. lia.
Qed.

Lemma parseCreatorString_wellformed (w : World) (raw : jsstring) (c : Creator) :
  MintObject.parseCreatorString w raw = Normal c -> creator_wellformed c.
Proof.
  unfold MintObject.parseCreatorString. cbv zeta.
  destruct ((length (split_on 58 raw) <? 3)%nat || (4 <? length (split_on 58 raw))%nat);
    [discriminate|].
  destruct (PublicKey_of_string (nth 0 (split_on 58 raw) [])) as [k|e] eqn:Hk; [|discriminate].
  cbn [mbind Completion_bind].
  destruct (negb (Number_isInteger (parseInt10 (nth 1 (split_on 58 raw) [])))
            || (default 0 (parseInt10 (nth 1 (split_on 58 raw) [])) <? 0)
            || (100 <? default 0 (parseInt10 (nth 1 (split_on 58 raw) [])))) eqn:Hshare;
    [discriminate|].
  destruct (MintObject.parseBoolean _ _) as [v|e]; [|discriminate].
  cbn [mbind Completion_bind]. intros H. injection H as <-.
  split; [|split]; cbn [address share].
  - exact (PublicKey_of_string_length _ _ Hk).
  - exact (PublicKey_of_string_bytes _ _ Hk).
  - exact (share_check _ Hshare).
Qed.

Lemma parseCreatorEntry_wellformed (w : World) (entry : JsonCreatorEntry) (c : Creator) :
  MintObject.parseCreatorEntry w entry = Normal c -> creator_wellformed c.
Proof.
  unfold MintObject.parseCreatorEntry.
  destruct (entry_address entry) as [[|a0 a]|]; [discriminate| |discriminate].
  destruct (PublicKey_of_string (a0 :: a)) as [k|e] eqn:Hk; [|discriminate].
  cbn [mbind Completion_bind]. cbv zeta.
  match goal with
  | |- context [if ?cond then Throw _ else _] => destruct cond eqn:Hshare; [discriminate|]
  end.
  match goal with
  | |- context [@mbind _ _ _ _ _ ?v] => destruct v as [verified|e]; [|discriminate]
  end.
  cbn [mbind Completion_bind]. intros H. injection H as <-.
  split; [|split]; cbn [address share].
  - exact (PublicKey_of_string_length _ _ Hk).
  - exact (PublicKey_of_string_bytes _ _ Hk).
  - exact (share_check _ Hshare).
Qed.

Lemma mapM_Forall {A B} (f : A -> Completion B) (P : B -> Prop) (l : list A) (ys : list B) :
  (forall x y, f x = Normal y -> P y) ->
  MintObject.mapM f l = Normal ys -> Forall P ys /\ length ys = length l.
Proof.
  intros Hf. revert ys. induction l as [|x l IH]; intros ys H.
  - injection H as <-. split; [constructor | reflexivity].
  - cbn [MintObject.mapM] in H. destruct (f x) as [y|e] eqn:Hx; [|discriminate].
    cbn [mbind Completion_bind] in H.
    destruct (MintObject.mapM f l) as [ys'|e]; [|discriminate].
    cbn [mbind Completion_bind] in H. injection H as <-.
    destruct (IH ys' eq_refl) as [Hall Hlen].
    split; [constructor; [exact (Hf x y Hx) | exact Hall] | cbn; lia].
Qed.

Lemma collectCreators_wellformed (w : World) (opts : MintObject.CreatorOptions)
    (creators : list Creator) :
  outcome (MintObject.collectCreators w opts) = Normal creators ->
  Forall creator_wellformed creators.
Proof.
  unfold MintObject.collectCreators. intros H.
  invert_bind H as fromFlags Hflags.
  invert_bind H as fromJson Hjson.
  injection H as <-. rewrite outcome_pure in Hflags.
  apply Forall_app. split.
  - exact (proj1 (mapM_Forall _ _ _ _ (parseCreatorString_wellformed w) Hflags)).
  - destruct (MintObject.creators_json opts) as [[|c p]|].
    + injection Hjson as <-. constructor.
    + invert_bind Hjson as present Hpresent.
      destruct (negb present); [discriminate Hjson|].
      invert_bind Hjson as contents Hcontents.
      destruct (JSON_parse w contents) as [[entries|]|e]; try discriminate Hjson.
      rewrite outcome_pure in Hjson.
      exact (proj1 (mapM_Forall _ _ _ _ (parseCreatorEntry_wellformed w) Hjson)).
    + injection Hjson as <-. constructor.
Qed.

(** X4. Every creator that [parseCreators] returns has a 32-byte address and
    a share between 0 and 100; the list is not empty and its shares total
    100. *)
Theorem parseCreators_returns_wellformed_creators
    (w : World) (opts : MintObject.CreatorOptions) :
  match outcome (MintObject.parseCreators w opts) with
  | Normal creators =>
      Forall creator_wellformed creators
      /\ creators <> []
      /\ MintObject.totalShare creators = 100
  | Throw _ => True
  end.
Proof.
  destruct (outcome (MintObject.parseCreators w opts)) as [creators|] eqn:H; [|exact I].
  pose proof (parseCreators_total w opts creators H) as Htotal.
  unfold MintObject.parseCreators in H.
  invert_bind H as collected Hcollected.
  rewrite outcome_pure in H. apply checkCreators_normal in H. destruct H as [-> _].
  split; [exact (collectCreators_wellformed w opts collected Hcollected)|].
  split; [|exact Htotal].
  intros ->. discriminate Htotal.
Qed.

(** ** The serialized creators *)

Lemma flat_map_block {A} (enc : A -> Buffer) (k : nat) (l : list A) (i : nat) (x : A) :
  Forall (fun c => length (enc c) = k) l ->
  l !! i = Some x ->
  firstn k (skipn (k * i) (flat_map enc l)) = enc x.
Proof.
  intros Hall. revert i. induction Hall as [|a l Ha Hall IH]; intros i Hi; [discriminate|].
  destruct i as [|i]; cbn [flat_map].
  - injection Hi as ->. rewrite Nat.mul_0_r. cbn [skipn].
    apply take_app_length'. symmetry. exact Ha.
  - rewrite Nat.mul_succ_r, (Nat.add_comm (k * i) k).
    rewrite drop_app_add' by (symmetry; exact Ha). apply IH. exact Hi.
Qed.

Lemma flat_map_block_length {A} (enc : A -> Buffer) (k : nat) (l : list A) :
  Forall (fun c => length (enc c) = k) l -> length (flat_map enc l) = (k * length l)%nat.
Proof.
  induction 1 as [|a l Ha Hall IH]; [cbn; lia|].
  cbn [flat_map length]. rewrite length_app, Ha, IH. lia.
Qed.

(** X5. For well-formed creators, [serializeCreators] gives 4 + 34 n bytes:
    the number of creators on four little-endian bytes, then for creator
    [i], from offset 4 + 34 i, its 32 address bytes, its verified flag as 1
    or 0, and its share. *)
Theorem serializeCreators_layout (creators : list Creator)
    (Hwf : Forall creator_wellformed creators)
    (Hcount : Z.of_nat (length creators) < 2 ^ 32) :
  exists out,
    MintObject.serializeCreators creators = Normal out
    /\ length out = (4 + 34 * length creators)%nat
    /\ le_value (firstn 4 out) = Z.of_nat (length creators)
    /\ forall (i : nat) (c : Creator),
         creators !! i = Some c ->
         subarray out (4 + 34 * i) (4 + 34 * i + 32) = toBuffer (address c)
         /\ out !! (4 + 34 * i + 32)%nat = Some (if verified c then 1 else 0)
         /\ out !! (4 + 34 * i + 33)%nat = Some (share c).
Proof.
  set (enc := fun creator : Creator =>
                toBuffer (address creator) ++ [if verified creator then 1 else 0]
                ++ [share creator mod 256]).
  assert (Henc : Forall (fun c => length (enc c) = 34%nat) creators).
  { eapply Forall_impl; [exact Hwf|]. intros c [Hlen _]. unfold enc.
    rewrite !length_app, Hlen. reflexivity. }
  exists (le_bytes 4 (Z.of_nat (length creators)) ++ flat_map enc creators).
  split; [|split; [|split]].
  - unfold MintObject.serializeCreators.
    rewrite writeUIntLE_in_range by (change (8 * Z.of_nat 4) with 32; lia). reflexivity.
  - rewrite length_app, le_bytes_length, (flat_map_block_length enc 34) by exact Henc.
    reflexivity.
  - rewrite take_app_length' by (symmetry; apply le_bytes_length).
    rewrite le_value_le_bytes. change (8 * Z.of_nat 4) with 32. apply Z.mod_small. lia.
  - intros i c Hi.
    pose proof (flat_map_block enc 34 creators i c Henc Hi) as Hblock.
    assert (Hc : creator_wellformed c).
    { exact (Forall_lookup_1 _ _ _ _ Hwf Hi). }
    destruct Hc as (Hlen & _ & Hshare).
    assert (Hdrop : skipn (4 + 34 * i) (le_bytes 4 (Z.of_nat (length creators))
                                        ++ flat_map enc creators)
                    = skipn (34 * i) (flat_map enc creators)).
    { apply drop_app_add'. symmetry. apply le_bytes_length. }
    assert (Hat : forall j, (j < 34)%nat ->
              (le_bytes 4 (Z.of_nat (length creators)) ++ flat_map enc creators)
                !! (4 + 34 * i + j)%nat = enc c !! j).
    { intros j Hj. rewrite <- lookup_drop, Hdrop, <- Hblock.
      symmetry. apply lookup_take_lt. exact Hj. }
    split; [|split].
    + unfold subarray. rewrite Hdrop.
      replace (4 + 34 * i + 32 - (4 + 34 * i))%nat with 32%nat by lia.
      transitivity (take 32 (take 34 (drop (34 * i) (flat_map enc creators)))).
      { rewrite take_take. reflexivity. }
      rewrite Hblock. unfold enc. apply take_app_length'. symmetry. exact Hlen.
    + etransitivity; [exact (Hat 32%nat ltac:(lia))|]. unfold enc.
      rewrite lookup_app_r by lia. rewrite Hlen. reflexivity.
    + etransitivity; [exact (Hat 33%nat ltac:(lia))|]. unfold enc.
      rewrite lookup_app_r by lia. rewrite Hlen. cbn.
      rewrite Z.mod_small by lia. reflexivity.
Qed.

(** ** Creator specifications on the command line *)

Lemma split_on_nonempty (sep : Z) (s : jsstring) : split_on sep s <> [].
Proof.
  induction s as [|c s IH]; [discriminate|].
  cbn [split_on]. destruct (c =? sep); [discriminate|].
  destruct (split_on sep s); [congruence | discriminate].
Qed.

Lemma split_on_length (sep : Z) (s : jsstring) :
  length (split_on sep s) = S (count_occ Z.eq_dec s sep).
Proof.
  induction s as [|c s IH]; [reflexivity|].
  cbn [split_on count_occ]. destruct (Z.eqb_spec c sep) as [->|Hne].
  - destruct (Z.eq_dec sep sep); [|congruence]. cbn [length]. rewrite IH. reflexivity.
  - destruct (Z.eq_dec c sep); [congruence|].
    pose proof (split_on_nonempty sep s) as Hnonempty.
    destruct (split_on sep s) as [|seg segs]; [congruence|]. exact IH.
Qed.

Lemma split_on_app (sep : Z) (a b : jsstring) :
  Forall (fun c => c <> sep) a ->
  split_on sep (a ++ sep :: b) = a :: split_on sep b.
Proof.
  induction 1 as [|c a Hc Ha IH].
  - cbn [app split_on]. rewrite Z.eqb_refl. reflexivity.
  - cbn [app split_on]. destruct (Z.eqb_spec c sep); [congruence|]. rewrite IH. reflexivity.
Qed.

Lemma split_on_whole (sep : Z) (a : jsstring) :
  Forall (fun c => c <> sep) a -> split_on sep a = [a].
Proof.
  induction 1 as [|c a Hc Ha IH]; [reflexivity|].
  cbn [split_on]. destruct (Z.eqb_spec c sep); [congruence|]. rewrite IH. reflexivity.
Qed.

(** X6. A creator specification is refused unless it holds two or three
    colons: so a key pair path that itself contains a colon cannot be
    given. *)
Theorem parseCreatorString_counts_colons (w : World) (raw : jsstring)
    (Hcount : (count_occ Z.eq_dec raw 58%Z < 2 \/ 3 < count_occ Z.eq_dec raw 58%Z)%nat) :
  MintObject.parseCreatorString w raw
  = Throw (Error (str "Invalid creator specification '" ++ raw
                  ++ str "'. Expected format address:share:verified[:keypairPath]")).
Proof.
  unfold MintObject.parseCreatorString. cbv zeta. rewrite split_on_length.
  destruct (Nat.ltb_spec (S (count_occ Z.eq_dec raw 58)) 3) as [|Hge]; [reflexivity|].
  destruct (Nat.ltb_spec 4 (S (count_occ Z.eq_dec raw 58))) as [|Hle]; [reflexivity|].
  lia.
Qed.

Lemma parseCreatorString_counts_colons_witness :
  MintObject.parseCreatorString offline_world
    (str "E5mQ27muTebiYaohBsdsCwrvPN3MVoRmECFtL4A5Sx9q:100:true:C:/keys/creator.json")
  = Throw (Error (str "Invalid creator specification '"
                  ++ str "E5mQ27muTebiYaohBsdsCwrvPN3MVoRmECFtL4A5Sx9q:100:true:C:/keys/creator.json"
                  ++ str "'. Expected format address:share:verified[:keypairPath]")).
Proof.
  apply (parseCreatorString_counts_colons offline_world). right. vm_compute. lia.
Defined.

Lemma base58_value_no_colon (s : jsstring) (acc n : Z) :
  base58_value s acc = Some n -> Forall (fun c => c <> 58) s.
Proof.
  revert acc. induction s as [|c s IH]; intros acc H; [constructor|].
  cbn [base58_value] in H. destruct (index_of c BASE58_ALPHABET) as [d|] eqn:Hd; [|discriminate].
  constructor; [|exact (IH _ H)].
  intros ->. vm_compute in Hd. discriminate Hd.
Qed.

Lemma PublicKey_of_string_no_colon (s : jsstring) (k : PublicKey) :
  PublicKey_of_string s = Normal k -> Forall (fun c => c <> 58) s.
Proof.
  unfold PublicKey_of_string, bs58_decode.
  destruct (base58_value s 0) as [n|] eqn:Hn; [|discriminate].
  intros _. exact (base58_value_no_colon s 0 n Hn).
Qed.

Lemma digits_no_colon (s : jsstring) :
  Forall (fun c => is_digit c = true) s -> Forall (fun c => c <> 58) s.
Proof.
  intros H. eapply Forall_impl; [exact H|]. intros c Hc ->. discriminate Hc.
Qed.

Lemma boolean_text_no_colon (v : bool) : Forall (fun c => c <> 58) (ToString (VBoolean v)).
Proof. destruct v; repeat constructor; discriminate. Qed.

(** X7. [parseCreatorString] reads back [address:share:verified], and
    [address:share:verified:path], for any base58 address, any share from 0
    to 100 in decimal, and [true] or [false]: the creator has that address,
    share and flag, and the path, when given, expanded. *)
Theorem parseCreatorString_reads_specification
    (w : World) (addressText : jsstring) (k : PublicKey) (s : Z) (v : bool) :
  PublicKey_of_string addressText = Normal k ->
  0 <= s <= 100 ->
  let spec := addressText ++ str ":" ++ Z_to_jsstring s ++ str ":" ++ ToString (VBoolean v) in
  MintObject.parseCreatorString w spec = Normal (mkCreator k s v None)
  /\ forall path : jsstring,
       path <> [] -> Forall (fun c => c <> 58) path ->
       MintObject.parseCreatorString w (spec ++ str ":" ++ path)
       = Normal (mkCreator k s v (Some (expandPath w path))).
Proof.
  intros Hk Hs spec.
  destruct (Z_to_jsstring_nonneg s ltac:(lia)) as (Hdigits & _ & _).
  pose proof (PublicKey_of_string_no_colon _ _ Hk) as Haddress.
  pose proof (digits_no_colon _ Hdigits) as Hshare.
  pose proof (boolean_text_no_colon v) as Hflag.
  assert (Hparse : forall tail keypairPath,
             split_on 58 tail = [ToString (VBoolean v)]
               ++ match keypairPath with Some p => [p] | None => [] end ->
             match keypairPath with Some [] => False | _ => True end ->
             MintObject.parseCreatorString w
               (addressText ++ 58 :: Z_to_jsstring s ++ 58 :: tail)
             = Normal (mkCreator k s v (expandPath w <$> keypairPath))).
  { intros tail keypairPath Htail Hpath.
    unfold MintObject.parseCreatorString. cbv zeta.
    rewrite (split_on_app 58 addressText) by exact Haddress.
    rewrite (split_on_app 58 (Z_to_jsstring s)) by exact Hshare.
    rewrite Htail.
    assert (Hlen : ((length (addressText :: Z_to_jsstring s :: [ToString (VBoolean v)]
                              ++ match keypairPath with Some p => [p] | None => [] end) <? 3)%nat
                    || (4 <? length (addressText :: Z_to_jsstring s :: [ToString (VBoolean v)]
                              ++ match keypairPath with Some p => [p] | None => [] end))%nat)
                   = false).
    { destruct keypairPath; reflexivity. }
    rewrite Hlen. cbn [nth app]. rewrite Hk. cbn [mbind Completion_bind].
    rewrite (parseInt10_Z_to_jsstring s) by lia.
    change (default 0 (Some s)) with s. cbn [Number_isInteger].
    destruct (Z.ltb_spec (Z.abs s) (2 ^ 1024)) as [_|Hhuge].
    2:{ assert (2 ^ 7 <= 2 ^ 1024) by (apply Z.pow_le_mono_r; lia). lia. }
    destruct (Z.ltb_spec s 0); [lia|]. destruct (Z.ltb_spec 100 s); [lia|].
    cbn [negb orb].
    assert (Hbool : MintObject.parseBoolean (VString (ToString (VBoolean v)))
                      (str "creator verified") = Normal v).
    { destruct v; reflexivity. }
    rewrite Hbool. cbn [mbind Completion_bind].
    destruct keypairPath as [[|c p]|]; [contradiction| |]; reflexivity. }
  split.
  - unfold spec. cbn [str app map list_ascii_of_string].
    change (Z.of_N (N_of_ascii ":")) with 58.
    apply (Hparse (ToString (VBoolean v)) None); [|exact I].
    apply split_on_whole, Hflag.
  - intros path Hne Hpath. unfold spec. cbn [str app map list_ascii_of_string].
    change (Z.of_N (N_of_ascii ":")) with 58.
    rewrite <- !app_assoc. cbn [app]. rewrite <- app_assoc. cbn [app].
    apply (Hparse (ToString (VBoolean v) ++ 58 :: path) (Some path)).
    + rewrite (split_on_app 58 _ path) by exact Hflag.
      rewrite (split_on_whole 58 path) by exact Hpath. reflexivity.
    + destruct path; [congruence | exact I].
Qed.

(** ** Running a script: the effects and the outcome together *)

Lemma bind_run_inv {A B} (m : Script A) (f : A -> Script B) (trace : list Effect) (b : B) :
  m ≫= f = (trace, Normal b) ->
  exists a t1 t2, m = (t1, Normal a) /\ f a = (t2, Normal b) /\ trace = t1 ++ t2.
Proof.
  destruct m as [t1 [a|e]]; cbn [mbind Script_bind]; [|discriminate].
  destruct (f a) as [t2 r] eqn:E. intros H. injection H as <- ->.
  exists a, t1, t2. repeat split. exact E.
Qed.

Lemma pure_run_inv {A} (c : Completion A) (t : list Effect) (a : A) :
  pure c = (t, Normal a) -> c = Normal a /\ t = [].
Proof. unfold pure. intros H. injection H as <- <-. split; reflexivity. Qed.

Lemma perform_run_inv {A} (ev : Effect) (c : Completion A) (t : list Effect) (a : A) :
  perform ev c = (t, Normal a) -> c = Normal a /\ t = [ev].
Proof. unfold perform. intros H. injection H as <- <-. split; reflexivity. Qed.

Lemma findPda_run_inv (w : World) (seeds : list Buffer) (program : PublicKey)
    (t : list Effect) (p : PublicKey * Z) :
  findPda w seeds program = (t, Normal p) ->
  p = findProgramAddressSync w seeds program /\ t = [DerivePda seeds program].
Proof. unfold findPda, perform. intros H. injection H as <- <-. split; reflexivity. Qed.

Lemma caught_run_inv {A} (ev : Effect) (c : Completion A) (t : list Effect) (a : A) :
  try_catch (perform ev c)
    (fun err => logs ← pure (Utils.collectLogs err); pure (Throw err))
  = (t, Normal a) ->
  c = Normal a /\ t = [ev].
Proof.
  rewrite try_catch_rethrow. intros H. apply pair_equal_spec in H. destruct H as [<- H].
  destruct c as [a'|err]; [split; [exact H | reflexivity]|].
  destruct (Utils.collectLogs err); discriminate H.
Qed.

Lemma run_of_outcome {A} (m : Script A) (a : A) :
  outcome m = Normal a -> m = (effects m, Normal a).
Proof. destruct m as [t o]. cbn. intros ->. reflexivity. Qed.

Tactic Notation "run_bind" hyp(H) "as" ident(a) ident(Ha) :=
  apply bind_run_inv in H;
  let t1 := fresh "t" in
  let t2 := fresh "t" in
  destruct H as (a & t1 & t2 & Ha & H & ->); cbn beta in H.

Tactic Notation "run_pure" hyp(H) "as" ident(a) ident(Ha) :=
  run_bind H as a Ha; apply pure_run_inv in Ha; destruct Ha as [Ha ->].

Tactic Notation "run_perform" hyp(H) "as" ident(a) ident(Ha) :=
  run_bind H as a Ha; apply perform_run_inv in Ha; destruct Ha as [Ha ->].

Tactic Notation "run_pda" hyp(H) "as" ident(a) ident(b) ident(Ha) :=
  apply bind_run_inv in H;
  let t1 := fresh "t" in
  let t2 := fresh "t" in
  let p := fresh "p" in
  destruct H as (p & t1 & t2 & Ha & H & ->);
  apply findPda_run_inv in Ha; destruct Ha as [Ha ->];
  destruct p as [a b]; cbn beta iota in H.

(** [Buffer.alloc(n)], then a buffer copied at 0; and a buffer copied over
    the tail of another. *)
Lemma drop_repeat {A} (x : A) (n m : nat) : skipn m (repeat x n) = repeat x (n - m).
Proof.
  revert m. induction n as [|n IH]; intros [|m]; try reflexivity. cbn. apply IH.
Qed.

Lemma copy_at_start (d : Buffer) (n : nat) :
  (length d <= n)%nat -> Buffer_copy d (repeat 0 n) 0 = d ++ repeat 0 (n - length d).
Proof.
  intros Hd. unfold Buffer_copy. rewrite repeat_length.
  cbn [firstn app Nat.add]. rewrite Nat.sub_0_r.
  rewrite (take_ge d) by lia. rewrite drop_repeat. reflexivity.
Qed.

Lemma copy_over_tail (k d z : Buffer) :
  length z = length k -> Buffer_copy k (d ++ z) (length d) = d ++ k.
Proof.
  intros Hz. unfold Buffer_copy.
  rewrite take_app_length, length_app.
  rewrite (take_ge k) by lia.
  rewrite drop_ge by (rewrite length_app; lia).
  rewrite app_nil_r. reflexivity.
Qed.

(** [Buffer.alloc(8 + 32)], then the discriminator copied at 0 and a key at 8. *)
Lemma copy_discriminator_and_key (d k : Buffer) :
  length d = 8%nat -> length k = 32%nat ->
  Buffer_copy k (Buffer_copy d (repeat 0 (8 + 32)) 0) 8 = d ++ k.
Proof.
  intros Hd Hk. rewrite copy_at_start by (rewrite Hd; cbn; lia).
  rewrite <- Hd at 3. apply copy_over_tail.
  rewrite repeat_length, Hd, Hk. reflexivity.
Qed.

Lemma utils_discriminator_length (name : jsstring) :
  length (Utils.instructionDiscriminator name) = 8%nat.
Proof. apply firstn_8_digest. Qed.

(** X8. A run of set-authority.js that returns has decoded the namespace and
    the new authority, loaded the authority key pair, derived the
    configuration address, and sent exactly one transaction: one instruction
    to the OGAL program whose data is the eight bytes of the [set_authority]
    discriminator followed by the 32 bytes of the new authority, over the
    authority (signer) and the configuration account (writable), paid and
    signed by the authority key pair. *)
Theorem set_authority_run (w : World) (argv : SetAuthority.Argv) (signature : jsstring) :
  outcome (SetAuthority.main w argv) = Normal signature ->
  exists (namespace newAuthority : PublicKey) (authorityKeypair : Keypair)
         (blockhash : jsstring) (lastValidBlockHeight : Z),
    PublicKey_of_string (SetAuthority.namespace argv) = Normal namespace
    /\ PublicKey_of_string (SetAuthority.new_authority argv) = Normal newAuthority
    /\ readKeypair w (SetAuthority.authority_keypair argv) = Normal authorityKeypair
    /\ getLatestBlockhash w = Normal (blockhash, lastValidBlockHeight)
    /\ let authority := publicKey authorityKeypair in
       let configSeeds := [utf8Encode (str "config"); toBuffer namespace] in
       let configPda := fst (findProgramAddressSync w configSeeds OGAL_PROGRAM_ID) in
       let authSeeds := [utf8Encode (str "auth"); toBuffer configPda] in
       let instruction :=
         mkInstruction OGAL_PROGRAM_ID
           [mkAccountMeta authority true false; mkAccountMeta configPda false true]
           (SetAuthority.SET_AUTHORITY_DISCRIMINATOR ++ toBuffer newAuthority) in
       let tx := mkTransaction [ProgramInstruction instruction] authority blockhash in
       effects (SetAuthority.main w argv)
       = [LoadKeypair (SetAuthority.authority_keypair argv);
          OpenConnection (SetAuthority.rpc_url argv) (SetAuthority.commitment argv);
          DerivePda configSeeds OGAL_PROGRAM_ID;
          DerivePda authSeeds OGAL_PROGRAM_ID;
          BuildTransaction [ProgramInstruction instruction];
          GetLatestBlockhash;
          SendAndConfirm tx [authority]]
       /\ sendAndConfirmTransaction w tx [authority] = Normal signature
       /\ length (data instruction) = 40%nat.
Proof.
  intros H. apply run_of_outcome in H. revert H.
  generalize (effects (SetAuthority.main w argv)). intros trace H.
  unfold SetAuthority.main in H.
  run_pure H as namespace Hnamespace.
  run_pure H as newAuthority HnewAuthority.
  run_perform H as authorityKeypair Hkeypair.
  run_perform H as u Hconnection.
  unfold Utils.deriveConfigPda, Utils.deriveAuthPda in H.
  run_pda H as configPda configBump Hconfig.
  run_pda H as authPda authBump Hauth.
  cbv zeta in H.
  run_perform H as u' Hbuild.
  run_perform H as blockhashAndHeight Hblockhash.
  destruct blockhashAndHeight as [blockhash lastValidBlockHeight]. cbn beta iota in H.
  apply caught_run_inv in H. destruct H as [Hsend ->].
  pose proof (PublicKey_of_string_length _ _ HnewAuthority) as Hlen.
  rewrite (copy_discriminator_and_key SetAuthority.SET_AUTHORITY_DISCRIMINATOR
             (toBuffer newAuthority) (utils_discriminator_length _) Hlen) in Hsend |- *.
  exists namespace, newAuthority, authorityKeypair, blockhash, lastValidBlockHeight.
  cbv zeta. rewrite <- Hconfig. cbn [fst].
  split; [exact Hnamespace|]. split; [exact HnewAuthority|]. split; [exact Hkeypair|].
  split; [exact Hblockhash|]. split; [reflexivity|]. split; [exact Hsend|].
  cbn [data]. unfold SetAuthority.SET_AUTHORITY_DISCRIMINATOR.
  rewrite length_app, Hlen, utils_discriminator_length. reflexivity.
Qed.

Lemma throw_if_normal (cond : bool) (msg : jsstring) (u : unit) :
  throw_if cond msg = Normal u -> cond = false.
Proof. destruct cond; [discriminate | reflexivity]. Qed.

(** X9. A run of migrate-namespace.js that returns has sent exactly one
    transaction: one instruction to the OGAL program whose data is the
    [migrate_config_namespace] discriminator followed by the 32 bytes of the
    new namespace, over the authority, the old and new configuration and
    mint authority addresses and the system program, paid and signed by the
    authority key pair; and the two namespaces differ. *)
Theorem migrate_namespace_run (w : World) (argv : MigrateNamespace.Argv) (signature : jsstring) :
  outcome (MigrateNamespace.main w argv) = Normal signature ->
  exists (oldNamespace newNamespace : PublicKey) (authorityKeypair : Keypair)
         (blockhash : jsstring) (lastValidBlockHeight : Z),
    PublicKey_of_string (MigrateNamespace.old_namespace argv) = Normal oldNamespace
    /\ PublicKey_of_string (MigrateNamespace.new_namespace argv) = Normal newNamespace
    /\ toBuffer oldNamespace <> toBuffer newNamespace
    /\ readKeypair w (MigrateNamespace.authority_keypair argv) = Normal authorityKeypair
    /\ getLatestBlockhash w = Normal (blockhash, lastValidBlockHeight)
    /\ let authority := publicKey authorityKeypair in
       let configSeeds := fun namespace => [utf8Encode (str "config"); toBuffer namespace] in
       let authSeeds := fun config => [utf8Encode (str "auth"); toBuffer config] in
       let pda := fun seeds => fst (findProgramAddressSync w seeds OGAL_PROGRAM_ID) in
       let oldConfigPda := pda (configSeeds oldNamespace) in
       let newConfigPda := pda (configSeeds newNamespace) in
       let oldAuthPda := pda (authSeeds oldConfigPda) in
       let newAuthPda := pda (authSeeds newConfigPda) in
       let instruction :=
         mkInstruction OGAL_PROGRAM_ID
           [mkAccountMeta authority true true;
            mkAccountMeta oldConfigPda false true;
            mkAccountMeta newConfigPda false true;
            mkAccountMeta oldAuthPda false false;
            mkAccountMeta newAuthPda false true;
            mkAccountMeta SYSTEM_PROGRAM_ID false false]
           (MigrateNamespace.MIGRATE_NAMESPACE_DISCRIMINATOR ++ toBuffer newNamespace) in
       let tx := mkTransaction [ProgramInstruction instruction] authority blockhash in
       effects (MigrateNamespace.main w argv)
       = [LoadKeypair (MigrateNamespace.authority_keypair argv);
          OpenConnection (MigrateNamespace.rpc_url argv) (MigrateNamespace.commitment argv);
          DerivePda (configSeeds oldNamespace) OGAL_PROGRAM_ID;
          DerivePda (configSeeds newNamespace) OGAL_PROGRAM_ID;
          DerivePda (authSeeds oldConfigPda) OGAL_PROGRAM_ID;
          DerivePda (authSeeds newConfigPda) OGAL_PROGRAM_ID;
          BuildTransaction [ProgramInstruction instruction];
          GetLatestBlockhash;
          SendAndConfirm tx [authority]]
       /\ sendAndConfirmTransaction w tx [authority] = Normal signature
       /\ length (data instruction) = 40%nat.
Proof.
  intros H. apply run_of_outcome in H. revert H.
  generalize (effects (MigrateNamespace.main w argv)). intros trace H.
  unfold MigrateNamespace.main in H.
  run_pure H as oldNamespace Hold.
  run_pure H as newNamespace Hnew.
  run_pure H as u0 Hdiffer. apply throw_if_normal in Hdiffer.
  run_perform H as authorityKeypair Hkeypair.
  run_perform H as u Hconnection.
  unfold Utils.deriveConfigPda, Utils.deriveAuthPda in H.
  run_pda H as oldConfigPda b1 HoldConfig.
  run_pda H as newConfigPda b2 HnewConfig.
  run_pda H as oldAuthPda b3 HoldAuth.
  run_pda H as newAuthPda b4 HnewAuth.
  cbv zeta in H.
  run_perform H as u' Hbuild.
  run_perform H as blockhashAndHeight Hblockhash.
  destruct blockhashAndHeight as [blockhash lastValidBlockHeight]. cbn beta iota in H.
  apply caught_run_inv in H. destruct H as [Hsend ->].
  pose proof (PublicKey_of_string_length _ _ Hnew) as Hlen.
  rewrite (copy_discriminator_and_key MigrateNamespace.MIGRATE_NAMESPACE_DISCRIMINATOR
             (toBuffer newNamespace) (utils_discriminator_length _) Hlen) in Hsend |- *.
  exists oldNamespace, newNamespace, authorityKeypair, blockhash, lastValidBlockHeight.
  cbv zeta beta. rewrite <- HoldConfig, <- HnewConfig. cbn [fst].
  rewrite <- HoldAuth, <- HnewAuth. cbn [fst].
  split; [exact Hold|]. split; [exact Hnew|].
  split.
  { intros Heq. apply PublicKey_equals_spec in Heq. congruence. }
  split; [exact Hkeypair|]. split; [exact Hblockhash|].
  split; [reflexivity|]. split; [exact Hsend|].
  cbn [data]. unfold MigrateNamespace.MIGRATE_NAMESPACE_DISCRIMINATOR.
  rewrite length_app, Hlen, utils_discriminator_length. reflexivity.
Qed.

Lemma writeUInt8_last (d : Buffer) (old v : Z) (n : nat) :
  length d = n -> 0 <= v < 256 -> writeUInt8 v (d ++ [old]) n = Normal (d ++ [v]).
Proof.
  intros <- Hv. unfold writeUInt8.
  destruct (Z.leb_spec 0 v); [|lia]. destruct (Z.ltb_spec v 256); [|lia].
  rewrite length_app. cbn [length andb].
  destruct (Nat.ltb_spec (length d) (length d + 1)); [|lia].
  rewrite take_app_length.
  replace (S (length d)) with (length (d ++ [old])) by (rewrite length_app; cbn; lia).
  rewrite drop_all. reflexivity.
Qed.

(** X10. A run of set-paused.js that returns has sent exactly one
    transaction: one instruction to the OGAL program whose nine bytes of
    data are the [set_paused] discriminator followed by 1 (pause) or 0
    (resume), over the authority (signer) and the configuration account
    (writable), paid and signed by the authority key pair. *)
Theorem set_paused_run (w : World) (argv : SetPaused.Argv) (signature : jsstring) :
  outcome (SetPaused.main w argv) = Normal signature ->
  exists (namespace : PublicKey) (authorityKeypair : Keypair)
         (blockhash : jsstring) (lastValidBlockHeight : Z),
    PublicKey_of_string (SetPaused.namespace argv) = Normal namespace
    /\ readKeypair w (SetPaused.authority_keypair argv) = Normal authorityKeypair
    /\ getLatestBlockhash w = Normal (blockhash, lastValidBlockHeight)
    /\ let authority := publicKey authorityKeypair in
       let configSeeds := [utf8Encode (str "config"); toBuffer namespace] in
       let configPda := fst (findProgramAddressSync w configSeeds OGAL_PROGRAM_ID) in
       let authSeeds := [utf8Encode (str "auth"); toBuffer configPda] in
       let instruction :=
         mkInstruction OGAL_PROGRAM_ID
           [mkAccountMeta authority true false; mkAccountMeta configPda false true]
           (SetPaused.SET_PAUSED_DISCRIMINATOR ++ [if SetPaused.paused argv then 1 else 0]) in
       let tx := mkTransaction [ProgramInstruction instruction] authority blockhash in
       effects (SetPaused.main w argv)
       = [LoadKeypair (SetPaused.authority_keypair argv);
          OpenConnection (SetPaused.rpc_url argv) (SetPaused.commitment argv);
          DerivePda configSeeds OGAL_PROGRAM_ID;
          DerivePda authSeeds OGAL_PROGRAM_ID;
          BuildTransaction [ProgramInstruction instruction];
          GetLatestBlockhash;
          SendAndConfirm tx [authority]]
       /\ sendAndConfirmTransaction w tx [authority] = Normal signature
       /\ length (data instruction) = 9%nat.
Proof.
  intros H. apply run_of_outcome in H. revert H.
  generalize (effects (SetPaused.main w argv)). intros trace H.
  unfold SetPaused.main in H.
  run_pure H as namespace Hnamespace.
  run_perform H as authorityKeypair Hkeypair.
  cbv zeta in H.
  run_perform H as u Hconnection.
  unfold Utils.deriveConfigPda, Utils.deriveAuthPda in H.
  run_pda H as configPda configBump Hconfig.
  run_pda H as authPda authBump Hauth.
  run_pure H as data Hdata.
  assert (Hd8 : length SetPaused.SET_PAUSED_DISCRIMINATOR = 8%nat)
    by (unfold SetPaused.SET_PAUSED_DISCRIMINATOR; apply utils_discriminator_length).
  rewrite copy_at_start in Hdata by (rewrite Hd8; lia).
  rewrite Hd8 in Hdata. change (repeat 0 (8 + 1 - 8)) with [0] in Hdata.
  rewrite (writeUInt8_last _ _ _ 8 Hd8) in Hdata by (destruct (SetPaused.paused argv); lia).
  apply Normal_inj in Hdata. subst data.
  run_perform H as u' Hbuild.
  run_perform H as blockhashAndHeight Hblockhash.
  destruct blockhashAndHeight as [blockhash lastValidBlockHeight]. cbn beta iota in H.
  apply caught_run_inv in H. destruct H as [Hsend ->].
  exists namespace, authorityKeypair, blockhash, lastValidBlockHeight.
  cbv zeta. rewrite <- Hconfig. cbn [fst].
  split; [exact Hnamespace|]. split; [exact Hkeypair|]. split; [exact Hblockhash|].
  split; [reflexivity|]. split; [exact Hsend|].
  cbn [data]. rewrite length_app, Hd8. reflexivity.
Qed.

(** ** What has been checked before a transaction is sent *)

Lemma bind_sent_inv {A B} (m : Script A) (f : A -> Script B)
    (trace : list Effect) (o : Completion B) :
  m ≫= f = (trace, o) ->
  sentTransactions trace <> [] ->
  sentTransactions (effects m) = [] ->
  exists a t1 t2,
    m = (t1, Normal a) /\ f a = (t2, o) /\ trace = t1 ++ t2
    /\ sentTransactions t2 <> [] /\ sentTransactions trace = sentTransactions t2.
Proof.
  destruct m as [t1 [a|e]]; cbn [mbind Script_bind effects fst].
  - destruct (f a) as [t2 r] eqn:E. intros H Hsent Hnone. injection H as <- <-.
    rewrite sentTransactions_app, Hnone in Hsent |- *. cbn [app] in Hsent |- *.
    exists a, t1, t2. repeat split; assumption.
  - intros H Hsent Hnone. injection H as <- <-. contradiction.
Qed.

Lemma run_of_script {A} (m : Script A) : m = (effects m, outcome m).
Proof. destruct m. reflexivity. Qed.

Ltac sent_step H Hs Hall a Ha tac :=
  let t1 := fresh "t" in
  let t2 := fresh "t" in
  let H' := fresh "H" in
  let Hs' := fresh "Hs" in
  let Heq := fresh "Heq" in
  let Htrace := fresh "Htrace" in
  destruct (bind_sent_inv _ _ _ _ H Hs ltac:(tac)) as (a & t1 & t2 & Ha & H' & Htrace & Hs' & Heq);
  rewrite Heq in Hall; clear H Hs Heq Htrace;
  rename H' into H; rename Hs' into Hs; cbn beta in H.

Tactic Notation "sent_pure" hyp(H) hyp(Hs) hyp(Hall) "as" ident(a) ident(Ha) :=
  sent_step H Hs Hall a Ha ltac:(reflexivity);
  apply pure_run_inv in Ha; destruct Ha as [Ha _].

Tactic Notation "sent_perform" hyp(H) hyp(Hs) hyp(Hall) "as" ident(a) ident(Ha) :=
  sent_step H Hs Hall a Ha ltac:(reflexivity);
  apply perform_run_inv in Ha; destruct Ha as [Ha _].

Tactic Notation "sent_pda" hyp(H) hyp(Hs) hyp(Hall) "as" ident(a) ident(b) ident(Ha) :=
  let p := fresh "p" in
  sent_step H Hs Hall p Ha ltac:(reflexivity);
  apply findPda_run_inv in Ha; destruct Ha as [Ha _];
  destruct p as [a b]; cbn beta iota in H.

Lemma hexDecode_length (n : nat) (s : jsstring) :
  length s = (2 * n)%nat ->
  forallb (fun c => bool_decide (is_Some (hex_value c))) s = true ->
  length (hexDecode s) = n.
Proof.
  revert s. induction n as [|n IH]; intros s Hlen Hhex.
  - destruct s; [reflexivity | discriminate].
  - destruct s as [|c1 [|c2 s]]; try (cbn in Hlen; lia).
    cbn [forallb] in Hhex. apply andb_true_iff in Hhex. destruct Hhex as [H1 Hhex].
    apply andb_true_iff in Hhex. destruct Hhex as [H2 Hhex].
    apply bool_decide_eq_true in H1, H2. destruct H1 as [v1 Hv1], H2 as [v2 Hv2].
    cbn [hexDecode]. rewrite Hv1, Hv2. cbn [length]. f_equal.
    apply IH; [cbn in Hlen; lia | exact Hhex].
Qed.

Lemma parseManifestHash_length (input : jsstring) (hash : Buffer) :
  UpdateManifest.parseManifestHash input = Normal hash -> length hash = 32%nat.
Proof.
  unfold UpdateManifest.parseManifestHash. case_bool_decide; [discriminate|]. cbv zeta.
  set (cleaned := if startsWith (trim input) (str "0x") || startsWith (trim input) (str "0X")
                  then slice_from 2 (trim input) else trim input).
  destruct (Nat.eqb_spec (length cleaned) 64) as [Hlen|]; [|discriminate].
  cbn [negb]. destruct (is_hex_string cleaned) eqn:Hhex; [|discriminate].
  cbn [negb]. intros Heq. apply Normal_inj in Heq. subst hash.
  apply hexDecode_length; [rewrite Hlen; reflexivity|].
  unfold is_hex_string in Hhex. apply andb_true_iff in Hhex. apply Hhex.
Qed.

Lemma deriveManifestPda_run (w : World) (config : PublicKey) (objectId : Z)
    (t : list Effect) (p : PublicKey * Z) :
  UpdateManifest.deriveManifestPda w config objectId = (t, Normal p) ->
  0 <= objectId < 2 ^ 64
  /\ p = findProgramAddressSync w
           [UpdateManifest.MANIFEST_SEED; toBuffer config; le_bytes 8 objectId] OGAL_PROGRAM_ID.
Proof.
  unfold UpdateManifest.deriveManifestPda. intros H.
  run_pure H as objectIdBytes Hbytes.
  apply writeUIntLE_normal in Hbytes. destruct Hbytes as [Hrange ->].
  apply findPda_run_inv in H. destruct H as [-> _].
  split; [exact Hrange | reflexivity].
Qed.

Lemma deriveManifestPda_sends_nothing (w : World) (config : PublicKey) (objectId : Z) :
  sentTransactions (effects (UpdateManifest.deriveManifestPda w config objectId)) = [].
Proof.
  unfold UpdateManifest.deriveManifestPda. rewrite bind_pure.
  destruct (writeUIntLE 8 objectId); reflexivity.
Qed.

Lemma ownerTokenAccountOf_sends_nothing (w : World) (argv : UpdateManifest.Argv)
    (owner objectMint : PublicKey) :
  sentTransactions (effects (UpdateManifest.ownerTokenAccountOf w argv owner objectMint)) = [].
Proof.
  unfold UpdateManifest.ownerTokenAccountOf.
  destruct (UpdateManifest.owner_token_account argv) as [[|c a]|]; try reflexivity.
  - unfold findPda. rewrite bind_perform.
    destruct (findProgramAddressSync w _ _). reflexivity.
  - unfold findPda. rewrite bind_perform.
    destruct (findProgramAddressSync w _ _). reflexivity.
Qed.

Lemma ownerTokenAccountOf_run (w : World) (argv : UpdateManifest.Argv)
    (owner objectMint account : PublicKey) (t : list Effect) :
  UpdateManifest.ownerTokenAccountOf w argv owner objectMint = (t, Normal account) ->
  match UpdateManifest.owner_token_account argv with
  | Some (c :: a) => PublicKey_of_string (c :: a) = Normal account
  | _ => account = fst (findProgramAddressSync w
                          [toBuffer owner; toBuffer TOKEN_PROGRAM_ID; toBuffer objectMint]
                          ASSOCIATED_TOKEN_PROGRAM_ID)
  end.
Proof.
  unfold UpdateManifest.ownerTokenAccountOf.
  destruct (UpdateManifest.owner_token_account argv) as [[|c a]|]; intros H.
  - run_pda H as ata bump Hata. apply (pure_run_inv (Normal ata)) in H.
    destruct H as [H _]. apply Normal_inj in H. subst account. rewrite <- Hata. reflexivity.
  - apply pure_run_inv in H. apply H.
  - run_pda H as ata bump Hata. apply (pure_run_inv (Normal ata)) in H.
    destruct H as [H _]. apply Normal_inj in H. subst account. rewrite <- Hata. reflexivity.
Qed.

Lemma bump_mismatch_false (expected : option Z) (derived : Z) :
  UpdateManifest.bump_mismatch expected derived = false ->
  forall b, expected = Some b -> b = derived.
Proof.
  intros H b ->. cbn in H. apply negb_false_iff in H. apply Z.eqb_eq in H. exact H.
Qed.

(** X11. update-manifest.js sends a transaction only after all of this: the
    namespace, the object id (a u64), the object mint, the manifest hash (32
    bytes) and the active flag have been parsed; the metadata URI has
    between 1 and 128 characters; the owner key pair has been loaded; the
    bump seeds that were given equal the derived ones; and the object mint
    given is the one derived for the manifest of that object id.  It then
    sends exactly one transaction, paid and signed by the owner, whose
    single instruction carries the [update_object_manifest] discriminator,
    the hash, the length-prefixed URI and the active flag.  The script
    returns the signature when that transaction is confirmed; when it fails
    with an error, the script throws that error, unless [collectLogs] fails
    on it, in which case the script throws the failure of [collectLogs]. *)
Theorem update_manifest_sends_after_checks (w : World) (argv : UpdateManifest.Argv) :
  sentTransactions (effects (UpdateManifest.main w argv)) <> [] ->
  exists (namespace objectMint ownerTokenAccount : PublicKey) (objectId : Z)
         (manifestHash : Buffer) (isActive : bool) (ownerKeypair : Keypair)
         (blockhash : jsstring) (lastValidBlockHeight : Z),
    PublicKey_of_string (UpdateManifest.namespace argv) = Normal namespace
    /\ UpdateManifest.parseBigInt (UpdateManifest.object_id argv) (str "object-id")
       = Normal objectId
    /\ 0 <= objectId < 2 ^ 64
    /\ PublicKey_of_string (UpdateManifest.object_mint argv) = Normal objectMint
    /\ UpdateManifest.parseManifestHash (UpdateManifest.manifest_hash argv) = Normal manifestHash
    /\ length manifestHash = 32%nat
    /\ UpdateManifest.parseBoolean (VString (UpdateManifest.is_active argv)) (str "is-active")
       = Normal isActive
    /\ (1 <= length (UpdateManifest.metadata_uri argv) <= 128)%nat
    /\ readKeypair w (UpdateManifest.owner_keypair argv) = Normal ownerKeypair
    /\ getLatestBlockhash w = Normal (blockhash, lastValidBlockHeight)
    /\ let owner := publicKey ownerKeypair in
       let pda := fun seeds => findProgramAddressSync w seeds OGAL_PROGRAM_ID in
       let config := pda [utf8Encode (str "config"); toBuffer namespace] in
       let auth := pda [utf8Encode (str "auth"); toBuffer (fst config)] in
       let manifest :=
         pda [UpdateManifest.MANIFEST_SEED; toBuffer (fst config); le_bytes 8 objectId] in
       let mint := pda [UpdateManifest.MINT_SEED; toBuffer (fst manifest)] in
       let metadata :=
         findProgramAddressSync w
           [utf8Encode (str "metadata"); toBuffer UpdateManifest.TOKEN_METADATA_PROGRAM_ID;
            toBuffer objectMint]
           UpdateManifest.TOKEN_METADATA_PROGRAM_ID in
       let uriBytes := utf8Encode (UpdateManifest.metadata_uri argv) in
       let data :=
         UpdateManifest.UPDATE_MANIFEST_DISCRIMINATOR ++ manifestHash
         ++ (le_bytes 4 (Z.of_nat (length uriBytes)) ++ uriBytes)
         ++ [if isActive then 1 else 0] in
       let instruction :=
         mkInstruction OGAL_PROGRAM_ID
           [mkAccountMeta owner true true;
            mkAccountMeta (fst config) false true;
            mkAccountMeta (fst auth) false false;
            mkAccountMeta (fst manifest) false true;
            mkAccountMeta objectMint false false;
            mkAccountMeta ownerTokenAccount false false;
            mkAccountMeta (fst metadata) false true;
            mkAccountMeta UpdateManifest.TOKEN_METADATA_PROGRAM_ID false false;
            mkAccountMeta SYSVAR_RENT_PUBKEY false false;
            mkAccountMeta SYSVAR_INSTRUCTIONS_PUBKEY false false]
           data in
       let tx := mkTransaction [ProgramInstruction instruction] owner blockhash in
       toBuffer (fst mint) = toBuffer objectMint
       /\ (forall b, UpdateManifest.config_bump argv = Some b -> b = snd config)
       /\ (forall b, UpdateManifest.manifest_bump argv = Some b -> b = snd manifest)
       /\ (forall b, UpdateManifest.mint_bump argv = Some b -> b = snd mint)
       /\ match UpdateManifest.owner_token_account argv with
          | Some (c :: a) => PublicKey_of_string (c :: a) = Normal ownerTokenAccount
          | _ => ownerTokenAccount
                 = fst (findProgramAddressSync w
                          [toBuffer owner; toBuffer TOKEN_PROGRAM_ID; toBuffer objectMint]
                          ASSOCIATED_TOKEN_PROGRAM_ID)
          end
       /\ length data = (8 + 32 + 4 + length uriBytes + 1)%nat
       /\ sentTransactions (effects (UpdateManifest.main w argv)) = [tx]
       /\ outcome (UpdateManifest.main w argv)
          = match sendAndConfirmTransaction w tx [owner] with
            | Normal signature => Normal signature
            | Throw err =>
                match Utils.collectLogs err with
                | Normal _ => Throw err
                | Throw unreadable => Throw unreadable
                end
            end.
Proof.
  destruct (UpdateManifest.main w argv) as [trace o] eqn:H. cbn [effects outcome fst snd].
  intros Hs. remember (sentTransactions trace) as sent eqn:Hall in |- *.
  unfold UpdateManifest.main in H.
  sent_pure H Hs Hall as namespace Hnamespace.
  sent_pure H Hs Hall as objectId HobjectId.
  sent_pure H Hs Hall as objectMint HobjectMint.
  sent_pure H Hs Hall as manifestHash Hhash. cbv zeta in H.
  sent_pure H Hs Hall as isActive Hactive.
  sent_pure H Hs Hall as u1 Hempty. apply throw_if_normal in Hempty.
  sent_pure H Hs Hall as u2 Hlong. apply throw_if_normal in Hlong.
  sent_perform H Hs Hall as ownerKeypair Hkeypair.
  sent_perform H Hs Hall as u3 Hconnection.
  unfold Utils.deriveConfigPda, Utils.deriveAuthPda in H.
  sent_pda H Hs Hall as configPda configBump Hconfig.
  sent_pure H Hs Hall as u4 HconfigBump. apply throw_if_normal in HconfigBump.
  sent_pda H Hs Hall as authPda authBump Hauth.
  sent_step H Hs Hall manifest Hmanifest ltac:(apply deriveManifestPda_sends_nothing).
  destruct manifest as [manifestPda manifestBump]. cbn beta iota in H.
  apply deriveManifestPda_run in Hmanifest. destruct Hmanifest as [Hrange Hmanifest].
  sent_pure H Hs Hall as u5 HmanifestBump. apply throw_if_normal in HmanifestBump.
  unfold UpdateManifest.deriveObjectMintPda in H.
  sent_pda H Hs Hall as derivedObjectMint mintBump Hmint.
  sent_pure H Hs Hall as u6 Hsame. apply throw_if_normal in Hsame.
  apply negb_false_iff, PublicKey_equals_spec in Hsame.
  sent_pure H Hs Hall as u7 HmintBump. apply throw_if_normal in HmintBump.
  sent_step H Hs Hall ownerTokenAccount Hota ltac:(apply ownerTokenAccountOf_sends_nothing).
  apply ownerTokenAccountOf_run in Hota.
  sent_pda H Hs Hall as metadataPda metadataBump Hmetadata.
  sent_pure H Hs Hall as encodedUri Hencoded.
  apply encodeString_normal in Hencoded. destruct Hencoded as [Hfits ->].
  cbv zeta in H.
  sent_perform H Hs Hall as u8 Hbuild.
  sent_perform H Hs Hall as blockhashAndHeight Hblockhash.
  destruct blockhashAndHeight as [blockhash lastValidBlockHeight]. cbn beta iota in H.
  rewrite try_catch_rethrow in H. apply pair_equal_spec in H. destruct H as [<- <-].
  exists namespace, objectMint, ownerTokenAccount, objectId, manifestHash, isActive,
    ownerKeypair, blockhash, lastValidBlockHeight.
  pose proof (parseManifestHash_length _ _ Hhash) as Hhashlen.
  cbv zeta. rewrite <- Hconfig. cbn [fst snd]. rewrite <- Hauth, <- Hmanifest. cbn [fst snd].
  rewrite <- Hmint, <- Hmetadata. cbn [fst snd].
  split; [exact Hnamespace|]. split; [exact HobjectId|]. split; [exact Hrange|].
  split; [exact HobjectMint|]. split; [exact Hhash|]. split; [exact Hhashlen|].
  split; [exact Hactive|].
  split.
  { apply Nat.eqb_neq in Hempty. apply Nat.ltb_ge in Hlong. lia. }
  split; [exact Hkeypair|]. split; [exact Hblockhash|].
  split; [exact Hsame|].
  split; [exact (bump_mismatch_false _ _ HconfigBump)|].
  split; [exact (bump_mismatch_false _ _ HmanifestBump)|].
  split; [exact (bump_mismatch_false _ _ HmintBump)|].
  split; [exact Hota|].
  split.
  { rewrite !length_app, Hhashlen, le_bytes_length.
    unfold UpdateManifest.UPDATE_MANIFEST_DISCRIMINATOR.
    rewrite utils_discriminator_length. cbn [length]. lia. }
  split; [exact Hall | reflexivity].
Qed.

(** X12. initialize.js sends a transaction only when the public keys given
    with [--authority] and [--payer] (if any) are those of the key pairs
    loaded.  It then sends exactly one transaction, paid by the payer,
    whose single instruction carries the [initialize] discriminator and the
    32 bytes of the namespace; the payer key pair signs, and the authority
    key pair too when it is another one, so that every account the
    instruction marks as a signer has its key pair among the signers. *)
Theorem initialize_sends_after_key_checks (w : World) (argv : Initialize.Argv) :
  sentTransactions (effects (Initialize.main w argv)) <> [] ->
  exists (namespace authority payer : PublicKey) (authorityKeypair payerKeypair : Keypair)
         (authorityKeypairPath blockhash : jsstring) (lastValidBlockHeight : Z),
    Initialize.checkedAuthorityKeypair argv = Normal authorityKeypairPath
    /\ PublicKey_of_string (Initialize.namespace argv) = Normal namespace
    /\ readKeypair w authorityKeypairPath = Normal authorityKeypair
    /\ match Initialize.payer_keypair argv with
       | Some (c :: p) => readKeypair w (c :: p) = Normal payerKeypair
       | _ => payerKeypair = authorityKeypair
       end
    /\ match Initialize.authority argv with
       | Some (c :: a) => PublicKey_of_string (c :: a) = Normal authority
       | _ => authority = publicKey authorityKeypair
       end
    /\ match Initialize.payer argv with
       | Some (c :: a) => PublicKey_of_string (c :: a) = Normal payer
       | _ => payer = publicKey payerKeypair
       end
    /\ toBuffer authority = toBuffer (publicKey authorityKeypair)
    /\ toBuffer payer = toBuffer (publicKey payerKeypair)
    /\ getLatestBlockhash w = Normal (blockhash, lastValidBlockHeight)
    /\ let config :=
         fst (findProgramAddressSync w [utf8Encode (str "config"); toBuffer namespace]
                Initialize.PROGRAM_ID) in
       let auth :=
         fst (findProgramAddressSync w [utf8Encode (str "auth"); toBuffer config]
                Initialize.PROGRAM_ID) in
       let instruction :=
         mkInstruction Initialize.PROGRAM_ID
           [mkAccountMeta authority true false;
            mkAccountMeta payer true true;
            mkAccountMeta config false true;
            mkAccountMeta auth false true;
            mkAccountMeta SYSTEM_PROGRAM_ID false false]
           (Initialize.INITIALIZE_DISCRIMINATOR ++ toBuffer namespace) in
       let tx := mkTransaction [ProgramInstruction instruction] payer blockhash in
       let signers :=
         publicKey payerKeypair
         :: (if negb (PublicKey_equals (publicKey payerKeypair) (publicKey authorityKeypair))
             then [publicKey authorityKeypair] else []) in
       sentTransactions (effects (Initialize.main w argv)) = [tx]
       /\ outcome (Initialize.main w argv) = sendAndConfirmTransaction w tx signers
       /\ length (data instruction) = 40%nat
       /\ forall account : AccountMeta,
            In account (keys instruction) -> isSigner account = true ->
            exists signer, In signer signers /\ toBuffer signer = toBuffer (pubkey account).
Proof.
  destruct (Initialize.main w argv) as [trace o] eqn:H. cbn [effects outcome fst snd].
  intros Hs. remember (sentTransactions trace) as sent eqn:Hall in |- *.
  unfold Initialize.main in H.
  sent_pure H Hs Hall as authorityKeypairPath Hpath.
  sent_pure H Hs Hall as namespace Hnamespace.
  sent_perform H Hs Hall as authorityKeypair Hkeypair.
  sent_step H Hs Hall payerKeypair Hpayer
    ltac:(destruct (Initialize.payer_keypair argv) as [[|? ?]|]; reflexivity).
  assert (Hpayer' : match Initialize.payer_keypair argv with
                    | Some (c :: p) => readKeypair w (c :: p) = Normal payerKeypair
                    | _ => payerKeypair = authorityKeypair
                    end).
  { destruct (Initialize.payer_keypair argv) as [[|c p]|].
    - apply (pure_run_inv (Normal authorityKeypair)) in Hpayer.
      destruct Hpayer as [Hpayer _]. apply Normal_inj in Hpayer. congruence.
    - apply perform_run_inv in Hpayer. apply Hpayer.
    - apply (pure_run_inv (Normal authorityKeypair)) in Hpayer.
      destruct Hpayer as [Hpayer _]. apply Normal_inj in Hpayer. congruence. }
  clear Hpayer.
  sent_pure H Hs Hall as authority Hauthority.
  sent_pure H Hs Hall as payer Hpayer.
  sent_pure H Hs Hall as u1 HauthorityMatch. apply throw_if_normal in HauthorityMatch.
  apply negb_false_iff, PublicKey_equals_spec in HauthorityMatch.
  sent_pure H Hs Hall as u2 HpayerMatch. apply throw_if_normal in HpayerMatch.
  apply negb_false_iff, PublicKey_equals_spec in HpayerMatch.
  sent_perform H Hs Hall as u3 Hconnection.
  sent_pda H Hs Hall as config configBump Hconfig.
  sent_pda H Hs Hall as auth authBump Hauth.
  cbv zeta in H.
  sent_perform H Hs Hall as u4 Hbuild.
  sent_perform H Hs Hall as blockhashAndHeight Hblockhash.
  destruct blockhashAndHeight as [blockhash lastValidBlockHeight]. cbn beta iota in H.
  unfold perform in H. apply pair_equal_spec in H. destruct H as [<- <-].
  exists namespace, authority, payer, authorityKeypair, payerKeypair,
    authorityKeypairPath, blockhash, lastValidBlockHeight.
  cbv zeta. rewrite <- Hconfig. cbn [fst]. rewrite <- Hauth. cbn [fst].
  split; [exact Hpath|]. split; [exact Hnamespace|]. split; [exact Hkeypair|].
  split; [exact Hpayer'|].
  split.
  { destruct (Initialize.authority argv) as [[|c a]|];
      [apply Normal_inj in Hauthority; congruence | exact Hauthority
      | apply Normal_inj in Hauthority; congruence]. }
  split.
  { destruct (Initialize.payer argv) as [[|c a]|];
      [apply Normal_inj in Hpayer; congruence | exact Hpayer
      | apply Normal_inj in Hpayer; congruence]. }
  split; [exact HauthorityMatch|]. split; [exact HpayerMatch|].
  split; [exact Hblockhash|].
  split; [exact Hall|]. split; [reflexivity|].
  split.
  { cbn [data]. rewrite length_app, (PublicKey_of_string_length _ _ Hnamespace). reflexivity. }
  intros account Hin Hsigner. cbn [keys In] in Hin.
  destruct Hin as [<-|[<-|[<-|[<-|[<-|[]]]]]]; cbn [isSigner pubkey] in *; try discriminate.
  - destruct (PublicKey_equals (publicKey payerKeypair) (publicKey authorityKeypair)) eqn:Hsame.
    + exists (publicKey payerKeypair). split; [left; reflexivity|].
      apply PublicKey_equals_spec in Hsame. congruence.
    + exists (publicKey authorityKeypair). split; [right; left; reflexivity|].
      congruence.
  - exists (publicKey payerKeypair). split; [left; reflexivity | congruence].
Qed.

(** ** The signers of a mint *)

Lemma jsstring_eqb_eq (a b : jsstring) : jsstring_eqb a b = true <-> a = b.
Proof. unfold jsstring_eqb. apply bool_decide_eq_true. Qed.

Lemma map_set_In {V} (key : jsstring) (value : V) (m : list (jsstring * V)) (e : jsstring * V) :
  In e (MintObject.map_set key value m) -> e = (key, value) \/ In e m.
Proof.
  induction m as [|[k v] m IH]; cbn [MintObject.map_set].
  - intros [<-|[]]. left. reflexivity.
  - destruct (jsstring_eqb k key) eqn:Hk.
    + apply jsstring_eqb_eq in Hk. subst k. intros [<-|Hin]; [left; reflexivity|].
      right. right. exact Hin.
    + intros [<-|Hin]; [right; left; reflexivity|].
      destruct (IH Hin) as [->|Hin']; [left; reflexivity | right; right; exact Hin'].
Qed.

Lemma map_set_keys {V} (key : jsstring) (value : V) (m : list (jsstring * V)) (k : jsstring) :
  In k (map fst (MintObject.map_set key value m)) <-> k = key \/ In k (map fst m).
Proof.
  induction m as [|[k0 v0] m IH]; cbn [MintObject.map_set map fst In].
  - intuition congruence.
  - destruct (jsstring_eqb k0 key) eqn:Hk.
    + apply jsstring_eqb_eq in Hk. subst k0. cbn [map fst In]. intuition congruence.
    + cbn [map fst In]. rewrite IH. intuition congruence.
Qed.

Lemma map_set_NoDup {V} (key : jsstring) (value : V) (m : list (jsstring * V)) :
  List.NoDup (map fst m) -> List.NoDup (map fst (MintObject.map_set key value m)).
Proof.
  induction m as [|[k0 v0] m IH]; cbn [MintObject.map_set map fst]; intros Hnd.
  - constructor; [intros [] | constructor].
  - inversion Hnd as [|? ? Hnotin Hnd']; subst.
    destruct (jsstring_eqb k0 key) eqn:Hk; cbn [map fst].
    + constructor; assumption.
    + constructor; [|apply IH, Hnd'].
      rewrite map_set_keys. intros [->|Hin]; [|contradiction].
      assert (jsstring_eqb key key = true) by (apply jsstring_eqb_eq; reflexivity).
      congruence.
Qed.

Lemma toBase58_of_buffer (a b : PublicKey) : toBuffer a = toBuffer b -> toBase58 a = toBase58 b.
Proof. destruct a, b. cbn. intros ->. reflexivity. Qed.

Lemma NoDup_map_transfer {A B C} (f : A -> B) (g : A -> C) (l : list A) :
  (forall x y, In x l -> In y l -> f x = f y -> g x = g y) ->
  List.NoDup (map g l) -> List.NoDup (map f l).
Proof.
  induction l as [|a l IH]; intros Hfg Hnd; [constructor|].
  cbn [map] in *. inversion Hnd as [|? ? Hnotin Hnd']; subst.
  constructor.
  - intros Hin. apply in_map_iff in Hin. destruct Hin as (x & Hx & Hxl).
    apply Hnotin. apply in_map_iff. exists x. split; [|exact Hxl].
    apply Hfg; [right; exact Hxl | left; reflexivity | exact Hx].
  - apply IH; [|exact Hnd']. intros x y Hx Hy. apply Hfg; right; assumption.
Qed.

(** A signer entry stands for a verified creator other than the payer, under
    the base58 text of its address, with a key pair for that address. *)
Lemma collectCreatorSigners_entries (w : World) (payer : PublicKey) (creators : list Creator) :
  forall (acc result : list (jsstring * Keypair)),
    outcome (MintObject.collectCreatorSigners w payer creators acc) = Normal result ->
    (List.NoDup (map fst acc) -> List.NoDup (map fst result))
    /\ (forall k, In k (map fst acc) -> In k (map fst result))
    /\ (forall e, In e result ->
          In e acc
          \/ exists c, In c creators /\ verified c = true
                       /\ toBuffer (address c) <> toBuffer payer
                       /\ fst e = toBase58 (address c)
                       /\ toBuffer (publicKey (snd e)) = toBuffer (address c))
    /\ (forall c, In c creators -> verified c = true ->
          toBuffer (address c) <> toBuffer payer ->
          In (toBase58 (address c)) (map fst result)).
Proof.
  induction creators as [|creator rest IH]; intros acc result H.
  - apply Normal_inj in H. subst result.
    split; [tauto|]. split; [tauto|]. split; [tauto|]. intros c [].
  - cbn [MintObject.collectCreatorSigners] in H.
    assert (Hskip : forall result',
               outcome (MintObject.collectCreatorSigners w payer rest acc) = Normal result' ->
               verified creator = false \/ toBuffer (address creator) = toBuffer payer ->
               result' = result ->
               (List.NoDup (map fst acc) -> List.NoDup (map fst result))
               /\ (forall k, In k (map fst acc) -> In k (map fst result))
               /\ (forall e, In e result ->
                     In e acc
                     \/ exists c, In c (creator :: rest) /\ verified c = true
                                  /\ toBuffer (address c) <> toBuffer payer
                                  /\ fst e = toBase58 (address c)
                                  /\ toBuffer (publicKey (snd e)) = toBuffer (address c))
               /\ (forall c, In c (creator :: rest) -> verified c = true ->
                     toBuffer (address c) <> toBuffer payer ->
                     In (toBase58 (address c)) (map fst result))).
    { intros result' Hrest Hwhy <-. destruct (IH acc result' Hrest) as (Hnd & Hkeep & Hin & Hall).
      split; [exact Hnd|]. split; [exact Hkeep|]. split.
      - intros e He. destruct (Hin e He) as [Hacc|(c & Hc & Hrestc)]; [left; exact Hacc|].
        right. exists c. split; [right; exact Hc | exact Hrestc].
      - intros c [<-|Hc] Hv Hp; [|exact (Hall c Hc Hv Hp)].
        destruct Hwhy as [Hwhy|Hwhy]; [congruence | contradiction]. }
    destruct (verified creator) eqn:Hverified; cbn [negb] in H.
    2:{ apply (Hskip result H); [left; reflexivity | reflexivity]. }
    destruct (PublicKey_equals (address creator) payer) eqn:Hpayer.
    { apply PublicKey_equals_spec in Hpayer.
      apply (Hskip result H); [right; exact Hpayer | reflexivity]. }
    clear Hskip.
    assert (Hnotpayer : toBuffer (address creator) <> toBuffer payer).
    { intros Heq. apply PublicKey_equals_spec in Heq. congruence. }
    destruct (keypairPath creator) as [path|]; [|discriminate H].
    invert_bind H as present Hpresent.
    destruct (negb present); [discriminate H|].
    invert_bind H as keypair Hkeypair.
    destruct (PublicKey_equals (publicKey keypair) (address creator)) eqn:Hmatch;
      cbn [negb] in H; [|discriminate H].
    apply PublicKey_equals_spec in Hmatch.
    destruct (IH _ result H) as (Hnd & Hkeep & Hin & Hall).
    split; [|split; [|split]].
    + intros Hacc. apply Hnd, map_set_NoDup, Hacc.
    + intros k Hk. apply Hkeep, map_set_keys. right. exact Hk.
    + intros e He. destruct (Hin e He) as [Hset|(c & Hc & Hrestc)].
      * apply map_set_In in Hset. destruct Hset as [->|Hacc]; [|left; exact Hacc].
        right. exists creator. cbn [fst snd].
        split; [left; reflexivity|]. repeat split; assumption.
      * right. exists c. split; [right; exact Hc | exact Hrestc].
    + intros c [<-|Hc] Hv Hp; [|exact (Hall c Hc Hv Hp)].
      apply Hkeep, map_set_keys. left. reflexivity.
Qed.

Lemma effects_bind {A B} (m : Script A) (f : A -> Script B) :
  effects (m ≫= f)
  = effects m ++ match outcome m with Normal a => effects (f a) | Throw _ => [] end.
Proof.
  rewrite bind_cases. destruct (outcome m); cbn [effects fst]; [reflexivity|].
  rewrite app_nil_r. reflexivity.
Qed.

(** The loop touches the file system only: it looks for and loads the key
    pair files of verified creators other than the payer. *)
Lemma collectCreatorSigners_effects (w : World) (payer : PublicKey) (creators : list Creator) :
  forall (acc : list (jsstring * Keypair)) (e : Effect),
    In e (effects (MintObject.collectCreatorSigners w payer creators acc)) ->
    exists c path,
      In c creators /\ verified c = true /\ toBuffer (address c) <> toBuffer payer
      /\ keypairPath c = Some path
      /\ (e = ExistsSync (expandPath w path) \/ e = LoadKeypair (expandPath w path)).
Proof.
  induction creators as [|creator rest IH]; intros acc e He; [destruct He|].
  cbn [MintObject.collectCreatorSigners] in He.
  assert (Hrest : forall acc',
             In e (effects (MintObject.collectCreatorSigners w payer rest acc')) ->
             exists c path,
               In c (creator :: rest) /\ verified c = true
               /\ toBuffer (address c) <> toBuffer payer
               /\ keypairPath c = Some path
               /\ (e = ExistsSync (expandPath w path) \/ e = LoadKeypair (expandPath w path))).
  { intros acc' Hin. destruct (IH acc' e Hin) as (c & path & Hc & Hother).
    exists c, path. split; [right; exact Hc | exact Hother]. }
  destruct (verified creator) eqn:Hverified; cbn [negb] in He; [|exact (Hrest acc He)].
  destruct (PublicKey_equals (address creator) payer) eqn:Hpayer; [exact (Hrest acc He)|].
  assert (Hnotpayer : toBuffer (address creator) <> toBuffer payer).
  { intros Heq. apply PublicKey_equals_spec in Heq. congruence. }
  destruct (keypairPath creator) as [path|] eqn:Hpath; [|destruct He].
  assert (Hhere : forall e', e' = ExistsSync (expandPath w path)
                             \/ e' = LoadKeypair (expandPath w path) ->
                   e = e' ->
                   exists c path0,
                     In c (creator :: rest) /\ verified c = true
                     /\ toBuffer (address c) <> toBuffer payer
                     /\ keypairPath c = Some path0
                     /\ (e = ExistsSync (expandPath w path0)
                         \/ e = LoadKeypair (expandPath w path0))).
  { intros e' He' ->. exists creator, path.
    split; [left; reflexivity|]. repeat split; assumption. }
  unfold fileExists in He. rewrite bind_perform in He. cbn [effects fst] in He.
  destruct He as [<-|He]; [apply (Hhere (ExistsSync (expandPath w path))); auto|].
  destruct (negb (existsSync w (expandPath w path))); [destruct He|].
  unfold loadKeypair in He. rewrite bind_perform in He.
  destruct (readKeypair w (expandPath w path)) as [keypair|err]; cbn [effects fst] in He.
  - destruct He as [<-|He]; [apply (Hhere (LoadKeypair (expandPath w path))); auto|].
    destruct (negb (PublicKey_equals (publicKey keypair) (address creator)));
      [destruct He | exact (Hrest _ He)].
  - destruct He as [<-|[]]. apply (Hhere (LoadKeypair (expandPath w path))); auto.
Qed.

Lemma collectCreatorSigners_sends_nothing (w : World) (payer : PublicKey)
    (creators : list Creator) (acc : list (jsstring * Keypair)) :
  sentTransactions (effects (MintObject.collectCreatorSigners w payer creators acc)) = []
  /\ rpcRequests (effects (MintObject.collectCreatorSigners w payer creators acc)) = [].
Proof.
  pose proof (collectCreatorSigners_effects w payer creators acc) as Hall.
  induction (effects (MintObject.collectCreatorSigners w payer creators acc)) as [|e t IH].
  - split; reflexivity.
  - destruct IH as [IHs IHr]; [intros e' He'; apply Hall; right; exact He'|].
    destruct (Hall e (or_introl eq_refl)) as (c & path & _ & _ & _ & _ & [->| ->]);
      split; cbn; assumption.
Qed.

(** ** Base58: decoding what [toBase58] printed *)

Lemma alphabet_index :
  Forall (fun k => index_of (nth k BASE58_ALPHABET 0) BASE58_ALPHABET = Some (Z.of_nat k))
         (seq 0 58).
Proof. vm_compute. repeat constructor. Qed.

Lemma alphabet_index_of (d : Z) :
  0 <= d < 58 ->
  index_of (nth (Z.to_nat d) BASE58_ALPHABET 0) BASE58_ALPHABET = Some d.
Proof.
  intros Hd. pose proof alphabet_index as H. rewrite Forall_forall in H.
  rewrite (H (Z.to_nat d)); [f_equal; lia|].
  apply list_elem_of_In, in_seq. lia.
Qed.

Lemma alphabet_one (d : Z) :
  0 <= d < 58 -> nth (Z.to_nat d) BASE58_ALPHABET 0 = 49 -> d = 0.
Proof.
  intros Hd H. pose proof (alphabet_index_of d Hd) as Hi. rewrite H in Hi.
  vm_compute in Hi. congruence.
Qed.

Lemma base58_value_spec (s : jsstring) (acc : Z) :
  Forall (fun c => is_Some (index_of c BASE58_ALPHABET)) s ->
  base58_value s acc = Some (fold_left base58_step s acc).
Proof.
  revert acc. induction s as [|c s IH]; intros acc Hs; [reflexivity|].
  pose proof (Forall_inv Hs) as [d Hd]. cbn [base58_value fold_left].
  unfold base58_step at 2. rewrite Hd. change (default 0 (Some d)) with d.
  apply IH, (Forall_inv_tail Hs).
Qed.

Lemma base58_digits_app (fuel : nat) (n : Z) (acc : jsstring) :
  base58_digits fuel n acc = base58_digits fuel n [] ++ acc.
Proof.
  revert n acc. induction fuel as [|fuel IH]; intros n acc; [reflexivity|].
  cbn [base58_digits]. destruct (n <=? 0); [reflexivity|].
  rewrite (IH (n / 58) (_ :: acc)), (IH (n / 58) [_]).
  rewrite <- app_assoc. reflexivity.
Qed.

Lemma base58_digits_spec (fuel : nat) (n : Z) :
  0 <= n < 58 ^ Z.of_nat fuel ->
  Forall (fun c => is_Some (index_of c BASE58_ALPHABET)) (base58_digits fuel n [])
  /\ fold_left base58_step (base58_digits fuel n []) 0 = n
  /\ match base58_digits fuel n [] with
     | [] => n = 0
     | c :: _ => c <> 49
     end.
Proof.
  revert n. induction fuel as [|fuel IH]; intros n Hn.
  - cbn in Hn. cbn. split; [constructor|]. split; lia.
  - cbn [base58_digits]. destruct (Z.leb_spec n 0) as [Hzero|Hpos].
    { split; [constructor|]. cbn. split; lia. }
    rewrite base58_digits_app.
    assert (Hdiv : 0 <= n / 58 < 58 ^ Z.of_nat fuel).
    { split; [apply Z.div_pos; lia|]. apply Z.div_lt_upper_bound; [lia|].
      rewrite Nat2Z.inj_succ, Z.pow_succ_r in Hn by lia. lia. }
    pose proof (Z.mod_pos_bound n 58 ltac:(lia)) as Hmod.
    destruct (IH (n / 58) Hdiv) as (Hall & Hval & Hhead).
    split; [|split].
    + apply Forall_app. split; [exact Hall|]. constructor; [|constructor].
      eexists. apply alphabet_index_of. exact Hmod.
    + rewrite fold_left_app, Hval. cbn [fold_left]. unfold base58_step.
      rewrite alphabet_index_of by exact Hmod.
      change (default 0 (Some (n mod 58))) with (n mod 58).
      pose proof (Z.div_mod n 58 ltac:(lia)). lia.
    + destruct (base58_digits fuel (n / 58) []) as [|c rest]; [|exact Hhead].
      cbn [app]. intros Hone. apply alphabet_one in Hone; [|exact Hmod].
      pose proof (Z.div_mod n 58 ltac:(lia)). lia.
Qed.

Lemma base58_value_ones (z : nat) (s : jsstring) :
  base58_value (repeat 49 z ++ s) 0 = base58_value s 0.
Proof. induction z as [|z IH]; [reflexivity|]. cbn [repeat app]. exact IH. Qed.

Lemma leading_ones_repeat (z : nat) (s : jsstring) :
  match s with [] => True | c :: _ => c <> 49 end ->
  leading_ones (repeat 49 z ++ s) = z.
Proof.
  intros Hs. induction z as [|z IH]; cbn [repeat app leading_ones].
  - destruct s as [|c s]; [reflexivity|].
    cbn [leading_ones]. destruct c as [|p|p]; try reflexivity.
    do 6 (destruct p as [p|p|]; try reflexivity). congruence.
  - rewrite IH. reflexivity.
Qed.

Lemma be_word_fold (b : Buffer) (acc : Z) :
  fold_left (fun a x => a * 256 + x) b acc
  = acc * 256 ^ Z.of_nat (length b) + Sha256.be_word b.
Proof.
  unfold Sha256.be_word. revert acc. induction b as [|x b IH]; intros acc.
  - cbn. lia.
  - cbn [fold_left length]. rewrite IH, (IH (0 * 256 + x)).
    rewrite Nat2Z.inj_succ, Z.pow_succ_r by lia. ring.
Qed.

Lemma be_word_cons (x : Z) (b : Buffer) :
  Sha256.be_word (x :: b) = x * 256 ^ Z.of_nat (length b) + Sha256.be_word b.
Proof. unfold Sha256.be_word at 1. cbn [fold_left]. rewrite be_word_fold. ring. Qed.

Lemma be_word_bound (b : Buffer) :
  Forall is_byte b -> 0 <= Sha256.be_word b < 256 ^ Z.of_nat (length b).
Proof.
  induction 1 as [|x b Hx Hb IH]; [cbn; lia|].
  rewrite be_word_cons. cbn [length]. rewrite Nat2Z.inj_succ, Z.pow_succ_r by lia.
  unfold is_byte in Hx. nia.
Qed.

Lemma be_word_zeros (z : nat) (b : Buffer) :
  Sha256.be_word (repeat 0 z ++ b) = Sha256.be_word b.
Proof.
  induction z as [|z IH]; [reflexivity|].
  cbn [repeat app]. rewrite be_word_cons, IH. lia.
Qed.

Lemma byte_of_shift_mod (v : Z) (k m : Z) :
  0 <= k -> 8 * k + 8 <= 8 * m ->
  Z.shiftr (v mod 2 ^ (8 * m)) (8 * k) mod 256 = Z.shiftr v (8 * k) mod 256.
Proof.
  intros Hk Hm. change 256 with (2 ^ 8). apply Z.bits_inj'. intros i Hi.
  destruct (Z.lt_ge_cases i 8) as [Hlow|Hhigh].
  - rewrite !Z.mod_pow2_bits_low by lia. rewrite !Z.shiftr_spec by lia.
    apply Z.mod_pow2_bits_low. lia.
  - rewrite !Z.mod_pow2_bits_high by lia. reflexivity.
Qed.

Lemma be_bytes_mod (n m : nat) (v : Z) :
  (n <= m)%nat -> Sha256.be_bytes n (v mod 2 ^ (8 * Z.of_nat m)) = Sha256.be_bytes n v.
Proof.
  induction n as [|n IH]; intros Hn; [reflexivity|].
  cbn [Sha256.be_bytes]. rewrite IH by lia. f_equal.
  apply byte_of_shift_mod; lia.
Qed.

Lemma pow_256 (n : nat) : 256 ^ Z.of_nat n = 2 ^ (8 * Z.of_nat n).
Proof. rewrite Z.pow_mul_r by lia. reflexivity. Qed.

Lemma be_bytes_be_word (b : Buffer) :
  Forall is_byte b -> Sha256.be_bytes (length b) (Sha256.be_word b) = b.
Proof.
  induction 1 as [|x b Hx Hb IH]; [reflexivity|].
  pose proof (be_word_bound b Hb) as Hbound.
  cbn [length Sha256.be_bytes]. rewrite be_word_cons. f_equal.
  - rewrite Z.shiftr_div_pow2 by lia. rewrite <- pow_256.
    rewrite Z.div_add_l by lia. rewrite (Z.div_small (Sha256.be_word b)) by lia.
    unfold is_byte in Hx. rewrite Z.add_0_r. apply Z.mod_small. lia.
  - rewrite <- (be_bytes_mod (length b) (length b)) by lia.
    rewrite <- pow_256, Z.add_comm, Z.mod_add by lia.
    rewrite Z.mod_small by lia. exact IH.
Qed.

Lemma strip_leading_zeros_head (b : Buffer) :
  match strip_leading_zeros b with [] => True | x :: _ => x <> 0 end.
Proof.
  induction b as [|x b IH]; [exact I|].
  cbn [strip_leading_zeros]. destruct x; [exact IH | discriminate | discriminate].
Qed.

Lemma strip_leading_zeros_fixed (b : Buffer) :
  match b with [] => True | x :: _ => x <> 0 end -> strip_leading_zeros b = b.
Proof. destruct b as [|[|p|p] b]; intros H; try reflexivity. congruence. Qed.

Lemma leading_zeros_strip (b : Buffer) :
  b = repeat 0 (leading_zeros b) ++ strip_leading_zeros b.
Proof.
  induction b as [|x b IH]; [reflexivity|].
  destruct x; cbn [leading_zeros strip_leading_zeros repeat app]; [|reflexivity|reflexivity].
  f_equal. exact IH.
Qed.

Lemma strip_leading_zeros_bytes (b : Buffer) :
  Forall is_byte b -> Forall is_byte (strip_leading_zeros b).
Proof.
  induction 1 as [|x b Hx Hb IH]; [constructor|].
  destruct x; cbn [strip_leading_zeros]; [exact IH | |]; constructor; assumption.
Qed.

Lemma be_minimal_be_word (b : Buffer) :
  Forall is_byte b ->
  match b with [] => True | x :: _ => x <> 0 end ->
  be_minimal (Sha256.be_word b) = b.
Proof.
  intros Hb Hhead. destruct b as [|x r]; [reflexivity|].
  pose proof (be_word_bound (x :: r) Hb) as Hbound.
  pose proof (be_word_bound r (Forall_inv_tail Hb)) as Hrest.
  pose proof (Forall_inv Hb) as Hx. unfold is_byte in Hx.
  assert (Hlow : 256 ^ Z.of_nat (length r) <= Sha256.be_word (x :: r)).
  { rewrite be_word_cons. nia. }
  assert (Hpos : 0 < Sha256.be_word (x :: r)).
  { assert (0 < 256 ^ Z.of_nat (length r)) by (apply Z.pow_pos_nonneg; lia). lia. }
  rewrite !pow_256 in Hlow. rewrite pow_256 in Hbound.
  apply Z.log2_le_pow2 in Hlow; [|exact Hpos].
  destruct Hbound as [_ Hhigh]. apply Z.log2_lt_pow2 in Hhigh; [|exact Hpos].
  cbn [length] in Hhigh. rewrite Nat2Z.inj_succ in Hhigh.
  assert (Hlen : Z.to_nat (Z.log2 (Sha256.be_word (x :: r)) / 8 + 1) = length (x :: r)).
  { cbn [length].
    assert (Z.log2 (Sha256.be_word (x :: r)) / 8 = Z.of_nat (length r)).
    { assert (Z.of_nat (length r) <= Z.log2 (Sha256.be_word (x :: r)) / 8)
        by (apply Z.div_le_lower_bound; lia).
      assert (Z.log2 (Sha256.be_word (x :: r)) / 8 < Z.of_nat (length r) + 1)
        by (apply Z.div_lt_upper_bound; lia).
      lia. }
    lia. }
  unfold be_minimal. rewrite Hlen, be_bytes_be_word by exact Hb.
  apply strip_leading_zeros_fixed. exact Hhead.
Qed.

(** [new PublicKey(key.toBase58())] is the key, for a key of 32 bytes. *)
Lemma PublicKey_of_toBase58 (k : PublicKey) :
  length (toBuffer k) = 32%nat -> Forall is_byte (toBuffer k) ->
  PublicKey_of_string (toBase58 k) = Normal k.
Proof.
  destruct k as [b]. cbn [toBuffer]. intros Hlen Hbytes.
  unfold toBase58. cbn [toBuffer].
  pose proof (leading_zeros_strip b) as Hsplit.
  pose proof (strip_leading_zeros_head b) as Hhead.
  pose proof (strip_leading_zeros_bytes b Hbytes) as Hstripped.
  set (z := leading_zeros b) in *. set (b' := strip_leading_zeros b) in *.
  assert (Hword : Sha256.be_word b = Sha256.be_word b').
  { rewrite Hsplit at 1. apply be_word_zeros. }
  assert (Hrange : 0 <= Sha256.be_word b < 58 ^ Z.of_nat (2 * length b)).
  { pose proof (be_word_bound b Hbytes) as Hbound. rewrite Hlen in *.
    split; [lia|]. eapply Z.lt_le_trans; [apply Hbound|]. vm_compute. discriminate. }
  destruct (base58_digits_spec _ _ Hrange) as (Hall & Hval & Hfirst).
  set (digits := base58_digits (2 * length b) (Sha256.be_word b) []) in *.
  assert (Hone : match digits with [] => True | c :: _ => c <> 49 end).
  { destruct digits; [exact I | exact Hfirst]. }
  unfold PublicKey_of_string, bs58_decode.
  rewrite base58_value_ones, (base58_value_spec digits 0 Hall), Hval.
  rewrite (leading_ones_repeat z digits Hone).
  rewrite Hword, (be_minimal_be_word b' Hstripped Hhead), <- Hsplit.
  cbn [mbind Completion_bind]. rewrite bool_decide_eq_true_2 by exact Hlen.
  apply newPublicKey_32. exact Hlen.
Qed.

(** X13. The loop of mint-object.js that gathers the co-signers, started on
    the empty map, for creators with 32-byte addresses.  It only looks for
    and loads key pair files of verified creators other than the payer, and
    makes no request to the node.  When it returns, the signers of the
    transaction (the payer, then the key pairs gathered) are distinct keys;
    each gathered key pair is the key pair of a verified creator other than
    the payer, filed under the base58 text of its address; and every
    verified creator other than the payer has its key pair among them. *)
Theorem mint_signers_are_the_verified_creators
    (w : World) (payer : PublicKey) (creators : list Creator)
    (Hwf : Forall creator_wellformed creators) :
  let run := MintObject.collectCreatorSigners w payer creators [] in
  (forall e, In e (effects run) ->
     exists c path,
       In c creators /\ verified c = true /\ toBuffer (address c) <> toBuffer payer
       /\ keypairPath c = Some path
       /\ (e = ExistsSync (expandPath w path) \/ e = LoadKeypair (expandPath w path)))
  /\ rpcRequests (effects run) = []
  /\ match outcome run with
     | Throw _ => True
     | Normal creatorUniqueSigners =>
         let signers := payer :: map (fun entry => publicKey (snd entry)) creatorUniqueSigners in
         List.NoDup (map toBuffer signers)
         /\ List.NoDup (map fst creatorUniqueSigners)
         /\ (forall entry, In entry creatorUniqueSigners ->
               exists c, In c creators /\ verified c = true
                         /\ toBuffer (address c) <> toBuffer payer
                         /\ fst entry = toBase58 (address c)
                         /\ toBuffer (publicKey (snd entry)) = toBuffer (address c))
         /\ (forall c, In c creators -> verified c = true ->
               toBuffer (address c) <> toBuffer payer ->
               exists entry, In entry creatorUniqueSigners
                             /\ fst entry = toBase58 (address c)
                             /\ toBuffer (publicKey (snd entry)) = toBuffer (address c))
     end.
Proof.
  intros run. split; [apply collectCreatorSigners_effects|].
  split; [apply collectCreatorSigners_sends_nothing|].
  destruct (outcome run) as [result|] eqn:Hrun; [|exact I].
  destruct (collectCreatorSigners_entries w payer creators [] result Hrun)
    as (Hnd & _ & Hin & Hall).
  assert (Hentries : forall entry, In entry result ->
            exists c, In c creators /\ verified c = true
                      /\ toBuffer (address c) <> toBuffer payer
                      /\ fst entry = toBase58 (address c)
                      /\ toBuffer (publicKey (snd entry)) = toBuffer (address c)).
  { intros entry He. destruct (Hin entry He) as [[]|Hc]. exact Hc. }
  assert (Hkeys : List.NoDup (map fst result)) by (apply Hnd; constructor).
  cbv zeta. split; [|split; [exact Hkeys|split; [exact Hentries|]]].
  - cbn [map]. constructor.
    + rewrite map_map. intros Hpayer. apply in_map_iff in Hpayer.
      destruct Hpayer as (entry & Heq & He).
      destruct (Hentries entry He) as (c & _ & _ & Hnot & _ & Hkey). congruence.
    + rewrite map_map. apply (NoDup_map_transfer _ fst); [|exact Hkeys].
      intros x y Hx Hy Heq.
      destruct (Hentries x Hx) as (cx & _ & _ & _ & Hkx & Hbx).
      destruct (Hentries y Hy) as (cy & _ & _ & _ & Hky & Hby).
      rewrite Hkx, Hky. apply toBase58_of_buffer. congruence.
  - intros c Hc Hv Hp. pose proof (Hall c Hc Hv Hp) as Hkey.
    apply in_map_iff in Hkey. destruct Hkey as (entry & Hfst & He).
    exists entry. split; [exact He|]. split; [exact Hfst|].
    destruct (Hentries entry He) as (c' & Hc' & _ & _ & Hk' & Hb').
    rewrite Hb'.
    rewrite Forall_forall in Hwf.
    destruct (Hwf c (proj2 (list_elem_of_In _ _) Hc)) as (Hlen & Hbytes & _).
    destruct (Hwf c' (proj2 (list_elem_of_In _ _) Hc')) as (Hlen' & Hbytes' & _).
    pose proof (PublicKey_of_toBase58 _ Hlen Hbytes) as Hround.
    pose proof (PublicKey_of_toBase58 _ Hlen' Hbytes') as Hround'.
    rewrite <- Hfst, Hk', Hround' in Hround. apply Normal_inj in Hround.
    rewrite Hround. reflexivity.
Qed.

(** ** What mint-object.js has checked before it sends *)

Lemma rpcRequests_app (t1 t2 : list Effect) :
  rpcRequests (t1 ++ t2) = rpcRequests t1 ++ rpcRequests t2.
Proof. unfold rpcRequests. apply List.filter_app. Qed.

Lemma no_request_no_transaction (trace : list Effect) :
  rpcRequests trace = [] -> sentTransactions trace = [].
Proof.
  induction trace as [|e t IH]; [reflexivity|].
  destruct e; cbn; try exact IH; discriminate.
Qed.

Lemma quiet_bind {A B} (m : Script A) (f : A -> Script B) :
  rpcRequests (effects m) = [] ->
  (forall a, rpcRequests (effects (f a)) = []) ->
  rpcRequests (effects (m ≫= f)) = [].
Proof.
  intros Hm Hf. rewrite effects_bind, rpcRequests_app, Hm.
  destruct (outcome m); [apply Hf | reflexivity].
Qed.

(** [parseCreators] reads files and makes no request to the node. *)
Lemma parseCreators_quiet (w : World) (opts : MintObject.CreatorOptions) :
  rpcRequests (effects (MintObject.parseCreators w opts)) = [].
Proof.
  unfold MintObject.parseCreators, MintObject.collectCreators.
  apply quiet_bind; [|reflexivity].
  apply quiet_bind; [reflexivity|]. intros fromFlags.
  apply quiet_bind; [|reflexivity].
  destruct (MintObject.creators_json opts) as [[|c p]|]; try reflexivity.
  apply quiet_bind; [reflexivity|]. intros present.
  destruct present; cbn [negb]; [|reflexivity].
  apply quiet_bind; [reflexivity|]. intros contents.
  destruct (JSON_parse w contents) as [[entries|]|e]; reflexivity.
Qed.

Lemma mint_deriveManifestPda_run (w : World) (config : PublicKey) (objectId : Z)
    (t : list Effect) (p : PublicKey * Z) :
  MintObject.deriveManifestPda w config objectId = (t, Normal p) ->
  0 <= objectId < 2 ^ 64
  /\ p = findProgramAddressSync w
           [MintObject.MANIFEST_SEED; toBuffer config; le_bytes 8 objectId] OGAL_PROGRAM_ID.
Proof.
  unfold MintObject.deriveManifestPda. intros H.
  run_pure H as objectIdBytes Hbytes.
  apply writeUIntLE_normal in Hbytes. destruct Hbytes as [Hrange ->].
  apply findPda_run_inv in H. destruct H as [-> _].
  split; [exact Hrange | reflexivity].
Qed.

Lemma mint_deriveManifestPda_sends_nothing (w : World) (config : PublicKey) (objectId : Z) :
  sentTransactions (effects (MintObject.deriveManifestPda w config objectId)) = [].
Proof.
  unfold MintObject.deriveManifestPda. rewrite bind_pure.
  destruct (writeUIntLE 8 objectId); reflexivity.
Qed.

Lemma validateInputs_ranges (argv : MintObject.Argv) (fee limit price : Z) :
  MintObject.validateInputs argv = Normal (fee, limit, price) ->
  0 <= fee <= 10000 /\ 0 < limit /\ 0 <= price.
Proof.
  intros H. pose proof (validateInputs_throws argv) as Ht. rewrite H in Ht.
  cbn [throws] in Ht. symmetry in Ht.
  repeat (apply orb_false_iff in Ht; destruct Ht as [Ht ?]).
  rewrite validateInputs_normal in H by (rewrite H; reflexivity).
  apply Normal_inj in H. injection H as <- <- <-.
  unfold fee_rejected in Ht. unfold compute_options_rejected in *.
  repeat match goal with
         | Hx : _ || _ = false |- _ => apply orb_false_iff in Hx; destruct Hx
         end.
  repeat match goal with
         | Hx : (_ <? _) = false |- _ => apply Z.ltb_ge in Hx
         | Hx : (_ <=? _) = false |- _ => apply Z.leb_gt in Hx
         end.
  lia.
Qed.

Lemma mapM_map {A B} (f : A -> Completion B) (g : A -> B) (l : list A) :
  (forall x, In x l -> f x = Normal (g x)) -> MintObject.mapM f l = Normal (map g l).
Proof.
  induction l as [|x l IH]; intros Hf; [reflexivity|].
  cbn [MintObject.mapM map]. rewrite (Hf x (or_introl eq_refl)).
  cbn [mbind Completion_bind]. rewrite IH by (intros y Hy; apply Hf; right; exact Hy).
  reflexivity.
Qed.

Lemma filter_signers (base extra : list AccountMeta) :
  Forall (fun account => isSigner account = true) extra ->
  List.filter isSigner (base ++ extra) = List.filter isSigner base ++ extra.
Proof.
  intros Hextra. rewrite List.filter_app. f_equal.
  induction Hextra as [|a l Ha Hl IH]; [reflexivity|].
  cbn [List.filter]. rewrite Ha, IH. reflexivity.
Qed.

Lemma parseCreators_wellformed (w : World) (opts : MintObject.CreatorOptions)
    (creators : list Creator) :
  outcome (MintObject.parseCreators w opts) = Normal creators ->
  Forall creator_wellformed creators.
Proof.
  unfold MintObject.parseCreators. intros H.
  invert_bind H as collected Hcollected.
  rewrite outcome_pure in H. apply checkCreators_normal in H. destruct H as [-> _].
  exact (collectCreators_wellformed w opts collected Hcollected).
Qed.

(** A script that has sent a transaction, or that returns, has passed each
    of its steps that send nothing. *)
Lemma bind_reached_inv {A B} (m : Script A) (f : A -> Script B)
    (trace : list Effect) (o : Completion B) :
  m ≫= f = (trace, o) ->
  sentTransactions trace <> [] \/ throws o = false ->
  sentTransactions (effects m) = [] ->
  exists a t1 t2,
    m = (t1, Normal a) /\ f a = (t2, o) /\ trace = t1 ++ t2
    /\ (sentTransactions t2 <> [] \/ throws o = false)
    /\ sentTransactions trace = sentTransactions t2.
Proof.
  destruct m as [t1 [a|e]]; cbn [mbind Script_bind effects fst].
  - destruct (f a) as [t2 r] eqn:E. intros H Hreached Hnone. injection H as <- <-.
    rewrite sentTransactions_app, Hnone in Hreached |- *. cbn [app] in Hreached |- *.
    exists a, t1, t2. repeat split; assumption.
  - intros H Hreached Hnone. injection H as <- <-.
    destruct Hreached as [Hsent|Hreturns]; [contradiction | discriminate Hreturns].
Qed.

Ltac reach_step H Hs Hall a Ha tac :=
  let t1 := fresh "t" in
  let t2 := fresh "t" in
  let H' := fresh "H" in
  let Hs' := fresh "Hs" in
  let Heq := fresh "Heq" in
  let Htrace := fresh "Htrace" in
  destruct (bind_reached_inv _ _ _ _ H Hs ltac:(tac))
    as (a & t1 & t2 & Ha & H' & Htrace & Hs' & Heq);
  rewrite Heq in Hall; clear H Hs Heq Htrace;
  rename H' into H; rename Hs' into Hs; cbn beta in H.

Tactic Notation "reach_pure" hyp(H) hyp(Hs) hyp(Hall) "as" ident(a) ident(Ha) :=
  reach_step H Hs Hall a Ha ltac:(reflexivity);
  apply pure_run_inv in Ha; destruct Ha as [Ha _].

Tactic Notation "reach_perform" hyp(H) hyp(Hs) hyp(Hall) "as" ident(a) ident(Ha) :=
  reach_step H Hs Hall a Ha ltac:(reflexivity);
  apply perform_run_inv in Ha; destruct Ha as [Ha _].

Tactic Notation "reach_pda" hyp(H) hyp(Hs) hyp(Hall) "as" ident(a) ident(b) ident(Ha) :=
  let p := fresh "p" in
  reach_step H Hs Hall p Ha ltac:(reflexivity);
  apply findPda_run_inv in Ha; destruct Ha as [Ha _];
  destruct p as [a b]; cbn beta iota in H.

(** The run of mint-object.js, when it has sent a transaction or returns:
    what each step gave, the one transaction sent, and the outcome. *)
Lemma mint_main_run (w : World) (argv : MintObject.Argv) :
  sentTransactions (effects (MintObject.main w argv)) <> []
  \/ throws (outcome (MintObject.main w argv)) = false ->
  exists (namespace recipient collectionMint tokenMetadataProgram authorityPubkey : PublicKey)
         (objectId fee limit price : Z) (manifestHash : Buffer)
         (creators : list Creator) (payerKeypair : Keypair)
         (manifestAccountInfo : option AccountInfo) (manifestCreator : PublicKey)
         (configInfo : AccountInfo) (creatorUniqueSigners : list (jsstring * Keypair))
         (creatorAccounts : list AccountMeta)
         (sellerFeeBuffer serializedCreators objectIdBuffer : Buffer)
         (encodedUri encodedName encodedSymbol : Buffer)
         (blockhash : jsstring) (lastValidBlockHeight : Z),
    PublicKey_of_string (MintObject.namespace argv) = Normal namespace
    /\ MintObject.parseBigInt (MintObject.object_id argv) (str "object-id") = Normal objectId
    /\ 0 <= objectId < 2 ^ 64
    /\ MintObject.validateInputs argv = Normal (fee, limit, price)
    /\ 0 < limit < 2 ^ 32
    /\ outcome (MintObject.parseCreators w (MintObject.creator_options argv)) = Normal creators
    /\ (length creators <= 5)%nat
    /\ readKeypair w (MintObject.payer_keypair argv) = Normal payerKeypair
    /\ MintObject.serializeCreators creators = Normal serializedCreators
    /\ let payer := publicKey payerKeypair in
       let pda := fun seeds => fst (findProgramAddressSync w seeds OGAL_PROGRAM_ID) in
       let metaplex := fun seeds =>
         fst (findProgramAddressSync w seeds METAPLEX_METADATA_PROGRAM_ID) in
       let configPda := pda [utf8Encode (str "config"); toBuffer namespace] in
       let authPda := pda [utf8Encode (str "auth"); toBuffer configPda] in
       let manifestPda :=
         pda [MintObject.MANIFEST_SEED; toBuffer configPda; le_bytes 8 objectId] in
       let objectMint := pda [MintObject.MINT_SEED; toBuffer manifestPda] in
       let metadataOf := fun mint =>
         metaplex [utf8Encode (str "metadata"); toBuffer METAPLEX_METADATA_PROGRAM_ID;
                   toBuffer mint] in
       let editionOf := fun mint =>
         metaplex [utf8Encode (str "metadata"); toBuffer METAPLEX_METADATA_PROGRAM_ID;
                   toBuffer mint; utf8Encode (str "edition")] in
       let recipientAta :=
         fst (findProgramAddressSync w
                [toBuffer recipient; toBuffer TOKEN_PROGRAM_ID; toBuffer objectMint]
                ASSOCIATED_TOKEN_PROGRAM_ID) in
       let data :=
         MintObject.MINT_OBJECT_DISCRIMINATOR ++ objectIdBuffer ++ encodedUri ++ manifestHash
         ++ encodedName ++ encodedSymbol ++ sellerFeeBuffer ++ serializedCreators in
       let keys :=
         ([mkAccountMeta authorityPubkey false false;
           mkAccountMeta configPda false true;
           mkAccountMeta authPda false true;
           mkAccountMeta payer true true;
           mkAccountMeta manifestPda false true;
           mkAccountMeta objectMint false true;
           mkAccountMeta recipientAta false true;
           mkAccountMeta recipient false false;
           mkAccountMeta TOKEN_PROGRAM_ID false false;
           mkAccountMeta ASSOCIATED_TOKEN_PROGRAM_ID false false;
           mkAccountMeta SYSTEM_PROGRAM_ID false false;
           mkAccountMeta (metadataOf objectMint) false true;
           mkAccountMeta (editionOf objectMint) false true;
           mkAccountMeta collectionMint false false;
           mkAccountMeta tokenMetadataProgram false false;
           mkAccountMeta (metadataOf collectionMint) false true;
           mkAccountMeta (editionOf collectionMint) false true;
           mkAccountMeta SYSVAR_RENT_PUBKEY false false]
          ++ (if MintObject.include_instructions_sysvar argv
              then [mkAccountMeta SYSVAR_INSTRUCTIONS_PUBKEY false false] else []))
         ++ creatorAccounts in
       let instruction := mkInstruction OGAL_PROGRAM_ID keys data in
       let tx :=
         mkTransaction
           ([SetComputeUnitLimit limit]
            ++ (if 0 <? price then [SetComputeUnitPrice price] else [])
            ++ [ProgramInstruction instruction])
           payer blockhash in
       let signers := payer :: map (fun entry => publicKey (snd entry)) creatorUniqueSigners in
       getAccountInfo w manifestPda = Normal manifestAccountInfo
       /\ MintObject.manifestCreatorOf payer manifestAccountInfo = Normal manifestCreator
       /\ existsb (fun creator => PublicKey_equals (address creator) manifestCreator) creators
          = true
       /\ getAccountInfo w configPda = Normal (Some configInfo)
       /\ toBuffer (account_owner configInfo) = toBuffer OGAL_PROGRAM_ID
       /\ (40 <= length (account_data configInfo))%nat
       /\ toBuffer authorityPubkey = subarray (account_data configInfo) 8 40
       /\ match MintObject.authority argv with
          | Some (c :: a) => PublicKey_of_string (c :: a) = Normal authorityPubkey
          | _ => True
          end
       /\ outcome (MintObject.collectCreatorSigners w payer creators [])
          = Normal creatorUniqueSigners
       /\ creatorAccounts
          = map (fun entry => mkAccountMeta (publicKey (snd entry)) true false)
                creatorUniqueSigners
       /\ getLatestBlockhash w = Normal (blockhash, lastValidBlockHeight)
       /\ sentTransactions (effects (MintObject.main w argv)) = [tx]
       /\ outcome (MintObject.main w argv)
          = match sendAndConfirmTransaction w tx signers with
            | Normal signature => Normal signature
            | Throw err =>
                match Utils.collectLogs err with
                | Normal _ => Throw err
                | Throw unreadable => Throw unreadable
                end
            end.
Proof.
  destruct (MintObject.main w argv) as [trace o] eqn:H. cbn [effects outcome fst snd].
  intros Hs. remember (sentTransactions trace) as sent eqn:Hall in |- *.
  unfold MintObject.main in H.
  reach_pure H Hs Hall as namespace Hnamespace.
  reach_pure H Hs Hall as objectId HobjectId. cbv zeta in H.
  reach_pure H Hs Hall as manifestHash Hhash.
  reach_pure H Hs Hall as validated Hvalid.
  destruct validated as [[fee limit] price]. cbn beta iota in H.
  reach_step H Hs Hall creators Hcreators
    ltac:(apply no_request_no_transaction, parseCreators_quiet).
  reach_pure H Hs Hall as u1 Hlimit. apply throw_if_normal in Hlimit.
  reach_perform H Hs Hall as payerKeypair Hpayer.
  reach_pure H Hs Hall as recipient Hrecipient.
  reach_pure H Hs Hall as collectionMint HcollectionMint.
  reach_pure H Hs Hall as tokenMetadataProgram Hprogram.
  reach_perform H Hs Hall as u2 Hconnection.
  unfold Utils.deriveConfigPda, Utils.deriveAuthPda in H.
  reach_pda H Hs Hall as configPda configBump Hconfig.
  reach_pure H Hs Hall as u3 HconfigBump.
  reach_pda H Hs Hall as authPda authBump Hauth.
  reach_pure H Hs Hall as u4 HauthBump.
  reach_step H Hs Hall manifest Hmanifest ltac:(apply mint_deriveManifestPda_sends_nothing).
  destruct manifest as [manifestPda manifestBump]. cbn beta iota in H.
  apply mint_deriveManifestPda_run in Hmanifest. destruct Hmanifest as [Hrange Hmanifest].
  reach_pure H Hs Hall as u5 HmanifestBump.
  reach_perform H Hs Hall as manifestAccountInfo Hinfo.
  reach_pure H Hs Hall as manifestCreator HmanifestCreator.
  reach_pure H Hs Hall as ensured Hensured.
  unfold MintObject.deriveObjectMintPda, MintObject.deriveMetadataPda,
    MintObject.deriveMasterEditionPda in H.
  reach_pda H Hs Hall as objectMint mintBump Hmint.
  reach_pure H Hs Hall as u6 HmintBump.
  reach_pda H Hs Hall as metadataPda b1 Hmetadata.
  reach_pda H Hs Hall as masterEditionPda b2 Hedition.
  reach_pda H Hs Hall as collectionMetadataPda b3 HcollectionMetadata.
  reach_pda H Hs Hall as collectionMasterEditionPda b4 HcollectionEdition.
  reach_pda H Hs Hall as recipientAta b5 Hata.
  reach_perform H Hs Hall as configAccountInfo HconfigInfo.
  reach_pure H Hs Hall as configInfo Hfound.
  destruct configAccountInfo as [info|]; [|discriminate Hfound].
  apply Normal_inj in Hfound. subst info.
  reach_pure H Hs Hall as u7 Howner. apply throw_if_normal in Howner.
  apply negb_false_iff, PublicKey_equals_spec in Howner.
  reach_pure H Hs Hall as u8 Hsize. apply throw_if_normal in Hsize.
  apply Nat.ltb_ge in Hsize.
  reach_pure H Hs Hall as storedAuthority Hstored.
  rewrite newPublicKey_32 in Hstored by (rewrite subarray_length; lia).
  apply Normal_inj in Hstored. subst storedAuthority.
  reach_pure H Hs Hall as authorityPubkey Hauthority.
  reach_pure H Hs Hall as u9 Hsame. apply throw_if_normal in Hsame.
  apply negb_false_iff, PublicKey_equals_spec in Hsame. cbn [toBuffer] in Hsame.
  reach_step H Hs Hall creatorUniqueSigners Hsigners
    ltac:(apply collectCreatorSigners_sends_nothing).
  reach_pure H Hs Hall as sellerFeeBuffer Hfee.
  reach_pure H Hs Hall as serializedCreators Hserialized.
  reach_pure H Hs Hall as objectIdBuffer HidBuffer.
  reach_pure H Hs Hall as encodedUri Huri.
  reach_pure H Hs Hall as encodedName Hname.
  reach_pure H Hs Hall as encodedSymbol Hsymbol.
  cbv zeta in H.
  reach_pure H Hs Hall as creatorAccounts Haccounts.
  reach_pure H Hs Hall as limitInstructions Hbudget.
  reach_perform H Hs Hall as u10 Hbuild.
  reach_perform H Hs Hall as blockhashAndHeight Hblockhash.
  destruct blockhashAndHeight as [blockhash lastValidBlockHeight]. cbn beta iota in H.
  rewrite try_catch_rethrow in H. apply pair_equal_spec in H. destruct H as [<- <-].
  (* the compute unit limit fits a u32 *)
  destruct (validateInputs_ranges argv fee limit price Hvalid) as (_ & Hpositive & _).
  assert (Hlimited : limit < 2 ^ 32 /\ limitInstructions = [SetComputeUnitLimit limit]).
  { destruct (Z.ltb_spec 0 limit) as [_|]; [|lia].
    unfold setComputeUnitLimit in Hbudget.
    destruct (writeUIntLE 4 limit) as [encoded|] eqn:Hencoded; [|discriminate Hbudget].
    apply writeUIntLE_normal in Hencoded. destruct Hencoded as [Hfits _].
    cbn [mbind Completion_bind] in Hbudget. apply Normal_inj in Hbudget.
    split; [exact (proj2 Hfits) | symmetry; exact Hbudget]. }
  destruct Hlimited as [Hfits ->].
  (* the accounts of the co-signers are the keys of the gathered key pairs *)
  pose proof (f_equal outcome Hcreators) as Hparsed. cbn [outcome snd] in Hparsed.
  pose proof (parseCreators_wellformed w _ _ Hparsed) as Hwf.
  pose proof (f_equal outcome Hsigners) as Hgathered. cbn [outcome snd] in Hgathered.
  destruct (collectCreatorSigners_entries w (publicKey payerKeypair) creators []
              creatorUniqueSigners Hgathered) as (_ & _ & Hentries & _).
  assert (Hkeys : creatorAccounts
                  = map (fun entry => mkAccountMeta (publicKey (snd entry)) true false)
                        creatorUniqueSigners).
  { apply Normal_inj. rewrite <- Haccounts. apply mapM_map. intros entry He.
    destruct (Hentries entry He) as [[]|(c & Hc & _ & _ & Hfst & Hkey)].
    rewrite Forall_forall in Hwf.
    destruct (Hwf c (proj2 (list_elem_of_In _ _) Hc)) as (Hlen & Hbytes & _).
    rewrite Hfst, (PublicKey_of_toBase58 _ Hlen Hbytes). cbn [mbind Completion_bind].
    unfold MintObject.meta. do 2 f_equal.
    destruct (address c) as [b], (publicKey (snd entry)) as [b']. cbn in Hkey. congruence. }
  (* the recorded creator is in the list *)
  pose proof (ensureManifestCreatorPresent_cases creators manifestCreator (Some manifestPda))
    as Hpresent.
  destruct (existsb _ creators) eqn:Hexists;
    [|rewrite Hensured in Hpresent; discriminate Hpresent].
  apply (f_equal fst) in Hconfig, Hauth, Hmanifest, Hmint, Hmetadata, Hedition,
    HcollectionMetadata, HcollectionEdition, Hata.
  cbn [fst] in Hconfig, Hauth, Hmanifest, Hmint, Hmetadata, Hedition,
    HcollectionMetadata, HcollectionEdition, Hata.
  exists namespace, recipient, collectionMint, tokenMetadataProgram, authorityPubkey,
    objectId, fee, limit, price, manifestHash, creators, payerKeypair,
    manifestAccountInfo, manifestCreator, configInfo, creatorUniqueSigners, creatorAccounts,
    sellerFeeBuffer, serializedCreators, objectIdBuffer, encodedUri, encodedName,
    encodedSymbol, blockhash, lastValidBlockHeight.
  cbv zeta.
  rewrite <- Hconfig, <- Hauth, <- Hmanifest, <- Hmint, <- Hmetadata, <- Hedition,
    <- HcollectionMetadata, <- HcollectionEdition, <- Hata.
  split; [exact Hnamespace|]. split; [exact HobjectId|]. split; [exact Hrange|].
  split; [exact Hvalid|]. split; [split; [exact Hpositive | exact Hfits]|].
  split; [exact Hparsed|].
  split.
  { unfold MintObject.checkCreatorLimit in Hlimit. apply Nat.ltb_ge in Hlimit. exact Hlimit. }
  split; [exact Hpayer|]. split; [exact Hserialized|].
  split; [exact Hinfo|]. split; [exact HmanifestCreator|]. split; [exact Hexists|].
  split; [exact HconfigInfo|]. split; [exact Howner|].
  split; [exact Hsize|]. split; [exact Hsame|].
  split.
  { destruct (MintObject.authority argv) as [[|c a]|]; [exact I | exact Hauthority | exact I]. }
  split; [exact Hgathered|]. split; [exact Hkeys|]. split; [exact Hblockhash|].
  split; [exact Hall|]. reflexivity.
Qed.

(** X14. mint-object.js sends a transaction only after all of this: the
    object id is a u64; the inputs passed [validateInputs] and the compute
    unit limit is below 2^32; at most five creators were parsed; the payer
    key pair was loaded; the configuration account of the namespace exists,
    is owned by the OGAL program and holds at least 40 bytes; the authority
    (the one given, or else the stored one) equals bytes 8 to 39 of that
    account; and the key pairs of the verified creators were gathered.  It
    then sends exactly one transaction: paid by the payer; signed by the
    payer and then the gathered key pairs; made of a compute unit limit
    request, a compute unit price request when the price is positive, and
    last the OGAL instruction, whose first account is the authority, not a
    signer, and whose signer accounts are exactly the signers of the
    transaction, in the same order.  The script returns the signature when
    that transaction is confirmed; when it fails with an error, the script
    throws that error, unless [collectLogs] fails on it, in which case the
    script throws the failure of [collectLogs]. *)
Theorem mint_sends_after_checks (w : World) (argv : MintObject.Argv) :
  sentTransactions (effects (MintObject.main w argv)) <> [] ->
  exists (namespace authorityPubkey : PublicKey) (objectId fee limit price : Z)
         (creators : list Creator) (payerKeypair : Keypair) (configInfo : AccountInfo)
         (creatorUniqueSigners : list (jsstring * Keypair))
         (tx : Transaction) (instruction : TransactionInstruction),
    PublicKey_of_string (MintObject.namespace argv) = Normal namespace
    /\ MintObject.parseBigInt (MintObject.object_id argv) (str "object-id") = Normal objectId
    /\ 0 <= objectId < 2 ^ 64
    /\ MintObject.validateInputs argv = Normal (fee, limit, price)
    /\ 0 < limit < 2 ^ 32
    /\ outcome (MintObject.parseCreators w (MintObject.creator_options argv)) = Normal creators
    /\ (length creators <= 5)%nat
    /\ readKeypair w (MintObject.payer_keypair argv) = Normal payerKeypair
    /\ let payer := publicKey payerKeypair in
       let configPda :=
         fst (findProgramAddressSync w [utf8Encode (str "config"); toBuffer namespace]
                OGAL_PROGRAM_ID) in
       let signers := payer :: map (fun entry => publicKey (snd entry)) creatorUniqueSigners in
       getAccountInfo w configPda = Normal (Some configInfo)
       /\ toBuffer (account_owner configInfo) = toBuffer OGAL_PROGRAM_ID
       /\ (40 <= length (account_data configInfo))%nat
       /\ toBuffer authorityPubkey = subarray (account_data configInfo) 8 40
       /\ match MintObject.authority argv with
          | Some (c :: a) => PublicKey_of_string (c :: a) = Normal authorityPubkey
          | _ => True
          end
       /\ outcome (MintObject.collectCreatorSigners w payer creators [])
          = Normal creatorUniqueSigners
       /\ sentTransactions (effects (MintObject.main w argv)) = [tx]
       /\ outcome (MintObject.main w argv)
          = match sendAndConfirmTransaction w tx signers with
            | Normal signature => Normal signature
            | Throw err =>
                match Utils.collectLogs err with
                | Normal _ => Throw err
                | Throw unreadable => Throw unreadable
                end
            end
       /\ feePayer tx = payer
       /\ instructions tx
          = SetComputeUnitLimit limit
            :: (if 0 <? price then [SetComputeUnitPrice price] else [])
            ++ [ProgramInstruction instruction]
       /\ programId instruction = OGAL_PROGRAM_ID
       /\ nth_error (keys instruction) 0 = Some (mkAccountMeta authorityPubkey false false)
       /\ map pubkey (List.filter isSigner (keys instruction)) = signers.
Proof.
  intros Hsent.
  destruct (mint_main_run w argv (or_introl Hsent))
    as (namespace & recipient & collectionMint & tokenMetadataProgram & authorityPubkey
        & objectId & fee & limit & price & manifestHash & creators & payerKeypair
        & manifestAccountInfo & manifestCreator & configInfo & creatorUniqueSigners
        & creatorAccounts & sellerFeeBuffer & serializedCreators & objectIdBuffer
        & encodedUri & encodedName & encodedSymbol & blockhash & lastValidBlockHeight
        & Hnamespace & HobjectId & Hrange & Hvalid & Hlimit & Hparsed & Hcount & Hpayer
        & Hserialized & Hrun).
  cbv zeta in Hrun.
  destruct Hrun as (_ & _ & _ & HconfigInfo & Howner & Hsize & Hsame & Hauthority
                    & Hgathered & Hkeys & _ & Hall & Houtcome).
  eexists namespace, authorityPubkey, objectId, fee, limit, price, creators, payerKeypair,
    configInfo, creatorUniqueSigners, _, _.
  cbv zeta.
  split; [exact Hnamespace|]. split; [exact HobjectId|]. split; [exact Hrange|].
  split; [exact Hvalid|]. split; [exact Hlimit|]. split; [exact Hparsed|].
  split; [exact Hcount|]. split; [exact Hpayer|].
  split; [exact HconfigInfo|]. split; [exact Howner|]. split; [exact Hsize|].
  split; [exact Hsame|]. split; [exact Hauthority|]. split; [exact Hgathered|].
  split; [exact Hall|]. split; [exact Houtcome|].
  split; [reflexivity|]. split; [reflexivity|]. split; [reflexivity|].
  split; [destruct (MintObject.include_instructions_sysvar argv); reflexivity|].
  cbn [keys]. rewrite Hkeys, filter_signers.
  - rewrite map_app, map_map. cbn [pubkey].
    destruct (MintObject.include_instructions_sysvar argv); reflexivity.
  - apply Forall_forall. intros account Ha. apply list_elem_of_In, in_map_iff in Ha.
    destruct Ha as (entry & <- & _). reflexivity.
Qed.

(** ** C3: creator shares and the manifest creator *)

Lemma stopped_before_sending {A} (trace : list Effect) (o : Completion A) :
  (sentTransactions trace <> [] \/ throws o = false -> False) ->
  throws o = true /\ sentTransactions trace = [].
Proof.
  intros Hnot. destruct o as [a|err].
  { exfalso. apply Hnot. right. reflexivity. }
  destruct (sentTransactions trace) as [|tx sent].
  { split; reflexivity. }
  exfalso. apply Hnot. left. discriminate.
Qed.

(** C3.  The two checks, on any creator list: [checkCreators] returns the
    list unchanged when its shares total 100 and throws otherwise;
    [ensureManifestCreatorPresent] returns the list unchanged when the
    manifest creator is the address of one of its entries and throws
    otherwise.  And through [main] of mint-object.js, where the manifest
    address is the one derived from the namespace and the object id given,
    and the recorded creator is the creator field of the account at that
    address (the payer when the account is missing or empty):
    - a run that returns a signature has parsed creators whose shares total
      100 and who include the recorded creator, and has sent exactly one
      transaction, paid by the payer, signed by the payer and the gathered
      creator key pairs and confirmed under that signature, whose one
      program instruction goes to the OGAL program, lists the manifest
      address among its accounts and ends its data with the serialization of
      exactly the parsed list;
    - when the shares of the creators collected from the command line and
      the JSON file do not total 100, the script throws and sends nothing;
    - when the recorded creator is not in the parsed list, the script throws
      and sends nothing. *)
Theorem mint_creator_checks
    (w : World) (argv : MintObject.Argv)
    (anyCreators : list Creator) (anyCreator : PublicKey) (anyManifest : option PublicKey) :
  let manifestAddress := fun (namespace : PublicKey) (objectId : Z) =>
    fst (findProgramAddressSync w
           [MintObject.MANIFEST_SEED;
            toBuffer (fst (findProgramAddressSync w
                             [utf8Encode (str "config"); toBuffer namespace]
                             OGAL_PROGRAM_ID));
            le_bytes 8 objectId]
           OGAL_PROGRAM_ID) in
  (if MintObject.totalShare anyCreators =? 100
   then MintObject.checkCreators anyCreators = Normal anyCreators
   else throws (MintObject.checkCreators anyCreators) = true)
  /\ (if existsb (fun creator => PublicKey_equals (address creator) anyCreator) anyCreators
      then Utils.ensureManifestCreatorPresent anyCreators anyCreator anyManifest
           = Normal anyCreators
      else throws (Utils.ensureManifestCreatorPresent anyCreators anyCreator anyManifest) = true)
  /\ match outcome (MintObject.main w argv) with
     | Throw _ => True
     | Normal signature =>
         exists (namespace : PublicKey) (objectId : Z) (creators : list Creator)
                (payerKeypair : Keypair) (manifestAccountInfo : option AccountInfo)
                (manifestCreator : PublicKey) (serialized prefix : Buffer)
                (creatorUniqueSigners : list (jsstring * Keypair)) (tx : Transaction)
                (budget : list TxItem) (ix : TransactionInstruction),
           PublicKey_of_string (MintObject.namespace argv) = Normal namespace
           /\ MintObject.parseBigInt (MintObject.object_id argv) (str "object-id")
              = Normal objectId
           /\ outcome (MintObject.parseCreators w (MintObject.creator_options argv))
              = Normal creators
           /\ MintObject.totalShare creators = 100
           /\ readKeypair w (MintObject.payer_keypair argv) = Normal payerKeypair
           /\ getAccountInfo w (manifestAddress namespace objectId) = Normal manifestAccountInfo
           /\ MintObject.manifestCreatorOf (publicKey payerKeypair) manifestAccountInfo
              = Normal manifestCreator
           /\ In (toBuffer manifestCreator)
                 (map (fun creator => toBuffer (address creator)) creators)
           /\ MintObject.serializeCreators creators = Normal serialized
           /\ outcome (MintObject.collectCreatorSigners w (publicKey payerKeypair) creators [])
              = Normal creatorUniqueSigners
           /\ sentTransactions (effects (MintObject.main w argv)) = [tx]
           /\ sendAndConfirmTransaction w tx
                (publicKey payerKeypair
                 :: map (fun entry => publicKey (snd entry)) creatorUniqueSigners)
              = Normal signature
           /\ feePayer tx = publicKey payerKeypair
           /\ instructions tx = budget ++ [ProgramInstruction ix]
           /\ (forall other, ~ In (ProgramInstruction other) budget)
           /\ programId ix = OGAL_PROGRAM_ID
           /\ In (mkAccountMeta (manifestAddress namespace objectId) false true) (keys ix)
           /\ data ix = prefix ++ serialized
     end
  /\ (forall collected : list Creator,
        outcome (MintObject.collectCreators w (MintObject.creator_options argv))
        = Normal collected ->
        MintObject.totalShare collected <> 100 ->
        throws (outcome (MintObject.main w argv)) = true
        /\ sentTransactions (effects (MintObject.main w argv)) = [])
  /\ (forall (namespace : PublicKey) (objectId : Z) (creators : list Creator)
             (payerKeypair : Keypair) (manifestAccountInfo : option AccountInfo)
             (manifestCreator : PublicKey),
        PublicKey_of_string (MintObject.namespace argv) = Normal namespace ->
        MintObject.parseBigInt (MintObject.object_id argv) (str "object-id")
        = Normal objectId ->
        outcome (MintObject.parseCreators w (MintObject.creator_options argv))
        = Normal creators ->
        readKeypair w (MintObject.payer_keypair argv) = Normal payerKeypair ->
        getAccountInfo w (manifestAddress namespace objectId) = Normal manifestAccountInfo ->
        MintObject.manifestCreatorOf (publicKey payerKeypair) manifestAccountInfo
        = Normal manifestCreator ->
        ~ In (toBuffer manifestCreator)
             (map (fun creator => toBuffer (address creator)) creators) ->
        throws (outcome (MintObject.main w argv)) = true
        /\ sentTransactions (effects (MintObject.main w argv)) = []).
Proof.
  intros manifestAddress.
  split; [apply checkCreators_total|].
  split; [apply ensureManifestCreatorPresent_cases|].
  split; [|split].
  - destruct (outcome (MintObject.main w argv)) as [signature|] eqn:Hreturned; [|exact I].
    assert (Hreach : sentTransactions (effects (MintObject.main w argv)) <> []
                     \/ throws (outcome (MintObject.main w argv)) = false)
      by (right; rewrite Hreturned; reflexivity).
    destruct (mint_main_run w argv Hreach)
      as (namespace & recipient & collectionMint & tokenMetadataProgram & authorityPubkey
          & objectId & fee & limit & price & manifestHash & creators & payerKeypair
          & manifestAccountInfo & manifestCreator & configInfo & creatorUniqueSigners
          & creatorAccounts & sellerFeeBuffer & serializedCreators & objectIdBuffer
          & encodedUri & encodedName & encodedSymbol & blockhash & lastValidBlockHeight
          & Hnamespace & HobjectId & Hrange & Hvalid & Hlimit & Hparsed & Hcount & Hpayer
          & Hserialized & Hrun).
    cbv zeta in Hrun.
    destruct Hrun as (Hinfo & Hrecorded & Hexists & _ & _ & _ & _ & _ & Hgathered & _ & _
                      & Hall & Houtcome).
    rewrite Hreturned in Houtcome.
    match type of Houtcome with
    | _ = match ?send with _ => _ end =>
        destruct send as [confirmed|err] eqn:Hsend;
          [apply Normal_inj in Houtcome; subst confirmed
          | destruct (Utils.collectLogs err); discriminate Houtcome]
    end.
    eexists namespace, objectId, creators, payerKeypair, manifestAccountInfo,
      manifestCreator, serializedCreators, _, creatorUniqueSigners, _, _, _.
    split; [exact Hnamespace|]. split; [exact HobjectId|]. split; [exact Hparsed|].
    split; [exact (parseCreators_total w _ creators Hparsed)|].
    split; [exact Hpayer|]. split; [exact Hinfo|]. split; [exact Hrecorded|].
    split; [apply hasCreator_spec; exact Hexists|].
    split; [exact Hserialized|]. split; [exact Hgathered|]. split; [exact Hall|].
    split; [exact Hsend|]. split; [reflexivity|].
    split; [cbn [instructions]; rewrite app_assoc; reflexivity|].
    split.
    { intros other Hin. apply in_app_or in Hin. destruct Hin as [[Hin|[]]|Hin].
      - discriminate Hin.
      - destruct (0 <? price); [destruct Hin as [Hin|[]]; discriminate Hin | destruct Hin]. }
    split; [reflexivity|].
    split.
    { cbn [keys]. apply in_or_app. left. apply in_or_app. left.
      do 4 right. left. reflexivity. }
    cbn [data]. rewrite !app_assoc. reflexivity.
  - intros collected Hcollected Htotal.
    apply stopped_before_sending. intros Hreach.
    destruct (mint_main_run w argv Hreach)
      as (namespace & recipient & collectionMint & tokenMetadataProgram & authorityPubkey
          & objectId & fee & limit & price & manifestHash & creators & payerKeypair
          & manifestAccountInfo & manifestCreator & configInfo & creatorUniqueSigners
          & creatorAccounts & sellerFeeBuffer & serializedCreators & objectIdBuffer
          & encodedUri & encodedName & encodedSymbol & blockhash & lastValidBlockHeight
          & _ & _ & _ & _ & _ & Hparsed & _).
    unfold MintObject.parseCreators in Hparsed.
    invert_bind Hparsed as collected' Hcollected'.
    rewrite Hcollected in Hcollected'. apply Normal_inj in Hcollected'. subst collected'.
    rewrite outcome_pure in Hparsed. apply checkCreators_normal in Hparsed.
    destruct Hparsed as [-> Hhundred]. contradiction.
  - intros namespace objectId creators payerKeypair manifestAccountInfo manifestCreator
      Hnamespace HobjectId Hparsed Hpayer Hinfo Hrecorded Habsent.
    apply stopped_before_sending. intros Hreach.
    destruct (mint_main_run w argv Hreach)
      as (namespace' & recipient & collectionMint & tokenMetadataProgram & authorityPubkey
          & objectId' & fee & limit & price & manifestHash & creators' & payerKeypair'
          & manifestAccountInfo' & manifestCreator' & configInfo & creatorUniqueSigners
          & creatorAccounts & sellerFeeBuffer & serializedCreators & objectIdBuffer
          & encodedUri & encodedName & encodedSymbol & blockhash & lastValidBlockHeight
          & Hnamespace' & HobjectId' & _ & _ & _ & Hparsed' & _ & Hpayer' & _ & Hrun).
    cbv zeta in Hrun. destruct Hrun as (Hinfo' & Hrecorded' & Hexists & _).
    rewrite Hnamespace in Hnamespace'. apply Normal_inj in Hnamespace'. subst namespace'.
    rewrite HobjectId in HobjectId'. apply Normal_inj in HobjectId'. subst objectId'.
    rewrite Hparsed in Hparsed'. apply Normal_inj in Hparsed'. subst creators'.
    rewrite Hpayer in Hpayer'. apply Normal_inj in Hpayer'. subst payerKeypair'.
    unfold manifestAddress in Hinfo. rewrite Hinfo in Hinfo'.
    apply Normal_inj in Hinfo'. subst manifestAccountInfo'.
    rewrite Hrecorded in Hrecorded'. apply Normal_inj in Hrecorded'. subst manifestCreator'.
    apply Habsent, hasCreator_spec. exact Hexists.
Qed.

(** ** Object identifiers outside the u64 range *)

Lemma quiet_until_throw {A B} (m : Script A) (f : A -> Script B) :
  rpcRequests (effects m) = [] ->
  (forall a, outcome m = Normal a ->
     rpcRequests (effects (f a)) = [] /\ throws (outcome (f a)) = true) ->
  rpcRequests (effects (m ≫= f)) = [] /\ throws (outcome (m ≫= f)) = true.
Proof.
  intros Hm Hf. rewrite bind_cases. destruct (outcome m) as [a|e] eqn:Ho.
  - destruct (Hf a eq_refl) as [Hquiet Hthrows]. cbn [effects outcome fst snd].
    rewrite rpcRequests_app, Hm. split; assumption.
  - split; [exact Hm | reflexivity].
Qed.

Lemma writeUIntLE_outside (width : nat) (v : Z) :
  ~ 0 <= v < 2 ^ (8 * Z.of_nat width) -> throws (writeUIntLE width v) = true.
Proof.
  intros Hout. unfold writeUIntLE.
  destruct (Z.leb_spec 0 v); destruct (Z.ltb_spec v (2 ^ (8 * Z.of_nat width)));
    try reflexivity. lia.
Qed.

(** X15. When the object id given is an integer outside the u64 range (a
    negative number, or 2^64 or more), mint-object.js and update-manifest.js
    throw without a single request to the node: [writeBigUInt64LE] refuses
    the value when the manifest address is derived, before the first account
    is fetched. *)
Theorem object_id_outside_u64_is_refused (w : World) (objectId : Z)
    (Houtside : ~ 0 <= objectId < 2 ^ 64) :
  (forall argv : MintObject.Argv,
     MintObject.parseBigInt (MintObject.object_id argv) (str "object-id") = Normal objectId ->
     rpcRequests (effects (MintObject.main w argv)) = []
     /\ throws (outcome (MintObject.main w argv)) = true)
  /\ (forall argv : UpdateManifest.Argv,
        UpdateManifest.parseBigInt (UpdateManifest.object_id argv) (str "object-id")
        = Normal objectId ->
        rpcRequests (effects (UpdateManifest.main w argv)) = []
        /\ throws (outcome (UpdateManifest.main w argv)) = true).
Proof.
  assert (Hwrite : throws (writeUIntLE 8 objectId) = true).
  { apply writeUIntLE_outside. exact Houtside. }
  split; intros argv Hid.
  - unfold MintObject.main.
    apply quiet_until_throw; [reflexivity|]. intros namespace _.
    apply quiet_until_throw; [reflexivity|]. intros objectId' Hparsed.
    rewrite outcome_pure, Hid in Hparsed. apply Normal_inj in Hparsed. subst objectId'.
    cbv zeta.
    apply quiet_until_throw; [reflexivity|]. intros manifestHash _.
    apply quiet_until_throw; [reflexivity|]. intros [[fee limit] price] _.
    apply quiet_until_throw; [apply parseCreators_quiet|]. intros creators _.
    apply quiet_until_throw; [reflexivity|]. intros _ _.
    apply quiet_until_throw; [reflexivity|]. intros payerKeypair _.
    apply quiet_until_throw; [reflexivity|]. intros recipient _.
    apply quiet_until_throw; [reflexivity|]. intros collectionMint _.
    apply quiet_until_throw; [reflexivity|]. intros tokenMetadataProgram _.
    apply quiet_until_throw; [reflexivity|]. intros _ _.
    apply quiet_until_throw; [reflexivity|]. intros [configPda configBump] _.
    apply quiet_until_throw; [reflexivity|]. intros _ _.
    apply quiet_until_throw; [reflexivity|]. intros [authPda authBump] _.
    apply quiet_until_throw; [reflexivity|]. intros _ _.
    unfold MintObject.deriveManifestPda. rewrite bind_pure.
    destruct (writeUIntLE 8 objectId); [discriminate Hwrite|].
    split; reflexivity.
  - unfold UpdateManifest.main.
    apply quiet_until_throw; [reflexivity|]. intros namespace _.
    apply quiet_until_throw; [reflexivity|]. intros objectId' Hparsed.
    rewrite outcome_pure, Hid in Hparsed. apply Normal_inj in Hparsed. subst objectId'.
    apply quiet_until_throw; [reflexivity|]. intros objectMint _.
    apply quiet_until_throw; [reflexivity|]. intros manifestHash _.
    cbv zeta.
    apply quiet_until_throw; [reflexivity|]. intros isActive _.
    apply quiet_until_throw; [reflexivity|]. intros _ _.
    apply quiet_until_throw; [reflexivity|]. intros _ _.
    apply quiet_until_throw; [reflexivity|]. intros ownerKeypair _.
    apply quiet_until_throw; [reflexivity|]. intros _ _.
    apply quiet_until_throw; [reflexivity|]. intros [configPda configBump] _.
    apply quiet_until_throw; [reflexivity|]. intros _ _.
    apply quiet_until_throw; [reflexivity|]. intros [authPda authBump] _.
    unfold UpdateManifest.deriveManifestPda. rewrite bind_pure.
    destruct (writeUIntLE 8 objectId); [discriminate Hwrite|].
    split; reflexivity.
Qed.

(** ** Recognizing the fallback error *)

(** X16. [isFallbackError] answers true whenever one of the two markers
    occurs in the message of the error, in its transaction message, or in
    one of the log lines. *)
Theorem isFallbackError_finds_the_markers
    (err : JsError) (logs : option (list jsstring)) (marker : jsstring)
    (Hmarker : marker = str "InstructionFallbackNotFound"
               \/ marker = str "custom program error: 0x65")
    (Hfound : (exists m, message err = Some m /\ includes m marker = true)
              \/ (exists m, transactionMessage err = Some m /\ includes m marker = true)
              \/ (exists l line, logs = Some l /\ In line l /\ includes line marker = true)) :
  RotateCollectionAuthority.isFallbackError err logs = true.
Proof.
  assert (Hnonempty : forall m, includes m marker = true ->
                                RotateCollectionAuthority.truthy (Some m) = Some m).
  { intros m Hm. destruct m; [|reflexivity].
    destruct Hmarker as [->| ->]; discriminate Hm. }
  unfold RotateCollectionAuthority.isFallbackError. cbv zeta.
  set (pieces := _ ++ _ ++ _).
  assert (Hcombined : includes (join (str " ") pieces) marker = true).
  { destruct Hfound as [(m & Hm & Hin)|[(m & Hm & Hin)|(l & line & -> & Hline & Hin)]].
    - apply (join_includes _ _ m); [|exact Hin]. unfold pieces.
      rewrite Hm, (Hnonempty m Hin). apply in_or_app. left. left. reflexivity.
    - apply (join_includes _ _ m); [|exact Hin]. unfold pieces.
      rewrite Hm, (Hnonempty m Hin). apply in_or_app. right. apply in_or_app. left.
      left. reflexivity.
    - apply (join_includes _ _ (join (str " ") l)).
      + unfold pieces. apply in_or_app. right. apply in_or_app. right. left. reflexivity.
      + apply (join_includes _ _ line); assumption. }
  destruct Hmarker as [->| ->]; rewrite Hcombined; [reflexivity | apply orb_true_r].
Qed.

(** The converse fails: the pieces are joined before the search, so a
    marker that no piece holds can appear across two of them. *)
Example isFallbackError_across_pieces :
  let err := mkJsError (Some (str "custom program")) (Some (str "error: 0x65"))
               false None LogsNullish LogsNullish in
  RotateCollectionAuthority.isFallbackError err None = true
  /\ includes (str "custom program") (str "custom program error: 0x65") = false
  /\ includes (str "error: 0x65") (str "custom program error: 0x65") = false.
Proof. vm_compute. repeat split. Qed.

(** ** Characters and bytes *)

Lemma lor_bound (a b n : Z) :
  0 < n -> 0 <= a < 2 ^ n -> 0 <= b < 2 ^ n -> 0 <= Z.lor a b < 2 ^ n.
Proof.
  intros Hn Ha Hb. split; [apply Z.lor_nonneg; lia|].
  destruct (Z.eq_dec (Z.lor a b) 0) as [->|Hne]; [lia|].
  assert (0 <= Z.lor a b) by (apply Z.lor_nonneg; lia).
  apply Z.log2_lt_pow2; [lia|]. rewrite Z.log2_lor by lia.
  apply Z.max_lub_lt.
  - destruct (Z.eq_dec a 0) as [->|]; [cbn; lia|]. apply Z.log2_lt_pow2; lia.
  - destruct (Z.eq_dec b 0) as [->|]; [cbn; lia|]. apply Z.log2_lt_pow2; lia.
Qed.

Lemma continuation_byte (x : Z) : is_byte (Z.lor 128 (Z.land x 63)).
Proof.
  change 63 with (Z.ones 6). rewrite Z.land_ones by lia.
  pose proof (Z.mod_pos_bound x (2 ^ 6) ltac:(lia)) as Hm.
  apply (lor_bound 128 (x mod 2 ^ 6) 8); lia.
Qed.

Lemma leading_byte (tag x bits : Z) :
  0 <= tag < 256 -> 0 <= x < 2 ^ bits -> 0 <= bits <= 8 -> is_byte (Z.lor tag x).
Proof.
  intros Htag Hx Hbits. apply (lor_bound tag x 8); [lia | lia|].
  split; [lia|]. eapply Z.lt_le_trans; [apply Hx|]. apply Z.pow_le_mono_r; lia.
Qed.

Lemma utf8_of_code_point_bytes (cp : Z) :
  0 <= cp < 0x110000 -> Forall is_byte (utf8_of_code_point cp).
Proof.
  intros Hcp. unfold utf8_of_code_point.
  assert (Hshift : forall k bound, 0 <= k -> cp < bound * 2 ^ k -> 0 < bound ->
                                   0 <= Z.shiftr cp k < bound).
  { intros k bound Hk Hlt Hbound. rewrite Z.shiftr_div_pow2 by lia.
    assert (0 < 2 ^ k) by (apply Z.pow_pos_nonneg; lia).
    split; [apply Z.div_pos; lia | apply Z.div_lt_upper_bound; lia]. }
  destruct (Z.ltb_spec cp 0x80).
  { apply List.Forall_cons; [unfold is_byte; lia | constructor]. }
  destruct (Z.ltb_spec cp 0x800).
  { apply List.Forall_cons; [|apply List.Forall_cons; [apply continuation_byte | constructor]].
    apply (leading_byte _ _ 5); [lia | apply Hshift; lia | lia]. }
  destruct (Z.ltb_spec cp 0x10000).
  { apply List.Forall_cons;
      [|apply List.Forall_cons;
         [apply continuation_byte
         |apply List.Forall_cons; [apply continuation_byte | constructor]]].
    apply (leading_byte _ _ 4); [lia | apply Hshift; lia | lia]. }
  apply List.Forall_cons;
    [|apply List.Forall_cons;
       [apply continuation_byte
       |apply List.Forall_cons;
          [apply continuation_byte
          |apply List.Forall_cons; [apply continuation_byte | constructor]]]].
  apply (leading_byte _ _ 3); [lia | apply Hshift; lia | lia].
Qed.

Lemma utf8_of_code_point_length (cp : Z) :
  length (utf8_of_code_point cp)
  = if cp <? 0x80 then 1%nat else if cp <? 0x800 then 2%nat
    else if cp <? 0x10000 then 3%nat else 4%nat.
Proof.
  unfold utf8_of_code_point.
  destruct (cp <? 0x80); [reflexivity|]. destruct (cp <? 0x800); [reflexivity|].
  destruct (cp <? 0x10000); reflexivity.
Qed.

Lemma surrogate_pair_code_point (c d : Z) :
  is_high_surrogate c = true -> is_low_surrogate d = true ->
  0x10000 <= 0x10000 + Z.shiftl (c - 0xD800) 10 + (d - 0xDC00) < 0x110000.
Proof.
  unfold is_high_surrogate, is_low_surrogate. intros Hc Hd.
  apply andb_true_iff in Hc, Hd. destruct Hc as [Hc1 Hc2], Hd as [Hd1 Hd2].
  apply Z.leb_le in Hc1, Hc2, Hd1, Hd2.
  rewrite Z.shiftl_mul_pow2 by lia. change (2 ^ 10) with 1024. lia.
Qed.

Lemma utf8Encode_sized (n : nat) :
  forall s : jsstring,
    (length s <= n)%nat -> Forall code_unit s ->
    Forall is_byte (utf8Encode s)
    /\ (length s <= length (utf8Encode s) <= 3 * length s)%nat.
Proof.
  induction n as [|n IH]; intros s Hn Hs.
  - destruct s; [|cbn in Hn; lia]. split; [constructor | cbn; lia].
  - destruct s as [|c rest]; [split; [constructor | cbn; lia]|].
    pose proof (Forall_inv Hs) as Hc. unfold code_unit in Hc.
    pose proof (Forall_inv_tail Hs) as Hrest.
    assert (Hrest_n : (length rest <= n)%nat) by (cbn in Hn; lia).
    destruct (IH rest Hrest_n Hrest) as [IHbytes IHlen].
    assert (Hsingle : forall cp, 0 <= cp < 65536 ->
              Forall is_byte (utf8_of_code_point cp ++ utf8Encode rest)
              /\ (length (c :: rest) <= length (utf8_of_code_point cp ++ utf8Encode rest)
                  <= 3 * length (c :: rest))%nat).
    { intros cp Hcp. split.
      - apply Forall_app. split; [apply utf8_of_code_point_bytes; lia | exact IHbytes].
      - rewrite length_app, utf8_of_code_point_length. cbn [length].
        destruct (cp <? 0x80); [lia|]. destruct (cp <? 0x800); [lia|].
        destruct (Z.ltb_spec cp 0x10000); lia. }
    cbn [utf8Encode]. destruct (is_high_surrogate c) eqn:Hhigh.
    + destruct rest as [|d rest'].
      * split; [apply utf8_of_code_point_bytes; lia | cbn; lia].
      * destruct (is_low_surrogate d) eqn:Hlow; [|apply Hsingle; lia].
        pose proof (surrogate_pair_code_point c d Hhigh Hlow) as Hpair.
        assert (Hrest'_n : (length rest' <= n)%nat) by (cbn in Hrest_n; lia).
        destruct (IH rest' Hrest'_n (Forall_inv_tail Hrest)) as [IHbytes' IHlen'].
        split.
        -- apply Forall_app. split; [apply utf8_of_code_point_bytes; lia | exact IHbytes'].
        -- rewrite length_app, utf8_of_code_point_length. cbn [length].
           destruct (Z.ltb_spec (0x10000 + Z.shiftl (c - 0xD800) 10 + (d - 0xDC00)) 0x80);
             [lia|].
           destruct (Z.ltb_spec (0x10000 + Z.shiftl (c - 0xD800) 10 + (d - 0xDC00)) 0x800);
             [lia|].
           destruct (Z.ltb_spec (0x10000 + Z.shiftl (c - 0xD800) 10 + (d - 0xDC00)) 0x10000);
             lia.
    + destruct (is_low_surrogate c); apply Hsingle; lia.
Qed.

Lemma utf8Encode_ascii (s : jsstring) :
  Forall (fun c => 0 <= c < 128) s -> utf8Encode s = s.
Proof.
  induction 1 as [|c s Hc Hs IH]; [reflexivity|].
  cbn [utf8Encode]. unfold is_high_surrogate, is_low_surrogate.
  destruct (Z.leb_spec 0xD800 c); [lia|]. destruct (Z.leb_spec 0xDC00 c); [lia|].
  cbn [andb]. unfold utf8_of_code_point. destruct (Z.ltb_spec c 0x80); [|lia].
  cbn [app]. rewrite IH. reflexivity.
Qed.

(** X17. The bytes that [encodeString] writes for a string of UTF-16 code
    units: between one and three per code unit, after the four length
    bytes, each in 0..255; and for an ASCII string exactly its characters.
    So the limits that the scripts put on [.length] are limits in bytes for
    ASCII input only: n characters can take up to 3 n bytes. *)
Theorem encodeString_size (value : jsstring)
    (Hunits : Forall code_unit value)
    (Hsize : 3 * Z.of_nat (length value) < 2 ^ 32) :
  exists out,
    MintObject.encodeString value = Normal out
    /\ UpdateManifest.encodeString value = Normal out
    /\ Forall is_byte out
    /\ (4 + length value <= length out <= 4 + 3 * length value)%nat
    /\ (Forall (fun c => c < 128) value ->
        out = le_bytes 4 (Z.of_nat (length value)) ++ value).
Proof.
  destruct (utf8Encode_sized (length value) value (Nat.le_refl _) Hunits) as [Hbytes Hlen].
  exists (le_bytes 4 (Z.of_nat (length (utf8Encode value))) ++ utf8Encode value).
  assert (Hencoded : MintObject.encodeString value
                     = Normal (le_bytes 4 (Z.of_nat (length (utf8Encode value)))
                               ++ utf8Encode value)).
  { unfold MintObject.encodeString. cbv zeta.
    rewrite writeUIntLE_in_range by (change (8 * Z.of_nat 4) with 32; lia). reflexivity. }
  split; [exact Hencoded|]. split; [exact Hencoded|].
  split; [apply Forall_app; split; [apply le_bytes_bytes | exact Hbytes]|].
  split; [rewrite length_app, le_bytes_length; lia|].
  intros Hascii. rewrite utf8Encode_ascii; [reflexivity|].
  apply Forall_forall. intros c Hc.
  rewrite Forall_forall in Hunits, Hascii. specialize (Hunits c Hc). specialize (Hascii c Hc).
  unfold code_unit in Hunits. lia.
Qed.

Lemma encodeString_size_witness :
  exists out,
    MintObject.encodeString (repeat 233 100) = Normal out /\ length out = 204%nat.
Proof.
  destruct (encodeString_size (repeat 233 100)) as (out & Hout & _).
  - apply Forall_forall. intros c Hc. apply list_elem_of_In, repeat_spec in Hc.
    subst c. unfold code_unit. lia.
  - rewrite repeat_length. lia.
  - exists out. split; [exact Hout|].
    assert (Hrun : MintObject.encodeString (repeat 233 100)
                   = Normal (le_bytes 4 200 ++ utf8Encode (repeat 233 100)))
      by (vm_compute; reflexivity).
    rewrite Hrun in Hout. apply Normal_inj in Hout. subst out. reflexivity.
Defined.

(** ** Creator entries of a JSON file *)

(** X18. How the loop over the creators JSON file reads an entry whose
    address is base58 for a key: an integer share from 0 to 100 and a
    boolean [verified] give the creator with that key, share and flag, and
    the key pair path expanded when one is given; a share that is missing
    or null counts as 0; a [verified] that is missing counts as false, but
    a [verified] that is null is refused; and an entry without address is
    refused. *)
Theorem parseCreatorEntry_reads_entries
    (w : World) (addressText : jsstring) (k : PublicKey) (s : Z)
    (Hk : PublicKey_of_string addressText = Normal k)
    (Hs : 0 <= s <= 100) :
  (forall (v : bool) (keypair : option jsstring),
     MintObject.parseCreatorEntry w
       (mkJsonCreatorEntry (Some addressText) (VNumber s) (VBoolean v) keypair)
     = Normal (mkCreator k s v
                 match keypair with
                 | Some (c :: p) => Some (expandPath w (c :: p))
                 | _ => None
                 end))
  /\ (forall (v : bool) (missing : JsValue),
        missing = VUndefined \/ missing = VNull ->
        MintObject.parseCreatorEntry w
          (mkJsonCreatorEntry (Some addressText) missing (VBoolean v) None)
        = Normal (mkCreator k 0 v None))
  /\ MintObject.parseCreatorEntry w
       (mkJsonCreatorEntry (Some addressText) (VNumber s) VUndefined None)
     = Normal (mkCreator k s false None)
  /\ throws (MintObject.parseCreatorEntry w
               (mkJsonCreatorEntry (Some addressText) (VNumber s) VNull None)) = true
  /\ (forall (share verified : JsValue) (keypair : option jsstring),
        MintObject.parseCreatorEntry w (mkJsonCreatorEntry None share verified keypair)
        = Throw (Error (str "Each creator entry must include an address field."))).
Proof.
  assert (Haddress : exists c a, addressText = c :: a).
  { destruct addressText as [|c a]; [vm_compute in Hk; discriminate Hk|]. eauto. }
  destruct Haddress as (c0 & a0 & ->).
  assert (Hshare : forall n, 0 <= n <= 100 ->
            negb (Number_isInteger (parseInt10 (Z_to_jsstring n)))
            || (default 0 (parseInt10 (Z_to_jsstring n)) <? 0)
            || (100 <? default 0 (parseInt10 (Z_to_jsstring n))) = false
            /\ default 0 (parseInt10 (Z_to_jsstring n)) = n).
  { intros n Hn. rewrite parseInt10_Z_to_jsstring by lia.
    change (default 0 (Some n)) with n. cbn [Number_isInteger].
    destruct (Z.ltb_spec (Z.abs n) (2 ^ 1024)) as [_|Hhuge].
    2:{ assert (2 ^ 7 <= 2 ^ 1024) by (apply Z.pow_le_mono_r; lia). lia. }
    destruct (Z.ltb_spec n 0); [lia|]. destruct (Z.ltb_spec 100 n); [lia|].
    split; reflexivity. }
  destruct (Hshare s Hs) as [Hcheck Hvalue]. destruct (Hshare 0 ltac:(lia)) as [Hcheck0 Hvalue0].
  split; [|split; [|split; [|split]]].
  - intros v keypair. unfold MintObject.parseCreatorEntry.
    cbn [entry_address entry_share entry_verified entry_keypair is_nullish ToString].
    rewrite Hk. cbn [mbind Completion_bind]. cbv zeta. rewrite Hcheck, Hvalue.
    cbn [MintObject.parseBoolean mbind Completion_bind]. reflexivity.
  - intros v missing Hmissing. unfold MintObject.parseCreatorEntry.
    cbn [entry_address entry_share entry_verified entry_keypair].
    rewrite Hk. cbn [mbind Completion_bind]. cbv zeta.
    assert (Hnull : is_nullish missing = true) by (destruct Hmissing as [->| ->]; reflexivity).
    rewrite Hnull. cbn [ToString]. rewrite Hcheck0, Hvalue0.
    cbn [MintObject.parseBoolean mbind Completion_bind]. reflexivity.
  - unfold MintObject.parseCreatorEntry.
    cbn [entry_address entry_share entry_verified entry_keypair is_nullish ToString].
    rewrite Hk. cbn [mbind Completion_bind]. cbv zeta. rewrite Hcheck, Hvalue. reflexivity.
  - unfold MintObject.parseCreatorEntry.
    cbn [entry_address entry_share entry_verified entry_keypair is_nullish ToString].
    rewrite Hk. cbn [mbind Completion_bind]. cbv zeta. rewrite Hcheck. reflexivity.
  - intros share verified keypair. reflexivity.
Qed.

Lemma parseCreatorEntry_reads_entries_witness :
  MintObject.parseCreatorEntry offline_world
    (mkJsonCreatorEntry (Some (str "E5mQ27muTebiYaohBsdsCwrvPN3MVoRmECFtL4A5Sx9q"))
       (VNumber 40) (VBoolean false) None)
  = Normal (mkCreator (publicKey sample_wallet) 40 false None).
Proof.
  assert (Hk : PublicKey_of_string (str "E5mQ27muTebiYaohBsdsCwrvPN3MVoRmECFtL4A5Sx9q")
               = Normal (publicKey sample_wallet)) by (vm_compute; reflexivity).
  assert (Hs : 0 <= 40 <= 100) by lia.
  pose proof (parseCreatorEntry_reads_entries offline_world _ _ 40 Hk Hs) as Hthm.
  destruct Hthm as [Hentry _]. exact (Hentry false None).
Defined.

(** ** What the rotation script sends *)

Lemma parsePublicKeyOrKeypair_run (w : World) (value flagName : jsstring)
    (t : list Effect) (k : PublicKey) :
  RotateCollectionAuthority.parsePublicKeyOrKeypair w value flagName = (t, Normal k) ->
  PublicKey_of_string value = Normal k
  \/ (throws (PublicKey_of_string value) = true
      /\ existsSync w (expandPath w value) = true
      /\ exists keypair,
           readKeypair w (expandPath w value) = Normal keypair /\ k = publicKey keypair).
Proof.
  unfold RotateCollectionAuthority.parsePublicKeyOrKeypair.
  case_bool_decide; [discriminate|].
  destruct (PublicKey_of_string value) as [key|err].
  - cbn [pure try_catch]. intros Hrun. left. f_equal.
    apply pair_equal_spec in Hrun. destruct Hrun as [_ Hrun].
    apply Normal_inj in Hrun. exact Hrun.
  - intros Hrun. right. split; [reflexivity|].
    cbn [pure try_catch] in Hrun. unfold fileExists, loadKeypair, perform in Hrun.
    cbn [mbind Script_bind] in Hrun.
    destruct (existsSync w (expandPath w value)); cbn [negb] in Hrun.
    + split; [reflexivity|].
      destruct (readKeypair w (expandPath w value)) as [keypair|loadErr].
      * exists keypair. split; [reflexivity|].
        cbn in Hrun. apply pair_equal_spec in Hrun. destruct Hrun as [_ Hrun].
        apply Normal_inj in Hrun. symmetry. exact Hrun.
      * cbn in Hrun. apply pair_equal_spec in Hrun. destruct Hrun as [_ Hrun].
        discriminate Hrun.
    + cbn in Hrun. apply pair_equal_spec in Hrun. destruct Hrun as [_ Hrun].
      discriminate Hrun.
Qed.

Lemma sent_of_send_effect (tx : Transaction) (signers : list PublicKey)
    (trace : list Effect) :
  In (SendAndConfirm tx signers) trace -> In tx (sentTransactions trace).
Proof.
  intros Hin. unfold sentTransactions. apply in_flat_map.
  exists (SendAndConfirm tx signers). split; [exact Hin | left; reflexivity].
Qed.

Lemma quiet_prefix_extend (whole trace t1 t2 : list Effect) :
  trace = t1 ++ t2 ->
  sentTransactions trace = sentTransactions t2 ->
  (exists prefix, whole = prefix ++ trace /\ sentTransactions prefix = []) ->
  exists prefix, whole = prefix ++ t2 /\ sentTransactions prefix = [].
Proof.
  intros -> Hsent (prefix & -> & Hquiet). exists (prefix ++ t1).
  split; [apply app_assoc|].
  rewrite sentTransactions_app, Hquiet. cbn [app].
  rewrite sentTransactions_app in Hsent.
  apply (f_equal (@length Transaction)) in Hsent. rewrite length_app in Hsent.
  destruct (sentTransactions t1); [reflexivity | cbn in Hsent; lia].
Qed.

Ltac loop_step H Hs Hpre a Ha tac :=
  let t1 := fresh "t" in
  let t2 := fresh "t" in
  let H' := fresh "H" in
  let Hs' := fresh "Hs" in
  let Heq := fresh "Heq" in
  let Htrace := fresh "Htrace" in
  destruct (bind_sent_inv _ _ _ _ H Hs ltac:(tac)) as (a & t1 & t2 & Ha & H' & Htrace & Hs' & Heq);
  apply (quiet_prefix_extend _ _ _ _ Htrace Heq) in Hpre;
  clear H Hs Heq Htrace;
  rename H' into H; rename Hs' into Hs; cbn beta in H.

(** The loop, on any list of attempts: at most one transaction per
    attempt, each built from its attempt and signed by the same signers. *)
Lemma runAttempts_effects
    (w : World) (keys : list AccountMeta) (newUpdateAuthority : PublicKey)
    (payerKeypair authorityKeypair : Keypair)
    (remaining : list RotateCollectionAuthority.Attempt) (earlier : nat) :
  let script := RotateCollectionAuthority.runAttempts w keys newUpdateAuthority
                  payerKeypair authorityKeypair earlier remaining in
  (length (sentTransactions (effects script)) <= length remaining)%nat
  /\ forall (tx : Transaction) (signers : list PublicKey),
       In (SendAndConfirm tx signers) (effects script) ->
       signers
       = publicKey payerKeypair
         :: (if negb (PublicKey_equals (publicKey payerKeypair) (publicKey authorityKeypair))
             then [publicKey authorityKeypair] else [])
       /\ feePayer tx = publicKey payerKeypair
       /\ exists attempt,
            In attempt remaining
            /\ instructions tx
               = [ProgramInstruction
                    (mkInstruction OGAL_PROGRAM_ID keys
                       (RotateCollectionAuthority.attemptData attempt newUpdateAuthority))].
Proof.
  cbv zeta. revert earlier. induction remaining as [|attempt rest IH]; intros earlier.
  - cbn. split; [lia | intros tx signers []].
  - cbn [RotateCollectionAuthority.runAttempts].
    assert (Hfetch : exists answer,
              latestBlockhashAt w earlier = ([GetLatestBlockhash], answer))
      by (destruct earlier; eexists; reflexivity).
    destruct Hfetch as [answer ->].
    destruct answer as [[blockhash height]|err].
    2:{ cbn. split; [lia|]. intros tx signers [Hin|[]]. discriminate Hin. }
    cbn zeta. cbn [mbind Script_bind]. unfold perform.
    set (signers0 := publicKey payerKeypair :: _).
    set (tx0 := RotateCollectionAuthority.attemptTransaction attempt keys _ _ _).
    assert (Hfirst : forall tx signers,
              SendAndConfirm tx0 signers0 = SendAndConfirm tx signers ->
              signers = signers0 /\ feePayer tx = publicKey payerKeypair
              /\ exists a, In a (attempt :: rest)
                   /\ instructions tx
                      = [ProgramInstruction
                           (mkInstruction OGAL_PROGRAM_ID keys
                              (RotateCollectionAuthority.attemptData a newUpdateAuthority))]).
    { intros tx signers Heq. inversion Heq; subst tx signers.
      split; [reflexivity|]. split; [reflexivity|].
      exists attempt. split; [left; reflexivity | reflexivity]. }
    destruct (sendAndConfirmTransaction w tx0 signers0) as [signature|err].
    + destruct (RotateCollectionAuthority.legacy attempt); cbn.
      * split; [lia|]. intros tx signers [Hin|[Hin|[Hin|[Hin|[]]]]]; try discriminate Hin.
        apply Hfirst, Hin.
      * split; [lia|]. intros tx signers [Hin|[Hin|[Hin|[]]]]; try discriminate Hin.
        apply Hfirst, Hin.
    + cbn [try_catch mbind Script_bind pure].
      destruct (RotateCollectionAuthority.collectLogs err) as [logs|unreadable].
      2:{ cbn. split; [lia|].
          intros tx signers [Hin|[Hin|[Hin|[]]]]; try discriminate Hin.
          apply Hfirst, Hin. }
      destruct (negb (RotateCollectionAuthority.legacy attempt)
                && RotateCollectionAuthority.isFallbackError err logs).
      * destruct (IH (S earlier)) as [IHlen IHin].
        destruct (RotateCollectionAuthority.runAttempts w keys newUpdateAuthority
                    payerKeypair authorityKeypair (S earlier) rest) as [t r].
        cbn in IHlen, IHin |- *. split; [lia|].
        intros tx signers [Hin|[Hin|[Hin|[Hin|Hin]]]]; try discriminate Hin.
        { apply Hfirst, Hin. }
        destruct (IHin tx signers Hin) as (Hsigners & Hpayer & a & Ha & Hix).
        split; [exact Hsigners|]. split; [exact Hpayer|].
        exists a. split; [right; exact Ha | exact Hix].
      * cbn. split; [lia|].
        intros tx signers [Hin|[Hin|[Hin|[]]]]; try discriminate Hin.
        apply Hfirst, Hin.
Qed.

Lemma rotate_discriminator_lengths :
  Forall (fun attempt => length (RotateCollectionAuthority.discriminator attempt) = 8%nat)
    RotateCollectionAuthority.attempts.
Proof.
  unfold RotateCollectionAuthority.attempts.
  repeat apply List.Forall_cons; try apply List.Forall_nil;
    cbn [RotateCollectionAuthority.discriminator]; apply firstn_8_digest.
Qed.

(** X19. The rotation script sends a transaction only when the namespace and
    the collection mint are base58 keys, the new update authority is a
    base58 key or the path of an existing key pair file (whose public key
    it then is), and the key pairs are loaded.  It then sends one
    transaction or two, never more.  Each is paid by the payer and holds one
    instruction of the program, on the same six accounts (the authority as
    signer, the config, auth and metadata addresses derived from the
    arguments, the collection mint and the metadata program), with the
    canonical or the legacy discriminator as data followed, when the new
    update authority is a key of 32 bytes, by that key; the authority key
    pair is among the signers. *)
Theorem rotate_sends_for_the_parsed_accounts
    (w : World) (argv : RotateCollectionAuthority.Argv) :
  sentTransactions (effects (RotateCollectionAuthority.main w argv)) <> [] ->
  exists (namespace collectionMint newUpdateAuthority : PublicKey)
         (authorityKeypair payerKeypair : Keypair),
    PublicKey_of_string (RotateCollectionAuthority.namespace argv) = Normal namespace
    /\ PublicKey_of_string (RotateCollectionAuthority.collection_mint argv)
       = Normal collectionMint
    /\ (PublicKey_of_string (RotateCollectionAuthority.new_update_authority argv)
        = Normal newUpdateAuthority
        \/ (throws (PublicKey_of_string (RotateCollectionAuthority.new_update_authority argv))
            = true
            /\ existsSync w (expandPath w (RotateCollectionAuthority.new_update_authority argv))
               = true
            /\ exists keypair,
                 readKeypair w
                   (expandPath w (RotateCollectionAuthority.new_update_authority argv))
                 = Normal keypair
                 /\ newUpdateAuthority = publicKey keypair))
    /\ readKeypair w (RotateCollectionAuthority.authority_keypair argv)
       = Normal authorityKeypair
    /\ match RotateCollectionAuthority.payer_keypair argv with
       | Some (c :: p) => readKeypair w (c :: p) = Normal payerKeypair
       | _ => payerKeypair = authorityKeypair
       end
    /\ let config :=
         fst (findProgramAddressSync w [utf8Encode (str "config"); toBuffer namespace]
                OGAL_PROGRAM_ID) in
       let auth :=
         fst (findProgramAddressSync w [utf8Encode (str "auth"); toBuffer config]
                OGAL_PROGRAM_ID) in
       let metadata :=
         fst (findProgramAddressSync w
                [utf8Encode (str "metadata"); toBuffer METAPLEX_METADATA_PROGRAM_ID;
                 toBuffer collectionMint]
                METAPLEX_METADATA_PROGRAM_ID) in
       let keys :=
         [mkAccountMeta (publicKey authorityKeypair) true false;
          mkAccountMeta config false true;
          mkAccountMeta auth false false;
          mkAccountMeta metadata false true;
          mkAccountMeta collectionMint false false;
          mkAccountMeta METAPLEX_METADATA_PROGRAM_ID false false] in
       let sent := sentTransactions (effects (RotateCollectionAuthority.main w argv)) in
       (length sent <= 2)%nat
       /\ (forall tx, In tx sent ->
             feePayer tx = publicKey payerKeypair
             /\ exists attempt,
                  In attempt RotateCollectionAuthority.attempts
                  /\ instructions tx
                     = [ProgramInstruction
                          (mkInstruction OGAL_PROGRAM_ID keys
                             (RotateCollectionAuthority.attemptData attempt
                                newUpdateAuthority))]
                  /\ (length (toBuffer newUpdateAuthority) = 32%nat ->
                      RotateCollectionAuthority.attemptData attempt newUpdateAuthority
                      = RotateCollectionAuthority.discriminator attempt
                        ++ toBuffer newUpdateAuthority))
       /\ forall (tx : Transaction) (signers : list PublicKey),
            In (SendAndConfirm tx signers) (effects (RotateCollectionAuthority.main w argv)) ->
            In (publicKey payerKeypair) signers
            /\ exists signer,
                 In signer signers
                 /\ toBuffer signer = toBuffer (publicKey authorityKeypair).
Proof.
  destruct (RotateCollectionAuthority.main w argv) as [trace o] eqn:H.
  cbn [effects outcome fst snd]. intros Hs.
  set (whole := trace) in |- *.
  assert (Hpre : exists prefix, whole = prefix ++ trace /\ sentTransactions prefix = [])
    by (exists []; split; reflexivity).
  clearbody whole.
  unfold RotateCollectionAuthority.main in H.
  loop_step H Hs Hpre u0 Hchecks ltac:(reflexivity).
  loop_step H Hs Hpre namespace Hnamespace ltac:(reflexivity).
  apply pure_run_inv in Hnamespace. destruct Hnamespace as [Hnamespace _].
  loop_step H Hs Hpre collectionMint Hmint ltac:(reflexivity).
  apply pure_run_inv in Hmint. destruct Hmint as [Hmint _].
  loop_step H Hs Hpre newUpdateAuthority Hnew
    ltac:(apply parsePublicKeyOrKeypair_sends_nothing).
  apply parsePublicKeyOrKeypair_run in Hnew.
  loop_step H Hs Hpre authorityKeypair Hauthority ltac:(reflexivity).
  apply perform_run_inv in Hauthority. destruct Hauthority as [Hauthority _].
  loop_step H Hs Hpre payerKeypair Hpayer
    ltac:(destruct (RotateCollectionAuthority.payer_keypair argv) as [[|? ?]|]; reflexivity).
  assert (Hpayer' : match RotateCollectionAuthority.payer_keypair argv with
                    | Some (c :: p) => readKeypair w (c :: p) = Normal payerKeypair
                    | _ => payerKeypair = authorityKeypair
                    end).
  { destruct (RotateCollectionAuthority.payer_keypair argv) as [[|c p]|].
    - apply (pure_run_inv (Normal authorityKeypair)) in Hpayer.
      destruct Hpayer as [Hpayer _]. apply Normal_inj in Hpayer. congruence.
    - apply perform_run_inv in Hpayer. apply Hpayer.
    - apply (pure_run_inv (Normal authorityKeypair)) in Hpayer.
      destruct Hpayer as [Hpayer _]. apply Normal_inj in Hpayer. congruence. }
  clear Hpayer.
  loop_step H Hs Hpre u1 Hconnection ltac:(reflexivity).
  loop_step H Hs Hpre config Hconfig ltac:(reflexivity).
  apply findPda_run_inv in Hconfig. destruct Hconfig as [Hconfig _].
  destruct config as [configPda configBump]. cbn beta iota in H.
  loop_step H Hs Hpre auth Hauth ltac:(reflexivity).
  apply findPda_run_inv in Hauth. destruct Hauth as [Hauth _].
  destruct auth as [authPda authBump]. cbn beta iota in H.
  loop_step H Hs Hpre metadata Hmetadata ltac:(reflexivity).
  apply findPda_run_inv in Hmetadata. destruct Hmetadata as [Hmetadata _].
  destruct metadata as [metadataPda metadataBump]. cbn beta iota in H.
  apply (f_equal fst) in Hconfig, Hauth, Hmetadata. cbn [fst] in Hconfig, Hauth, Hmetadata.
  exists namespace, collectionMint, newUpdateAuthority, authorityKeypair, payerKeypair.
  split; [exact Hnamespace|]. split; [exact Hmint|]. split; [exact Hnew|].
  split; [exact Hauthority|]. split; [exact Hpayer'|].
  cbv zeta. rewrite <- Hconfig, <- Hauth, <- Hmetadata.
  pose proof (runAttempts_effects w
                [mkAccountMeta (publicKey authorityKeypair) true false;
                 mkAccountMeta configPda false true;
                 mkAccountMeta authPda false false;
                 mkAccountMeta metadataPda false true;
                 mkAccountMeta collectionMint false false;
                 mkAccountMeta METAPLEX_METADATA_PROGRAM_ID false false]
                newUpdateAuthority payerKeypair authorityKeypair
                RotateCollectionAuthority.attempts 0%nat) as Hloop.
  cbv zeta in Hloop. rewrite H in Hloop. cbn [effects fst] in Hloop.
  destruct Hloop as [Hlength Hsends].
  destruct Hpre as (prefix & -> & Hquiet).
  rewrite sentTransactions_app, Hquiet. cbn [app].
  split; [exact Hlength|]. split.
  - intros tx Hin. unfold sentTransactions in Hin. apply in_flat_map in Hin.
    destruct Hin as (ev & Hev & Htx). destruct ev; try (destruct Htx; fail).
    destruct Htx as [->|[]].
    destruct (Hsends _ _ Hev) as (_ & Hpayer & attempt & Hattempt & Hix).
    split; [exact Hpayer|]. exists attempt. split; [exact Hattempt|].
    split; [exact Hix|]. intros Hkey.
    unfold RotateCollectionAuthority.attemptData.
    apply copy_discriminator_and_key; [|exact Hkey].
    pose proof rotate_discriminator_lengths as Hlengths.
    rewrite List.Forall_forall in Hlengths. apply Hlengths, Hattempt.
  - intros tx signers Hin. apply in_app_or in Hin. destruct Hin as [Hin|Hin].
    { apply sent_of_send_effect in Hin. rewrite Hquiet in Hin. destruct Hin. }
    destruct (Hsends _ _ Hin) as (-> & _).
    split; [left; reflexivity|].
    destruct (PublicKey_equals (publicKey payerKeypair) (publicKey authorityKeypair)) eqn:Heq.
    + exists (publicKey payerKeypair). split; [left; reflexivity|].
      apply PublicKey_equals_spec. exact Heq.
    + exists (publicKey authorityKeypair). split; [right; left; reflexivity | reflexivity].
Qed.

(** ** Option wrappers in deserialized accounts *)

Module InspectCollectionFacts.
Import InspectCollection.

Lemma JsData_nested_ind (P : JsData -> Prop) :
  P DUndefined -> P DNull -> (forall b, P (DBoolean b)) -> (forall n, P (DNumber n)) ->
  (forall n, P (DBigInt n)) -> (forall s, P (DString s)) ->
  (forall items, List.Forall P items -> P (DArray items)) ->
  (forall entries, List.Forall (fun e => P (snd e)) entries -> P (DObject entries)) ->
  forall value, P value.
Proof.
  intros Hundefined Hnull Hboolean Hnumber Hbigint Hstring Harray Hobject.
  fix IH 1. intros [ | | b | n | n | s | items | entries].
  - exact Hundefined.
  - exact Hnull.
  - apply Hboolean.
  - apply Hnumber.
  - apply Hbigint.
  - apply Hstring.
  - apply Harray. induction items as [|item items IHitems].
    + apply List.Forall_nil.
    + apply List.Forall_cons; [apply IH | exact IHitems].
  - apply Hobject. induction entries as [|[key v] entries IHentries].
    + apply List.Forall_nil.
    + apply List.Forall_cons; [apply IH | exact IHentries].
Qed.

Lemma unwrapOption_object (entries : list (jsstring * JsData)) :
  unwrapOption (DObject entries)
  = if truthy (get (str "__option") entries)
    then if is_Some_tag (get (str "__option") entries)
         then unwrapOption (get (str "value") entries)
         else DNull
    else DObject (map (fun e => (fst e, unwrapOption (snd e))) entries).
Proof.
  cbn [unwrapOption].
  destruct (truthy (get (str "__option") entries)).
  - destruct (is_Some_tag (get (str "__option") entries)); [|reflexivity].
    induction entries as [|[k v] rest IH]; [reflexivity|].
    cbn [get]. destruct (bool_decide (k = str "value")); [reflexivity | exact IH].
  - f_equal. induction entries as [|[k v] rest IH]; [reflexivity|].
    cbn [map fst snd]. f_equal. exact IH.
Qed.

Lemma has_option_object (entries : list (jsstring * JsData)) :
  has_option (DObject entries)
  = truthy (get (str "__option") entries)
    || existsb (fun e => has_option (snd e)) entries.
Proof.
  cbn [has_option]. f_equal.
  induction entries as [|[k v] rest IH]; [reflexivity|].
  cbn [existsb snd]. f_equal. exact IH.
Qed.

Lemma falsy_is_kept (value : JsData) :
  truthy value = false -> unwrapOption value = value.
Proof. destruct value; cbn; intros H; try reflexivity; discriminate H. Qed.

Lemma get_unwrapped (key : jsstring) (entries : list (jsstring * JsData)) :
  get key (map (fun e => (fst e, unwrapOption (snd e))) entries)
  = unwrapOption (get key entries).
Proof.
  induction entries as [|[k v] rest IH]; [reflexivity|].
  cbn [map get fst snd]. destruct (bool_decide (k = key)); [reflexivity | exact IH].
Qed.

Lemma get_among (P : JsData -> Prop) (key : jsstring) (entries : list (jsstring * JsData)) :
  P DUndefined -> List.Forall (fun e => P (snd e)) entries -> P (get key entries).
Proof.
  intros Hundefined Hall. induction Hall as [|[k v] rest Hv _ IH]; [exact Hundefined|].
  cbn [get]. destruct (bool_decide (k = key)); [exact Hv | exact IH].
Qed.

Lemma unwrapOption_clean (value : JsData) :
  has_option (unwrapOption value) = false
  /\ (has_option value = false -> unwrapOption value = value).
Proof.
  induction value as [ | | b | n | n | s | items IH | entries IH] using JsData_nested_ind;
    try (split; reflexivity).
  - cbn [unwrapOption has_option]. split.
    + induction IH as [|item items [Hitem _] _ IHitems]; [reflexivity|].
      cbn [map existsb]. rewrite Hitem. exact IHitems.
    + intros Hnone. f_equal.
      induction IH as [|item items [_ Hitem] _ IHitems]; [reflexivity|].
      cbn [existsb] in Hnone. apply orb_false_iff in Hnone. destruct Hnone as [Hhead Htail].
      cbn [map]. rewrite (Hitem Hhead), (IHitems Htail). reflexivity.
  - rewrite unwrapOption_object, has_option_object.
    destruct (truthy (get (str "__option") entries)) eqn:Htag.
    + split; [|discriminate].
      destruct (is_Some_tag (get (str "__option") entries)); [|reflexivity].
      apply (get_among (fun v => has_option (unwrapOption v) = false)); [reflexivity|].
      eapply List.Forall_impl; [|exact IH]. intros e [He _]. exact He.
    + cbn [orb]. split.
      * rewrite has_option_object, get_unwrapped, (falsy_is_kept _ Htag), Htag.
        cbn [orb]. clear Htag.
        induction IH as [|[k v] rest [Hv _] _ IHrest]; [reflexivity|].
        cbn [map existsb fst snd] in *. rewrite Hv. exact IHrest.
      * intros Hnone. f_equal. clear Htag.
        induction IH as [|[k v] rest [_ Hv] _ IHrest]; [reflexivity|].
        cbn [existsb snd] in Hnone, Hv.
        apply orb_false_iff in Hnone. destruct Hnone as [Hhead Htail].
        cbn [map fst snd]. rewrite (Hv Hhead), (IHrest Htail). reflexivity.
Qed.

End InspectCollectionFacts.

(** X20. [unwrapOption] of inspect-collection.js, on a value made of
    primitives, arrays and plain objects.  An object with a truthy
    [__option] property is replaced by what [unwrapOption] makes of its
    [value] property when [__option] is the string Some, and by null
    otherwise.  The result never holds such an object, at any depth; a value
    that holds none is returned as it is; so unwrapping twice is unwrapping
    once. *)
Theorem unwrapOption_removes_every_option (value : InspectCollection.JsData) :
  (forall entries,
     InspectCollection.is_option (InspectCollection.DObject entries) = true ->
     InspectCollection.unwrapOption (InspectCollection.DObject entries)
     = if InspectCollection.is_Some_tag (InspectCollection.get (str "__option") entries)
       then InspectCollection.unwrapOption (InspectCollection.get (str "value") entries)
       else InspectCollection.DNull)
  /\ InspectCollection.has_option (InspectCollection.unwrapOption value) = false
  /\ (InspectCollection.has_option value = false ->
      InspectCollection.unwrapOption value = value)
  /\ InspectCollection.unwrapOption (InspectCollection.unwrapOption value)
     = InspectCollection.unwrapOption value.
Proof.
  split.
  { intros entries Hoption. cbn [InspectCollection.is_option] in Hoption.
    rewrite InspectCollectionFacts.unwrapOption_object, Hoption. reflexivity. }
  destruct (InspectCollectionFacts.unwrapOption_clean value) as [Hclean Hkept].
  split; [exact Hclean|]. split; [exact Hkept|].
  apply (InspectCollectionFacts.unwrapOption_clean (InspectCollection.unwrapOption value)).
  exact Hclean.
Qed.

Lemma rotate_sends_for_the_parsed_accounts_witness :
  sentTransactions (effects (RotateCollectionAuthority.main sample_world sample_rotate_argv))
  <> []
  /\ (length (sentTransactions
                (effects (RotateCollectionAuthority.main sample_world sample_rotate_argv)))
      <= 2)%nat.
Proof.
  assert (H : sentTransactions
                (effects (RotateCollectionAuthority.main sample_world sample_rotate_argv))
              <> []) by (vm_compute; discriminate).
  split; [exact H|].
  destruct (rotate_sends_for_the_parsed_accounts _ _ H)
    as (? & ? & ? & ? & ? & _ & _ & _ & _ & _ & Hrest).
  cbv zeta in Hrest. destruct Hrest as (Hlength & _). exact Hlength.
Defined.

(** ** The dispatch of the rotation script *)

(** X21. What the rotation script does, case by case.  The first transaction
    carries the canonical identifier, the first eight bytes of
    sha256("global:rotate_collection_authority"); the second one, if any, the
    legacy identifier, from "global::rotate_collection_authority", with a
    blockhash fetched anew.
    - If the first attempt is confirmed, it is the only transaction sent.
    - If it fails and [collectLogs] fails on the error, that second failure
      is thrown and the first transaction is the only one sent.
    - If it fails with an error that [isFallbackError] recognises in the
      error or the collected logs, a blockhash is fetched and the legacy
      transaction is sent, once; its failure is thrown when [collectLogs]
      succeeds on it.
    - If it fails in any other way, that error is thrown and the first
      transaction is the only one sent.
    - If no blockhash can be fetched, nothing is sent.
    [main] sends nothing before the loop (last part of the statement). *)
Theorem rotate_dispatch_cases
    (w : World) (argv : RotateCollectionAuthority.Argv)
    (keys : list AccountMeta) (newUpdateAuthority : PublicKey)
    (payerKeypair authorityKeypair : Keypair) :
  let canonical := RotateCollectionAuthority.mkAttempt
                     RotateCollectionAuthority.ROTATE_COLLECTION_AUTHORITY_DISCRIMINATOR false in
  let legacy := RotateCollectionAuthority.mkAttempt
                  RotateCollectionAuthority.LEGACY_DISCRIMINATOR true in
  let script := RotateCollectionAuthority.runAttempts w keys newUpdateAuthority
                  payerKeypair authorityKeypair 0 RotateCollectionAuthority.attempts in
  let signers :=
    publicKey payerKeypair
    :: (if negb (PublicKey_equals (publicKey payerKeypair) (publicKey authorityKeypair))
        then [publicKey authorityKeypair] else []) in
  RotateCollectionAuthority.ROTATE_COLLECTION_AUTHORITY_DISCRIMINATOR
  = firstn 8 (Sha256.digest (utf8Encode (str "global:rotate_collection_authority")))
  /\ RotateCollectionAuthority.LEGACY_DISCRIMINATOR
     = firstn 8 (Sha256.digest (utf8Encode (str "global::rotate_collection_authority")))
  /\ match getLatestBlockhash w with
     | Throw err => sentTransactions (effects script) = [] /\ outcome script = Throw err
     | Normal (blockhash, _) =>
         let first := RotateCollectionAuthority.attemptTransaction canonical keys
                        newUpdateAuthority (publicKey payerKeypair) blockhash in
         discriminatorOf first = RotateCollectionAuthority.ROTATE_COLLECTION_AUTHORITY_DISCRIMINATOR
         /\ match sendAndConfirmTransaction w first signers with
            | Normal signature =>
                sentTransactions (effects script) = [first]
                /\ outcome script = Normal signature
            | Throw err =>
                match RotateCollectionAuthority.collectLogs err with
                | Throw unreadable =>
                    sentTransactions (effects script) = [first]
                    /\ outcome script = Throw unreadable
                | Normal logs =>
                    if RotateCollectionAuthority.isFallbackError err logs
                    then
                      match getLatestBlockhashAfter w 0 with
                      | Throw later =>
                          sentTransactions (effects script) = [first]
                          /\ outcome script = Throw later
                      | Normal (blockhash2, _) =>
                          let second := RotateCollectionAuthority.attemptTransaction legacy keys
                                          newUpdateAuthority (publicKey payerKeypair)
                                          blockhash2 in
                          discriminatorOf second = RotateCollectionAuthority.LEGACY_DISCRIMINATOR
                          /\ sentTransactions (effects script) = [first; second]
                          /\ outcome script
                             = match sendAndConfirmTransaction w second signers with
                               | Normal signature => Normal signature
                               | Throw err2 =>
                                   match RotateCollectionAuthority.collectLogs err2 with
                                   | Normal _ => Throw err2
                                   | Throw unreadable => Throw unreadable
                                   end
                               end
                      end
                    else sentTransactions (effects script) = [first]
                         /\ outcome script = Throw err
                end
            end
     end
  /\ sends_like_loop w (RotateCollectionAuthority.main w argv).
Proof.
  intros canonical legacy script signers.
  split; [reflexivity|]. split; [reflexivity|].
  split; [|apply rotate_main_sends_like_loop].
  pose proof (runAttempts_two w keys newUpdateAuthority payerKeypair authorityKeypair
                RotateCollectionAuthority.ROTATE_COLLECTION_AUTHORITY_DISCRIMINATOR
                RotateCollectionAuthority.LEGACY_DISCRIMINATOR) as Hloop.
  cbv zeta in Hloop. fold canonical legacy signers in Hloop.
  change (RotateCollectionAuthority.runAttempts w keys newUpdateAuthority payerKeypair
            authorityKeypair 0 [canonical; legacy]) with script in Hloop.
  destruct (getLatestBlockhash w) as [[blockhash height]|err]; [|exact Hloop].
  split. { apply attempt_discriminator. vm_compute. reflexivity. }
  destruct (sendAndConfirmTransaction w _ signers) as [signature|err]; [exact Hloop|].
  destruct (RotateCollectionAuthority.collectLogs err) as [logs|unreadable]; [|exact Hloop].
  destruct (RotateCollectionAuthority.isFallbackError err logs); [|exact Hloop].
  destruct (getLatestBlockhashAfter w 0) as [[blockhash2 height2]|later]; [|exact Hloop].
  split. { apply attempt_discriminator. vm_compute. reflexivity. }
  exact Hloop.
Qed.

(** ** The theorems above, at sample inputs *)

Lemma bytes_check (b : Buffer) :
  forallb (fun x => (0 <=? x) && (x <? 256)) b = true -> Forall is_byte b.
Proof.
  intros H. apply Forall_forall. intros x Hx. apply list_elem_of_In in Hx.
  rewrite forallb_forall in H. specialize (H x Hx).
  apply andb_true_iff in H. destruct H as [H1 H2].
  apply Z.leb_le in H1. apply Z.ltb_lt in H2. split; assumption.
Qed.

Lemma sample_creator_wellformed : creator_wellformed sample_creator.
Proof.
  split; [reflexivity|]. split; [|cbn; lia].
  apply bytes_check. vm_compute. reflexivity.
Qed.

Lemma serializeCreators_layout_witness :
  exists out, MintObject.serializeCreators [sample_creator] = Normal out
              /\ length out = 38%nat.
Proof.
  destruct (serializeCreators_layout [sample_creator]) as (out & Hout & Hlen & _).
  - constructor; [exact sample_creator_wellformed | constructor].
  - cbn. lia.
  - exists out. split; [exact Hout | exact Hlen].
Defined.

Lemma parseCreatorString_reads_specification_witness :
  MintObject.parseCreatorString offline_world
    (str "E5mQ27muTebiYaohBsdsCwrvPN3MVoRmECFtL4A5Sx9q" ++ str ":" ++ Z_to_jsstring 100
     ++ str ":" ++ ToString (VBoolean true))
  = Normal (mkCreator (publicKey sample_wallet) 100 true None).
Proof.
  assert (Hk : PublicKey_of_string (str "E5mQ27muTebiYaohBsdsCwrvPN3MVoRmECFtL4A5Sx9q")
               = Normal (publicKey sample_wallet)) by (vm_compute; reflexivity).
  assert (Hs : 0 <= 100 <= 100) by lia.
  pose proof (parseCreatorString_reads_specification offline_world _ _ 100 true Hk Hs) as Hthm.
  cbv zeta in Hthm. destruct Hthm as [Hspec _]. exact Hspec.
Defined.

Lemma set_authority_run_witness :
  outcome (SetAuthority.main sample_world sample_set_authority_argv) = Normal (str "signature")
  /\ length (effects (SetAuthority.main sample_world sample_set_authority_argv)) = 7%nat.
Proof.
  assert (H : outcome (SetAuthority.main sample_world sample_set_authority_argv)
              = Normal (str "signature")) by (vm_compute; reflexivity).
  split; [exact H|].
  destruct (set_authority_run _ _ _ H) as (? & ? & ? & ? & ? & _ & _ & _ & _ & Heffects & _).
  rewrite Heffects. reflexivity.
Defined.

Lemma migrate_namespace_run_witness :
  outcome (MigrateNamespace.main sample_world sample_migrate_argv) = Normal (str "signature")
  /\ length (effects (MigrateNamespace.main sample_world sample_migrate_argv)) = 9%nat.
Proof.
  assert (H : outcome (MigrateNamespace.main sample_world sample_migrate_argv)
              = Normal (str "signature")) by (vm_compute; reflexivity).
  split; [exact H|].
  destruct (migrate_namespace_run _ _ _ H)
    as (? & ? & ? & ? & ? & _ & _ & _ & _ & _ & Heffects & _).
  rewrite Heffects. reflexivity.
Defined.

Lemma set_paused_run_witness :
  outcome (SetPaused.main sample_world sample_set_paused_argv) = Normal (str "signature")
  /\ length (effects (SetPaused.main sample_world sample_set_paused_argv)) = 7%nat.
Proof.
  assert (H : outcome (SetPaused.main sample_world sample_set_paused_argv)
              = Normal (str "signature")) by (vm_compute; reflexivity).
  split; [exact H|].
  destruct (set_paused_run _ _ _ H) as (? & ? & ? & ? & _ & _ & _ & Heffects & _).
  rewrite Heffects. reflexivity.
Defined.

Lemma update_manifest_sends_after_checks_witness :
  sentTransactions (effects (UpdateManifest.main sample_world sample_update_argv)) <> []
  /\ length (sentTransactions (effects (UpdateManifest.main sample_world sample_update_argv)))
     = 1%nat.
Proof.
  assert (H : sentTransactions (effects (UpdateManifest.main sample_world sample_update_argv))
              <> []) by (vm_compute; discriminate).
  split; [exact H|].
  destruct (update_manifest_sends_after_checks _ _ H)
    as (? & ? & ? & ? & ? & ? & ? & ? & ? & _ & _ & _ & _ & _ & _ & _ & _ & _ & _ & Hrest).
  cbv zeta in Hrest. destruct Hrest as (_ & _ & _ & _ & _ & _ & Hsent & _).
  rewrite Hsent. reflexivity.
Defined.

Lemma initialize_sends_after_key_checks_witness :
  sentTransactions (effects (Initialize.main sample_world sample_initialize_argv)) <> []
  /\ length (sentTransactions (effects (Initialize.main sample_world sample_initialize_argv)))
     = 1%nat.
Proof.
  assert (H : sentTransactions (effects (Initialize.main sample_world sample_initialize_argv))
              <> []) by (vm_compute; discriminate).
  split; [exact H|].
  destruct (initialize_sends_after_key_checks _ _ H)
    as (? & ? & ? & ? & ? & ? & ? & ? & _ & _ & _ & _ & _ & _ & _ & _ & _ & Hrest).
  cbv zeta in Hrest. destruct Hrest as (Hsent & _).
  rewrite Hsent. reflexivity.
Defined.

Lemma mint_signers_are_the_verified_creators_witness :
  Forall creator_wellformed [sample_creator]
  /\ rpcRequests (effects (MintObject.collectCreatorSigners sample_world OGAL_PROGRAM_ID
                             [sample_creator] [])) = [].
Proof.
  assert (H : Forall creator_wellformed [sample_creator])
    by (constructor; [exact sample_creator_wellformed | constructor]).
  split; [exact H|].
  pose proof (mint_signers_are_the_verified_creators sample_world OGAL_PROGRAM_ID
                [sample_creator] H) as Hthm.
  cbv zeta in Hthm. destruct Hthm as (_ & Hquiet & _). exact Hquiet.
Defined.

Lemma mint_sends_after_checks_witness :
  let argv := sample_mint_argv (str "https://example.org/7.json") in
  sentTransactions (effects (MintObject.main sample_world argv)) <> []
  /\ length (sentTransactions (effects (MintObject.main sample_world argv))) = 1%nat.
Proof.
  cbv zeta.
  assert (H : sentTransactions
                (effects (MintObject.main sample_world
                            (sample_mint_argv (str "https://example.org/7.json")))) <> [])
    by (vm_compute; discriminate).
  split; [exact H|].
  destruct (mint_sends_after_checks _ _ H)
    as (? & ? & ? & ? & ? & ? & ? & ? & ? & ? & ? & ?
        & _ & _ & _ & _ & _ & _ & _ & _ & Hrest).
  cbv zeta in Hrest. destruct Hrest as (_ & _ & _ & _ & _ & _ & Hsent & _).
  rewrite Hsent. reflexivity.
Defined.

Lemma object_id_outside_u64_is_refused_witness :
  ~ 0 <= -1 < 2 ^ 64
  /\ rpcRequests (effects (MintObject.main sample_world
                             (sample_mint_argv_with_object_id (str "-1")))) = []
  /\ throws (outcome (MintObject.main sample_world
                        (sample_mint_argv_with_object_id (str "-1")))) = true.
Proof.
  assert (H : ~ 0 <= -1 < 2 ^ 64) by lia.
  split; [exact H|].
  apply (proj1 (object_id_outside_u64_is_refused sample_world (-1) H)).
  vm_compute. reflexivity.
Defined.

Lemma isFallbackError_finds_the_markers_witness :
  RotateCollectionAuthority.isFallbackError
    (mkJsError (Some (str "failed to send transaction")) None true None
       LogsNullish LogsNullish)
    (Some [str "Program log: AnchorError occurred. Error Code: InstructionFallbackNotFound."])
  = true.
Proof.
  apply (isFallbackError_finds_the_markers _ _ (str "InstructionFallbackNotFound")).
  - left. reflexivity.
  - right. right. eexists _, _. split; [reflexivity|]. split; [left; reflexivity|].
    vm_compute. reflexivity.
Defined.
